(** * mcp-filesystem-server: the sandbox boundary of [server.py]

    A shallow embedding of [server.py] (path resolver [_abs], policy check
    [_policy], the file verbs and [run]) together with the parts of the
    Python standard library it calls ([posixpath], [fnmatch], [os],
    [shutil], [subprocess]), on a POSIX host ([os.sep = "/"]).

    Python [str] is [string]; a Python exception is a value of [exn];
    a tool is a function from the world (file system and process log) to
    a result-or-exception and the new world. *)

From Stdlib Require Import ZArith List Ascii String Bool Lia.
From stdpp Require Import base option list strings gmap.
Import ListNotations.

Local Open Scope string_scope.
Local Open Scope list_scope.
Local Open Scope Z_scope.

(* ===================================================================== *)
(** ** Python string primitives *)
(* ===================================================================== *)

Module Str.

Definition sep : ascii := "/"%char.

(** [c in s] for a one-character [c]. *)
Fixpoint mem (c : ascii) (s : string) : bool :=
  match s with
  | EmptyString => false
  | String a s' => Ascii.eqb a c || mem c s'
  end.

(** [s.startswith(p)] *)
Definition startswith (s p : string) : bool := String.prefix p s.

(** [s.endswith(c)] for a one-character [c]. *)
Fixpoint endswith_char (s : string) (c : ascii) : bool :=
  match s with
  | EmptyString => false
  | String a EmptyString => Ascii.eqb a c
  | String _ s' => endswith_char s' c
  end.

(** [s.lstrip(chars)] *)
Fixpoint lstrip (chars : string) (s : string) : string :=
  match s with
  | EmptyString => EmptyString
  | String a s' => if mem a chars then lstrip chars s' else s
  end.

(** [s.rstrip(c)] for a one-character [c]. *)
Fixpoint rstrip_char (c : ascii) (s : string) : string :=
  match s with
  | EmptyString => EmptyString
  | String a s' =>
      match rstrip_char c s' with
      | EmptyString => if Ascii.eqb a c then EmptyString else String a EmptyString
      | r => String a r
      end
  end.

(** [s.split(c)] for a one-character separator: never the empty list. *)
Fixpoint split (c : ascii) (s : string) : list string :=
  match s with
  | EmptyString => [EmptyString]
  | String a s' =>
      if Ascii.eqb a c then EmptyString :: split c s'
      else match split c s' with
           | h :: t => String a h :: t
           | [] => [String a EmptyString]
           end
  end.

(** [sep.join(parts)] *)
Definition join (sp : string) (parts : list string) : string :=
  String.concat sp parts.

(** [s.rfind(c)], [-1] when [c] does not occur. *)
Fixpoint rfind (c : ascii) (s : string) : Z :=
  match s with
  | EmptyString => -1
  | String a s' =>
      let r := rfind c s' in
      if 0 <=? r then r + 1 else if Ascii.eqb a c then 0 else -1
  end.

Fixpoint drop (n : nat) (s : string) : string :=
  match n, s with
  | O, _ => s
  | S n', String _ s' => drop n' s'
  | S _, EmptyString => EmptyString
  end.

Fixpoint take (n : nat) (s : string) : string :=
  match n, s with
  | S n', String a s' => String a (take n' s')
  | _, _ => EmptyString
  end.

(** [s[:n]] with Python's meaning of a negative bound (counted from the
    end, clamped at 0). *)
Definition slice_to (n : Z) (s : string) : string :=
  if 0 <=? n then take (Z.to_nat n) s
  else take (Z.to_nat (Z.max 0 (Z.of_nat (String.length s) + n))) s.

(** [s[i:]] for [0 <= i]. *)
Definition slice_from (i : Z) (s : string) : string := drop (Z.to_nat i) s.

(** [c * n] *)
Fixpoint repeat (c : ascii) (n : nat) : string :=
  match n with O => EmptyString | S n' => String c (repeat c n') end.

(** [all(ch == c for ch in s)] *)
Fixpoint all_char (c : ascii) (s : string) : bool :=
  match s with
  | EmptyString => true
  | String a s' => Ascii.eqb a c && all_char c s'
  end.

Definition is_empty (s : string) : bool :=
  match s with EmptyString => true | _ => false end.

End Str.

(* ===================================================================== *)
(** ** [posixpath]: the functions of [os.path] that [server.py] calls *)
(* ===================================================================== *)

Module Posixpath.

(** [os.path.join(a, b)] *)
Definition join2 (a b : string) : string :=
  if Str.startswith b "/" then b
  else if Str.is_empty a || Str.endswith_char a Str.sep then a +:+ b
  else a +:+ "/" +:+ b.

(** [os.path.join(a, *p)] *)
Definition join (a : string) (p : list string) : string :=
  fold_left join2 p a.

Definition is_nil {A} (l : list A) : bool :=
  match l with [] => true | _ => false end.

(** One iteration of the loop of [normpath] over a component. *)
Definition normpath_step (initial_slashes : nat)
    (new_comps : list string) (comp : string) : list string :=
  if String.eqb comp "" || String.eqb comp "." then new_comps
  else if negb (String.eqb comp "..")
          || (Nat.eqb initial_slashes 0 && is_nil new_comps)
          || (negb (is_nil new_comps) && String.eqb (List.last new_comps "") "..")
  then new_comps ++ [comp]
  else if negb (is_nil new_comps) then removelast new_comps
  else new_comps.

(** The number of leading slashes [normpath] keeps: 0, 1, or 2 (exactly
    two leading slashes are kept, three or more collapse to one). *)
Definition initial_slashes (path : string) : nat :=
  if Str.startswith path "/" then
    if Str.startswith path "//" && negb (Str.startswith path "///")
    then 2%nat else 1%nat
  else 0%nat.

(** [os.path.normpath(path)] *)
Definition normpath (path : string) : string :=
  if Str.is_empty path then "."
  else
    let ini := initial_slashes path in
    let comps := fold_left (normpath_step ini) (Str.split Str.sep path) [] in
    let p := Str.repeat Str.sep ini +:+ Str.join "/" comps in
    if Str.is_empty p then "." else p.

(** [os.path.isabs(path)] *)
Definition isabs (path : string) : bool := Str.startswith path "/".

(** [os.path.abspath(path)], with [cwd] the value of [os.getcwd()]. *)
Definition abspath (cwd path : string) : string :=
  normpath (if isabs path then path else join2 cwd path).

(** [os.path.split(p)] *)
Definition split (p : string) : string * string :=
  let i := Str.rfind Str.sep p + 1 in
  let head := Str.take (Z.to_nat i) p in
  let tail := Str.slice_from i p in
  let head' :=
    if negb (Str.is_empty head) && negb (Str.all_char Str.sep head)
    then Str.rstrip_char Str.sep head else head in
  (head', tail).

(** [os.path.basename(p)] *)
Definition basename (p : string) : string :=
  Str.slice_from (Str.rfind Str.sep p + 1) p.

(** [os.path.dirname(p)] *)
Definition dirname (p : string) : string := fst (split p).

(** The non-empty components of a path: [[x for x in p.split(sep) if x]]. *)
Definition parts (p : string) : list string :=
  List.filter (fun x => negb (Str.is_empty x)) (Str.split Str.sep p).

(** The length of the common prefix of two component lists
    ([len(commonprefix([a, b]))]). *)
Fixpoint common_len (a b : list string) : nat :=
  match a, b with
  | x :: a', y :: b' => if String.eqb x y then S (common_len a' b') else O
  | _, _ => O
  end.

(** [os.path.relpath(path, start)] for a non-empty [path]. *)
Definition relpath (cwd path start : string) : string :=
  let start_list := parts (abspath cwd start) in
  let path_list := parts (abspath cwd path) in
  let i := common_len start_list path_list in
  let rel_list :=
    List.repeat ".." (List.length start_list - i) ++ List.skipn i path_list in
  match rel_list with
  | [] => "."
  | a :: p => join a p
  end.

End Posixpath.

(* ===================================================================== *)
(** ** [fnmatch]: shell-style patterns *)
(* ===================================================================== *)

Module Fnmatch.

(** What [fnmatch.translate] turns a pattern into: [*] (any run of
    characters, the path separator included), [?] (any one character), a
    bracket set, or a literal character. *)
Inductive tok : Type :=
| TStar
| TAny
| TLit (c : ascii)
| TSet (neg : bool) (chars : list ascii) (ranges : list (ascii * ascii)).

Definition hyphen : ascii := "-"%char.

(** The chunks [translate] cuts a bracket body into at the hyphens that
    stand for a range: a hyphen counts from the second character on, and
    after one is found the next two characters are skipped. *)
Fixpoint chunks_go (skip : nat) (acc : list ascii) (s : list ascii)
  : list (list ascii) :=
  match s with
  | [] => [rev acc]
  | c :: s' =>
      match skip with
      | S k => chunks_go k (c :: acc) s'
      | O => if Ascii.eqb c hyphen then rev acc :: chunks_go 2 [] s'
             else chunks_go 0 (c :: acc) s'
      end
  end.

(** A trailing hyphen leaves an empty last chunk: it is dropped and the
    hyphen goes to the chunk before it. *)
Fixpoint fix_last (cs : list (list ascii)) : list (list ascii) :=
  match cs with
  | [] => []
  | [c] => [c]
  | [c; []] => [c ++ [hyphen]]
  | c :: cs' => c :: fix_last cs'
  end.

Definition code (c : ascii) : N := N_of_ascii c.

(** "Remove empty ranges": scanned from the right, a range whose lower end
    is above its upper end is deleted together with both end points. *)
Definition merge_empty (c : list ascii) (rest : list (list ascii))
  : list (list ascii) :=
  match rest with
  | [] => [c]
  | d :: rest' =>
      match List.last (map Some c) None, d with
      | Some lo, hi :: d' =>
          if (code hi <? code lo)%N then (removelast c ++ d') :: rest'
          else c :: rest
      | _, _ => c :: rest
      end
  end.

Fixpoint ranges_of (cs : list (list ascii)) : list (ascii * ascii) :=
  match cs with
  | c :: ((d :: _) as cs') =>
      match List.last (map Some c) None, d with
      | Some lo, hi :: _ => (lo, hi) :: ranges_of cs'
      | _, _ => ranges_of cs'
      end
  | _ => []
  end.

(** The characters and ranges of a class made of the chunks [cs] joined
    by hyphens: the hyphen between two chunks makes a range of the
    characters around it; a hyphen with nothing before it stands for
    itself. *)
Definition class_items (cs : list (list ascii))
  : list ascii * list (ascii * ascii) :=
  match cs with
  | [] :: ((_ :: _) as rest) => (hyphen :: List.concat rest, ranges_of rest)
  | _ => (List.concat cs, ranges_of cs)
  end.

(** The class is negated when the text left after the empty ranges are
    gone starts with [!]. *)
Definition class_of (cs : list (list ascii)) : tok :=
  match cs with
  | (c :: c0) :: rest =>
      if Ascii.eqb c "!"%char
      then let '(chars, ranges) := class_items (c0 :: rest) in TSet true chars ranges
      else let '(chars, ranges) := class_items cs in TSet false chars ranges
  | _ => let '(chars, ranges) := class_items cs in TSet false chars ranges
  end.

(** The set a bracket body stands for. [stuff] is the text between the
    brackets, a leading [!] included: the search for the first range
    hyphen starts after the first character, after the second when the
    first is [!]. *)
Definition set_of (stuff : string) : tok :=
  let body := list_ascii_of_string stuff in
  if negb (Str.mem hyphen stuff) then class_of [body]
  else
    let first := if Str.startswith stuff "!" then 2%nat else 1%nat in
    class_of (fold_right merge_empty [] (fix_last (chunks_go first [] body))).

(** The index [j] of the bracket that closes a set opened just before
    [s], counted in [s]: a [!] and then a [\]] in first position do not
    close it. *)
Fixpoint scan_close (s : string) : option nat :=
  match s with
  | EmptyString => None
  | String c s' =>
      if Ascii.eqb c "]"%char then Some O else S <$> scan_close s'
  end.

Definition close_index (s : string) : option nat :=
  let j0 := if Str.startswith s "!" then 1%nat else 0%nat in
  let j1 := if Str.startswith (Str.drop j0 s) "]" then S j0 else j0 in
  (fun j => (j1 + j)%nat) <$> scan_close (Str.drop j1 s).

(** [fnmatch.translate], as tokens; consecutive [*] are compressed. *)
Fixpoint translate_go (fuel : nat) (pat : string) (after_star : bool)
  : list tok :=
  match fuel, pat with
  | S fuel', String c rest =>
      if Ascii.eqb c "*"%char then
        if after_star then translate_go fuel' rest true
        else TStar :: translate_go fuel' rest true
      else if Ascii.eqb c "?"%char then TAny :: translate_go fuel' rest false
      else if Ascii.eqb c "["%char then
        match close_index rest with
        | None => TLit c :: translate_go fuel' rest false
        | Some j =>
            set_of (Str.take j rest) :: translate_go fuel' (Str.drop (S j) rest) false
        end
      else TLit c :: translate_go fuel' rest false
  | _, _ => []
  end.

Definition translate (pat : string) : list tok :=
  translate_go (String.length pat) pat false.

Definition in_range (c : ascii) (r : ascii * ascii) : bool :=
  ((code (fst r) <=? code c) && (code c <=? code (snd r)))%N.

Definition tok_matches (t : tok) (c : ascii) : bool :=
  match t with
  | TStar | TAny => true
  | TLit a => Ascii.eqb a c
  | TSet neg chars ranges =>
      xorb neg (existsb (Ascii.eqb c) chars || existsb (in_range c) ranges)
  end.

(** The whole of [name] against the tokens (the compiled pattern is
    anchored at both ends, and [.] matches every character). *)
Fixpoint matches (ts : list tok) (name : string) : bool :=
  match ts with
  | [] => Str.is_empty name
  | TStar :: ts' =>
      (fix star (s : string) : bool :=
         matches ts' s
         || match s with
            | EmptyString => false
            | String _ s' => star s'
            end) name
  | t :: ts' =>
      match name with
      | EmptyString => false
      | String c s' => tok_matches t c && matches ts' s'
      end
  end.

(** [os.path.normcase] on POSIX. *)
Definition normcase (s : string) : string := s.

(** [fnmatch.fnmatch(name, pat)] *)
Definition fnmatch (name pat : string) : bool :=
  matches (translate (normcase pat)) (normcase name).

End Fnmatch.

(* ===================================================================== *)
(** ** Python values and exceptions *)
(* ===================================================================== *)

(** The values the tools return: [None], [bool], [int], [str], a [float]
    rounded to three decimals (kept as its thousandths), [list], and [dict]
    (keys in insertion order). *)
#[local] Set Warnings "-register-all".
Inductive pyval : Type :=
| VNone
| VBool (b : bool)
| VInt (n : Z)
| VStr (s : string)
| VFloat3 (thousandths : Z)
| VList (l : list pyval)
| VDict (d : list (string * pyval)).

(** [d.get(k)] of a returned dict. *)
Fixpoint dict_get (d : list (string * pyval)) (k : string) : option pyval :=
  match d with
  | [] => None
  | (k', v) :: d' => if String.eqb k' k then Some v else dict_get d' k
  end.

Definition field (v : pyval) (k : string) : option pyval :=
  match v with VDict d => dict_get d k | _ => None end.

(** The exception classes that [server.py] and the library calls it makes
    can raise, each with its message ([str(e)]). *)
Inductive exn : Type :=
| PermissionError (msg : string)
| FileNotFoundError (msg : string)
| FileExistsError (msg : string)
| IsADirectoryError (msg : string)
| NotADirectoryError (msg : string)
| OSError (msg : string)
| ShutilError (msg : string)
| LookupError (msg : string)
| UnicodeError (msg : string).

Definition exn_str (e : exn) : string :=
  match e with
  | PermissionError m | FileNotFoundError m | FileExistsError m
  | IsADirectoryError m | NotADirectoryError m | OSError m
  | ShutilError m | LookupError m | UnicodeError m => m
  end.

(** The result of a call: a value, or a raised exception. *)
Inductive outcome (A : Type) : Type :=
| Ok (a : A)
| Raise (e : exn).
Arguments Ok {A} a.
Arguments Raise {A} e.

(** *** [repr] and [oct] *)

Module Repr.

Definition hex_digit (n : N) : ascii :=
  match n with
  | 0 => "0" | 1 => "1" | 2 => "2" | 3 => "3" | 4 => "4" | 5 => "5"
  | 6 => "6" | 7 => "7" | 8 => "8" | 9 => "9" | 10 => "a" | 11 => "b"
  | 12 => "c" | 13 => "d" | 14 => "e" | _ => "f"
  end%N%char.

(** One character of [repr(s)] inside the quotes [q]. *)
Definition escape (q : ascii) (c : ascii) : string :=
  let n := N_of_ascii c in
  if Ascii.eqb c "\"%char then "\\"
  else if Ascii.eqb c q then String "\"%char (String q "")
  else if (n =? 10)%N then "\n"
  else if (n =? 13)%N then "\r"
  else if (n =? 9)%N then "\t"
  else if ((n <? 32) || (n =? 127))%N
       then String "\"%char (String "x"%char
              (String (hex_digit (n / 16)) (String (hex_digit (n mod 16)) "")))
  else String c "".

Fixpoint escape_all (q : ascii) (s : string) : string :=
  match s with
  | EmptyString => EmptyString
  | String c s' => escape q c +:+ escape_all q s'
  end.

(** The double quote character. *)
Definition dquote : ascii := ascii_of_nat 34.

(** [repr(s)] of a [str]: single quotes, unless the text has a single
    quote and no double quote. *)
Definition of_str (s : string) : string :=
  let q := if Str.mem "'"%char s && negb (Str.mem dquote s)
           then dquote else "'"%char in
  String q (escape_all q s) +:+ String q "".

(** [repr(l)] of a list of [str]. *)
Definition of_list (l : list string) : string :=
  "[" +:+ Str.join ", " (map of_str l) +:+ "]".

Definition oct_digit (n : Z) : ascii := hex_digit (Z.to_N n).

Fixpoint oct_go (fuel : nat) (n : Z) (acc : string) : string :=
  match fuel with
  | O => acc
  | S fuel' =>
      let acc' := String (oct_digit (n mod 8)) acc in
      if n / 8 =? 0 then acc' else oct_go fuel' (n / 8) acc'
  end.

(** [oct(n)] for [0 <= n]. *)
Definition oct (n : Z) : string :=
  "0o" +:+ oct_go (S (Z.to_nat (Z.log2 n))) n "".

End Repr.

(* ===================================================================== *)
(** ** Normal forms of absolute paths *)
(* ===================================================================== *)

Module Normal.

(** A component that [normpath] leaves in place in an absolute path: not
    empty, not [.] or [..], and free of the separator. *)
Definition clean (c : string) : bool :=
  negb (String.eqb c "") && negb (String.eqb c ".")
  && negb (String.eqb c "..") && negb (Str.mem Str.sep c).

(** The absolute path with [k] leading separators and the components [cs]. *)
Definition canon (k : nat) (cs : list string) : string :=
  Str.repeat Str.sep k +:+ Str.join "/" cs.

End Normal.

(* ===================================================================== *)
(** ** The host: file system, codecs and child processes *)
(* ===================================================================== *)

(** The file system is a finite map from the real path of an entry (its
    components below [/]) to the entry.  The root directory [/] is always
    there.  The model has one device, no access permissions (the host never
    raises [PermissionError]) and no concurrent writer; a trailing slash and
    [.] components are dropped before a path is walked.  Of the times of
    an entry the model keeps [st_mtime], in whole seconds: a call that
    adds, removes or renames an entry sets the time of the directory the
    entry is in. *)
Module Os.

Inductive node : Type :=
| File (data : string) (perm mtime : Z)
| Dir (perm mtime : Z)
| Symlink (target : string) (mtime : Z).

Abbreviation filesystem := (gmap (list string) node).

Inductive errno : Type :=
| ENOENT | ENOTDIR | ELOOP | EEXIST | EISDIR | ENOTEMPTY | EBUSY | EINVAL.

(** The exception [os] raises for an error number on a path. *)
Definition os_error (e : errno) (path : string) : exn :=
  let at_path m := m +:+ ": " +:+ Repr.of_str path in
  match e with
  | ENOENT => FileNotFoundError (at_path "[Errno 2] No such file or directory")
  | ENOTDIR => NotADirectoryError (at_path "[Errno 20] Not a directory")
  | EEXIST => FileExistsError (at_path "[Errno 17] File exists")
  | EISDIR => IsADirectoryError (at_path "[Errno 21] Is a directory")
  | ELOOP => OSError (at_path "[Errno 40] Too many levels of symbolic links")
  | ENOTEMPTY => OSError (at_path "[Errno 39] Directory not empty")
  | EBUSY => OSError (at_path "[Errno 16] Device or resource busy")
  | EINVAL => OSError (at_path "[Errno 22] Invalid argument")
  end.

Definition root_dir : node := Dir 493 0.

(** The directory [/]: the entry kept under the empty path, [root_dir]
    as long as nothing has been kept for it. *)
Definition root_of (fs : filesystem) : node :=
  match fs !! [] with
  | Some (Dir perm mtime) => Dir perm mtime
  | _ => root_dir
  end.

Definition node_at (fs : filesystem) (p : list string) : option node :=
  match p with
  | [] => Some (root_of fs)
  | _ => fs !! p
  end.

(** The directory at [p] has an entry added, removed or renamed at time
    [now]: its [st_mtime] becomes [now]. *)
Definition touch (now : Z) (p : list string) (fs : filesystem) : filesystem :=
  match node_at fs p with
  | Some (Dir perm _) => <[p := Dir perm now]> fs
  | _ => fs
  end.

Inductive walked : Type :=
| Found (real : list string)
| Failed (e : errno).

Definition is_nil {A} (l : list A) : bool :=
  match l with [] => true | _ => false end.

(** Path resolution from the directory [cur]: [..] goes to the parent, a
    symbolic link met on the way is followed (at most [budget] of them),
    the last component only when [follow].  [Found p] gives the real path
    the name stands for, whether or not an entry is there. *)
Fixpoint walk (fs : filesystem) (budget : nat) (follow : bool)
    (cur : list string) (comps : list string) {struct budget} : walked :=
  (fix go (cur : list string) (comps : list string) {struct comps} : walked :=
     match comps with
     | [] => Found cur
     | c :: rest =>
         if String.eqb c "." || String.eqb c "" then go cur rest
         else if String.eqb c ".." then go (removelast cur) rest
         else
           let here := cur ++ [c] in
           match node_at fs here with
           | None => if is_nil rest then Found here else Failed ENOENT
           | Some (Dir _ _) => go here rest
           | Some (File _ _ _) => if is_nil rest then Found here else Failed ENOTDIR
           | Some (Symlink tgt _) =>
               if is_nil rest && negb follow then Found here
               else
                 match budget with
                 | O => Failed ELOOP
                 | S b =>
                     walk fs b follow
                       (if Posixpath.isabs tgt then [] else cur)
                       (Posixpath.parts tgt ++ rest)
                 end
           end
     end) cur comps.

Definition symloop_max : nat := 40.

(** The real path of [path], relative names taken from [cwd]. *)
Definition resolve (fs : filesystem) (cwd : string) (follow : bool)
    (path : string) : walked :=
  if Str.is_empty path then Failed ENOENT
  else walk fs symloop_max follow
         (if Posixpath.isabs path then [] else Posixpath.parts cwd)
         (Posixpath.parts path).

(** The entry a path names, with its real path. *)
Definition entry (fs : filesystem) (cwd : string) (follow : bool)
    (path : string) : errno + (list string * node) :=
  match resolve fs cwd follow path with
  | Failed e => inl e
  | Found p =>
      match node_at fs p with
      | Some n => inr (p, n)
      | None => inl ENOENT
      end
  end.

(** [os.path.exists], [isdir], [isfile] follow links; [islink] does not.
    All four answer [False] on any error. *)
Definition path_exists (fs : filesystem) (cwd path : string) : bool :=
  match entry fs cwd true path with inr _ => true | inl _ => false end.

Definition isdir (fs : filesystem) (cwd path : string) : bool :=
  match entry fs cwd true path with inr (_, Dir _ _) => true | _ => false end.

Definition isfile (fs : filesystem) (cwd path : string) : bool :=
  match entry fs cwd true path with inr (_, File _ _ _) => true | _ => false end.

Definition islink (fs : filesystem) (cwd path : string) : bool :=
  match entry fs cwd false path with inr (_, Symlink _ _) => true | _ => false end.

Record stat_result : Type := { st_mode : Z; st_size : Z; st_mtime : Z }.

(** [st_mode] carries the file type above the permission bits;
    [st_mtime] is kept in whole seconds.  [st_size] is the length of the
    content of a file and of the target of a link; for a directory it is
    [dir_size], whatever the file system of the host reports there. *)
Definition stat_of (dir_size : Z) (n : node) : stat_result :=
  match n with
  | File data perm mtime =>
      {| st_mode := Z.lor 32768 perm;
         st_size := Z.of_nat (String.length data); st_mtime := mtime |}
  | Dir perm mtime =>
      {| st_mode := Z.lor 16384 perm; st_size := dir_size; st_mtime := mtime |}
  | Symlink tgt mtime =>
      {| st_mode := Z.lor 40960 511;
         st_size := Z.of_nat (String.length tgt); st_mtime := mtime |}
  end.

(** [os.lstat(path)], on a host whose file system reports
    [dirsize fs p] as the size of the directory at [p]. *)
Definition lstat (dirsize : filesystem -> list string -> Z)
    (fs : filesystem) (cwd path : string) : outcome stat_result :=
  match entry fs cwd false path with
  | inr (p, n) => Ok (stat_of (dirsize fs p) n)
  | inl e => Raise (os_error e path)
  end.

(** The names directly inside the directory whose real path is [p]. *)
Definition children (fs : filesystem) (p : list string) : list string :=
  omap (fun kv : list string * node =>
          match List.rev (fst kv) with
          | name :: rparent =>
              if bool_decide (List.rev rparent = p) then Some name else None
          | [] => None
          end)
       (map_to_list fs).

(** [os.listdir(path)], in no particular order. *)
Definition listdir (fs : filesystem) (cwd path : string) : outcome (list string) :=
  match entry fs cwd true path with
  | inr (p, Dir _ _) => Ok (children fs p)
  | inr _ => Raise (os_error ENOTDIR path)
  | inl e => Raise (os_error e path)
  end.

(** [os.mkdir(path)]: the parent is there (the walk went through it), the
    name itself must be free.  The new directory and the directory that
    receives it both get the time [now]. *)
Definition mkdir (fs : filesystem) (cwd : string) (perm now : Z)
    (path : string) : outcome unit * filesystem :=
  match resolve fs cwd false path with
  | Failed e => (Raise (os_error e path), fs)
  | Found p =>
      match node_at fs p with
      | Some _ => (Raise (os_error EEXIST path), fs)
      | None => (Ok tt, touch now (removelast p) (<[p := Dir perm now]> fs))
      end
  end.

(** The last step of [os.makedirs]: [mkdir(name)], whose error is
    ignored when [exist_ok] is set and [name] is a directory. *)
Definition mkdir_leaf (cwd : string) (perm now : Z) (exist_ok : bool)
    (name : string) (fs : filesystem) : outcome unit * filesystem :=
  match mkdir fs cwd perm now name with
  | (Raise e, fs') =>
      if negb exist_ok || negb (isdir fs' cwd name) then (Raise e, fs')
      else (Ok tt, fs')
  | r => r
  end.

(** [os.makedirs(name, exist_ok=exist_ok)]. The recursion is on the head
    of the path, which is shorter than the path; a [FileExistsError] of
    the recursive call is ignored. *)
Fixpoint makedirs_go (fuel : nat) (cwd : string) (perm now : Z)
    (exist_ok : bool) (name : string) (fs : filesystem)
  : outcome unit * filesystem :=
  let '(head0, tail0) := Posixpath.split name in
  let '(head, tail) :=
    if Str.is_empty tail0 then Posixpath.split head0 else (head0, tail0) in
  if negb (Str.is_empty head) && negb (Str.is_empty tail)
     && negb (path_exists fs cwd head)
  then
    match fuel with
    | O => (Raise (OSError "path too deep"), fs)
    | S fuel' =>
        match makedirs_go fuel' cwd perm now exist_ok head fs with
        | (Raise (FileExistsError _), fs') | (Ok _, fs') =>
            if String.eqb tail "." then (Ok tt, fs')
            else mkdir_leaf cwd perm now exist_ok name fs'
        | r => r
        end
    end
  else mkdir_leaf cwd perm now exist_ok name fs.

Definition makedirs (fs : filesystem) (cwd : string) (perm now : Z)
    (exist_ok : bool) (name : string) : outcome unit * filesystem :=
  makedirs_go (String.length name) cwd perm now exist_ok name fs.

(** [os.remove(path)], at time [now]: the entry goes and the directory
    it was in gets the time [now]. *)
Definition remove (fs : filesystem) (cwd : string) (now : Z) (path : string)
  : outcome unit * filesystem :=
  match entry fs cwd false path with
  | inl e => (Raise (os_error e path), fs)
  | inr (_, Dir _ _) => (Raise (os_error EISDIR path), fs)
  | inr (p, _) => (Ok tt, touch now (removelast p) (delete p fs))
  end.

(** What is left when the tree at [p] goes: every entry at or below [p]
    is dropped. *)
Definition without_tree (p : list string) (fs : filesystem) : filesystem :=
  filter (fun kv : list string * node => ¬ p `prefix_of` fst kv) fs.

Definition subtree (p : list string) (fs : filesystem) : filesystem :=
  filter (fun kv : list string * node => p `prefix_of` fst kv) fs.

(** What is left of [/] when all that is in it goes: the entry kept for
    [/] itself, if any. *)
Definition only_root (fs : filesystem) : filesystem :=
  filter (fun kv : list string * node => fst kv = []) fs.

(** [shutil.rmtree(path)], at time [now]: refuses a symbolic link, does
    not follow the links inside the tree; the directory that held the tree
    gets the time [now].  [/] itself cannot be removed, only emptied. *)
Definition rmtree (fs : filesystem) (cwd : string) (now : Z) (path : string)
  : outcome unit * filesystem :=
  match entry fs cwd false path with
  | inl e => (Raise (os_error e path), fs)
  | inr (_, Symlink _ _) =>
      (Raise (OSError "Cannot call rmtree on a symbolic link"), fs)
  | inr (_, File _ _ _) => (Raise (os_error ENOTDIR path), fs)
  | inr (p, Dir _ _) =>
      match p with
      | [] =>
          (Raise (os_error EBUSY path),
           if is_nil (children fs []) then fs else touch now [] (only_root fs))
      | _ => (Ok tt, touch now (removelast p) (without_tree p fs))
      end
  end.

(** [os.rename(src, dst)] within the one device of the model, at time
    [now]: the directory the source leaves and the directory the
    destination is in get the time [now]; the entry that moves keeps its
    own. *)
Definition rename (fs : filesystem) (cwd : string) (now : Z) (src dst : string)
  : outcome unit * filesystem :=
  match entry fs cwd false src with
  | inl e => (Raise (os_error e src), fs)
  | inr (ps, ns) =>
      match resolve fs cwd false dst with
      | Failed e => (Raise (os_error e dst), fs)
      | Found pd =>
          let moved : filesystem :=
            list_to_map
              ((fun kv : list string * node =>
                  (pd ++ List.skipn (List.length ps) (fst kv), snd kv))
                 <$> map_to_list (subtree ps fs)) in
          let done :=
            (Ok tt, touch now (removelast pd) (touch now (removelast ps)
                      (moved ∪ without_tree pd (without_tree ps fs)))) in
          if bool_decide (ps = pd) then (Ok tt, fs)
          else if bool_decide (ps `prefix_of` pd) then (Raise (os_error EINVAL src), fs)
          else
            match ns, node_at fs pd with
            | Dir _ _, Some (Dir _ _) =>
                if is_nil pd || negb (is_nil (children fs pd))
                then (Raise (os_error ENOTEMPTY dst), fs) else done
            | Dir _ _, Some _ => (Raise (os_error ENOTDIR dst), fs)
            | _, Some (Dir _ _) => (Raise (os_error EISDIR dst), fs)
            | _, _ => done
            end
      end
  end.

(** [shutil._destinsrc(src, dst)] *)
Definition destinsrc (cwd src dst : string) : bool :=
  let close (p : string) :=
    if Str.endswith_char p Str.sep then p else p +:+ "/" in
  Str.startswith (close (Posixpath.abspath cwd dst)) (close (Posixpath.abspath cwd src)).

(** The renaming step of [shutil.move].  When the rename fails, the
    copying that [shutil] falls back on fails as well on one device: the
    model raises at once, and nothing has moved. *)
Definition move_to (fs : filesystem) (cwd : string) (now : Z)
    (src dst real_dst : string) : outcome unit * filesystem :=
  match rename fs cwd now src real_dst with
  | (Raise e, fs') =>
      if negb (islink fs cwd src) && isdir fs cwd src && destinsrc cwd src dst
      then (Raise (ShutilError
              ("Cannot move a directory " +:+ Repr.of_str src +:+
               " into itself " +:+ Repr.of_str dst +:+ ".")), fs')
      else (Raise e, fs')
  | r => r
  end.

(** Whether two paths name the same entry ([os.path.samefile], [False] on
    an error). *)
Definition samefile (fs : filesystem) (cwd src dst : string) : bool :=
  match entry fs cwd true src, entry fs cwd true dst with
  | inr (ps, _), inr (pd, _) => bool_decide (ps = pd)
  | _, _ => false
  end.

(** [shutil.move(src, dst)], at time [now].  A destination that is a
    directory receives the source under its own name. *)
Definition move (fs : filesystem) (cwd : string) (now : Z) (src dst : string)
  : outcome unit * filesystem :=
  if isdir fs cwd dst then
    if samefile fs cwd src dst && negb (islink fs cwd src)
    then rename fs cwd now src dst
    else
      let real_dst :=
        Posixpath.join2 dst (Posixpath.basename (Str.rstrip_char Str.sep src)) in
      if path_exists fs cwd real_dst
      then (Raise (ShutilError
              ("Destination path " +:+ Repr.of_str real_dst +:+ " already exists")), fs)
      else move_to fs cwd now src dst real_dst
  else move_to fs cwd now src dst dst.

(** A text codec with [errors="strict"]: [encode] is [str.encode] and
    [decode] is [bytes.decode], each on the whole text at once, which is
    also how a file opened for reading decodes what [read()] returns.
    [written] is what a file opened for writing holds once [write(text)]
    has returned and the file is closed: the text goes through the
    incremental encoder of the codec, which is never told that the text
    has ended, so what the encoder holds back until then (the closing
    escape sequence of a stateful codec, the last label of [idna]) does
    not reach the file. *)
Record codec : Type := {
  encode : string -> option string;
  decode : string -> option string;
  written : string -> option string
}.

(** Universal newlines, as [io.open(..., "r")] reads: [\r\n] and [\r]
    become [\n]. *)
Fixpoint universal_newlines (s : string) : string :=
  match s with
  | EmptyString => EmptyString
  | String c s' =>
      if (N_of_ascii c =? 13)%N then
        match s' with
        | String d s'' =>
            if (N_of_ascii d =? 10)%N then String d (universal_newlines s'')
            else String "010"%char (universal_newlines s')
        | EmptyString => String "010"%char EmptyString
        end
      else String c (universal_newlines s')
  end.

(** [with io.open(path, "w", encoding=encoding) as f: f.write(content)]:
    the file is created (and the directory that receives it gets the time
    [now]) or truncated before the codec is looked up and the text
    encoded. *)
Definition write_file (fs : filesystem) (cwd : string) (perm now : Z)
    (codec_of : string -> option codec) (path encoding content : string)
  : outcome unit * filesystem :=
  match resolve fs cwd true path with
  | Failed e => (Raise (os_error e path), fs)
  | Found p =>
      let put (perm : Z) (fs0 : filesystem) :=
        let fs1 := <[p := File "" perm now]> fs0 in
        match codec_of encoding with
        | None => (Raise (LookupError ("unknown encoding: " +:+ encoding)), fs1)
        | Some c =>
            match written c content with
            | None => (Raise (UnicodeError "codec can't encode characters"), fs1)
            | Some bytes => (Ok tt, <[p := File bytes perm now]> fs1)
            end
        end in
      match node_at fs p with
      | Some (Dir _ _) => (Raise (os_error EISDIR path), fs)
      | Some (File _ perm0 _) => put perm0 fs
      | Some (Symlink _ _) => (Raise (os_error ELOOP path), fs)
      | None => put perm (touch now (removelast p) fs)
      end
  end.

(** [with io.open(path, "r", encoding=encoding, errors="strict") as f:
    f.read()] *)
Definition read_file (fs : filesystem) (cwd : string)
    (codec_of : string -> option codec) (path encoding : string)
  : outcome string :=
  match entry fs cwd true path with
  | inl e => Raise (os_error e path)
  | inr (_, File data _ _) =>
      match codec_of encoding with
      | None => Raise (LookupError ("unknown encoding: " +:+ encoding))
      | Some c =>
          match decode c data with
          | None => Raise (UnicodeError "codec can't decode bytes")
          | Some s => Ok (universal_newlines s)
          end
      end
  | inr (_, Dir _ _) => Raise (os_error EISDIR path)
  | inr (_, Symlink _ _) => Raise (os_error ELOOP path)
  end.

(** What becomes of a child process started by [subprocess.Popen] with
    [text=True] and awaited with [communicate(timeout=...)]:
    - [SpawnFails e]: [Popen] raises [e], no process is started;
    - [Exits rc out err elapsed fs']: the child exits in time with return
      code [rc], and [communicate] returns its output decoded as text;
    - [Breaks e fs']: the child is started, and [communicate] raises [e],
      an exception other than [TimeoutExpired] (its output is not text in
      the encoding of the locale);
    - [TimesOut out err fs']: the child is still running at the deadline,
      and [out], [err] are what the second [communicate()] returns after
      the kill;
    - [TimesOutBreaks e fs']: the child is still running at the deadline,
      and the second [communicate()], after the kill, raises [e].
    A child that was started may have changed the file system, to [fs'].
    Every call of [communicate] comes back, with a value or an exception:
    a tool is a function of the world. *)
Inductive child : Type :=
| SpawnFails (e : exn)
| Exits (rc : Z) (out err : string) (elapsed_thousandths : Z) (fs' : filesystem)
| Breaks (e : exn) (fs' : filesystem)
| TimesOut (out err : string) (fs' : filesystem)
| TimesOutBreaks (e : exn) (fs' : filesystem).

Inductive proc_event : Type :=
| Spawned (argv : list string) (cwd : string)
| Killed (argv : list string).

(** The host a server process runs on. *)
Record host : Type := {
  getcwd : string;
  umask : Z;
  now : Z;
  dirsize : filesystem -> list string -> Z;
  codec_of : string -> option codec;
  spawn : list string -> string -> Z -> filesystem -> child
}.

(** The state the tools act on. *)
Record world : Type := {
  w_fs : filesystem;
  w_log : list proc_event
}.

(** Every name in the file system is a proper file name: not empty, not
    [.] or [..], without a separator. *)
Definition well_named (fs : filesystem) : bool :=
  forallb (fun kv : list string * node => forallb Normal.clean (fst kv))
          (map_to_list fs).

(** [sorted(names)]: insertion sort on the order of [str]. *)
Fixpoint insert_sorted (x : string) (l : list string) : list string :=
  match l with
  | [] => [x]
  | y :: l' => if String.leb x y then x :: l else y :: insert_sorted x l'
  end.

Definition sorted (l : list string) : list string :=
  fold_right insert_sorted [] l.

End Os.

(* ===================================================================== *)
(** ** [server.py] *)
(* ===================================================================== *)

Module Server.
Import Os.

(** The module-level configuration of [server.py]. *)
Record config : Type := {
  ROOT_DIR : string;
  ENABLE_RUN_COMMANDS : bool;
  ALLOW_GLOBS : list string;
  DENY_GLOBS : list string;
  COMMAND_ALLOWLIST : gmap string (list string);
  RUN_TIMEOUT_SEC : Z;
  RUN_MAX_STDOUT : Z
}.

Definition default_ALLOW_GLOBS : list string := ["**/*"].

Definition default_DENY_GLOBS : list string :=
  ["**/.env*"; "**/.ssh/**"; "**/.git/**"; "**/node_modules/**"; "**/id_*"].

Definition default_COMMAND_ALLOWLIST : gmap string (list string) :=
  <["bash" := ["-lc"]]> (<["sh" := ["-lc"]]> (<["python" := ["-V"]]>
    (<["pip" := ["--version"]]> ∅))).

(** The configuration as the module sets it up: [root] and [enable] come
    from the environment ([MCP_FS_ROOT], [ENABLE_RUN_COMMANDS]), as do the
    two limits. *)
Definition configure (root : string) (enable : bool) (timeout cap : Z) : config :=
  {| ROOT_DIR := root;
     ENABLE_RUN_COMMANDS := enable;
     ALLOW_GLOBS := default_ALLOW_GLOBS;
     DENY_GLOBS := default_DENY_GLOBS;
     COMMAND_ALLOWLIST := default_COMMAND_ALLOWLIST;
     RUN_TIMEOUT_SEC := timeout;
     RUN_MAX_STDOUT := cap |}.

(** *** The boundary failures

    All five are raised as [PermissionError]; the message tells them
    apart. *)

Definition PathEscape : exn := PermissionError "Path escapes sandbox root".

Definition DeniedBy (pat : string) : exn :=
  PermissionError ("Denied by policy: " +:+ pat).

Definition NotAllowed : exn := PermissionError "Not allowed by policy".

Definition FeatureDisabled : exn :=
  PermissionError "run() is disabled by server policy".

Definition CommandNotAllowed (base : string) : exn :=
  PermissionError ("Command '" +:+ base +:+ "' not in allowlist").

Definition ArgumentPrefixViolation (prefix : list string) (base : string) : exn :=
  PermissionError
    ("Args must start with " +:+ Repr.of_list prefix +:+ " for '" +:+ base +:+ "'").

Definition PolicyDenied (e : exn) : Prop :=
  e = NotAllowed \/ exists pat, e = DeniedBy pat.

Definition boundary_violation (e : exn) : Prop :=
  e = PathEscape \/ PolicyDenied e \/ e = FeatureDisabled
  \/ (exists base, e = CommandNotAllowed base)
  \/ (exists prefix base, e = ArgumentPrefixViolation prefix base).

Definition is_permission_error (e : exn) : bool :=
  match e with PermissionError _ => true | _ => false end.

(** *** Tools as state transformers *)

Definition M (A : Type) : Type := world -> outcome A * world.

Definition ret {A} (a : A) : M A := fun w => (Ok a, w).

Definition raise {A} (e : exn) : M A := fun w => (Raise e, w).

Definition bind {A B} (m : M A) (k : A -> M B) : M B :=
  fun w =>
    match m w with
    | (Ok a, w') => k a w'
    | (Raise e, w') => (Raise e, w')
    end.

(** A pure computation that may raise. *)
Definition pure {A} (r : outcome A) : M A := fun w => (r, w).

(** A call that reads the file system. *)
Definition reading {A} (f : filesystem -> A) : M A :=
  fun w => (Ok (f (w_fs w)), w).

(** A call that may change the file system. *)
Definition acting {A} (f : filesystem -> outcome A * filesystem) : M A :=
  fun w =>
    let '(r, fs') := f (w_fs w) in
    (r, {| w_fs := fs'; w_log := w_log w |}).

Notation "'do' x <- m ; k" := (bind m (fun x => k))
  (at level 10, x name, m at level 100, k at level 200).
Notation "m ;; k" := (bind m (fun _ => k))
  (at level 100, k at level 200, right associativity).

Definition obind {A B} (r : outcome A) (k : A -> outcome B) : outcome B :=
  match r with
  | Ok a => k a
  | Raise e => Raise e
  end.

(** A computation that raises no [PermissionError]. *)
Definition never_denies {A} (m : M A) : Prop :=
  forall w e w', m w = (Raise e, w') -> is_permission_error e = false.

Section Tools.

Variable H : host.
Variable C : config.

(** [os.getcwd()] *)
#[local] Abbreviation here := (getcwd H).

(** The permission bits of what the server creates. *)
Definition dir_perm : Z := Z.land 511 (Z.lnot (umask H)).
Definition file_perm : Z := Z.land 438 (Z.lnot (umask H)).

(** [ensure_root()] *)
Definition ensure_root : M unit :=
  acting (fun fs => makedirs fs here dir_perm (now H) true (ROOT_DIR C)).

(** The sandbox root the resolver compares with: [os.path.abspath(ROOT_DIR)]. *)
Definition SandboxRoot : string := Posixpath.abspath here (ROOT_DIR C).

(** [_abs(path)] *)
Definition _abs (path : string) : outcome string :=
  let base := Posixpath.abspath here (ROOT_DIR C) in
  let target :=
    Posixpath.abspath here (Posixpath.join base [Str.lstrip "/\" path]) in
  if negb (Str.startswith target (base +:+ "/") || String.eqb target base)
  then Raise PathEscape
  else Ok target.

(** The loop of [_deny_check] over the patterns. *)
Fixpoint deny_loop (rel : string) (pats : list string) : outcome unit :=
  match pats with
  | [] => Ok tt
  | pat :: pats' =>
      if Fnmatch.fnmatch rel pat then Raise (DeniedBy pat)
      else deny_loop rel pats'
  end.

(** [_deny_check(abs_path)] *)
Definition _deny_check (abs_path : string) : outcome unit :=
  let rel := Posixpath.relpath here abs_path (ROOT_DIR C) in
  deny_loop rel (DENY_GLOBS C).

(** [_allow_check(abs_path)] *)
Definition _allow_check (abs_path : string) : outcome unit :=
  let rel := Posixpath.relpath here abs_path (ROOT_DIR C) in
  if negb (existsb (fun pat => Fnmatch.fnmatch rel pat) (ALLOW_GLOBS C))
  then Raise NotAllowed
  else Ok tt.

(** [_policy(abs_path)] *)
Definition _policy (abs_path : string) : outcome unit :=
  obind (_deny_check abs_path) (fun _ => _allow_check abs_path).

Definition relative (ap : string) : pyval :=
  VStr (Posixpath.relpath here ap (ROOT_DIR C)).

(** The dict of one entry: [name], [is_dir], [size], [mode], [mtime]. *)
Definition entry_dict (fs : filesystem) (name fp : string) (st : stat_result) : pyval :=
  VDict [("name", VStr name);
         ("is_dir", VBool (isdir fs here fp));
         ("size", VInt (st_size st));
         ("mode", VStr (Repr.oct (Z.land (st_mode st) 511)));
         ("mtime", VInt (st_mtime st))].

(** The loop of [list_dir] over the sorted names: a [PermissionError] of
    an entry skips the entry, any other exception leaves the loop. *)
Fixpoint list_loop (fs : filesystem) (ap glob_pattern : string)
    (include_hidden : bool) (names : list string) (out : list pyval)
  : outcome (list pyval) :=
  match names with
  | [] => Ok out
  | name :: names' =>
      if negb include_hidden && Str.startswith name "." then
        list_loop fs ap glob_pattern include_hidden names' out
      else if negb (Fnmatch.fnmatch name glob_pattern) then
        list_loop fs ap glob_pattern include_hidden names' out
      else
        let fp := Posixpath.join ap [name] in
        match obind (_policy fp) (fun _ => lstat (dirsize H) fs here fp) with
        | Ok st =>
            list_loop fs ap glob_pattern include_hidden names'
              (out ++ [entry_dict fs name fp st])
        | Raise (PermissionError _) =>
            list_loop fs ap glob_pattern include_hidden names' out
        | Raise e => Raise e
        end
  end.

(** The names [list_dir] looks at: not hidden, unless hidden names are
    asked for, and matching the name pattern. *)
Definition visible (include_hidden : bool) (glob_pattern name : string) : bool :=
  negb (negb include_hidden && Str.startswith name ".")
  && Fnmatch.fnmatch name glob_pattern.

(** Whether the policy check passes on the entry [name] of the directory
    [ap]. *)
Definition permitted (ap name : string) : bool :=
  match _policy (Posixpath.join ap [name]) with
  | Ok _ => true
  | Raise _ => false
  end.

(** [list_dir(path, glob_pattern, include_hidden)] *)
Definition list_dir (path glob_pattern : string) (include_hidden : bool) : M pyval :=
  ensure_root ;;
  do ap <- pure (_abs path) ;
  do is_dir <- reading (fun fs => isdir fs here ap) ;
  if negb is_dir then raise (FileNotFoundError "Not a directory")
  else
    do names <- (fun w => (listdir (w_fs w) here ap, w)) ;
    do out <- (fun w =>
                 (list_loop (w_fs w) ap glob_pattern include_hidden (sorted names) [], w)) ;
    ret (VDict [("path", relative ap); ("entries", VList out)]).

(** [read_text(path, encoding)] *)
Definition read_text (path encoding : string) : M pyval :=
  ensure_root ;;
  do ap <- pure (_abs path) ;
  pure (_policy ap) ;;
  do is_file <- reading (fun fs => isfile fs here ap) ;
  if negb is_file then raise (FileNotFoundError "File not found")
  else
    do content <- (fun w => (read_file (w_fs w) here (codec_of H) ap encoding, w)) ;
    ret (VDict [("path", relative ap); ("content", VStr content)]).

(** [len(content.encode(encoding))] *)
Definition encoded_length (encoding content : string) : outcome Z :=
  match codec_of H encoding with
  | Some c =>
      match encode c content with
      | Some bytes => Ok (Z.of_nat (String.length bytes))
      | None => Raise (UnicodeError "codec can't encode characters")
      end
  | None => Raise (LookupError ("unknown encoding: " +:+ encoding))
  end.

(** [write_text(path, content, create_dirs, overwrite, encoding)] *)
Definition write_text (path content : string) (create_dirs overwrite : bool)
    (encoding : string) : M pyval :=
  ensure_root ;;
  do ap <- pure (_abs path) ;
  pure (_policy ap) ;;
  let d := Posixpath.dirname ap in
  (if create_dirs
   then acting (fun fs => makedirs fs here dir_perm (now H) true d)
   else ret tt) ;;
  do there <- reading (fun fs => path_exists fs here ap) ;
  if there && negb overwrite
  then raise (FileExistsError "File exists and overwrite=False")
  else
    acting (fun fs => write_file fs here file_perm (now H) (codec_of H) ap encoding content) ;;
    do n <- pure (encoded_length encoding content) ;
    ret (VDict [("written", VBool true); ("path", relative ap); ("bytes", VInt n)]).

(** [mkdir(path, parents, exist_ok)] *)
Definition mkdir (path : string) (parents exist_ok : bool) : M pyval :=
  ensure_root ;;
  do ap <- pure (_abs path) ;
  pure (_policy ap) ;;
  (if parents
   then acting (fun fs => makedirs fs here dir_perm (now H) exist_ok ap)
   else acting (fun fs => Os.mkdir fs here dir_perm (now H) ap)) ;;
  ret (VDict [("created", VBool true); ("path", relative ap)]).

(** [mv(src, dst, overwrite)] *)
Definition mv (src dst : string) (overwrite : bool) : M pyval :=
  ensure_root ;;
  do aps <- pure (_abs src) ;
  pure (_policy aps) ;;
  do apd <- pure (_abs dst) ;
  pure (_policy apd) ;;
  acting (fun fs => makedirs fs here dir_perm (now H) true (Posixpath.dirname apd)) ;;
  do there <- reading (fun fs => path_exists fs here apd) ;
  if there && negb overwrite
  then raise (FileExistsError "Destination exists (overwrite=False)")
  else
    (if overwrite && there
     then
       do real_dir <- reading (fun fs => isdir fs here apd && negb (islink fs here apd)) ;
       if real_dir then acting (fun fs => rmtree fs here (now H) apd)
       else acting (fun fs => remove fs here (now H) apd)
     else ret tt) ;;
    acting (fun fs => move fs here (now H) aps apd) ;;
    ret (VDict [("moved", VBool true); ("src", relative aps); ("dst", relative apd)]).

(** [rm(path, recursive)] *)
Definition rm (path : string) (recursive : bool) : M pyval :=
  ensure_root ;;
  do ap <- pure (_abs path) ;
  pure (_policy ap) ;;
  do real_dir <- reading (fun fs => isdir fs here ap && negb (islink fs here ap)) ;
  (if real_dir then
     if negb recursive
     then raise (IsADirectoryError "Use recursive=True for directories")
     else acting (fun fs => rmtree fs here (now H) ap)
   else acting (fun fs => remove fs here (now H) ap)) ;;
  ret (VDict [("removed", VBool true); ("path", relative ap)]).

(** [stat(path)] *)
Definition stat (path : string) : M pyval :=
  ensure_root ;;
  do ap <- pure (_abs path) ;
  pure (_policy ap) ;;
  do st <- (fun w => (lstat (dirsize H) (w_fs w) here ap, w)) ;
  do is_dir <- reading (fun fs => isdir fs here ap) ;
  ret (VDict [("path", relative ap);
              ("is_dir", VBool is_dir);
              ("size", VInt (st_size st));
              ("mode", VStr (Repr.oct (Z.land (st_mode st) 511)));
              ("mtime", VInt (st_mtime st))]).

(** The [try] block of [run]: start the child, wait for it until the
    timeout, kill it when the timeout expires and collect its output;
    every exception, of [Popen] or of either [communicate], becomes an
    error result. *)
Definition execute (argv : list string) (ap_cwd : string) (timeout_sec : Z) : M pyval :=
  fun w =>
    let cap := RUN_MAX_STDOUT C in
    match spawn H argv ap_cwd timeout_sec (w_fs w) with
    | SpawnFails e =>
        (Ok (VDict [("ok", VBool false); ("error", VStr (exn_str e))]), w)
    | Breaks e fs' =>
        (Ok (VDict [("ok", VBool false); ("error", VStr (exn_str e))]),
         {| w_fs := fs'; w_log := w_log w ++ [Spawned argv ap_cwd] |})
    | TimesOutBreaks e fs' =>
        (Ok (VDict [("ok", VBool false); ("error", VStr (exn_str e))]),
         {| w_fs := fs'; w_log := w_log w ++ [Spawned argv ap_cwd; Killed argv] |})
    | TimesOut out err fs' =>
        (Ok (VDict [("ok", VBool false); ("error", VStr "timeout");
                    ("stdout", VStr (Str.slice_to cap out));
                    ("stderr", VStr (Str.slice_to cap err));
                    ("rc", VNone)]),
         {| w_fs := fs'; w_log := w_log w ++ [Spawned argv ap_cwd; Killed argv] |})
    | Exits rc out err elapsed fs' =>
        (Ok (VDict [("ok", VBool (rc =? 0));
                    ("rc", VInt rc);
                    ("stdout", VStr (Str.slice_to cap out));
                    ("stderr", VStr (Str.slice_to cap err));
                    ("elapsed_sec", VFloat3 elapsed)]),
         {| w_fs := fs'; w_log := w_log w ++ [Spawned argv ap_cwd] |})
    end.

(** [run(cmd, args, cwd, timeout_sec)] *)
Definition run (cmd : string) (args : option (list string)) (cwd : string)
    (timeout_sec : Z) : M pyval :=
  if negb (ENABLE_RUN_COMMANDS C) then raise FeatureDisabled
  else
    ensure_root ;;
    do ap_cwd <- pure (_abs cwd) ;
    pure (_policy ap_cwd) ;;
    let base := Posixpath.basename cmd in
    match COMMAND_ALLOWLIST C !! base with
    | None => raise (CommandNotAllowed base)
    | Some prefix =>
        let final_args := default [] args in
        if negb (bool_decide (List.firstn (List.length prefix) final_args = prefix))
        then raise (ArgumentPrefixViolation prefix base)
        else
          let argv := cmd :: final_args in
          execute argv ap_cwd timeout_sec
    end.

(** [run(cmd, args)] with the defaults of its signature: [cwd="."] and
    [timeout_sec=RUN_TIMEOUT_SEC]. *)
Definition run_default (cmd : string) (args : option (list string)) : M pyval :=
  run cmd args "." (RUN_TIMEOUT_SEC C).

End Tools.

End Server.

(* ===================================================================== *)
(** ** The tool registry and a concrete host *)
(* ===================================================================== *)

Module Registry.
Import Os Server.

(** A call of one of the tools that [server.py] registers with [@mcp.tool]. *)
Inductive call : Type :=
| ListDir (path glob_pattern : string) (include_hidden : bool)
| ReadText (path encoding : string)
| WriteText (path content : string) (create_dirs overwrite : bool) (encoding : string)
| Mkdir (path : string) (parents exist_ok : bool)
| Mv (src dst : string) (overwrite : bool)
| Rm (path : string) (recursive : bool)
| Stat (path : string)
| Run (cmd : string) (args : option (list string)) (cwd : string) (timeout_sec : Z).

Definition perform (H : host) (C : config) (c : call) : M pyval :=
  match c with
  | ListDir path glob_pattern include_hidden => list_dir H C path glob_pattern include_hidden
  | ReadText path encoding => read_text H C path encoding
  | WriteText path content create_dirs overwrite encoding =>
      write_text H C path content create_dirs overwrite encoding
  | Mkdir path parents exist_ok => mkdir H C path parents exist_ok
  | Mv src dst overwrite => mv H C src dst overwrite
  | Rm path recursive => rm H C path recursive
  | Stat path => stat H C path
  | Run cmd args cwd timeout_sec => run H C cmd args cwd timeout_sec
  end.

End Registry.

Module Demo.
Import Os Server.

(** A codec that maps every text to itself. *)
Definition plain : codec := {| encode := Some; decode := Some; written := Some |}.

(** A host whose children never finish in time; what they had written by
    then is [partial output]. *)
Definition slow_host : host :=
  {| getcwd := "/home/user";
     umask := 18;
     now := 1700000000;
     dirsize := fun _ _ => 4096;
     codec_of := fun e => if String.eqb e "utf-8" then Some plain else None;
     spawn := fun _ _ _ fs => TimesOut "partial output" "" fs |}.


(** The module's own configuration with the sandbox at [/sandbox] and the
    run tool switched on. *)
Definition sandbox_config : config := configure "/sandbox" true 30 200000.


(** The configuration of the policy example: one deny pattern, one allow
    pattern. *)
Definition git_config : config :=
  {| ROOT_DIR := "/sandbox";
     ENABLE_RUN_COMMANDS := true;
     ALLOW_GLOBS := ["**/*"];
     DENY_GLOBS := ["**/.git/**"];
     COMMAND_ALLOWLIST := <["bash" := ["-lc"]]> ∅;
     RUN_TIMEOUT_SEC := 30;
     RUN_MAX_STDOUT := 200000 |}.

(** A configuration whose sandbox root does not exist yet. *)
Definition fresh_config : config := configure "/srv/new/sandbox" true 30 200000.

(** A sandbox with a project in it: a readme, a private key, a [.git]
    directory with its hooks, and a link. *)
Definition project_fs : filesystem :=
  list_to_map
    [ (["sandbox"], Dir 493 5);
      (["sandbox"; "proj"], Dir 493 5);
      (["sandbox"; "proj"; "readme.md"], File "hello" 420 7);
      (["sandbox"; "proj"; "id_rsa"], File "key" 384 7);
      (["sandbox"; "proj"; "docs"], Dir 493 5);
      (["sandbox"; "proj"; "docs"; "a.txt"], File "a" 420 7);
      (["sandbox"; "proj"; ".git"], Dir 493 5);
      (["sandbox"; "proj"; ".git"; "hooks"], Dir 493 5);
      (["sandbox"; "proj"; ".git"; "hooks"; "pre-commit"], File "#!/bin/sh" 493 7);
      (["sandbox"; "top.txt"], File "t" 420 7);
      (["sandbox"; "proj"; "lnk"], Symlink "../top.txt" 7) ].

Definition project_world : world := {| w_fs := project_fs; w_log := [] |}.

End Demo.

(* ===================================================================== *)
(** ** Notions for the properties of the tools *)
(* ===================================================================== *)

Module Notions.
Import Os Server.

(** [lit in s]: the text [lit] occurs in [s]. *)
Fixpoint contains (lit s : string) : bool :=
  Str.startswith s lit
  || match s with
     | EmptyString => false
     | String _ s' => contains lit s'
     end.

(** One file system grows into another: a directory stays a directory
    with its permission bits (its time may change), a link stays as it is,
    and what is new or rewritten is a file or a directory, never a link. *)
Definition grows (fs fs' : filesystem) : Prop :=
  forall k,
    match node_at fs k with
    | Some (Dir perm _) => exists mtime, node_at fs' k = Some (Dir perm mtime)
    | Some (Symlink tgt mtime) => node_at fs' k = Some (Symlink tgt mtime)
    | _ => forall tgt m, node_at fs' k <> Some (Symlink tgt m)
    end.

(** What a call that only makes directories, at time [now] and with the
    permission bits [perm], does to the file system: every entry is as it
    was, or is a new directory, or is a directory of before that received
    one and has the time [now]. *)
Definition makes_dirs (now perm : Z) (fs fs' : filesystem) : Prop :=
  forall k,
    node_at fs' k = node_at fs k
    \/ (node_at fs k = None /\ node_at fs' k = Some (Dir perm now))
    \/ (exists p m, node_at fs k = Some (Dir p m)
                   /\ node_at fs' k = Some (Dir p now)).

(** Two file systems that a walk cannot tell apart: a path leads to an
    entry of the same kind in both (a link has the same target in both),
    or to nothing in both. *)
Definition alike (fs fs' : filesystem) : Prop :=
  forall k,
    match node_at fs k, node_at fs' k with
    | None, None => True
    | Some (Dir _ _), Some (Dir _ _) => True
    | Some (File _ _ _), Some (File _ _ _) => True
    | Some (Symlink tgt _), Some (Symlink tgt' _) => tgt = tgt'
    | _, _ => False
    end.

(** Every directory on the way down to [cur], [cur] included, is there. *)
Definition grounded (fs : filesystem) (cur : list string) : Prop :=
  forall l, l `prefix_of` cur ->
    exists perm mtime, node_at fs l = Some (Dir perm mtime).

(** A computation that starts and kills no process. *)
Definition quiet {A} (m : M A) : Prop :=
  forall w r w', m w = (r, w') -> w_log w' = w_log w.

(** A computation that leaves the world as it is. *)
Definition still {A} (m : M A) : Prop :=
  forall w r w', m w = (r, w') -> w' = w.

End Notions.

(* ===================================================================== *)
(** ** More hosts and worlds for the examples *)
(* ===================================================================== *)

Module Examples.
Import Os Server.

(** A host on which [bash] prints [hi] and exits at once with code 0, and
    no other program can be started. *)
Definition quick_host : host :=
  {| getcwd := "/home/user";
     umask := 18;
     now := 1700000000;
     dirsize := fun _ _ => 4096;
     codec_of := fun e => if String.eqb e "utf-8" then Some Demo.plain else None;
     spawn := fun argv _ _ fs =>
       match argv with
       | cmd :: _ =>
           if String.eqb cmd "bash" then Exits 0 "hi" "" 12 fs
           else SpawnFails
                  (FileNotFoundError "[Errno 2] No such file or directory")
       | [] => SpawnFails (OSError "empty argv")
       end |}.

(** A codec whose text writer holds the whole text back until it is told
    that the text has ended, the way [idna] holds back the last label:
    [encode] and [decode] leave a text as it is, and nothing reaches a
    file written with it. *)
Definition holding : codec :=
  {| encode := Some; decode := Some; written := fun _ => Some "" |}.

(** The host of [Demo.slow_host] with that codec, under the name [held],
    beside [utf-8]. *)
Definition holding_host : host :=
  {| getcwd := "/home/user";
     umask := 18;
     now := 1700000000;
     dirsize := fun _ _ => 4096;
     codec_of := fun e =>
       if String.eqb e "utf-8" then Some Demo.plain
       else if String.eqb e "held" then Some holding else None;
     spawn := fun _ _ _ fs => TimesOut "partial output" "" fs |}.

(** The module's own configuration with a sandbox root that is not given
    in normal form: [/x/../sandbox] is [/sandbox]. *)
Definition dotted_config : config := configure "/x/../sandbox" true 30 200000.

(** A world with nothing but [/]. *)
Definition empty_world : world := {| w_fs := ∅; w_log := [] |}.

(** A sandbox with a link that leads out of it. *)
Definition leaky_world : world :=
  {| w_fs := list_to_map
       [ (["etc"], Dir 493 1);
         (["etc"; "passwd"], File "root:x:0:0" 420 1);
         (["sandbox"], Dir 493 5);
         (["sandbox"; "proj"], Dir 493 5);
         (["sandbox"; "proj"; "notes"], Symlink "/etc/passwd" 7) ];
     w_log := [] |}.

End Examples.

(* ===================================================================== *)
(** ** Facts about strings and paths *)
(* ===================================================================== *)

Lemma startswith_inv (s p : string) :
  Str.startswith s p = true -> exists r, s = p +:+ r.
Proof.
  unfold Str.startswith. revert s.
  induction p as [|a p IH]; intros s Hp.
  - now exists s.
  - destruct s as [|b s]; simpl in Hp; [discriminate|].
    destruct (ascii_dec a b) as [->|]; [|discriminate].
    destruct (IH _ Hp) as [r ->]. now exists r.
Qed.

Lemma startswith_slash (s : string) :
  Str.startswith s "/" = true -> exists r, s = String "/" r.
Proof. intros Hs. destruct (startswith_inv _ _ Hs) as [r ->]. now exists r. Qed.

Lemma app_cons (c : ascii) (s r : string) : String c s +:+ r = String c (s +:+ r).
Proof. reflexivity. Qed.

Lemma app_empty_l (s : string) : "" +:+ s = s.
Proof. reflexivity. Qed.

Lemma app_empty_r (s : string) : s +:+ "" = s.
Proof. induction s as [|c s IH]; [reflexivity|now rewrite app_cons, IH]. Qed.

Lemma app_assoc_str (a b c : string) : (a +:+ b) +:+ c = a +:+ b +:+ c.
Proof. induction a as [|x a IH]; [reflexivity|now rewrite !app_cons, IH]. Qed.

Lemma startswith_app (p r : string) : Str.startswith (p +:+ r) p = true.
Proof.
  unfold Str.startswith. induction p as [|a p IH]; [now destruct r|].
  rewrite app_cons. simpl.
  destruct (ascii_dec a a) as [_|Hne]; [exact IH|now destruct Hne].
Qed.

Lemma isabs_cons (r : string) : Posixpath.isabs (String "/" r) = true.
Proof. now destruct r. Qed.

Lemma normpath_isabs (p : string) :
  Posixpath.isabs p = true -> Posixpath.isabs (Posixpath.normpath p) = true.
Proof.
  intros Hp. destruct (startswith_slash _ Hp) as [r ->].
  unfold Posixpath.normpath, Posixpath.initial_slashes.
  cbn [Str.is_empty]. unfold Posixpath.isabs in Hp. rewrite Hp.
  destruct (_ && _); cbn [Str.repeat]; rewrite !app_cons; apply isabs_cons.
Qed.

Lemma join2_isabs (a b : string) :
  Posixpath.isabs a = true -> Posixpath.isabs (Posixpath.join2 a b) = true.
Proof.
  intros Ha. unfold Posixpath.join2.
  destruct (Str.startswith b "/") eqn:Hb; [exact Hb|].
  destruct (startswith_slash _ Ha) as [r ->].
  destruct (_ || _); rewrite app_cons; apply isabs_cons.
Qed.

Lemma abspath_isabs (cwd p : string) :
  Posixpath.isabs cwd = true -> Posixpath.isabs (Posixpath.abspath cwd p) = true.
Proof.
  intros Hc. unfold Posixpath.abspath. apply normpath_isabs.
  destruct (Posixpath.isabs p) eqn:Hp; [exact Hp|now apply join2_isabs].
Qed.

(* ===================================================================== *)
(** ** The path resolver *)
(* ===================================================================== *)

Section Resolver.
Import Os Server.

Lemma abs_shape (H : host) (C : config) (path target : string) :
  _abs H C path = Ok target ->
  target = SandboxRoot H C
  \/ exists suffix, target = SandboxRoot H C +:+ "/" +:+ suffix.
Proof.
  unfold _abs, SandboxRoot.
  set (base := Posixpath.abspath (getcwd H) (ROOT_DIR C)).
  set (t := Posixpath.abspath _ _).
  destruct (Str.startswith t (base +:+ "/")) eqn:Hpre; simpl.
  - intros [= <-]. right.
    destruct (startswith_inv _ _ Hpre) as [r Hr].
    exists r. now rewrite Hr, app_assoc_str.
  - destruct (String.eqb_spec t base) as [Heq|Hne]; simpl; [|discriminate].
    intros [= <-]. now left.
Qed.

Lemma abs_raises (H : host) (C : config) (path : string) (e : exn) :
  _abs H C path = Raise e -> e = PathEscape.
Proof.
  unfold _abs. destruct (negb _); [now intros [= <-]|discriminate].
Qed.

Lemma abs_isabs (H : host) (C : config) (path target : string) :
  Posixpath.isabs (getcwd H) = true ->
  _abs H C path = Ok target -> Posixpath.isabs target = true.
Proof.
  intros Hcwd. unfold _abs. destruct (negb _); [discriminate|].
  intros [= <-]. now apply abspath_isabs.
Qed.

Lemma app_cancel_l (a b c : string) : a +:+ b = a +:+ c -> b = c.
Proof.
  induction a as [|x a IH]; [trivial|].
  rewrite !app_cons. intros [= Heq]. auto.
Qed.

(** C3, as the claim has it, fails: with the root [/sandbox] the request
    [/etc/passwd] is not refused. *)
Lemma etc_passwd_accepted_counterexample :
  ~ (_abs Demo.slow_host Demo.sandbox_config "/etc/passwd" = Raise PathEscape
     /\ _abs Demo.slow_host Demo.sandbox_config "../../etc/passwd" = Raise PathEscape).
Proof. intros [Hfirst _]. vm_compute in Hfirst. discriminate Hfirst. Qed.

(** C3, amended. With the root [/sandbox], the leading separator of
    [/etc/passwd] is stripped and the request resolves inside the root, to
    [/sandbox/etc/passwd]; [../../etc/passwd] raises the path-escape
    error. *)
Theorem abs_etc_passwd (H : host) (C : config) :
  ROOT_DIR C = "/sandbox" ->
  _abs H C "/etc/passwd" = Ok "/sandbox/etc/passwd"
  /\ _abs H C "../../etc/passwd" = Raise PathEscape.
Proof.
  intros Hroot. unfold _abs. rewrite Hroot. split; reflexivity.
Qed.

Lemma abs_etc_passwd_witness :
  _abs Demo.slow_host Demo.sandbox_config "/etc/passwd" = Ok "/sandbox/etc/passwd"
  /\ _abs Demo.slow_host Demo.sandbox_config "../../etc/passwd" = Raise PathEscape.
Proof. apply abs_etc_passwd. reflexivity. Defined.

End Resolver.

(* ===================================================================== *)
(** ** The policy check *)
(* ===================================================================== *)

Section Policy.
Import Os Server.

Lemma deny_loop_find (rel : string) (pats : list string) :
  deny_loop rel pats =
    match List.find (Fnmatch.fnmatch rel) pats with
    | Some pat => Raise (DeniedBy pat)
    | None => Ok tt
    end.
Proof.
  induction pats as [|pat pats IH]; simpl; [reflexivity|].
  now destruct (Fnmatch.fnmatch rel pat).
Qed.

Lemma find_none_existsb {A} (f : A -> bool) (l : list A) :
  List.find f l = None <-> existsb f l = false.
Proof.
  induction l as [|x l IH]; simpl; [tauto|].
  destruct (f x); simpl; [split; discriminate|exact IH].
Qed.

Lemma policy_find (H : host) (C : config) (abs_path : string) :
  _policy H C abs_path =
    match List.find (Fnmatch.fnmatch (Posixpath.relpath (getcwd H) abs_path (ROOT_DIR C)))
            (DENY_GLOBS C) with
    | Some pat => Raise (DeniedBy pat)
    | None =>
        if existsb (Fnmatch.fnmatch (Posixpath.relpath (getcwd H) abs_path (ROOT_DIR C)))
             (ALLOW_GLOBS C)
        then Ok tt else Raise NotAllowed
    end.
Proof.
  unfold _policy, _deny_check, _allow_check. rewrite deny_loop_find.
  destruct (List.find _ _); simpl; [reflexivity|].
  now destruct (existsb _ _).
Qed.

Lemma policy_raises (H : host) (C : config) (abs_path : string) (e : exn) :
  _policy H C abs_path = Raise e -> PolicyDenied e.
Proof.
  rewrite policy_find. destruct (List.find _ _) as [pat|].
  - intros [= <-]. right. now exists pat.
  - destruct (existsb _ _); [discriminate|]. intros [= <-]. now left.
Qed.

(** C2. [_policy] looks at the deny patterns first: the first deny pattern
    that matches the root-relative path decides, with the policy-denied
    error naming it, whatever the allow patterns are; the check passes
    exactly when some allow pattern matches and no deny pattern does.  With
    the deny pattern [**/.git/**] and the allow pattern [**/*],
    [project/.git/config] is denied and [project/readme.md] passes. *)
Theorem policy_deny_before_allow (H : host) (C : config) (abs_path : string) :
  let rel := Posixpath.relpath (getcwd H) abs_path (ROOT_DIR C) in
  _policy H C abs_path =
    match List.find (Fnmatch.fnmatch rel) (DENY_GLOBS C) with
    | Some pat => Raise (DeniedBy pat)
    | None =>
        if existsb (Fnmatch.fnmatch rel) (ALLOW_GLOBS C)
        then Ok tt else Raise NotAllowed
    end
  /\ (forall pat, List.In pat (DENY_GLOBS C) -> Fnmatch.fnmatch rel pat = true ->
        exists first, List.In first (DENY_GLOBS C)
                      /\ Fnmatch.fnmatch rel first = true
                      /\ _policy H C abs_path = Raise (DeniedBy first))
  /\ (_policy H C abs_path = Ok tt <->
        existsb (Fnmatch.fnmatch rel) (ALLOW_GLOBS C) = true
        /\ existsb (Fnmatch.fnmatch rel) (DENY_GLOBS C) = false)
  /\ (forall e, _policy H C abs_path = Raise e -> PolicyDenied e)
  /\ _abs H Demo.git_config "project/.git/config" = Ok "/sandbox/project/.git/config"
  /\ _policy H Demo.git_config "/sandbox/project/.git/config" = Raise (DeniedBy "**/.git/**")
  /\ _abs H Demo.git_config "project/readme.md" = Ok "/sandbox/project/readme.md"
  /\ _policy H Demo.git_config "/sandbox/project/readme.md" = Ok tt.
Proof.
  intros rel. pose proof (policy_find H C abs_path) as Hfind. fold rel in Hfind.
  split; [exact Hfind|]. split; [|split; [|split]].
  - intros pat Hin Hmatch.
    destruct (List.find (Fnmatch.fnmatch rel) (DENY_GLOBS C)) as [first|] eqn:Hf.
    + exists first. apply find_some in Hf as [Hin' Hm']. auto.
    + exfalso. apply (find_none _ _ Hf) in Hin. congruence.
  - rewrite Hfind.
    destruct (List.find (Fnmatch.fnmatch rel) (DENY_GLOBS C)) as [first|] eqn:Hf.
    + split; [discriminate|]. intros [_ Hno].
      apply find_none_existsb in Hno. congruence.
    + apply find_none_existsb in Hf.
      destruct (existsb (Fnmatch.fnmatch rel) (ALLOW_GLOBS C));
        split; try discriminate; try tauto. intros [[=] _].
  - intros e. apply policy_raises.
  - repeat split.
Qed.

End Policy.

(* ===================================================================== *)
(** ** Patterns with a literal separator *)
(* ===================================================================== *)

Section Patterns.
Import Os Server.

Lemma mem_cons (c a : ascii) (s : string) :
  Str.mem c (String a s) = Ascii.eqb a c || Str.mem c s.
Proof. reflexivity. Qed.

(** A name that matches a pattern has every literal character of the
    pattern. *)
Lemma matches_literal (c : ascii) (ts : list Fnmatch.tok) :
  List.In (Fnmatch.TLit c) ts ->
  forall name, Fnmatch.matches ts name = true -> Str.mem c name = true.
Proof.
  induction ts as [|t ts IH]; intros Hin name; [destruct Hin|].
  assert (Hstep : forall a s,
            Fnmatch.tok_matches t a && Fnmatch.matches ts s = true ->
            t <> Fnmatch.TStar -> Str.mem c (String a s) = true).
  { intros a s Hm Hns. apply andb_true_iff in Hm as [Ht Hrest].
    rewrite mem_cons. destruct Hin as [->|Hin].
    - simpl in Ht. apply Ascii.eqb_eq in Ht as ->.
      now rewrite Ascii.eqb_refl.
    - rewrite (IH Hin _ Hrest). apply orb_true_r. }
  destruct t.
  - destruct Hin as [Heq|Hin]; [discriminate|].
    simpl. induction name as [|a s IHs]; intros Hm.
    + rewrite orb_false_r in Hm. now apply IH.
    + apply orb_true_iff in Hm as [Hm|Hm]; [now apply IH|].
      rewrite mem_cons, (IHs Hm). apply orb_true_r.
  - destruct name as [|a s]; simpl; [discriminate|].
    intros Hm. now apply Hstep.
  - destruct name as [|a s]; simpl; [discriminate|].
    intros Hm. now apply Hstep.
  - destruct name as [|a s]; [simpl; discriminate|].
    intros Hm. now apply Hstep.
Qed.

Lemma fnmatch_needs_sep (rel pat : string) :
  List.In (Fnmatch.TLit "/") (Fnmatch.translate pat) ->
  Str.mem "/" rel = false -> Fnmatch.fnmatch rel pat = false.
Proof.
  intros Hin Hno. unfold Fnmatch.fnmatch, Fnmatch.normcase.
  destruct (Fnmatch.matches _ rel) eqn:Hm; [|reflexivity].
  apply (matches_literal _ _ Hin) in Hm. congruence.
Qed.

Lemma default_allow_needs_sep (rel : string) :
  Str.mem "/" rel = false ->
  existsb (Fnmatch.fnmatch rel) default_ALLOW_GLOBS = false.
Proof.
  intros Hno. unfold default_ALLOW_GLOBS. simpl.
  rewrite fnmatch_needs_sep; [reflexivity| |exact Hno].
  vm_compute. auto.
Qed.

Lemma default_deny_needs_sep (rel : string) :
  Str.mem "/" rel = false ->
  List.find (Fnmatch.fnmatch rel) default_DENY_GLOBS = None.
Proof.
  intros Hno. unfold default_DENY_GLOBS. simpl.
  repeat (rewrite fnmatch_needs_sep; [| vm_compute; tauto | exact Hno]).
  reflexivity.
Qed.

(** Under the allow patterns of the module, a path whose root-relative
    form has no separator is refused by [_allow_check], hence by
    [_policy]. *)
Lemma policy_refuses_top_level (H : host) (C : config) (abs_path : string) :
  ALLOW_GLOBS C = default_ALLOW_GLOBS ->
  Str.mem "/" (Posixpath.relpath (getcwd H) abs_path (ROOT_DIR C)) = false ->
  _allow_check H C abs_path = Raise NotAllowed
  /\ (exists e, _policy H C abs_path = Raise e /\ PolicyDenied e)
  /\ (DENY_GLOBS C = default_DENY_GLOBS -> _policy H C abs_path = Raise NotAllowed).
Proof.
  intros Hallow Hno.
  pose proof (default_allow_needs_sep _ Hno) as Hex.
  assert (Hac : _allow_check H C abs_path = Raise NotAllowed).
  { unfold _allow_check. rewrite Hallow.
    now rewrite <- (eq_refl : existsb (Fnmatch.fnmatch _) _ = existsb (fun pat => Fnmatch.fnmatch _ pat) _), Hex. }
  split; [exact Hac|]. split.
  - unfold _policy. destruct (_deny_check H C abs_path) as [[]|e] eqn:Hd; simpl.
    + exists NotAllowed. split; [exact Hac|now left].
    + exists e. split; [reflexivity|].
      apply (policy_raises H C abs_path). unfold _policy. now rewrite Hd.
  - intros Hdeny. rewrite policy_find, Hdeny, Hallow, Hex.
    now rewrite (default_deny_needs_sep _ Hno).
Qed.

(** Bracket sets, as [fnmatch.translate] reads them: a range whose ends
    are the wrong way round is dropped with both its ends, and only then
    is a [!] in front taken for the negation. *)
Lemma bracket_sets_examples :
  Fnmatch.translate "[!a-c]" = [Fnmatch.TSet true ["a"; "c"]%char [("a", "c")%char]]
  /\ Fnmatch.fnmatch "b" "[!a-c]" = false
  /\ Fnmatch.fnmatch "d" "[!a-c]" = true
  /\ Fnmatch.translate "[b-a!x]" = [Fnmatch.TSet true ["x"%char] []]
  /\ Fnmatch.fnmatch "x" "[b-a!x]" = false
  /\ Fnmatch.fnmatch "!" "[b-a!x]" = true
  /\ Fnmatch.fnmatch "y" "[b-a!x]" = true
  /\ Fnmatch.translate "[b-a!-z]" = [Fnmatch.TSet true ["-"; "z"]%char []]
  /\ Fnmatch.translate "[b-a]" = [Fnmatch.TSet false [] []]
  /\ Fnmatch.fnmatch "a" "[b-a]" = false
  /\ Fnmatch.translate "[a-]" = [Fnmatch.TSet false ["a"; "-"]%char []].
Proof. repeat split; vm_compute; reflexivity. Qed.

End Patterns.

Section NormalForms.
Import Normal.

Lemma split_cons_sep (s : string) :
  Str.split Str.sep (String "/" s) = "" :: Str.split Str.sep s.
Proof. reflexivity. Qed.

Lemma split_nonempty (c : ascii) (s : string) : Str.split c s <> [].
Proof.
  destruct s as [|a s]; simpl; [discriminate|].
  destruct (Ascii.eqb a c); [discriminate|].
  destruct (Str.split c s); discriminate.
Qed.

Lemma split_cons_other (a : ascii) (s : string) :
  Ascii.eqb a Str.sep = false ->
  exists h t, Str.split Str.sep s = h :: t
              /\ Str.split Str.sep (String a s) = String a h :: t.
Proof.
  intros Ha. simpl. rewrite Ha.
  destruct (Str.split Str.sep s) as [|h t] eqn:Hs;
    [now apply split_nonempty in Hs|].
  now exists h, t.
Qed.

(** [s.split("/")] of a text without separator is the text alone. *)
Lemma split_no_sep (s : string) :
  Str.mem Str.sep s = false -> Str.split Str.sep s = [s].
Proof.
  induction s as [|a s IH]; [reflexivity|].
  rewrite mem_cons. intros Hm. apply orb_false_iff in Hm as [Ha Hs].
  simpl. rewrite Ha, (IH Hs). reflexivity.
Qed.

(** Splitting distributes over a separator. *)
Lemma split_app_sep (a b : string) :
  Str.split Str.sep (a +:+ String "/" b)
  = Str.split Str.sep a ++ Str.split Str.sep b.
Proof.
  induction a as [|x a IH]; [reflexivity|].
  rewrite app_cons. simpl. destruct (Ascii.eqb x Str.sep).
  - now rewrite IH.
  - rewrite IH. destruct (Str.split Str.sep a) as [|h t] eqn:Hs;
      [now apply split_nonempty in Hs|reflexivity].
Qed.

Lemma split_free (s : string) :
  Forall (fun c => Str.mem Str.sep c = false) (Str.split Str.sep s).
Proof.
  induction s as [|a s IH]; [repeat constructor|].
  simpl. destruct (Ascii.eqb a Str.sep) eqn:Ha.
  - constructor; [reflexivity|exact IH].
  - destruct (Str.split Str.sep s) as [|h t]; [repeat constructor; simpl; now rewrite Ha|].
    inversion IH as [|? ? Hh Ht]; subst. constructor; [|exact Ht].
    rewrite mem_cons, Ha, Hh. reflexivity.
Qed.

Lemma clean_inv (c : string) :
  clean c = true ->
  c <> "" /\ c <> "." /\ c <> ".." /\ Str.mem Str.sep c = false.
Proof.
  unfold clean. intros Hc.
  repeat (apply andb_true_iff in Hc as [Hc ?]).
  repeat split;
    try (apply String.eqb_neq; now apply negb_true_iff);
    now apply negb_true_iff.
Qed.

Lemma clean_head (c : string) :
  clean c = true -> exists a r, c = String a r /\ Ascii.eqb a Str.sep = false.
Proof.
  intros Hc. apply clean_inv in Hc as (Hne & _ & _ & Hm).
  destruct c as [|a r]; [congruence|].
  rewrite mem_cons in Hm. apply orb_false_iff in Hm as [Ha _].
  now exists a, r.
Qed.

Lemma join_cons (c : string) (cs : list string) :
  cs <> [] -> Str.join "/" (c :: cs) = c +:+ String "/" (Str.join "/" cs).
Proof. destruct cs; [congruence|reflexivity]. Qed.

Lemma split_join (cs : list string) :
  cs <> [] -> forallb clean cs = true ->
  Str.split Str.sep (Str.join "/" cs) = cs.
Proof.
  induction cs as [|c cs IH]; [congruence|]. intros _ Hall.
  simpl in Hall. apply andb_true_iff in Hall as [Hc Hcs].
  apply clean_inv in Hc as (_ & _ & _ & Hm).
  destruct cs as [|c' cs'].
  - now apply split_no_sep.
  - rewrite join_cons by discriminate.
    rewrite split_app_sep, (split_no_sep _ Hm), IH by (done || discriminate).
    reflexivity.
Qed.

(** Over clean components the loop of [normpath] only appends. *)
Lemma fold_step_clean (k : nat) (cs acc : list string) :
  forallb clean cs = true ->
  fold_left (Posixpath.normpath_step k) cs acc = acc ++ cs.
Proof.
  revert acc. induction cs as [|c cs IH]; intros acc Hall.
  - now rewrite List.app_nil_r.
  - simpl in Hall. apply andb_true_iff in Hall as [Hc Hcs].
    apply clean_inv in Hc as (H1 & H2 & H3 & _).
    simpl. unfold Posixpath.normpath_step at 2.
    apply String.eqb_neq in H1, H2, H3. rewrite H1, H2, H3. simpl.
    rewrite IH by exact Hcs. now rewrite <- List.app_assoc.
Qed.

(** In an absolute path the loop of [normpath] keeps its components
    clean. *)
Lemma step_keeps_clean (k : nat) (acc : list string) (comp : string) :
  k <> 0%nat -> Str.mem Str.sep comp = false ->
  forallb clean acc = true ->
  forallb clean (Posixpath.normpath_step k acc comp) = true.
Proof.
  intros Hk Hfree Hacc. unfold Posixpath.normpath_step.
  destruct (String.eqb_spec comp ""); [exact Hacc|].
  destruct (String.eqb_spec comp "."); [exact Hacc|]. simpl.
  destruct (String.eqb_spec comp "..") as [->|Hdd]; simpl.
  - destruct (Nat.eqb_spec k 0); [contradiction|]. simpl.
    destruct acc as [|x acc]; [reflexivity|].
    cbn [Posixpath.is_nil negb andb].
    assert (Hlast : clean (List.last (x :: acc) "") = true).
    { rewrite forallb_forall in Hacc. apply Hacc.
      destruct (@exists_last _ (x :: acc)) as (l' & z & Heq); [discriminate|].
      rewrite Heq, List.last_last. apply List.in_or_app. right. now left. }
    apply clean_inv in Hlast as (_ & _ & Hnd & _).
    apply String.eqb_neq in Hnd. rewrite Hnd.
    rewrite forallb_forall in *. intros y Hy. apply Hacc.
    clear -Hy. revert x Hy. induction acc as [|z acc IHa]; intros x Hy.
    + destruct Hy.
    + simpl in Hy. destruct Hy as [<-|Hy]; [now left|right; now apply IHa].
  - rewrite forallb_app, Hacc. simpl. unfold clean.
    apply String.eqb_neq in n, n0, Hdd. now rewrite n, n0, Hdd, Hfree.
Qed.

Lemma fold_keeps_clean (k : nat) (comps acc : list string) :
  k <> 0%nat ->
  Forall (fun c => Str.mem Str.sep c = false) comps ->
  forallb clean acc = true ->
  forallb clean (fold_left (Posixpath.normpath_step k) comps acc) = true.
Proof.
  intros Hk Hfree. revert acc.
  induction Hfree as [|c comps Hc _ IH]; intros acc Hacc; [exact Hacc|].
  simpl. apply IH. now apply step_keeps_clean.
Qed.

Lemma initial_slashes_abs (p : string) :
  Posixpath.isabs p = true ->
  Posixpath.initial_slashes p = 1%nat \/ Posixpath.initial_slashes p = 2%nat.
Proof.
  unfold Posixpath.isabs, Posixpath.initial_slashes. intros ->.
  destruct (_ && _); auto.
Qed.

(** [normpath] of an absolute path is in normal form. *)
Lemma normpath_canon (p : string) :
  Posixpath.isabs p = true ->
  exists k cs, (k = 1%nat \/ k = 2%nat) /\ forallb clean cs = true
               /\ Posixpath.normpath p = canon k cs.
Proof.
  intros Hp. destruct (startswith_slash _ Hp) as [r Hr].
  exists (Posixpath.initial_slashes p),
         (fold_left (Posixpath.normpath_step (Posixpath.initial_slashes p))
            (Str.split Str.sep p) []).
  pose proof (initial_slashes_abs _ Hp) as Hk.
  split; [exact Hk|]. split.
  - apply fold_keeps_clean; [destruct Hk as [-> | ->]; discriminate|apply split_free|reflexivity].
  - unfold Posixpath.normpath, canon. clear Hr.
    destruct p as [|a p']; [discriminate Hp|]. cbn [Str.is_empty]. cbv zeta.
    destruct Hk as [-> | ->]; cbn [Str.repeat]; rewrite !app_cons; reflexivity.
Qed.

Lemma ascii_dec_sep (a : ascii) (A : Type) (x y : A) :
  Ascii.eqb a Str.sep = false ->
  (if ascii_dec "/" a then x else y) = y.
Proof.
  intros Ha. destruct (ascii_dec "/" a) as [<-|]; [discriminate Ha|reflexivity].
Qed.

Lemma initial_slashes_canon (k : nat) (cs : list string) (tail : string) :
  (k = 1%nat \/ k = 2%nat) -> forallb clean cs = true ->
  (cs = [] -> tail = "" \/ tail = ".") ->
  Posixpath.initial_slashes (canon k cs +:+ tail) = k.
Proof.
  intros Hk Hall Htail.
  destruct cs as [|c cs].
  - destruct (Htail eq_refl) as [-> | ->]; destruct Hk as [-> | ->]; reflexivity.
  - simpl in Hall. apply andb_true_iff in Hall as [Hc _].
    destruct (clean_head _ Hc) as (a & r & -> & Ha).
    assert (Hj : exists r', Str.join "/" (String a r :: cs) = String a r').
    { destruct cs; [now exists r|]. rewrite join_cons by discriminate.
      rewrite app_cons. eauto. }
    destruct Hj as [r' Hj]. unfold canon. rewrite Hj.
    unfold Posixpath.initial_slashes, Str.startswith.
    destruct Hk as [-> | ->]; cbn [Str.repeat]; rewrite !app_cons; simpl;
      now rewrite (ascii_dec_sep a _ _ _ Ha).
Qed.

Lemma split_canon (k : nat) (cs : list string) :
  (k = 1%nat \/ k = 2%nat) -> forallb clean cs = true ->
  Str.split Str.sep (canon k cs)
  = List.repeat "" k ++ (if Posixpath.is_nil cs then [""] else cs).
Proof.
  intros Hk Hall.
  assert (Hs : Str.split Str.sep (Str.join "/" cs)
               = if Posixpath.is_nil cs then [""] else cs).
  { destruct cs as [|c cs]; [reflexivity|].
    apply split_join; [discriminate|exact Hall]. }
  unfold canon.
  destruct Hk as [-> | ->]; cbn [Str.repeat List.repeat]; rewrite !app_cons;
    rewrite app_empty_l, !split_cons_sep, Hs; reflexivity.
Qed.

Lemma fold_canon (k : nat) (cs extra : list string) :
  (k = 1%nat \/ k = 2%nat) -> forallb clean cs = true ->
  Forall (fun c => c = "" \/ c = ".") extra ->
  fold_left (Posixpath.normpath_step k)
    (List.repeat "" k ++ (if Posixpath.is_nil cs then [""] else cs) ++ extra) []
  = cs.
Proof.
  intros Hk Hall Hextra.
  assert (Hskip : forall acc, fold_left (Posixpath.normpath_step k) extra acc = acc).
  { induction Hextra as [|c extra [-> | ->] _ IH]; intros acc; [reflexivity|..];
      simpl; apply IH. }
  rewrite !fold_left_app, Hskip.
  assert (Hini : fold_left (Posixpath.normpath_step k) (List.repeat "" k) [] = []).
  { destruct Hk as [-> | ->]; reflexivity. }
  rewrite Hini. destruct cs as [|c cs]; [reflexivity|].
  cbn [Posixpath.is_nil]. now rewrite fold_step_clean.
Qed.

(** A path in normal form is a fixed point of [normpath]. *)
Lemma normpath_canon_id (k : nat) (cs : list string) :
  (k = 1%nat \/ k = 2%nat) -> forallb clean cs = true ->
  Posixpath.normpath (canon k cs) = canon k cs.
Proof.
  intros Hk Hall.
  assert (Hne : Str.is_empty (canon k cs) = false)
    by (unfold canon; destruct Hk as [-> | ->]; reflexivity).
  unfold Posixpath.normpath. rewrite Hne. cbv zeta.
  pose proof (initial_slashes_canon k cs "" Hk Hall (fun _ => or_introl eq_refl)) as Hi.
  rewrite app_empty_r in Hi. rewrite Hi, split_canon by assumption.
  pose proof (fold_canon k cs [] Hk Hall ltac:(constructor)) as Hf.
  rewrite List.app_nil_r in Hf. rewrite Hf.
  fold (canon k cs). now rewrite Hne.
Qed.

Lemma endswith_app (a b : string) (c : ascii) :
  b <> "" -> Str.endswith_char (a +:+ b) c = Str.endswith_char b c.
Proof.
  intros Hb. induction a as [|x a IH]; [reflexivity|].
  rewrite app_cons. simpl. rewrite IH.
  destruct (a +:+ b) eqn:Hab; [|reflexivity].
  destruct a; [now rewrite app_empty_l in Hab|discriminate Hab].
Qed.

Lemma endswith_mem (s : string) (c : ascii) :
  Str.endswith_char s c = true -> Str.mem c s = true.
Proof.
  induction s as [|a s IH]; [discriminate|].
  rewrite mem_cons. simpl. destruct s as [|b s].
  - intros ->. reflexivity.
  - intros Hs. rewrite (IH Hs). apply orb_true_r.
Qed.

Lemma join_last (l : list string) (z : string) :
  exists pre, Str.join "/" (l ++ [z]) = pre +:+ z.
Proof.
  induction l as [|c l [pre IH]]; [now exists ""|].
  exists (c +:+ String "/" pre). simpl List.app.
  rewrite join_cons by (destruct l; discriminate).
  now rewrite IH, app_assoc_str, app_cons.
Qed.

Lemma canon_no_trailing_sep (k : nat) (cs : list string) :
  cs <> [] -> forallb clean cs = true ->
  Str.endswith_char (canon k cs) Str.sep = false.
Proof.
  intros Hne Hall.
  destruct (@exists_last _ cs Hne) as (l & z & ->).
  rewrite forallb_app in Hall. apply andb_true_iff in Hall as [_ Hz].
  simpl in Hz. rewrite andb_true_r in Hz.
  apply clean_inv in Hz as (Hz & _ & _ & Hm).
  destruct (join_last l z) as [pre Hj].
  unfold canon. rewrite Hj, <- app_assoc_str, endswith_app by exact Hz.
  destruct (Str.endswith_char z Str.sep) eqn:He; [|reflexivity].
  apply endswith_mem in He. congruence.
Qed.

(** Joining [.] to a path in normal form and normalising gives the path
    back. *)
Lemma normpath_join_dot (k : nat) (cs : list string) :
  (k = 1%nat \/ k = 2%nat) -> forallb clean cs = true ->
  Posixpath.normpath (Posixpath.join2 (canon k cs) ".") = canon k cs.
Proof.
  intros Hk Hall. destruct cs as [|c cs].
  - destruct Hk as [-> | ->]; reflexivity.
  - assert (Hne : Str.is_empty (canon k (c :: cs)) = false)
      by (unfold canon; destruct Hk as [-> | ->]; reflexivity).
    assert (Hj : Posixpath.join2 (canon k (c :: cs)) "."
                 = canon k (c :: cs) +:+ "/" +:+ ".").
    { unfold Posixpath.join2. change (Str.startswith "." "/") with false.
      now rewrite Hne, canon_no_trailing_sep by (done || discriminate). }
    rewrite Hj.
    assert (Hne' : Str.is_empty (canon k (c :: cs) +:+ "/" +:+ ".") = false).
    { unfold canon. destruct Hk as [-> | ->]; reflexivity. }
    unfold Posixpath.normpath. rewrite Hne'. cbv zeta.
    rewrite initial_slashes_canon by (done || discriminate).
    change ("/" +:+ ".") with (String "/" ".").
    rewrite split_app_sep, split_canon by assumption.
    change (Str.split Str.sep ".") with ["."].
    rewrite <- List.app_assoc, fold_canon;
      [|assumption|assumption|repeat constructor; now right].
    fold (canon k (c :: cs)). now rewrite Hne.
Qed.

Lemma common_len_refl (l : list string) :
  Posixpath.common_len l l = List.length l.
Proof.
  induction l as [|x l IH]; [reflexivity|].
  simpl. now rewrite String.eqb_refl, IH.
Qed.

(** The path of a directory relative to itself is [.]. *)
Lemma relpath_same (cwd a b : string) :
  Posixpath.abspath cwd a = Posixpath.abspath cwd b ->
  Posixpath.relpath cwd a b = ".".
Proof.
  intros Heq. unfold Posixpath.relpath. rewrite Heq, common_len_refl.
  now rewrite Nat.sub_diag, List.skipn_all.
Qed.

Lemma abspath_canon (cwd p : string) :
  Posixpath.isabs cwd = true ->
  exists k cs, (k = 1%nat \/ k = 2%nat) /\ forallb clean cs = true
               /\ Posixpath.abspath cwd p = canon k cs.
Proof.
  intros Hc. unfold Posixpath.abspath. apply normpath_canon.
  destruct (Posixpath.isabs p) eqn:Hp; [exact Hp|now apply join2_isabs].
Qed.

Lemma abspath_idem (cwd p : string) :
  Posixpath.isabs cwd = true ->
  Posixpath.abspath cwd (Posixpath.abspath cwd p) = Posixpath.abspath cwd p.
Proof.
  intros Hc. destruct (abspath_canon cwd p Hc) as (k & cs & Hk & Hall & Heq).
  unfold Posixpath.abspath at 1. rewrite (abspath_isabs _ _ Hc).
  rewrite Heq. now apply normpath_canon_id.
Qed.

Lemma filter_nonempty_clean (cs : list string) :
  forallb Normal.clean cs = true ->
  List.filter (fun x => negb (Str.is_empty x)) cs = cs.
Proof.
  induction cs as [|c cs IH]; [reflexivity|]. simpl.
  intros Hall. apply andb_true_iff in Hall as [Hc Hcs].
  destruct (clean_head _ Hc) as (a & r & -> & _). simpl. now rewrite IH.
Qed.

(** The components of a path in normal form. *)
Lemma parts_canon (k : nat) (cs : list string) :
  (k = 1%nat \/ k = 2%nat) -> forallb Normal.clean cs = true ->
  Posixpath.parts (Normal.canon k cs) = cs.
Proof.
  intros Hk Hall. unfold Posixpath.parts. rewrite split_canon by assumption.
  rewrite List.filter_app.
  assert (Hrep : List.filter (fun x => negb (Str.is_empty x)) (List.repeat "" k) = [])
    by (destruct Hk as [-> | ->]; reflexivity).
  rewrite Hrep. destruct cs as [|c cs]; [reflexivity|].
  now apply filter_nonempty_clean.
Qed.

Lemma endswith_inv (s : string) (c : ascii) :
  Str.endswith_char s c = true -> exists s', s = s' +:+ String c "".
Proof.
  induction s as [|a s IH]; [discriminate|]. simpl.
  destruct s as [|b s].
  - intros Ha. apply Ascii.eqb_eq in Ha as ->. now exists "".
  - intros Hs. destruct (IH Hs) as [s' Hs']. exists (String a s').
    now rewrite app_cons, <- Hs'.
Qed.

Lemma clean_not_abs (name : string) :
  Normal.clean name = true -> Str.startswith name "/" = false.
Proof.
  intros Hc. destruct (clean_head _ Hc) as (a & r & -> & Ha).
  unfold Str.startswith. simpl. now rewrite (ascii_dec_sep a _ _ _ Ha).
Qed.

(** The components of a directory's path and of an entry in it. *)
Lemma parts_join2 (ap name : string) :
  Normal.clean name = true ->
  Posixpath.parts (Posixpath.join2 ap name) = Posixpath.parts ap ++ [name].
Proof.
  intros Hc. pose proof (clean_not_abs _ Hc) as Hrel.
  destruct (clean_inv _ Hc) as (Hne & _ & _ & Hfree).
  assert (Hname : List.filter (fun x => negb (Str.is_empty x)) [name] = [name]).
  { simpl. destruct name; [congruence|reflexivity]. }
  unfold Posixpath.join2, Posixpath.parts. rewrite Hrel.
  destruct (Str.is_empty ap) eqn:Hemp.
  - destruct ap; [|discriminate]. cbn [orb]. rewrite app_empty_l.
    now rewrite (split_no_sep _ Hfree).
  - cbn [orb]. destruct (Str.endswith_char ap Str.sep) eqn:Hend.
    + apply endswith_inv in Hend as [ap' ->].
      rewrite app_assoc_str, app_cons, app_empty_l.
      rewrite !split_app_sep, !List.filter_app, (split_no_sep _ Hfree), Hname.
      change (Str.split Str.sep "") with [""]. cbn [List.filter Str.is_empty negb].
      now rewrite List.app_nil_r.
    + change ("/" +:+ name) with (String "/" name).
      now rewrite split_app_sep, List.filter_app, (split_no_sep _ Hfree), Hname.
Qed.

End NormalForms.

(* ===================================================================== *)
(** ** Entries directly inside the root *)
(* ===================================================================== *)

Section TopLevel.
Import Os Server.

Lemma fold_step_skip_empty (k : nat) (l acc : list string) :
  fold_left (Posixpath.normpath_step k) l acc
  = fold_left (Posixpath.normpath_step k)
      (List.filter (fun x => negb (Str.is_empty x)) l) acc.
Proof.
  revert acc. induction l as [|c l IH]; intros acc; [reflexivity|].
  destruct c as [|a c]; simpl; [apply IH|apply IH].
Qed.

(** The components of a normalised absolute path come from the loop of
    [normpath] over the components of the path. *)
Lemma parts_normpath (p : string) :
  Posixpath.isabs p = true ->
  Posixpath.parts (Posixpath.normpath p)
  = fold_left (Posixpath.normpath_step (Posixpath.initial_slashes p))
      (Posixpath.parts p) [].
Proof.
  intros Hp. pose proof (initial_slashes_abs _ Hp) as Hk.
  assert (Hclean : forallb Normal.clean
            (fold_left (Posixpath.normpath_step (Posixpath.initial_slashes p))
               (Str.split Str.sep p) []) = true).
  { apply fold_keeps_clean;
      [destruct Hk as [-> | ->]; discriminate|apply split_free|reflexivity]. }
  assert (Hn : Posixpath.normpath p
               = Normal.canon (Posixpath.initial_slashes p)
                   (fold_left (Posixpath.normpath_step (Posixpath.initial_slashes p))
                      (Str.split Str.sep p) [])).
  { unfold Posixpath.normpath, Normal.canon.
    destruct p as [|a p']; [discriminate Hp|]. cbn [Str.is_empty]. cbv zeta.
    destruct Hk as [-> | ->]; cbn [Str.repeat]; rewrite !app_cons; reflexivity. }
  rewrite Hn, parts_canon by assumption.
  unfold Posixpath.parts. apply fold_step_skip_empty.
Qed.

Lemma common_len_app (l r : list string) :
  Posixpath.common_len l (l ++ r) = List.length l.
Proof.
  induction l as [|x l IH]; [now destruct r|].
  simpl. now rewrite String.eqb_refl, IH.
Qed.

Lemma abspath_of_abs (cwd p : string) :
  Posixpath.isabs p = true -> Posixpath.abspath cwd p = Posixpath.normpath p.
Proof. intros Hp. unfold Posixpath.abspath. now rewrite Hp. Qed.

(** The root-relative form of an entry directly inside the sandbox root
    is its name. *)
Lemma relpath_top_level (H : host) (C : config) (name : string) :
  Posixpath.isabs (getcwd H) = true ->
  Normal.clean name = true ->
  Posixpath.relpath (getcwd H) (Posixpath.join (SandboxRoot H C) [name]) (ROOT_DIR C)
  = name.
Proof.
  intros Hcwd Hc. unfold SandboxRoot.
  destruct (abspath_canon (getcwd H) (ROOT_DIR C) Hcwd) as (k & cs & Hk & Hall & Heq).
  pose proof (abspath_isabs (getcwd H) (ROOT_DIR C) Hcwd) as Hroot.
  cbn [Posixpath.join fold_left].
  pose proof (join2_isabs _ name Hroot) as Hj.
  unfold Posixpath.relpath. cbv zeta.
  rewrite (abspath_of_abs _ _ Hj), parts_normpath, parts_join2 by assumption.
  rewrite Heq, parts_canon by assumption.
  rewrite fold_step_clean by (rewrite forallb_app, Hall; simpl; now rewrite Hc).
  cbn [List.app]. rewrite common_len_app, Nat.sub_diag.
  cbn [List.repeat List.app]. rewrite List.skipn_app, List.skipn_all, Nat.sub_diag.
  reflexivity.
Qed.

End TopLevel.

(* ===================================================================== *)
(** ** The run tool *)
(* ===================================================================== *)

Section RunTool.
Import Os Server.

Lemma abs_dot (H : host) (C : config) :
  Posixpath.isabs (getcwd H) = true -> _abs H C "." = Ok (SandboxRoot H C).
Proof.
  intros Hc. unfold _abs, SandboxRoot.
  destruct (abspath_canon (getcwd H) (ROOT_DIR C) Hc) as (k & cs & Hk & Hall & Heq).
  rewrite Heq. change (Str.lstrip "/\" ".") with ".".
  cbn [Posixpath.join fold_left].
  assert (Ht : Posixpath.abspath (getcwd H) (Posixpath.join2 (Normal.canon k cs) ".")
               = Normal.canon k cs).
  { unfold Posixpath.abspath. rewrite join2_isabs.
    - now apply normpath_join_dot.
    - rewrite <- Heq. now apply abspath_isabs. }
  rewrite Ht, String.eqb_refl, orb_true_r. reflexivity.
Qed.

Lemma relpath_root (H : host) (C : config) :
  Posixpath.isabs (getcwd H) = true ->
  Posixpath.relpath (getcwd H) (SandboxRoot H C) (ROOT_DIR C) = ".".
Proof.
  intros Hc. apply relpath_same. unfold SandboxRoot. now apply abspath_idem.
Qed.

(** [run], check by check. *)
Lemma run_steps (H : host) (C : config) (cmd : string)
    (args : option (list string)) (cwd : string) (timeout_sec : Z) (w : world) :
  run H C cmd args cwd timeout_sec w =
    if negb (ENABLE_RUN_COMMANDS C) then (Raise FeatureDisabled, w)
    else
      match ensure_root H C w with
      | (Raise e, w1) => (Raise e, w1)
      | (Ok _, w1) =>
          match _abs H C cwd with
          | Raise e => (Raise e, w1)
          | Ok ap_cwd =>
              match _policy H C ap_cwd with
              | Raise e => (Raise e, w1)
              | Ok _ =>
                  match COMMAND_ALLOWLIST C !! Posixpath.basename cmd with
                  | None => (Raise (CommandNotAllowed (Posixpath.basename cmd)), w1)
                  | Some prefix =>
                      if bool_decide (List.firstn (List.length prefix) (default [] args) = prefix)
                      then execute H C (cmd :: default [] args) ap_cwd timeout_sec w1
                      else (Raise (ArgumentPrefixViolation prefix (Posixpath.basename cmd)), w1)
                  end
              end
          end
      end.
Proof.
  unfold run. destruct (negb (ENABLE_RUN_COMMANDS C)); [reflexivity|].
  unfold bind at 1. destruct (ensure_root H C w) as [[[]|e] w1]; [|reflexivity].
  unfold bind at 1, pure at 1. destruct (_abs H C cwd) as [ap|e]; [|reflexivity].
  unfold bind at 1, pure at 1. destruct (_policy H C ap) as [[]|e]; [|reflexivity].
  destruct (COMMAND_ALLOWLIST C !! Posixpath.basename cmd) as [prefix|]; [|reflexivity].
  now destruct (bool_decide _).
Qed.

Lemma execute_returns (H : host) (C : config) (argv : list string)
    (ap : string) (t : Z) (w : world) :
  exists r w', execute H C argv ap t w = (Ok r, w').
Proof. unfold execute. destruct (spawn H argv ap t (w_fs w)); eauto. Qed.

(** C9. Under the allow patterns of the module, [**/*] alone, a path whose
    root-relative form has no separator matches no allow pattern and the
    policy check refuses it.  The sandbox root is such a path (its relative
    form is [.]) and so is every entry directly inside the root (its
    relative form is its name); hence [run] with its default working
    directory is refused by the policy check whenever it gets that far,
    with the run tool switched on and whatever the command. *)
Theorem default_allow_refuses_top_level (H : host) (C : config) :
  ALLOW_GLOBS C = default_ALLOW_GLOBS ->
  Posixpath.isabs (getcwd H) = true ->
  (forall abs_path,
      Str.mem "/" (Posixpath.relpath (getcwd H) abs_path (ROOT_DIR C)) = false ->
      _allow_check H C abs_path = Raise NotAllowed
      /\ exists e, _policy H C abs_path = Raise e /\ PolicyDenied e)
  /\ _abs H C "." = Ok (SandboxRoot H C)
  /\ Posixpath.relpath (getcwd H) (SandboxRoot H C) (ROOT_DIR C) = "."
  /\ (forall name,
        Normal.clean name = true ->
        Posixpath.relpath (getcwd H) (Posixpath.join (SandboxRoot H C) [name])
          (ROOT_DIR C) = name
        /\ _allow_check H C (Posixpath.join (SandboxRoot H C) [name]) = Raise NotAllowed)
  /\ (forall cmd args timeout_sec w w1,
        ENABLE_RUN_COMMANDS C = true ->
        ensure_root H C w = (Ok tt, w1) ->
        exists e, run H C cmd args "." timeout_sec w = (Raise e, w1)
                  /\ PolicyDenied e
                  /\ run_default H C cmd args w = (Raise e, w1)).
Proof.
  intros Hallow Hcwd.
  assert (Htop : forall abs_path,
      Str.mem "/" (Posixpath.relpath (getcwd H) abs_path (ROOT_DIR C)) = false ->
      _allow_check H C abs_path = Raise NotAllowed
      /\ exists e, _policy H C abs_path = Raise e /\ PolicyDenied e).
  { intros abs_path Hno.
    destruct (policy_refuses_top_level H C abs_path Hallow Hno) as (Ha & Hp & _).
    now split. }
  split; [exact Htop|]. split; [now apply abs_dot|].
  split; [now apply relpath_root|]. split.
  { intros name Hname.
    pose proof (relpath_top_level H C name Hcwd Hname) as Hrel.
    split; [exact Hrel|]. apply Htop. rewrite Hrel.
    now apply clean_inv in Hname as (_ & _ & _ & Hfree). }
  intros cmd args t w w1 Hen Hroot.
  destruct (Htop (SandboxRoot H C)) as (_ & e & He & Hden).
  { now rewrite relpath_root. }
  exists e. unfold run_default. rewrite !run_steps, Hen, Hroot, abs_dot, He by exact Hcwd.
  auto.
Qed.

Lemma default_allow_refuses_top_level_witness :
  _policy Demo.slow_host Demo.sandbox_config "/sandbox/top.txt" = Raise NotAllowed
  /\ exists e,
       run Demo.slow_host Demo.sandbox_config "bash" (Some ["-lc"; "echo hi"]) "."
           30 Demo.project_world = (Raise e, Demo.project_world)
       /\ PolicyDenied e.
Proof.
  destruct (default_allow_refuses_top_level Demo.slow_host Demo.sandbox_config
              eq_refl eq_refl) as (Htop & _ & _ & _ & Hrun).
  split.
  - reflexivity.
  - destruct (Hrun "bash" (Some ["-lc"; "echo hi"]) 30 Demo.project_world
                Demo.project_world eq_refl) as (e & He & Hden & _).
    + vm_compute. reflexivity.
    + exists e. now split.
Defined.

Lemma boundary_messages_distinct (base base' : string) (prefix : list string) :
  FeatureDisabled <> CommandNotAllowed base
  /\ FeatureDisabled <> ArgumentPrefixViolation prefix base'
  /\ CommandNotAllowed base <> ArgumentPrefixViolation prefix base'
  /\ PathEscape <> FeatureDisabled
  /\ NotAllowed <> FeatureDisabled.
Proof. repeat split; discriminate. Qed.

(** C4, as the claim has it, fails: with the run tool switched on, a command
    that is not in the allowlist is refused for its working directory
    before its name is looked at. *)
Lemma run_cwd_checked_first_counterexample :
  ENABLE_RUN_COMMANDS Demo.sandbox_config = true
  /\ COMMAND_ALLOWLIST Demo.sandbox_config !! Posixpath.basename "nope" = None
  /\ fst (run Demo.slow_host Demo.sandbox_config "nope" None ".." 30 Demo.project_world)
     = Raise PathEscape
  /\ fst (run Demo.slow_host Demo.sandbox_config "nope" None ".." 30 Demo.project_world)
     <> Raise (CommandNotAllowed "nope").
Proof.
  assert (Hr : fst (run Demo.slow_host Demo.sandbox_config "nope" None ".." 30
                      Demo.project_world) = Raise PathEscape)
    by (vm_compute; reflexivity).
  split; [reflexivity|]. split; [vm_compute; reflexivity|].
  split; [exact Hr|]. rewrite Hr. discriminate.
Qed.

(** C4, amended. [run] makes its checks in this order.  With the run tool
    switched off it raises the feature-disabled error at once, the world
    untouched.  Otherwise the root is made sure of and the working
    directory comes first: when [_abs] refuses it, [run] raises the
    path-escape error, and when [_policy] refuses it, [run] raises that
    policy error, whatever the command and its arguments are.  Only once
    the working directory has passed both: a command whose basename is no
    key of the allowlist raises the command-not-allowed error; else
    arguments that do not start with the required prefix raise the
    argument-prefix error; else the child is executed and a result
    returned.  The three errors differ.  With [bash -> ["-lc"]], the
    arguments [["-lc"; "echo hi"]] pass and [["-c"; "echo hi"]] raise the
    argument-prefix error. *)
Theorem run_checks_in_order (H : host) (C : config) (cmd : string)
    (args : option (list string)) (cwd : string) (timeout_sec : Z) (w : world) :
  (ENABLE_RUN_COMMANDS C = false ->
   run H C cmd args cwd timeout_sec w = (Raise FeatureDisabled, w))
  /\ (forall w1 e,
        ENABLE_RUN_COMMANDS C = true ->
        ensure_root H C w = (Raise e, w1) ->
        run H C cmd args cwd timeout_sec w = (Raise e, w1))
  /\ (forall w1 e,
        ENABLE_RUN_COMMANDS C = true ->
        ensure_root H C w = (Ok tt, w1) ->
        _abs H C cwd = Raise e ->
        e = PathEscape
        /\ run H C cmd args cwd timeout_sec w = (Raise PathEscape, w1))
  /\ (forall w1 ap e,
        ENABLE_RUN_COMMANDS C = true ->
        ensure_root H C w = (Ok tt, w1) ->
        _abs H C cwd = Ok ap -> _policy H C ap = Raise e ->
        PolicyDenied e
        /\ run H C cmd args cwd timeout_sec w = (Raise e, w1))
  /\ (forall w1 ap,
        ENABLE_RUN_COMMANDS C = true ->
        ensure_root H C w = (Ok tt, w1) ->
        _abs H C cwd = Ok ap -> _policy H C ap = Ok tt ->
        match COMMAND_ALLOWLIST C !! Posixpath.basename cmd with
        | None =>
            run H C cmd args cwd timeout_sec w
            = (Raise (CommandNotAllowed (Posixpath.basename cmd)), w1)
        | Some prefix =>
            if bool_decide (List.firstn (List.length prefix) (default [] args) = prefix)
            then run H C cmd args cwd timeout_sec w
                 = execute H C (cmd :: default [] args) ap timeout_sec w1
                 /\ exists r w2, run H C cmd args cwd timeout_sec w = (Ok r, w2)
            else run H C cmd args cwd timeout_sec w
                 = (Raise (ArgumentPrefixViolation prefix (Posixpath.basename cmd)), w1)
        end)
  /\ (forall base base' prefix,
        FeatureDisabled <> CommandNotAllowed base
        /\ FeatureDisabled <> ArgumentPrefixViolation prefix base'
        /\ CommandNotAllowed base <> ArgumentPrefixViolation prefix base')
  /\ (forall w1 ap,
        COMMAND_ALLOWLIST C !! "bash" = Some ["-lc"] ->
        ENABLE_RUN_COMMANDS C = true ->
        ensure_root H C w = (Ok tt, w1) ->
        _abs H C cwd = Ok ap -> _policy H C ap = Ok tt ->
        (exists r w2,
           run H C "bash" (Some ["-lc"; "echo hi"]) cwd timeout_sec w = (Ok r, w2))
        /\ run H C "bash" (Some ["-c"; "echo hi"]) cwd timeout_sec w
           = (Raise (ArgumentPrefixViolation ["-lc"] "bash"), w1)).
Proof.
  split; [|split; [|split; [|split; [|split; [|split]]]]].
  - intros Hoff. now rewrite run_steps, Hoff.
  - intros w1 e Hon Hroot. now rewrite run_steps, Hon, Hroot.
  - intros w1 e Hon Hroot Habs.
    pose proof (abs_raises H C cwd e Habs) as ->.
    split; [reflexivity|]. now rewrite run_steps, Hon, Hroot, Habs.
  - intros w1 ap e Hon Hroot Habs Hpol.
    split; [exact (policy_raises H C ap e Hpol)|].
    now rewrite run_steps, Hon, Hroot, Habs, Hpol.
  - intros w1 ap Hon Hroot Habs Hpol.
    rewrite run_steps, Hon, Hroot, Habs, Hpol. cbn [negb].
    destruct (COMMAND_ALLOWLIST C !! Posixpath.basename cmd); [|reflexivity].
    destruct (bool_decide _); [|reflexivity].
    split; [reflexivity|apply execute_returns].
  - intros base base' prefix.
    destruct (boundary_messages_distinct base base' prefix) as (? & ? & ? & _).
    auto.
  - intros w1 ap Hbash Hon Hroot Habs Hpol.
    rewrite !run_steps, Hon, Hroot, Habs, Hpol. cbn [negb].
    change (Posixpath.basename "bash") with "bash". rewrite Hbash.
    split; [apply execute_returns|reflexivity].
Qed.

Lemma run_checks_in_order_witness :
  run Demo.slow_host Demo.sandbox_config "bash" (Some ["-c"; "echo hi"])
      "proj/docs" 30 Demo.project_world
  = (Raise (ArgumentPrefixViolation ["-lc"] "bash"), Demo.project_world)
  /\ run Demo.slow_host Demo.sandbox_config "bash" (Some ["-c"; "echo hi"])
        "../sandbox-other" 30 Demo.project_world
     = (Raise PathEscape, Demo.project_world)
  /\ run Demo.slow_host Demo.sandbox_config "bash" (Some ["-c"; "echo hi"])
        "proj/.git/hooks" 30 Demo.project_world
     = (Raise (DeniedBy "**/.git/**"), Demo.project_world).
Proof.
  split; [|split].
  - destruct (run_checks_in_order Demo.slow_host Demo.sandbox_config "bash"
                (Some ["-c"; "echo hi"]) "proj/docs" 30 Demo.project_world)
      as (_ & _ & _ & _ & _ & _ & Hbash).
    apply (Hbash Demo.project_world "/sandbox/proj/docs");
      try reflexivity; vm_compute; reflexivity.
  - destruct (run_checks_in_order Demo.slow_host Demo.sandbox_config "bash"
                (Some ["-c"; "echo hi"]) "../sandbox-other" 30 Demo.project_world)
      as (_ & _ & Habs & _).
    apply (Habs Demo.project_world PathEscape);
      try reflexivity; vm_compute; reflexivity.
  - destruct (run_checks_in_order Demo.slow_host Demo.sandbox_config "bash"
                (Some ["-c"; "echo hi"]) "proj/.git/hooks" 30 Demo.project_world)
      as (_ & _ & _ & Hpol & _).
    apply (Hpol Demo.project_world "/sandbox/proj/.git/hooks" (DeniedBy "**/.git/**"));
      try reflexivity; vm_compute; reflexivity.
Defined.







Lemma rfind_none (s : string) :
  Str.mem Str.sep s = false -> Str.rfind Str.sep s = -1.
Proof.
  induction s as [|a s IH]; [reflexivity|].
  rewrite mem_cons. intros Hm. apply orb_false_iff in Hm as [Ha Hs].
  simpl. now rewrite (IH Hs), Ha.
Qed.

Lemma rfind_last_sep (dir name : string) :
  Str.mem Str.sep name = false ->
  Str.rfind Str.sep (dir +:+ String "/" name) = Z.of_nat (String.length dir).
Proof.
  intros Hm. induction dir as [|a dir IH].
  - rewrite app_empty_l. simpl. now rewrite (rfind_none _ Hm).
  - rewrite app_cons. cbn [Str.rfind String.length]. rewrite IH.
    destruct (Z.leb_spec 0 (Z.of_nat (String.length dir))); lia.
Qed.

Lemma drop_app_cons (dir : string) (c : ascii) (name : string) :
  Str.drop (S (String.length dir)) (dir +:+ String c name) = name.
Proof.
  induction dir as [|a dir IH]; [reflexivity|].
  rewrite app_cons. exact IH.
Qed.

(** The basename is what follows the last separator. *)
Lemma basename_after_sep (dir name : string) :
  Str.mem Str.sep name = false ->
  Posixpath.basename (dir +:+ "/" +:+ name) = name.
Proof.
  intros Hm. unfold Posixpath.basename, Str.slice_from.
  change ("/" +:+ name) with (String "/" name).
  rewrite (rfind_last_sep _ _ Hm).
  replace (Z.to_nat (Z.of_nat (String.length dir) + 1)) with (S (String.length dir)) by lia.
  apply drop_app_cons.
Qed.

(** C10. [run] looks up the basename of [cmd] in the allowlist and starts
    the child with [cmd] itself as the first element of [argv]: a command
    given with any directory in front of an allowlisted name passes the
    allowlist check, and what is executed is the path as given. *)
Theorem run_executes_cmd_as_given (H : host) (C : config) (cmd : string)
    (args : option (list string)) (cwd : string) (timeout_sec : Z)
    (w w1 : world) (ap : string) (prefix : list string) :
  ENABLE_RUN_COMMANDS C = true ->
  ensure_root H C w = (Ok tt, w1) ->
  _abs H C cwd = Ok ap ->
  _policy H C ap = Ok tt ->
  COMMAND_ALLOWLIST C !! Posixpath.basename cmd = Some prefix ->
  List.firstn (List.length prefix) (default [] args) = prefix ->
  run H C cmd args cwd timeout_sec w
  = execute H C (cmd :: default [] args) ap timeout_sec w1
  /\ (exists r w2,
        run H C cmd args cwd timeout_sec w = (Ok r, w2)
        /\ ((exists e, spawn H (cmd :: default [] args) ap timeout_sec (w_fs w1)
                       = SpawnFails e)
            \/ exists rest,
                 w_log w2 = w_log w1 ++ Spawned (cmd :: default [] args) ap :: rest))
  /\ (forall dir name, Str.mem "/" name = false ->
        Posixpath.basename (dir +:+ "/" +:+ name) = name)
  /\ Posixpath.basename "/tmp/anything/bash" = "bash".
Proof.
  intros Hon Hroot Habs Hpol Hkey Hpre.
  assert (Hrun : run H C cmd args cwd timeout_sec w
                 = execute H C (cmd :: default [] args) ap timeout_sec w1).
  { rewrite run_steps, Hon, Hroot, Habs, Hpol, Hkey. cbn [negb].
    now rewrite bool_decide_true by exact Hpre. }
  split; [exact Hrun|]. split; [|split; [exact basename_after_sep|reflexivity]].
  rewrite Hrun. unfold execute.
  destruct (spawn H (cmd :: default [] args) ap timeout_sec (w_fs w1)) as [e| | | |];
    eexists _, _; (split; [reflexivity|]); [left; eauto|right..];
    cbn [w_log]; eauto.
Qed.

Lemma run_executes_cmd_as_given_witness :
  exists r w2,
    run Demo.slow_host Demo.sandbox_config "/tmp/anything/bash"
        (Some ["-lc"; "echo hi"]) "proj/docs" 30 Demo.project_world = (Ok r, w2)
    /\ exists rest,
         w_log w2 = Spawned ["/tmp/anything/bash"; "-lc"; "echo hi"] "/sandbox/proj/docs"
                    :: rest.
Proof.
  destruct (run_executes_cmd_as_given Demo.slow_host Demo.sandbox_config
              "/tmp/anything/bash" (Some ["-lc"; "echo hi"]) "proj/docs" 30
              Demo.project_world Demo.project_world "/sandbox/proj/docs" ["-lc"])
    as (_ & (r & w2 & Hrun & [[e He]|[rest Hlog]]) & _);
    try reflexivity; try (vm_compute; reflexivity).
  - discriminate He.
  - exists r, w2. split; [exact Hrun|]. exists rest. exact Hlog.
Defined.

End RunTool.

(* ===================================================================== *)
(** ** Walking the file system *)
(* ===================================================================== *)

Section Walking.
Import Os Notions.

Lemma node_at_root (fs : filesystem) :
  exists perm mtime, node_at fs [] = Some (Dir perm mtime).
Proof.
  cbn [node_at]. unfold root_of, root_dir.
  destruct (fs !! []) as [[| |]|]; eauto.
Qed.

Lemma node_at_none_below (fs : filesystem) (p : list string) :
  node_at fs p = None -> p <> [].
Proof. now destruct p. Qed.

Lemma root_of_other (fs fs' : filesystem) :
  fs' !! [] = fs !! [] -> root_of fs' = root_of fs.
Proof. unfold root_of. now intros ->. Qed.

Lemma node_at_insert (fs : filesystem) (p q : list string) (n : node) :
  p <> [] ->
  node_at (<[p := n]> fs) q = if decide (p = q) then Some n else node_at fs q.
Proof.
  intros Hp. destruct q as [|x q].
  - destruct (decide (p = [])); [contradiction|].
    cbn [node_at]. f_equal. apply root_of_other. now apply lookup_insert_ne.
  - cbn [node_at]. apply lookup_insert.
Qed.

(** A directory can be put anywhere, also at [/]. *)
Lemma node_at_insert_dir (fs : filesystem) (p q : list string) (perm mtime : Z) :
  node_at (<[p := Dir perm mtime]> fs) q
  = if decide (p = q) then Some (Dir perm mtime) else node_at fs q.
Proof.
  destruct p as [|x p]; [|apply node_at_insert; discriminate].
  destruct q as [|y q].
  - rewrite decide_True by reflexivity. cbn [node_at]. unfold root_of.
    now rewrite lookup_insert_eq.
  - rewrite decide_False by discriminate. cbn [node_at].
    now apply lookup_insert_ne.
Qed.

Lemma node_at_delete (fs : filesystem) (p q : list string) :
  p <> [] ->
  node_at (delete p fs) q = if decide (p = q) then None else node_at fs q.
Proof.
  intros Hp. destruct q as [|x q].
  - destruct (decide (p = [])); [contradiction|].
    cbn [node_at]. f_equal. apply root_of_other. now apply lookup_delete_ne.
  - cbn [node_at]. apply lookup_delete.
Qed.

(** What [touch] does: the directory at [p], if there is one, gets the
    time [now], and nothing else changes. *)
Lemma node_at_touch (now : Z) (p q : list string) (fs : filesystem) :
  node_at (touch now p fs) q
  = if decide (p = q)
    then match node_at fs p with
         | Some (Dir perm _) => Some (Dir perm now)
         | other => other
         end
    else node_at fs q.
Proof.
  unfold touch. destruct (node_at fs p) as [[| |]|] eqn:Hn;
    try (destruct (decide (p = q)) as [<-|]; [exact Hn|reflexivity]).
  rewrite node_at_insert_dir. now destruct (decide (p = q)).
Qed.

Lemma node_at_touch_other (now : Z) (p q : list string) (fs : filesystem) :
  p <> q -> node_at (touch now p fs) q = node_at fs q.
Proof. intros Hne. now rewrite node_at_touch, decide_False. Qed.

Lemma touch_dir (now : Z) (p : list string) (fs : filesystem) (perm mtime : Z) :
  node_at fs p = Some (Dir perm mtime) ->
  node_at (touch now p fs) p = Some (Dir perm now).
Proof. intros Hn. now rewrite node_at_touch, decide_True, Hn. Qed.

(** A directory that has the time [now] keeps it. *)
Lemma touch_keeps (now : Z) (p q : list string) (fs : filesystem) (perm : Z) :
  node_at fs q = Some (Dir perm now) ->
  node_at (touch now p fs) q = Some (Dir perm now).
Proof.
  intros Hn. rewrite node_at_touch.
  destruct (decide (p = q)) as [->|]; [now rewrite Hn|exact Hn].
Qed.

(** What is at [/] is a directory. *)
Lemma not_dir_below (fs : filesystem) (p : list string) (n : node) :
  node_at fs p = Some n -> (forall perm mtime, n <> Dir perm mtime) -> p <> [].
Proof.
  intros Hn Hnd ->. destruct (node_at_root fs) as (perm & mtime & Hr).
  rewrite Hr in Hn. injection Hn as <-. now apply (Hnd perm mtime).
Qed.

Lemma node_at_lookup (fs : filesystem) (p : list string) :
  p <> [] -> node_at fs p = fs !! p.
Proof. now destruct p. Qed.

(** Two file systems with the same entries also agree on [/]. *)
Lemma node_at_same (fs fs' : filesystem) (q : list string) :
  fs' !! q = fs !! q -> node_at fs' q = node_at fs q.
Proof.
  intros Heq. destruct q; [|exact Heq].
  cbn [node_at]. f_equal. now apply root_of_other.
Qed.

Lemma alike_refl (fs : filesystem) : alike fs fs.
Proof. intros k. now destruct (node_at fs k) as [[| |]|]. Qed.

Lemma alike_sym (fs fs' : filesystem) : alike fs fs' -> alike fs' fs.
Proof.
  intros Ha k. specialize (Ha k).
  destruct (node_at fs k) as [[| |]|], (node_at fs' k) as [[| |]|];
    try contradiction; try exact I; congruence.
Qed.

Lemma alike_trans (fs1 fs2 fs3 : filesystem) :
  alike fs1 fs2 -> alike fs2 fs3 -> alike fs1 fs3.
Proof.
  intros H12 H23 k. specialize (H12 k). specialize (H23 k).
  destruct (node_at fs1 k) as [[| |]|], (node_at fs2 k) as [[| |]|],
    (node_at fs3 k) as [[| |]|]; try contradiction; try exact I; congruence.
Qed.

Lemma touch_alike (now : Z) (p : list string) (fs : filesystem) :
  alike fs (touch now p fs).
Proof.
  intros k. rewrite node_at_touch.
  destruct (decide (p = k)) as [<-|];
    now destruct (node_at fs _) as [[| |]|].
Qed.

Lemma walk_nil (fs : filesystem) (b : nat) (f : bool) (cur : list string) :
  walk fs b f cur [] = Found cur.
Proof. destruct b; reflexivity. Qed.

Lemma walk_cons (fs : filesystem) (b : nat) (f : bool) (cur : list string)
    (c : string) (rest : list string) :
  walk fs b f cur (c :: rest) =
    if String.eqb c "." || String.eqb c "" then walk fs b f cur rest
    else if String.eqb c ".." then walk fs b f (removelast cur) rest
    else
      match node_at fs (cur ++ [c]) with
      | None => if is_nil rest then Found (cur ++ [c]) else Failed ENOENT
      | Some (Dir _ _) => walk fs b f (cur ++ [c]) rest
      | Some (File _ _ _) => if is_nil rest then Found (cur ++ [c]) else Failed ENOTDIR
      | Some (Symlink tgt _) =>
          if is_nil rest && negb f then Found (cur ++ [c])
          else
            match b with
            | O => Failed ELOOP
            | S b' =>
                walk fs b' f (if Posixpath.isabs tgt then [] else cur)
                  (Posixpath.parts tgt ++ rest)
            end
      end.
Proof. destruct b; reflexivity. Qed.

Lemma clean_not_special (name : string) :
  Normal.clean name = true ->
  String.eqb name "." = false /\ String.eqb name "" = false
  /\ String.eqb name ".." = false.
Proof.
  intros Hc. apply clean_inv in Hc as (H1 & H2 & H3 & _).
  now rewrite !String.eqb_neq.
Qed.

(** Without following the last component a walk ends on a link, or ends
    where the following walk ends. *)
Lemma walk_nofollow (fs : filesystem) (b : nat) (cur comps : list string) :
  (exists q tgt m, walk fs b false cur comps = Found q
                   /\ node_at fs q = Some (Symlink tgt m))
  \/ walk fs b true cur comps = walk fs b false cur comps.
Proof.
  revert cur comps. induction b as [|b IHb]; intros cur comps; revert cur;
    (induction comps as [|c rest IH]; intros cur;
       [right; now rewrite !walk_nil|]);
    rewrite !walk_cons;
    destruct (String.eqb c "." || String.eqb c ""); try apply IH;
    destruct (String.eqb c ".."); try apply IH;
    destruct (node_at fs (cur ++ [c])) as [[| |tgt m]|] eqn:Hn;
    try (right; reflexivity); try apply IH;
    destruct rest as [|c' rest']; cbn [is_nil andb negb];
    try (right; reflexivity); try (left; eauto; fail);
    try apply IHb.
Qed.

Lemma is_nil_snoc {A} (l : list A) (x : A) : is_nil (l ++ [x]) = false.
Proof. now destruct l. Qed.

(** A walk through a directory and on to a name inside it. *)
Lemma walk_snoc (fs : filesystem) (b : nat) (cur cs p : list string)
    (name : string) (perm mtime : Z) :
  Normal.clean name = true ->
  walk fs b true cur cs = Found p ->
  node_at fs p = Some (Dir perm mtime) ->
  walk fs b false cur (cs ++ [name]) = Found (p ++ [name]).
Proof.
  intros Hname. apply clean_not_special in Hname as (Hd & He & Hdd).
  revert cur cs. induction b as [|b IHb]; intros cur cs; revert cur;
    (induction cs as [|c rest IH]; intros cur;
       [ rewrite walk_nil; intros [= <-] Hp; cbn [List.app];
         rewrite walk_cons, Hd, He, Hdd; cbn [orb];
         destruct (node_at fs (cur ++ [name])) as [[| |]|];
           cbn [is_nil andb negb]; try reflexivity; apply walk_nil
       | ]);
    cbn [List.app]; rewrite !walk_cons, is_nil_snoc;
    destruct (String.eqb c "." || String.eqb c ""); try apply IH;
    destruct (String.eqb c ".."); try apply IH;
    destruct (node_at fs (cur ++ [c])) as [[| |tgt m]|] eqn:Hn;
    try apply IH;
    cbn [andb negb]; rewrite ?andb_false_r;
    try (destruct (is_nil rest); [intros [= <-] Hp; congruence|discriminate]);
    try discriminate.
  rewrite List.app_assoc. apply IHb.
Qed.

(** A walk sees the kinds of the entries and the targets of the links,
    nothing more. *)
Lemma walk_alike (fs fs' : filesystem) (b : nat) (f : bool)
    (cur cs : list string) :
  alike fs fs' -> walk fs' b f cur cs = walk fs b f cur cs.
Proof.
  intros Ha.
  revert cur cs. induction b as [|b IHb]; intros cur cs; revert cur;
    (induction cs as [|c rest IH]; intros cur;
       [now rewrite !walk_nil|]);
    rewrite !walk_cons;
    destruct (String.eqb c "." || String.eqb c ""); try apply IH;
    destruct (String.eqb c ".."); try apply IH;
    pose proof (Ha (cur ++ [c])) as Hk;
    destruct (node_at fs (cur ++ [c])) as [[| |tgt m]|],
      (node_at fs' (cur ++ [c])) as [[| |tgt' m']|];
    try contradiction; try reflexivity; try apply IH;
    subst tgt'; destruct (is_nil rest && negb f); try reflexivity;
    apply IHb.
Qed.

Lemma resolve_alike (fs fs' : filesystem) (cwd : string) (f : bool)
    (path : string) :
  alike fs fs' -> resolve fs' cwd f path = resolve fs cwd f path.
Proof.
  intros Ha. unfold resolve. destruct (Str.is_empty path); [reflexivity|].
  now apply walk_alike.
Qed.

Lemma path_exists_alike (fs fs' : filesystem) (cwd path : string) :
  alike fs fs' -> path_exists fs' cwd path = path_exists fs cwd path.
Proof.
  intros Ha. unfold path_exists, entry. rewrite (resolve_alike fs fs') by exact Ha.
  destruct (resolve fs cwd true path) as [p|]; [|reflexivity].
  specialize (Ha p).
  destruct (node_at fs p) as [[| |]|], (node_at fs' p) as [[| |]|];
    try contradiction; reflexivity.
Qed.

Lemma isdir_alike (fs fs' : filesystem) (cwd path : string) :
  alike fs fs' -> isdir fs' cwd path = isdir fs cwd path.
Proof.
  intros Ha. unfold isdir, entry. rewrite (resolve_alike fs fs') by exact Ha.
  destruct (resolve fs cwd true path) as [p|]; [|reflexivity].
  specialize (Ha p).
  destruct (node_at fs p) as [[| |]|], (node_at fs' p) as [[| |]|];
    try contradiction; reflexivity.
Qed.

Lemma isfile_alike (fs fs' : filesystem) (cwd path : string) :
  alike fs fs' -> isfile fs' cwd path = isfile fs cwd path.
Proof.
  intros Ha. unfold isfile, entry. rewrite (resolve_alike fs fs') by exact Ha.
  destruct (resolve fs cwd true path) as [p|]; [|reflexivity].
  specialize (Ha p).
  destruct (node_at fs p) as [[| |]|], (node_at fs' p) as [[| |]|];
    try contradiction; reflexivity.
Qed.

Lemma islink_alike (fs fs' : filesystem) (cwd path : string) :
  alike fs fs' -> islink fs' cwd path = islink fs cwd path.
Proof.
  intros Ha. unfold islink, entry. rewrite (resolve_alike fs fs') by exact Ha.
  destruct (resolve fs cwd false path) as [p|]; [|reflexivity].
  specialize (Ha p).
  destruct (node_at fs p) as [[| |]|], (node_at fs' p) as [[| |]|];
    try contradiction; reflexivity.
Qed.

Lemma without_tree_lookup (p q : list string) (fs : filesystem) :
  without_tree p fs !! q = if decide (p `prefix_of` q) then None else fs !! q.
Proof.
  unfold without_tree. destruct (decide (p `prefix_of` q)) as [Hpre|Hpre].
  - apply map_lookup_filter_None. right. intros x _ Hno. now apply Hno.
  - apply option_eq. intros x. rewrite map_lookup_filter_Some.
    split; [now intros [Hx _]|intros Hx; split; [exact Hx|exact Hpre]].
Qed.

Lemma node_at_without_tree (p q : list string) (fs : filesystem) :
  p <> [] ->
  node_at (without_tree p fs) q
  = if decide (p `prefix_of` q) then None else node_at fs q.
Proof.
  intros Hp. destruct q as [|x q].
  - destruct (decide (p `prefix_of` [])) as [Hpre|Hpre].
    + apply prefix_nil_inv in Hpre. contradiction.
    + cbn [node_at]. f_equal. apply root_of_other.
      now rewrite without_tree_lookup, decide_False.
  - apply without_tree_lookup.
Qed.

(** After the tree at [p] is gone, a walk ends where it ended before, or
    fails, or ends inside the tree that is gone. *)
Lemma walk_without_tree (fs : filesystem) (p : list string) (b : nat)
    (f : bool) (cur comps : list string) :
  p <> [] ->
  walk (without_tree p fs) b f cur comps = walk fs b f cur comps
  \/ (exists e, walk (without_tree p fs) b f cur comps = Failed e)
  \/ (exists q, walk (without_tree p fs) b f cur comps = Found q
                /\ p `prefix_of` q).
Proof.
  intros Hp.
  revert cur comps. induction b as [|b IHb]; intros cur comps; revert cur;
    (induction comps as [|c rest IH]; intros cur;
       [left; now rewrite !walk_nil|]);
    rewrite !walk_cons;
    destruct (String.eqb c "." || String.eqb c ""); try apply IH;
    destruct (String.eqb c ".."); try apply IH;
    rewrite (node_at_without_tree p (cur ++ [c]) fs Hp);
    (destruct (decide (p `prefix_of` cur ++ [c])) as [Hpre|Hpre];
       [ destruct rest; cbn [is_nil]; [right; right; eauto|right; left; eauto]
       | ]);
    destruct (node_at fs (cur ++ [c])) as [[| |tgt m]|];
    try (left; reflexivity); try apply IH;
    destruct (is_nil rest && negb f); try (left; reflexivity);
    try apply IHb.
Qed.

(** What [isdir(p) and not islink(p)] tells: [p] names a directory entry
    itself, seen the same with and without following links. *)
Lemma real_dir_entry (fs : filesystem) (cwd path : string) :
  isdir fs cwd path = true -> islink fs cwd path = false ->
  exists p perm mtime,
    resolve fs cwd true path = Found p
    /\ resolve fs cwd false path = Found p
    /\ node_at fs p = Some (Dir perm mtime).
Proof.
  unfold isdir, islink, entry, resolve.
  destruct (Str.is_empty path); [discriminate|].
  set (start := if Posixpath.isabs path then [] else Posixpath.parts cwd).
  destruct (walk_nofollow fs symloop_max start (Posixpath.parts path))
    as [(q & tgt & m & Hq & Hnode)|Hsame].
  - rewrite Hq, Hnode. discriminate.
  - rewrite <- Hsame.
    destruct (walk fs symloop_max true start (Posixpath.parts path)) as [p|];
      [|discriminate].
    destruct (node_at fs p) as [[| |]|] eqn:Hn; try discriminate.
    intros _ _. now exists p, perm, mtime.
Qed.

Lemma removelast_shorter {A} (p : list A) : p <> [] -> removelast p <> p.
Proof.
  intros Hp Heq. apply (f_equal (@List.length A)) in Heq.
  destruct (List.exists_last Hp) as (l & a & ->).
  rewrite List.removelast_last, List.length_app in Heq. cbn in Heq. lia.
Qed.

Lemma removelast_not_below (p : list string) :
  p <> [] -> ~ p `prefix_of` removelast p.
Proof.
  intros Hp [k Hk]. apply (f_equal (@List.length string)) in Hk.
  destruct (List.exists_last Hp) as (l & a & ->).
  rewrite List.removelast_last, !List.length_app in Hk. cbn in Hk. lia.
Qed.

(** Once the tree at the real path of [path] is gone, [path] names
    nothing. *)
Lemma gone_after_rmtree (fs : filesystem) (cwd path : string) (p : list string) :
  p <> [] ->
  resolve fs cwd true path = Found p ->
  path_exists (without_tree p fs) cwd path = false.
Proof.
  intros Hp. unfold path_exists, entry, resolve.
  destruct (Str.is_empty path); [reflexivity|].
  set (start := if Posixpath.isabs path then [] else Posixpath.parts cwd).
  intros Hwalk.
  destruct (walk_without_tree fs p symloop_max true start (Posixpath.parts path) Hp)
    as [Hsame|[[e He]|(q & Hq & Hpre)]].
  - rewrite Hsame, Hwalk, node_at_without_tree by exact Hp.
    now rewrite decide_True by reflexivity.
  - now rewrite He.
  - rewrite Hq, node_at_without_tree by exact Hp.
    now rewrite decide_True by exact Hpre.
Qed.

End Walking.

(* ===================================================================== *)
(** ** What the host calls can and cannot do *)
(* ===================================================================== *)

Section HostCalls.
Import Os Server Notions.

Lemma os_error_not_permission (e : errno) (path : string) :
  is_permission_error (os_error e path) = false.
Proof. now destruct e. Qed.

Ltac not_permission :=
  first [reflexivity | apply os_error_not_permission | discriminate].

Lemma makes_dirs_refl (now perm : Z) (fs : filesystem) : makes_dirs now perm fs fs.
Proof. intros k. now left. Qed.

Lemma makes_dirs_trans (now perm : Z) (fs1 fs2 fs3 : filesystem) :
  makes_dirs now perm fs1 fs2 -> makes_dirs now perm fs2 fs3 ->
  makes_dirs now perm fs1 fs3.
Proof.
  intros H12 H23 k.
  destruct (H12 k) as [E1|[[N1 D1]|(p & m & O1 & D1)]],
    (H23 k) as [E2|[[N2 D2]|(p' & m' & O2 & D2)]].
  - left. congruence.
  - right. left. split; congruence.
  - right. right. exists p', m'. split; congruence.
  - right. left. split; congruence.
  - congruence.
  - right. left. split; [exact N1|]. rewrite D1 in O2. now injection O2 as <- <-.
  - right. right. exists p, m. split; congruence.
  - congruence.
  - right. right. exists p, m. split; [exact O1|].
    rewrite D1 in O2. now injection O2 as <- <-.
Qed.

(** [os.mkdir] makes one directory and sets the time of the directory that
    receives it. *)
Lemma mkdir_makes (fs fs' : filesystem) (cwd : string) (perm now : Z)
    (path : string) (r : outcome unit) :
  Os.mkdir fs cwd perm now path = (r, fs') -> makes_dirs now perm fs fs'.
Proof.
  unfold Os.mkdir. destruct (resolve fs cwd false path) as [p|e];
    [|intros [= _ <-]; apply makes_dirs_refl].
  destruct (node_at fs p) eqn:Hn; intros [= _ <-]; [apply makes_dirs_refl|].
  pose proof (node_at_none_below fs p Hn) as Hp.
  pose proof (removelast_shorter p Hp) as Hpar.
  intros k. rewrite node_at_touch, !node_at_insert by exact Hp.
  destruct (decide (p = removelast p)) as [Heq|_]; [congruence|].
  destruct (decide (removelast p = k)) as [<-|Hk].
  - destruct (node_at fs (removelast p)) as [[|q m|]|] eqn:Hq;
      try (now left).
    right. right. now exists q, m.
  - destruct (decide (p = k)) as [<-|]; [|now left].
    right. left. now split.
Qed.

Lemma mkdir_raises (fs fs' : filesystem) (cwd : string) (perm now : Z)
    (path : string) (e : exn) :
  Os.mkdir fs cwd perm now path = (Raise e, fs') ->
  is_permission_error e = false.
Proof.
  unfold Os.mkdir. destruct (resolve fs cwd false path) as [p|e0].
  - destruct (node_at fs p); [|discriminate].
    intros [= <- _]. not_permission.
  - intros [= <- _]. not_permission.
Qed.

Lemma mkdir_leaf_spec (cwd : string) (perm now : Z) (exist_ok : bool)
    (name : string) (fs fs' : filesystem) (r : outcome unit) :
  mkdir_leaf cwd perm now exist_ok name fs = (r, fs') ->
  makes_dirs now perm fs fs'
  /\ (forall e, r = Raise e -> is_permission_error e = false).
Proof.
  unfold mkdir_leaf.
  destruct (Os.mkdir fs cwd perm now name) as [[[]|e0] fs2] eqn:Hmk.
  - intros [= <- <-]. split; [now apply mkdir_makes in Hmk|discriminate].
  - destruct (_ || _); intros [= <- <-];
      (split; [now apply mkdir_makes in Hmk|]); [|discriminate].
    intros e [= <-]. now apply mkdir_raises in Hmk.
Qed.

Lemma makedirs_go_spec (fuel : nat) (cwd : string) (perm now : Z)
    (exist_ok : bool) (name : string) (fs fs' : filesystem) (r : outcome unit) :
  makedirs_go fuel cwd perm now exist_ok name fs = (r, fs') ->
  makes_dirs now perm fs fs'
  /\ (forall e, r = Raise e -> is_permission_error e = false).
Proof.
  revert name fs fs' r. induction fuel as [|fuel IH]; intros name fs fs' r;
    cbn [makedirs_go];
    destruct (Posixpath.split name) as [head0 tail0];
    destruct (if Str.is_empty tail0 then Posixpath.split head0 else (head0, tail0))
      as [head tail];
    destruct (negb (Str.is_empty head) && negb (Str.is_empty tail)
              && negb (path_exists fs cwd head)); try apply mkdir_leaf_spec.
  - intros [= <- <-]. split; [apply makes_dirs_refl|now intros e [= <-]].
  - destruct (makedirs_go fuel cwd perm now exist_ok head fs) as [r1 fs1] eqn:Hrec.
    apply IH in Hrec as [Hsub Hperm].
    assert (Hgo : (if String.eqb tail "." then (Ok tt, fs1)
                   else mkdir_leaf cwd perm now exist_ok name fs1) = (r, fs') ->
            makes_dirs now perm fs fs'
            /\ (forall e, r = Raise e -> is_permission_error e = false)).
    { destruct (String.eqb tail ".").
      - intros [= <- <-]. split; [exact Hsub|discriminate].
      - intros Hfin. apply mkdir_leaf_spec in Hfin as [Hsub' Hperm'].
        split; [now apply (makes_dirs_trans now perm fs fs1)|exact Hperm']. }
    destruct r1 as [[]|e1]; [exact Hgo|].
    destruct e1; try exact Hgo;
      intros [= <- <-]; (split; [exact Hsub|]); intros e [= <-]; now apply Hperm.
Qed.

(** [ensure_root] only makes directories, starts no process, and never
    raises a [PermissionError]. *)
Lemma ensure_root_spec (H : host) (C : config) (w w1 : world) (r : outcome unit) :
  ensure_root H C w = (r, w1) ->
  makes_dirs (now H) (dir_perm H) (w_fs w) (w_fs w1) /\ w_log w1 = w_log w
  /\ (forall e, r = Raise e -> is_permission_error e = false).
Proof.
  unfold ensure_root, acting, makedirs.
  destruct (makedirs_go _ _ _ _ _ _ _) as [r0 fs'] eqn:Hmk.
  intros [= <- <-]. apply makedirs_go_spec in Hmk as [Hsub Hperm].
  now repeat split.
Qed.

Ltac split_matches :=
  repeat match goal with
         | |- context [match ?x with _ => _ end] => destruct x
         end.

Ltac raises_no_permission :=
  split_matches; intros Heq; inversion Heq; subst; not_permission.

Lemma remove_raises (fs fs' : filesystem) (cwd : string) (now : Z)
    (path : string) (e : exn) :
  remove fs cwd now path = (Raise e, fs') -> is_permission_error e = false.
Proof. unfold remove. raises_no_permission. Qed.

Lemma rmtree_raises (fs fs' : filesystem) (cwd : string) (now : Z)
    (path : string) (e : exn) :
  rmtree fs cwd now path = (Raise e, fs') -> is_permission_error e = false.
Proof. unfold rmtree. raises_no_permission. Qed.

Lemma rename_raises (fs fs' : filesystem) (cwd : string) (now : Z)
    (src dst : string) (e : exn) :
  rename fs cwd now src dst = (Raise e, fs') -> is_permission_error e = false.
Proof. unfold rename. raises_no_permission. Qed.

Lemma move_to_raises (fs fs' : filesystem) (cwd : string) (now : Z)
    (src dst real_dst : string) (e : exn) :
  move_to fs cwd now src dst real_dst = (Raise e, fs') ->
  is_permission_error e = false.
Proof.
  unfold move_to.
  destruct (rename fs cwd now src real_dst) as [[[]|e0] fs0] eqn:Hren; [discriminate|].
  apply rename_raises in Hren.
  destruct (_ && _); intros [= <- _]; [reflexivity|exact Hren].
Qed.

Lemma move_raises (fs fs' : filesystem) (cwd : string) (now : Z)
    (src dst : string) (e : exn) :
  move fs cwd now src dst = (Raise e, fs') -> is_permission_error e = false.
Proof.
  unfold move.
  destruct (isdir fs cwd dst); [|apply move_to_raises].
  destruct (_ && _); [apply rename_raises|].
  destruct (path_exists fs cwd _); [now intros [= <- _]|apply move_to_raises].
Qed.

Lemma write_file_raises (fs fs' : filesystem) (cwd : string) (perm now : Z)
    (codec_of : string -> option codec) (path encoding content : string) (e : exn) :
  write_file fs cwd perm now codec_of path encoding content = (Raise e, fs') ->
  is_permission_error e = false.
Proof. unfold write_file. raises_no_permission. Qed.

Lemma read_file_raises (fs : filesystem) (cwd : string)
    (codec_of : string -> option codec) (path encoding : string) (e : exn) :
  read_file fs cwd codec_of path encoding = Raise e ->
  is_permission_error e = false.
Proof. unfold read_file. raises_no_permission. Qed.

Lemma lstat_raises (dsz : filesystem -> list string -> Z) (fs : filesystem)
    (cwd path : string) (e : exn) :
  lstat dsz fs cwd path = Raise e -> is_permission_error e = false.
Proof. unfold lstat. raises_no_permission. Qed.

Lemma listdir_raises (fs : filesystem) (cwd path : string) (e : exn) :
  listdir fs cwd path = Raise e -> is_permission_error e = false.
Proof. unfold listdir. raises_no_permission. Qed.

Lemma list_loop_raises (H : host) (C : config) (fs : filesystem)
    (ap glob_pattern : string) (include_hidden : bool) (names : list string)
    (out : list pyval) (e : exn) :
  list_loop H C fs ap glob_pattern include_hidden names out = Raise e ->
  is_permission_error e = false.
Proof.
  revert out. induction names as [|name names IH]; intros out; [discriminate|].
  cbn [list_loop].
  destruct (_ && _); [apply IH|].
  destruct (negb _); [apply IH|].
  destruct (obind _ _) as [st|[]]; try apply IH; now intros [= <-].
Qed.

End HostCalls.

(* ===================================================================== *)
(** ** [makedirs] has fuel enough *)
(* ===================================================================== *)

Section Fuel.
Import Os.

Lemma take_drop_length (n : nat) (s : string) :
  (String.length (Str.take n s) + String.length (Str.drop n s))%nat
  = String.length s.
Proof.
  revert s. induction n as [|n IH]; intros [|a s]; simpl; try reflexivity.
  now rewrite IH.
Qed.

Lemma rstrip_length (c : ascii) (s : string) :
  (String.length (Str.rstrip_char c s) <= String.length s)%nat.
Proof.
  induction s as [|a s IH]; simpl; [lia|].
  destruct (Str.rstrip_char c s); [destruct (Ascii.eqb a c)|]; simpl in *; lia.
Qed.

(** [os.path.split] cuts a path in two without adding to it. *)
Lemma split_lengths (p head tail : string) :
  Posixpath.split p = (head, tail) ->
  (String.length head + String.length tail <= String.length p)%nat.
Proof.
  unfold Posixpath.split, Str.slice_from. intros [= <- <-].
  pose proof (take_drop_length (Z.to_nat (Str.rfind Str.sep p + 1)) p) as Hlen.
  destruct (_ && _); [|lia].
  pose proof (rstrip_length Str.sep (Str.take (Z.to_nat (Str.rfind Str.sep p + 1)) p)).
  lia.
Qed.

Lemma head_shorter (name head0 tail0 head tail : string) :
  Posixpath.split name = (head0, tail0) ->
  (if Str.is_empty tail0 then Posixpath.split head0 else (head0, tail0))
  = (head, tail) ->
  Str.is_empty tail = false ->
  (String.length head < String.length name)%nat.
Proof.
  intros Hs Hs' Hne. apply split_lengths in Hs.
  assert (Hpos : (0 < String.length tail)%nat)
    by (destruct tail; [discriminate|simpl; lia]).
  destruct (Str.is_empty tail0).
  - apply split_lengths in Hs'. lia.
  - injection Hs' as <- <-. lia.
Qed.

(** With as much fuel as the path is long, [makedirs] never runs out: more
    fuel changes nothing. *)
Lemma makedirs_fuel (fuel fuel' : nat) (cwd : string) (perm now : Z)
    (exist_ok : bool) (name : string) (fs : filesystem) :
  (String.length name <= fuel)%nat -> (String.length name <= fuel')%nat ->
  makedirs_go fuel cwd perm now exist_ok name fs
  = makedirs_go fuel' cwd perm now exist_ok name fs.
Proof.
  revert fuel' name fs.
  induction fuel as [|fuel IH]; intros [|fuel'] name fs Hf Hf'; try reflexivity;
    cbn [makedirs_go];
    destruct (Posixpath.split name) as [head0 tail0] eqn:Hs;
    destruct (if Str.is_empty tail0 then Posixpath.split head0 else (head0, tail0))
      as [head tail] eqn:Hs';
    destruct (Str.is_empty tail) eqn:Hne;
    rewrite ?andb_false_r; cbn [negb andb]; try reflexivity;
    pose proof (head_shorter _ _ _ _ _ Hs Hs' Hne) as Hlt;
    try lia.
  destruct (negb (Str.is_empty head) && true && negb (path_exists fs cwd head));
    [|reflexivity].
  rewrite (IH fuel' head fs) by lia. reflexivity.
Qed.

End Fuel.

(* ===================================================================== *)
(** ** Boundary failures and the state *)
(* ===================================================================== *)

Section Boundary.
Import Os Server Registry.

Lemma bind_raise_inv {A B} (m : M A) (k : A -> M B) (w w' : world) (e : exn) :
  bind m k w = (Raise e, w') ->
  m w = (Raise e, w') \/ exists a w1, m w = (Ok a, w1) /\ k a w1 = (Raise e, w').
Proof.
  unfold bind. destruct (m w) as [[a|e0] w1].
  - intros Hk. right. now exists a, w1.
  - intros [= <- <-]. now left.
Qed.

Lemma never_denies_bind {A B} (m : M A) (k : A -> M B) :
  never_denies m -> (forall a, never_denies (k a)) -> never_denies (bind m k).
Proof.
  intros Hm Hk w e w' Hb.
  apply bind_raise_inv in Hb as [Hb|(a & w1 & _ & Hb)]; [now apply Hm in Hb|].
  now apply Hk in Hb.
Qed.

Lemma never_denies_ret {A} (a : A) : never_denies (ret a).
Proof. intros w e w'. discriminate. Qed.

Lemma never_denies_reading {A} (f : filesystem -> A) : never_denies (reading f).
Proof. intros w e w'. discriminate. Qed.

Lemma never_denies_raise {A} (e : exn) :
  is_permission_error e = false -> never_denies (@raise A e).
Proof. intros He w e' w'. now intros [= <- _]. Qed.

Lemma never_denies_acting {A} (f : filesystem -> outcome A * filesystem) :
  (forall fs e fs', f fs = (Raise e, fs') -> is_permission_error e = false) ->
  never_denies (acting f).
Proof.
  intros Hf w e w'. unfold acting.
  destruct (f (w_fs w)) as [r fs'] eqn:Hfw. intros [= -> _].
  now apply Hf in Hfw.
Qed.

Lemma never_denies_pure {A} (f : world -> outcome A) :
  (forall w e, f w = Raise e -> is_permission_error e = false) ->
  never_denies (fun w => (f w, w)).
Proof. intros Hf w e w'. intros [= Hr _]. now apply Hf in Hr. Qed.

Lemma makedirs_raises (fs fs' : filesystem) (cwd : string) (perm now : Z)
    (exist_ok : bool) (name : string) (e : exn) :
  makedirs fs cwd perm now exist_ok name = (Raise e, fs') ->
  is_permission_error e = false.
Proof.
  unfold makedirs. intros Hmk. apply makedirs_go_spec in Hmk as [_ Hperm].
  now apply Hperm.
Qed.

Lemma never_denies_outcome {A} (o : outcome A) :
  (forall e, o = Raise e -> is_permission_error e = false) ->
  never_denies (pure o).
Proof. intros Ho w e w'. intros [= Hr _]. now apply Ho in Hr. Qed.

Lemma encoded_length_raises (H : host) (encoding content : string) (e : exn) :
  encoded_length H encoding content = Raise e -> is_permission_error e = false.
Proof.
  unfold encoded_length. destruct (codec_of H encoding) as [c|];
    [destruct (encode c content)|]; now intros [= <-].
Qed.

Ltac never_denies_step :=
  first
    [ apply never_denies_ret
    | apply never_denies_reading
    | apply never_denies_raise; reflexivity
    | apply never_denies_acting; intros ? ? ?;
      first [ apply makedirs_raises | apply mkdir_raises | apply remove_raises
            | apply rmtree_raises | apply move_raises | apply write_file_raises ]
    | apply never_denies_outcome; intros ?; apply encoded_length_raises
    | apply never_denies_pure; intros ? ?;
      first [ apply lstat_raises | apply listdir_raises | apply read_file_raises
            | apply list_loop_raises ]
    | apply never_denies_bind; [|intros ?]
    | match goal with
      | |- never_denies (if ?b then _ else _) => destruct b
      end ].

Ltac never_denies_tac := repeat never_denies_step.

(** The three checks at the head of a tool: what raises a
    [PermissionError] there is [_abs] or [_policy], after [ensure_root] has
    returned. *)
Lemma guarded_raises (H : host) (C : config) {A} (path : string)
    (tail : string -> M A) (w w' : world) (e : exn) :
  (forall ap, never_denies (tail ap)) ->
  bind (ensure_root H C)
    (fun _ => bind (pure (_abs H C path))
       (fun ap => bind (pure (_policy H C ap)) (fun _ => tail ap))) w
  = (Raise e, w') ->
  is_permission_error e = true ->
  ensure_root H C w = (Ok tt, w')
  /\ (_abs H C path = Raise e
      \/ exists ap, _abs H C path = Ok ap /\ _policy H C ap = Raise e).
Proof.
  intros Htail Hrun Hperm.
  apply bind_raise_inv in Hrun as [Hrun|([] & w1 & Hroot & Hrun)].
  { apply ensure_root_spec in Hrun as (_ & _ & Hno).
    rewrite (Hno e eq_refl) in Hperm. discriminate. }
  apply bind_raise_inv in Hrun as [Hrun|(ap & w2 & Habs & Hrun)].
  { injection Hrun as Habs <-. split; [exact Hroot|now left]. }
  injection Habs as Habs <-.
  apply bind_raise_inv in Hrun as [Hrun|([] & w3 & Hpol & Hrun)].
  { injection Hrun as Hpol <-. split; [exact Hroot|right; eauto]. }
  apply Htail in Hrun. congruence.
Qed.

Lemma boundary_is_permission (e : exn) :
  boundary_violation e -> is_permission_error e = true.
Proof.
  intros [->|[[->|[pat ->]]|[->|[[base ->]|(prefix & base & ->)]]]]; reflexivity.
Qed.

Lemma tool_raises (H : host) (C : config) (c : call) (w w' : world) (e : exn) :
  perform H C c w = (Raise e, w') ->
  is_permission_error e = true ->
  (ENABLE_RUN_COMMANDS C = false /\ e = FeatureDisabled /\ w' = w)
  \/ ensure_root H C w = (Ok tt, w').
Proof.
  intros Hrun Hperm. destruct c; cbn [perform] in Hrun.
  - (* list_dir *)
    unfold list_dir in Hrun.
    apply bind_raise_inv in Hrun as [Hrun|([] & w1 & Hroot & Hrun)].
    { apply ensure_root_spec in Hrun as (_ & _ & Hno).
      rewrite (Hno e eq_refl) in Hperm. discriminate. }
    apply bind_raise_inv in Hrun as [Hrun|(ap & w2 & Habs & Hrun)].
    { injection Hrun as _ <-. now right. }
    injection Habs as _ <-.
    assert (Htail : never_denies
      (bind (reading (fun fs => isdir fs (getcwd H) ap))
         (fun is_dir =>
            if negb is_dir then raise (FileNotFoundError "Not a directory")
            else
              bind (fun w => (listdir (w_fs w) (getcwd H) ap, w))
                (fun names =>
                   bind (fun w => (list_loop H C (w_fs w) ap glob_pattern
                                     include_hidden (sorted names) [], w))
                     (fun out => ret (VDict [("path", relative H C ap);
                                             ("entries", VList out)]))))))
      by never_denies_tac.
    apply Htail in Hrun. congruence.
  - unfold read_text in Hrun. apply guarded_raises in Hrun as [Hroot _];
      [now right|intros ap; never_denies_tac|exact Hperm].
  - unfold write_text in Hrun. apply guarded_raises in Hrun as [Hroot _];
      [now right|intros ap; never_denies_tac|exact Hperm].
  - unfold Server.mkdir in Hrun. apply guarded_raises in Hrun as [Hroot _];
      [now right|intros ap; never_denies_tac|exact Hperm].
  - (* mv *)
    unfold mv in Hrun.
    apply bind_raise_inv in Hrun as [Hrun|([] & w1 & Hroot & Hrun)].
    { apply ensure_root_spec in Hrun as (_ & _ & Hno).
      rewrite (Hno e eq_refl) in Hperm. discriminate. }
    apply bind_raise_inv in Hrun as [Hrun|(aps & w2 & Habs & Hrun)].
    { injection Hrun as _ <-. now right. }
    injection Habs as _ <-.
    apply bind_raise_inv in Hrun as [Hrun|([] & w3 & Hpol & Hrun)].
    { injection Hrun as _ <-. now right. }
    injection Hpol as _ <-.
    apply bind_raise_inv in Hrun as [Hrun|(apd & w4 & Habs & Hrun)].
    { injection Hrun as _ <-. now right. }
    injection Habs as _ <-.
    apply bind_raise_inv in Hrun as [Hrun|([] & w5 & Hpol & Hrun)].
    { injection Hrun as _ <-. now right. }
    injection Hpol as _ <-.
    revert Hrun. generalize w1 at 1. intros w0 Hrun.
    assert (Htail : forall (m : M pyval), m w0 = (Raise e, w') ->
              never_denies m -> False).
    { intros m Hm Hnd. apply Hnd in Hm. congruence. }
    exfalso. eapply Htail; [exact Hrun|]. never_denies_tac.
  - unfold rm in Hrun. apply guarded_raises in Hrun as [Hroot _];
      [now right|intros ap; never_denies_tac|exact Hperm].
  - unfold stat in Hrun. apply guarded_raises in Hrun as [Hroot _];
      [now right|intros ap; never_denies_tac|exact Hperm].
  - (* run *)
    rewrite run_steps in Hrun.
    destruct (ENABLE_RUN_COMMANDS C); cbn [negb] in Hrun;
      [|injection Hrun as <- <-; now left].
    destruct (ensure_root H C w) as [[[]|e0] w1] eqn:Hroot.
    2:{ injection Hrun as <- <-. apply ensure_root_spec in Hroot as (_ & _ & Hno).
        rewrite (Hno e0 eq_refl) in Hperm. discriminate. }
    destruct (_abs H C cwd) as [ap|e1]; [|injection Hrun as _ <-; now right].
    destruct (_policy H C ap) as [[]|e1]; [|injection Hrun as _ <-; now right].
    destruct (COMMAND_ALLOWLIST C !! Posixpath.basename cmd) as [prefix|];
      [|injection Hrun as _ <-; now right].
    destruct (bool_decide _); [|injection Hrun as _ <-; now right].
    destruct (execute_returns H C (cmd :: default [] args) ap timeout_sec w1)
      as (r & w2 & Hex).
    rewrite Hex in Hrun. discriminate.
Qed.

End Boundary.

(* ===================================================================== *)
(** ** Removing a directory *)
(* ===================================================================== *)

Section Removing.
Import Os Server.

Lemma abs_parts_clean (H : host) (C : config) (path ap : string) :
  Posixpath.isabs (getcwd H) = true ->
  _abs H C path = Ok ap ->
  forallb Normal.clean (Posixpath.parts ap) = true
  /\ Posixpath.isabs ap = true.
Proof.
  intros Hcwd Habs. split; [|now apply abs_isabs in Habs].
  unfold _abs in Habs. cbv zeta in Habs.
  destruct (negb _) in Habs; [discriminate|]. injection Habs as <-.
  match goal with
  | |- context [Posixpath.abspath ?c ?x] =>
      destruct (abspath_canon c x Hcwd) as (k & cs & Hk & Hall & ->)
  end.
  now rewrite parts_canon.
Qed.

(** A walk that does not follow its last component, a clean name, ends
    below the root of the file system. *)
Lemma walk_ends_below (fs : filesystem) (b : nat) (cur cs p : list string)
    (c : string) :
  Normal.clean c = true ->
  walk fs b false cur (cs ++ [c]) = Found p -> p <> [].
Proof.
  intros Hc. apply clean_not_special in Hc as (Hd & He & Hdd).
  assert (Hsnoc : forall l : list string, l ++ [c] <> [])
    by (intros [|? ?]; discriminate).
  revert cur cs. induction b as [|b IHb]; intros cur cs; revert cur;
    (induction cs as [|x rest IH]; intros cur;
       [ cbn [List.app]; rewrite walk_cons, Hd, He, Hdd; cbn [orb];
         destruct (node_at fs (cur ++ [c])) as [[| |]|];
           cbn [is_nil andb negb]; rewrite ?walk_nil;
           intros [= <-]; apply Hsnoc
       | ]);
    cbn [List.app]; rewrite walk_cons, is_nil_snoc;
    destruct (String.eqb x "." || String.eqb x ""); try apply IH;
    destruct (String.eqb x ".."); try apply IH;
    destruct (node_at fs (cur ++ [x])) as [[| |tgt m]|];
    try apply IH; cbn [andb]; try discriminate.
  rewrite List.app_assoc. apply IHb.
Qed.

Lemma resolve_ends_below (fs : filesystem) (cwd path : string) (p : list string) :
  forallb Normal.clean (Posixpath.parts path) = true ->
  Posixpath.parts path <> [] ->
  resolve fs cwd false path = Found p -> p <> [].
Proof.
  intros Hall Hne. unfold resolve. destruct (Str.is_empty path); [discriminate|].
  destruct (@exists_last _ (Posixpath.parts path) Hne) as (cs & c & Heq).
  rewrite Heq in *. rewrite forallb_app in Hall.
  apply andb_true_iff in Hall as [_ Hc]. simpl in Hc. rewrite andb_true_r in Hc.
  now apply walk_ends_below.
Qed.

(** C7, as the claim has it, fails: a directory with a file in it, at a
    path that the policy denies, is refused with the policy error whether
    [recursive] is set or not, and stays. *)
Lemma rm_denied_path_counterexample :
  isdir Demo.project_fs "/home/user" "/sandbox/proj/.git/hooks" = true
  /\ children Demo.project_fs ["sandbox"; "proj"; ".git"; "hooks"] = ["pre-commit"]
  /\ rm Demo.slow_host Demo.sandbox_config "proj/.git/hooks" false Demo.project_world
     = (Raise (DeniedBy "**/.git/**"), Demo.project_world)
  /\ rm Demo.slow_host Demo.sandbox_config "proj/.git/hooks" true Demo.project_world
     = (Raise (DeniedBy "**/.git/**"), Demo.project_world)
  /\ (forall msg, DeniedBy "**/.git/**" <> IsADirectoryError msg).
Proof.
  split; [vm_compute; reflexivity|]. split; [vm_compute; reflexivity|].
  split; [vm_compute; reflexivity|]. split; [vm_compute; reflexivity|].
  discriminate.
Qed.

End Removing.

(* ===================================================================== *)
(** ** Listing a directory *)
(* ===================================================================== *)

Section Listing.
Import Os Server.

Lemma well_named_lookup (fs : filesystem) (k : list string) (n : node) :
  well_named fs = true -> fs !! k = Some n -> forallb Normal.clean k = true.
Proof.
  unfold well_named. rewrite forallb_forall. intros Hall Hk.
  apply (Hall (k, n)). apply list_elem_of_In. now apply elem_of_map_to_list.
Qed.

(** A name that [os.listdir] reports is the name of an entry. *)
Lemma children_lookup (fs : filesystem) (p : list string) (name : string) :
  List.In name (children fs p) -> exists n, fs !! (p ++ [name]) = Some n.
Proof.
  unfold children. rewrite <- list_elem_of_In, list_elem_of_omap.
  intros ([k n] & Hin & Hf). apply elem_of_map_to_list in Hin.
  cbn [fst] in Hf. destruct (List.rev k) as [|x rparent] eqn:Hrev; [discriminate|].
  destruct (bool_decide (List.rev rparent = p)) eqn:Hp; [|discriminate].
  injection Hf as ->. apply bool_decide_eq_true in Hp. subst p.
  exists n. rewrite <- Hin. f_equal.
  rewrite <- (List.rev_involutive k), Hrev. reflexivity.
Qed.

Lemma node_at_snoc (fs : filesystem) (p : list string) (name : string) :
  node_at fs (p ++ [name]) = fs !! (p ++ [name]).
Proof. unfold node_at. now destruct p. Qed.

(** An entry reported for a directory can be examined with [lstat]. *)
Lemma lstat_child (dsz : filesystem -> list string -> Z) (fs : filesystem)
    (cwd ap name : string) (p : list string) (perm mtime : Z) (n : node) :
  Posixpath.isabs ap = true ->
  Normal.clean name = true ->
  resolve fs cwd true ap = Found p ->
  node_at fs p = Some (Dir perm mtime) ->
  fs !! (p ++ [name]) = Some n ->
  lstat dsz fs cwd (Posixpath.join ap [name])
  = Ok (stat_of (dsz fs (p ++ [name])) n).
Proof.
  intros Habs Hc Hres Hdir Hn.
  cbn [Posixpath.join fold_left].
  unfold lstat, entry, resolve in *.
  pose proof (join2_isabs ap name Habs) as Habs'.
  destruct (startswith_slash _ Habs') as [r Hr].
  rewrite Hr at 1. cbn [Str.is_empty]. rewrite Habs', parts_join2 by exact Hc.
  destruct (Str.is_empty ap); [discriminate|]. rewrite Habs in Hres.
  rewrite (walk_snoc _ _ _ _ _ _ _ _ Hc Hres Hdir), node_at_snoc, Hn.
  reflexivity.
Qed.

Lemma in_insert_sorted (x y : string) (l : list string) :
  List.In y (insert_sorted x l) -> y = x \/ List.In y l.
Proof.
  induction l as [|z l IH]; simpl; [intros [->|[]]; now left|].
  destruct (String.leb x z); simpl.
  - intros [->|Hy]; [now left|now right].
  - intros [->|Hy]; [right; now left|]. destruct (IH Hy); [now left|right; now right].
Qed.

Lemma in_sorted (y : string) (l : list string) :
  List.In y (sorted l) -> List.In y l.
Proof.
  induction l as [|x l IH]; [trivial|]. simpl. intros Hy.
  apply in_insert_sorted in Hy as [->|Hy]; [now left|right; now apply IH].
Qed.

Lemma policy_raises_permission (H : host) (C : config) (ap : string) (e : exn) :
  _policy H C ap = Raise e -> exists msg, e = PermissionError msg.
Proof.
  intros Hp. apply policy_raises in Hp as [->|[pat ->]]; eauto.
Qed.

(** The loop of [list_dir]: the entries it collects are those of the names
    that are visible and pass the policy check, in order; a name the policy
    denies is skipped and the loop goes on. *)
Lemma list_loop_spec (H : host) (C : config) (fs : filesystem)
    (ap glob_pattern : string) (include_hidden : bool) (names : list string)
    (out : list pyval) :
  (forall n, List.In n names ->
     exists st, lstat (dirsize H) fs (getcwd H) (Posixpath.join ap [n]) = Ok st) ->
  exists entries,
    list_loop H C fs ap glob_pattern include_hidden names out = Ok (out ++ entries)
    /\ Forall2
         (fun n d => exists st,
            lstat (dirsize H) fs (getcwd H) (Posixpath.join ap [n]) = Ok st
            /\ d = entry_dict H fs n (Posixpath.join ap [n]) st)
         (List.filter (fun n => visible include_hidden glob_pattern n
                                && permitted H C ap n) names)
         entries.
Proof.
  revert out. induction names as [|name names IH]; intros out Hstat.
  - exists []. split; [now rewrite List.app_nil_r|constructor].
  - assert (Hrest : forall n, List.In n names ->
              exists st, lstat (dirsize H) fs (getcwd H) (Posixpath.join ap [n]) = Ok st)
      by (intros n Hn; apply Hstat; now right).
    cbn [list_loop List.filter]. unfold visible, permitted.
    destruct (negb include_hidden && Str.startswith name "."); cbn [negb andb];
      [now apply IH|].
    destruct (Fnmatch.fnmatch name glob_pattern); cbn [negb];
      [|now apply IH].
    destruct (_policy H C (Posixpath.join ap [name])) as [[]|e] eqn:Hpol;
      cbn [obind].
    + destruct (Hstat name (or_introl eq_refl)) as [st Hst]. rewrite Hst.
      destruct (IH (out ++ [entry_dict H fs name (Posixpath.join ap [name]) st]) Hrest)
        as (entries & Hloop & Hall).
      exists (entry_dict H fs name (Posixpath.join ap [name]) st :: entries).
      split; [now rewrite Hloop, <- List.app_assoc|].
      constructor; [now exists st|exact Hall].
    + apply policy_raises_permission in Hpol as [msg ->]. now apply IH.
Qed.

Lemma entries_names (H : host) (fs : filesystem) (cwd ap : string)
    (names : list string) (entries : list pyval) :
  Forall2
    (fun n d => exists st,
       lstat (dirsize H) fs cwd (Posixpath.join ap [n]) = Ok st
       /\ d = entry_dict H fs n (Posixpath.join ap [n]) st)
    names entries ->
  map (fun d => field d "name") entries = map (fun n => Some (VStr n)) names.
Proof.
  induction 1 as [|n d names entries (st & _ & ->) _ IH]; [reflexivity|].
  simpl. now rewrite IH.
Qed.

(** C6. [list_dir] on a directory applies the policy check to each entry
    by itself and leaves a denied entry out without failing: the call
    returns, and its entries are exactly the entries of the directory, in
    sorted order, that are visible and pass the policy check.  A directory
    with one allowed and one denied entry gives the allowed entry alone. *)
Theorem list_dir_omits_denied (H : host) (C : config)
    (path glob_pattern : string) (include_hidden : bool)
    (w w1 : world) (ap : string) :
  Posixpath.isabs (getcwd H) = true ->
  ensure_root H C w = (Ok tt, w1) ->
  well_named (w_fs w1) = true ->
  _abs H C path = Ok ap ->
  isdir (w_fs w1) (getcwd H) ap = true ->
  exists names entries,
    listdir (w_fs w1) (getcwd H) ap = Ok names
    /\ list_dir H C path glob_pattern include_hidden w
       = (Ok (VDict [("path", relative H C ap); ("entries", VList entries)]), w1)
    /\ Forall2
         (fun n d => exists st,
            lstat (dirsize H) (w_fs w1) (getcwd H) (Posixpath.join ap [n]) = Ok st
            /\ d = entry_dict H (w_fs w1) n (Posixpath.join ap [n]) st)
         (List.filter (fun n => visible include_hidden glob_pattern n
                                && permitted H C ap n) (sorted names))
         entries
    /\ map (fun d => field d "name") entries
       = map (fun n => Some (VStr n))
           (List.filter (fun n => visible include_hidden glob_pattern n
                                  && permitted H C ap n) (sorted names))
    /\ (forall allowed denied,
          (sorted names = [allowed; denied] \/ sorted names = [denied; allowed]) ->
          visible include_hidden glob_pattern allowed = true ->
          permitted H C ap allowed = true ->
          permitted H C ap denied = false ->
          map (fun d => field d "name") entries = [Some (VStr allowed)]).
Proof.
  intros Hcwd Hroot Hwf Habs Hdir.
  pose proof (abs_isabs H C path ap Hcwd Habs) as Hap.
  assert (Hent : exists p perm mtime,
            resolve (w_fs w1) (getcwd H) true ap = Found p
            /\ node_at (w_fs w1) p = Some (Dir perm mtime)).
  { unfold isdir, entry in Hdir.
    destruct (resolve (w_fs w1) (getcwd H) true ap) as [p|]; [|discriminate].
    destruct (node_at (w_fs w1) p) as [[| |]|] eqn:Hn; try discriminate. eauto. }
  destruct Hent as (p & perm & mtime & Hres & Hnode).
  assert (Hlist : listdir (w_fs w1) (getcwd H) ap = Ok (children (w_fs w1) p)).
  { unfold listdir, entry. now rewrite Hres, Hnode. }
  assert (Hstat : forall n, List.In n (sorted (children (w_fs w1) p)) ->
            exists st, lstat (dirsize H) (w_fs w1) (getcwd H) (Posixpath.join ap [n]) = Ok st).
  { intros n Hn. apply in_sorted, children_lookup in Hn as [nd Hnd].
    eexists. apply (lstat_child _ _ _ _ _ p perm mtime); try eassumption.
    pose proof (well_named_lookup _ _ _ Hwf Hnd) as Hall.
    rewrite forallb_app in Hall. apply andb_true_iff in Hall as [_ Hc].
    simpl in Hc. now rewrite andb_true_r in Hc. }
  destruct (list_loop_spec H C (w_fs w1) ap glob_pattern include_hidden
              (sorted (children (w_fs w1) p)) [] Hstat) as (entries & Hloop & Hall).
  exists (children (w_fs w1) p), entries.
  pose proof (entries_names _ _ _ _ _ _ Hall) as Hnames.
  split; [exact Hlist|]. split; [|split; [exact Hall|split; [exact Hnames|]]].
  - unfold list_dir. unfold bind at 1. rewrite Hroot.
    unfold bind at 1, pure at 1. rewrite Habs.
    unfold bind at 1, reading at 1. rewrite Hdir. cbn [negb].
    unfold bind at 1. rewrite Hlist.
    unfold bind at 1. rewrite Hloop. reflexivity.
  - intros allowed denied Hsorted Hvis Hok Hno. rewrite Hnames.
    destruct Hsorted as [-> | ->]; cbn [List.filter];
      rewrite Hvis, Hok, Hno; cbn [andb]; rewrite ?andb_false_r; reflexivity.
Qed.

Lemma list_dir_omits_denied_witness :
  exists entries,
    list_dir Demo.slow_host Demo.sandbox_config "proj" "*" false Demo.project_world
    = (Ok (VDict [("path", relative Demo.slow_host Demo.sandbox_config "/sandbox/proj");
                  ("entries", VList entries)]), Demo.project_world)
    /\ map (fun d => field d "name") entries
       = [Some (VStr "docs"); Some (VStr "lnk"); Some (VStr "readme.md")].
Proof.
  assert (Hcwd : Posixpath.isabs (getcwd Demo.slow_host) = true) by reflexivity.
  assert (Hroot : ensure_root Demo.slow_host Demo.sandbox_config Demo.project_world
                  = (Ok tt, Demo.project_world)) by (vm_compute; reflexivity).
  assert (Hwf : well_named (w_fs Demo.project_world) = true)
    by (vm_compute; reflexivity).
  assert (Habs : _abs Demo.slow_host Demo.sandbox_config "proj" = Ok "/sandbox/proj")
    by (vm_compute; reflexivity).
  assert (Hdir : isdir (w_fs Demo.project_world) (getcwd Demo.slow_host)
                   "/sandbox/proj" = true) by (vm_compute; reflexivity).
  destruct (list_dir_omits_denied Demo.slow_host Demo.sandbox_config "proj" "*" false
              Demo.project_world Demo.project_world "/sandbox/proj"
              Hcwd Hroot Hwf Habs Hdir)
    as (names & entries & Hlist & Hrun & _ & Hnames & _).
  exists entries. split; [exact Hrun|]. rewrite Hnames.
  assert (Hval : names = children Demo.project_fs ["sandbox"; "proj"]).
  { assert (Hl : listdir (w_fs Demo.project_world) (getcwd Demo.slow_host)
                   "/sandbox/proj" = Ok (children Demo.project_fs ["sandbox"; "proj"]))
      by (vm_compute; reflexivity).
    congruence. }
  rewrite Hval. vm_compute. reflexivity.
Defined.

End Listing.

(* ===================================================================== *)
(** ** What the patterns of the module match *)
(* ===================================================================== *)

Section DefaultPatterns.
Import Os Server Notions.

Lemma matches_star (ts : list Fnmatch.tok) (s : string) :
  Fnmatch.matches (Fnmatch.TStar :: ts) s
  = Fnmatch.matches ts s
    || match s with
       | EmptyString => false
       | String _ s' => Fnmatch.matches (Fnmatch.TStar :: ts) s'
       end.
Proof. destruct s; reflexivity. Qed.

Lemma matches_only_star (s : string) : Fnmatch.matches [Fnmatch.TStar] s = true.
Proof.
  induction s as [|a s IH]; [reflexivity|].
  rewrite matches_star, IH. apply orb_true_r.
Qed.

Lemma startswith_empty (s : string) : Str.startswith s "" = true.
Proof. now destruct s. Qed.

Lemma startswith_cons (a c : ascii) (s lit : string) :
  Str.startswith (String c s) (String a lit)
  = Ascii.eqb a c && Str.startswith s lit.
Proof.
  unfold Str.startswith. simpl.
  destruct (ascii_dec a c) as [->|Hne].
  - now rewrite Ascii.eqb_refl.
  - apply Ascii.eqb_neq in Hne. now rewrite Hne.
Qed.

(** Literal characters and then a star: the name starts with the
    characters. *)
Lemma matches_literals_star (lit : string) (s : string) :
  Fnmatch.matches (map Fnmatch.TLit (list_ascii_of_string lit) ++ [Fnmatch.TStar]) s
  = Str.startswith s lit.
Proof.
  revert s. induction lit as [|a lit IH]; intros s.
  - cbn [list_ascii_of_string map List.app].
    now rewrite matches_only_star, startswith_empty.
  - cbn [list_ascii_of_string map List.app].
    destruct s as [|c s]; [reflexivity|].
    rewrite startswith_cons. cbn [Fnmatch.matches Fnmatch.tok_matches].
    now rewrite IH.
Qed.

Lemma contains_unfold (lit s : string) :
  contains lit s
  = Str.startswith s lit
    || match s with
       | EmptyString => false
       | String _ s' => contains lit s'
       end.
Proof. destruct s; reflexivity. Qed.

(** A star, literal characters and a star: the characters occur in the
    name. *)
Lemma matches_star_literals_star (lit : string) (s : string) :
  Fnmatch.matches
    (Fnmatch.TStar :: map Fnmatch.TLit (list_ascii_of_string lit) ++ [Fnmatch.TStar]) s
  = contains lit s.
Proof.
  induction s as [|c s IH];
    rewrite matches_star, contains_unfold, matches_literals_star;
    [reflexivity|now rewrite IH].
Qed.

Lemma fnmatch_between_stars (pat lit rel : string) :
  Fnmatch.translate pat
  = Fnmatch.TStar :: map Fnmatch.TLit (list_ascii_of_string lit) ++ [Fnmatch.TStar] ->
  Fnmatch.fnmatch rel pat = contains lit rel.
Proof.
  intros Ht. unfold Fnmatch.fnmatch, Fnmatch.normcase. rewrite Ht.
  apply matches_star_literals_star.
Qed.

(** The text [contains] finds is there. *)
Lemma contains_spec (lit s : string) :
  contains lit s = true <-> exists a b, s = a +:+ lit +:+ b.
Proof.
  split.
  - induction s as [|c s IH]; rewrite contains_unfold; intros Hc;
      apply orb_true_iff in Hc as [Hc|Hc]; try discriminate.
    + apply startswith_inv in Hc as [b Hb]. now exists "", b.
    + apply startswith_inv in Hc as [b Hb]. now exists "", b.
    + destruct (IH Hc) as (a & b & ->). exists (String c a), b.
      now rewrite app_cons.
  - intros (a & b & ->). induction a as [|c a IH].
    + rewrite app_empty_l, contains_unfold, startswith_app. reflexivity.
    + rewrite app_cons, contains_unfold, IH. apply orb_true_r.
Qed.

(** X1. With the patterns of the module, the policy check is a search for
    pieces of text in the root-relative path: a path is denied when it
    has [/.env], [/.ssh/], [/.git/], [/node_modules/] or [/id_] in it (the
    first of these, in this order, names the pattern), is refused when it
    has no separator at all, and passes otherwise.  A deny pattern needs
    a separator in front of the name: [.git/config] directly under the
    root passes. *)
Theorem default_policy_by_substring (H : host) (C : config) (abs_path : string) :
  ALLOW_GLOBS C = default_ALLOW_GLOBS ->
  DENY_GLOBS C = default_DENY_GLOBS ->
  _policy H C abs_path =
    (let rel := Posixpath.relpath (getcwd H) abs_path (ROOT_DIR C) in
     if contains "/.env" rel then Raise (DeniedBy "**/.env*")
     else if contains "/.ssh/" rel then Raise (DeniedBy "**/.ssh/**")
     else if contains "/.git/" rel then Raise (DeniedBy "**/.git/**")
     else if contains "/node_modules/" rel then Raise (DeniedBy "**/node_modules/**")
     else if contains "/id_" rel then Raise (DeniedBy "**/id_*")
     else if contains "/" rel then Ok tt
     else Raise NotAllowed).
Proof.
  intros Hallow Hdeny. rewrite policy_find, Hallow, Hdeny. cbv zeta.
  set (rel := Posixpath.relpath (getcwd H) abs_path (ROOT_DIR C)).
  unfold default_DENY_GLOBS, default_ALLOW_GLOBS.
  cbn [List.find existsb].
  rewrite (fnmatch_between_stars "**/.env*" "/.env") by (vm_compute; reflexivity).
  rewrite (fnmatch_between_stars "**/.ssh/**" "/.ssh/") by (vm_compute; reflexivity).
  rewrite (fnmatch_between_stars "**/.git/**" "/.git/") by (vm_compute; reflexivity).
  rewrite (fnmatch_between_stars "**/node_modules/**" "/node_modules/")
    by (vm_compute; reflexivity).
  rewrite (fnmatch_between_stars "**/id_*" "/id_") by (vm_compute; reflexivity).
  rewrite (fnmatch_between_stars "**/*" "/") by (vm_compute; reflexivity).
  rewrite orb_false_r.
  repeat (match goal with |- context [if ?b then _ else _] => destruct b end;
          try reflexivity).
Qed.

Lemma default_policy_by_substring_witness :
  _policy Demo.slow_host Demo.sandbox_config "/sandbox/.git/config" = Ok tt
  /\ _policy Demo.slow_host Demo.sandbox_config "/sandbox/proj/.git/config"
     = Raise (DeniedBy "**/.git/**").
Proof.
  split.
  - rewrite (default_policy_by_substring Demo.slow_host Demo.sandbox_config
               "/sandbox/.git/config" eq_refl eq_refl).
    vm_compute. reflexivity.
  - rewrite (default_policy_by_substring Demo.slow_host Demo.sandbox_config
               "/sandbox/proj/.git/config" eq_refl eq_refl).
    vm_compute. reflexivity.
Defined.

End DefaultPatterns.

(* ===================================================================== *)
(** ** More on the path resolver *)
(* ===================================================================== *)

Section ResolverMore.
Import Os Server Notions.

Lemma abs_value (H : host) (C : config) (path ap : string) :
  _abs H C path = Ok ap ->
  ap = Posixpath.abspath (getcwd H)
         (Posixpath.join (Posixpath.abspath (getcwd H) (ROOT_DIR C))
            [Str.lstrip "/\" path]).
Proof.
  unfold _abs. cbv zeta. destruct (negb _); [discriminate|]. now intros [= <-].
Qed.

Lemma lstrip_idem (chars s : string) :
  Str.lstrip chars (Str.lstrip chars s) = Str.lstrip chars s.
Proof.
  induction s as [|a s IH]; [reflexivity|]. cbn [Str.lstrip].
  destruct (Str.mem a chars) eqn:Ha; [exact IH|]. cbn [Str.lstrip]. now rewrite Ha.
Qed.

(** X2. [_abs] does not see leading separators: slashes and backslashes
    in front of a request are dropped before it is joined to the root, so
    an absolute-looking request is taken relative to the root. *)
Theorem abs_ignores_leading_separators (H : host) (C : config) (path : string) :
  _abs H C (Str.lstrip "/\" path) = _abs H C path
  /\ _abs H C ("/" +:+ path) = _abs H C path
  /\ _abs H C ("\" +:+ path) = _abs H C path
  /\ (forall lead,
        _abs H C (lead +:+ path) = _abs H C (Str.lstrip "/\" lead +:+ path)).
Proof.
  assert (Hstrip : forall p q, Str.lstrip "/\" p = Str.lstrip "/\" q ->
                               _abs H C p = _abs H C q).
  { intros p q Heq. unfold _abs. now rewrite Heq. }
  split; [apply Hstrip, lstrip_idem|].
  split; [now apply Hstrip|].
  split; [now apply Hstrip|].
  intros lead. apply Hstrip.
  induction lead as [|a lead IH]; [reflexivity|].
  rewrite app_cons. cbn [Str.lstrip].
  destruct (Str.mem a "/\") eqn:Ha; [exact IH|].
  rewrite app_cons. cbn [Str.lstrip]. now rewrite Ha.
Qed.

Lemma normpath_join_empty (k : nat) (cs : list string) :
  (k = 1%nat \/ k = 2%nat) -> forallb Normal.clean cs = true ->
  Posixpath.normpath (Posixpath.join2 (Normal.canon k cs) "") = Normal.canon k cs.
Proof.
  intros Hk Hall. destruct cs as [|c cs].
  - destruct Hk as [-> | ->]; reflexivity.
  - assert (Hne : Str.is_empty (Normal.canon k (c :: cs)) = false)
      by (unfold Normal.canon; destruct Hk as [-> | ->]; reflexivity).
    assert (Hj : Posixpath.join2 (Normal.canon k (c :: cs)) ""
                 = Normal.canon k (c :: cs) +:+ String "/" "").
    { unfold Posixpath.join2. change (Str.startswith "" "/") with false.
      now rewrite Hne, canon_no_trailing_sep by (done || discriminate). }
    rewrite Hj.
    assert (Hne' : Str.is_empty (Normal.canon k (c :: cs) +:+ String "/" "") = false).
    { unfold Normal.canon. destruct Hk as [-> | ->]; reflexivity. }
    unfold Posixpath.normpath. rewrite Hne'. cbv zeta.
    rewrite initial_slashes_canon by (done || discriminate).
    rewrite split_app_sep, split_canon by assumption.
    change (Str.split Str.sep "") with [""].
    rewrite <- List.app_assoc, fold_canon;
      [|assumption|assumption|repeat constructor; now left].
    fold (Normal.canon k (c :: cs)). now rewrite Hne.
Qed.

(** X3. The empty request, [.] and [/] all resolve to the sandbox root
    itself, and the root's path relative to the sandbox is [.]. *)
Theorem abs_of_root_requests (H : host) (C : config) :
  Posixpath.isabs (getcwd H) = true ->
  _abs H C "" = Ok (SandboxRoot H C)
  /\ _abs H C "." = Ok (SandboxRoot H C)
  /\ _abs H C "/" = Ok (SandboxRoot H C)
  /\ relative H C (SandboxRoot H C) = VStr ".".
Proof.
  intros Hc.
  assert (He : _abs H C "" = Ok (SandboxRoot H C)).
  { unfold _abs, SandboxRoot.
    destruct (abspath_canon (getcwd H) (ROOT_DIR C) Hc) as (k & cs & Hk & Hall & Heq).
    rewrite Heq. change (Str.lstrip "/\" "") with "".
    cbn [Posixpath.join fold_left].
    assert (Ht : Posixpath.abspath (getcwd H) (Posixpath.join2 (Normal.canon k cs) "")
                 = Normal.canon k cs).
    { unfold Posixpath.abspath. rewrite join2_isabs.
      - now apply normpath_join_empty.
      - rewrite <- Heq. now apply abspath_isabs. }
    rewrite Ht, String.eqb_refl, orb_true_r. reflexivity. }
  split; [exact He|]. split; [now apply abs_dot|]. split; [exact He|].
  unfold relative. f_equal. apply relpath_same. unfold SandboxRoot.
  now apply abspath_idem.
Qed.

Lemma abs_of_root_requests_witness :
  _abs Demo.slow_host Demo.sandbox_config "" = Ok "/sandbox"
  /\ _abs Demo.slow_host Demo.sandbox_config "/" = Ok "/sandbox".
Proof.
  destruct (abs_of_root_requests Demo.slow_host Demo.sandbox_config eq_refl)
    as (He & _ & Hs & _).
  split; [exact He|exact Hs].
Defined.

Lemma parts_app_sep (a b : string) :
  Posixpath.parts (a +:+ String "/" b) = Posixpath.parts a ++ Posixpath.parts b.
Proof. unfold Posixpath.parts. now rewrite split_app_sep, List.filter_app. Qed.

Lemma join_snoc (cs : list string) (x : string) :
  cs <> [] -> Str.join "/" (cs ++ [x]) = Str.join "/" cs +:+ String "/" x.
Proof.
  induction cs as [|c cs IH]; [done|]. intros _.
  destruct cs as [|d cs]; [reflexivity|].
  change ((c :: d :: cs) ++ [x]) with (c :: ((d :: cs) ++ [x])).
  rewrite !join_cons by discriminate.
  rewrite IH by discriminate.
  now rewrite app_assoc_str, app_cons.
Qed.

(** Joining clean components one by one puts a separator between them. *)
Lemma join_clean (pre p : list string) :
  pre <> [] -> forallb Normal.clean pre = true -> forallb Normal.clean p = true ->
  fold_left Posixpath.join2 p (Str.join "/" pre) = Str.join "/" (pre ++ p).
Proof.
  revert pre. induction p as [|x p IH]; intros pre Hne Hpre Hp.
  - now rewrite List.app_nil_r.
  - cbn [forallb] in Hp. apply andb_true_iff in Hp as [Hx Hp].
    cbn [fold_left].
    assert (Hj : Posixpath.join2 (Str.join "/" pre) x = Str.join "/" (pre ++ [x])).
    { unfold Posixpath.join2. rewrite (clean_not_abs x Hx).
      assert (Hend : Str.endswith_char (Str.join "/" pre) Str.sep = false)
        by exact (canon_no_trailing_sep 0 pre Hne Hpre).
      assert (Hemp : Str.is_empty (Str.join "/" pre) = false).
      { destruct pre as [|c pre]; [done|].
        cbn [forallb] in Hpre. apply andb_true_iff in Hpre as [Hcl _].
        apply clean_head in Hcl as (a & r & -> & _).
        destruct pre; [reflexivity|]. now rewrite join_cons by discriminate. }
      rewrite Hend, Hemp. cbn [orb].
      now rewrite join_snoc by assumption. }
    rewrite Hj, IH.
    + now rewrite <- List.app_assoc.
    + now destruct pre.
    + rewrite forallb_app, Hpre. cbn [forallb]. now rewrite Hx.
    + exact Hp.
Qed.

(** X4. What [_abs] returns is in normal form and lies below the root
    component by component: its components are those of the root followed
    by names that are not empty, not [.] and not [..] and hold no
    separator.  The path a tool reports for it is [.] for the root and
    these names joined by [/] otherwise: never absolute, never with [..]. *)
Theorem abs_result_below_root (H : host) (C : config) (path ap : string) :
  Posixpath.isabs (getcwd H) = true ->
  _abs H C path = Ok ap ->
  exists below,
    forallb Normal.clean below = true
    /\ Posixpath.parts ap = Posixpath.parts (SandboxRoot H C) ++ below
    /\ Posixpath.abspath (getcwd H) ap = ap
    /\ relative H C ap
       = VStr (match below with [] => "." | _ => Str.join "/" below end).
Proof.
  intros Hc Habs.
  destruct (abs_parts_clean H C path ap Hc Habs) as [Hclean _].
  assert (Hfix : Posixpath.abspath (getcwd H) ap = ap).
  { rewrite (abs_value H C path ap Habs). now apply abspath_idem. }
  assert (Hparts : exists below,
             Posixpath.parts ap = Posixpath.parts (SandboxRoot H C) ++ below).
  { destruct (abs_shape H C path ap Habs) as [-> | [suffix ->]].
    - exists []. now rewrite List.app_nil_r.
    - exists (Posixpath.parts suffix).
      change ("/" +:+ suffix) with (String "/" suffix). apply parts_app_sep. }
  destruct Hparts as [below Hparts]. exists below.
  assert (Hbelow : forallb Normal.clean below = true).
  { rewrite Hparts, forallb_app in Hclean. now apply andb_true_iff in Hclean as [_ ?]. }
  split; [exact Hbelow|]. split; [exact Hparts|]. split; [exact Hfix|].
  unfold relative, Posixpath.relpath. cbv zeta. f_equal.
  rewrite Hfix, Hparts. fold (SandboxRoot H C).
  rewrite common_len_app, Nat.sub_diag. cbn [List.repeat List.app].
  rewrite List.skipn_app, List.skipn_all, Nat.sub_diag. cbn [List.skipn List.app].
  destruct below as [|a p]; [reflexivity|].
  cbn [forallb] in Hbelow. apply andb_true_iff in Hbelow as [Ha Hp].
  unfold Posixpath.join.
  apply (join_clean [a] p); [discriminate| |exact Hp].
  cbn [forallb]. now rewrite Ha.
Qed.

Lemma abs_result_below_root_witness :
  exists below,
    forallb Normal.clean below = true
    /\ Posixpath.parts "/sandbox/a/b" = Posixpath.parts "/sandbox" ++ below
    /\ Posixpath.abspath "/home/user" "/sandbox/a/b" = "/sandbox/a/b"
    /\ relative Demo.slow_host Demo.sandbox_config "/sandbox/a/b"
       = VStr (match below with [] => "." | _ => Str.join "/" below end).
Proof.
  exact (abs_result_below_root Demo.slow_host Demo.sandbox_config
           "/a/./x/../b" "/sandbox/a/b" eq_refl eq_refl).
Defined.

End ResolverMore.

(* ===================================================================== *)
(** ** The path resolver keeps inside the root *)
(* ===================================================================== *)

Section Confinement.
Import Os Server.

(** C1. Whatever the requested path, [_abs] raises the path-escape error or
    returns a path inside the sandbox root: the absolute path, in normal
    form, that joining the request to the root gives; it is the root
    itself or the root, a separator and a suffix, and component by
    component it is the root followed by proper names (none of them empty,
    [.] or [..]), a true descendant.  What follows the root in an
    accepted path is nothing or starts with the separator, so with the
    root [/sandbox] no path under a sibling [/sandbox-other] is ever
    accepted.  The error is raised exactly when the normalised path is
    neither the root nor starts with the root and a separator. *)
Theorem abs_confined (H : host) (C : config) (path : string) :
  Posixpath.isabs (getcwd H) = true ->
  match _abs H C path with
  | Ok target =>
      Posixpath.isabs target = true
      /\ (target = SandboxRoot H C
          \/ exists suffix, target = SandboxRoot H C +:+ "/" +:+ suffix)
      /\ (forall extra, target = SandboxRoot H C +:+ extra ->
            extra = "" \/ Str.startswith extra "/" = true)
      /\ (ROOT_DIR C = "/sandbox" ->
          forall rest, target <> "/sandbox-other" +:+ rest)
      /\ target = Posixpath.abspath (getcwd H)
                    (Posixpath.join (SandboxRoot H C) [Str.lstrip "/\" path])
      /\ Posixpath.abspath (getcwd H) target = target
      /\ (exists below,
            forallb Normal.clean below = true
            /\ Posixpath.parts target = Posixpath.parts (SandboxRoot H C) ++ below)
  | Raise e =>
      e = PathEscape
      /\ Posixpath.abspath (getcwd H)
           (Posixpath.join (SandboxRoot H C) [Str.lstrip "/\" path])
         <> SandboxRoot H C
      /\ Str.startswith
           (Posixpath.abspath (getcwd H)
              (Posixpath.join (SandboxRoot H C) [Str.lstrip "/\" path]))
           (SandboxRoot H C +:+ "/") = false
  end.
Proof.
  intros Hcwd. destruct (_abs H C path) as [target|e] eqn:Habs.
  2:{ split; [now apply abs_raises in Habs|].
      revert Habs. unfold _abs, SandboxRoot. cbv zeta.
      destruct (Str.startswith _ _) eqn:Hpre; cbn [orb negb]; [discriminate|].
      destruct (String.eqb_spec
                  (Posixpath.abspath (getcwd H)
                     (Posixpath.join (Posixpath.abspath (getcwd H) (ROOT_DIR C))
                        [Str.lstrip "/\" path]))
                  (Posixpath.abspath (getcwd H) (ROOT_DIR C))) as [Heq|Hne];
        cbn [negb]; [discriminate|].
      intros _. now split. }
  pose proof (abs_shape _ _ _ _ Habs) as Hshape.
  assert (Hextra : forall extra, target = SandboxRoot H C +:+ extra ->
            extra = "" \/ Str.startswith extra "/" = true).
  { intros extra ->. destruct Hshape as [Heq|[suffix Heq]].
    - left. apply (app_cancel_l (SandboxRoot H C)). now rewrite app_empty_r.
    - right. apply app_cancel_l in Heq. rewrite Heq.
      apply (startswith_app "/" suffix). }
  pose proof (abs_value H C path target Habs) as Hvalue.
  fold (SandboxRoot H C) in Hvalue.
  assert (Hfix : Posixpath.abspath (getcwd H) target = target).
  { rewrite Hvalue. now apply abspath_idem. }
  destruct (abs_parts_clean H C path target Hcwd Habs) as [Hclean Habsolute].
  assert (Hparts : exists below,
             Posixpath.parts target = Posixpath.parts (SandboxRoot H C) ++ below).
  { destruct Hshape as [Heq | [suffix Heq]].
    - exists []. now rewrite List.app_nil_r, <- Heq.
    - exists (Posixpath.parts suffix). rewrite Heq.
      change ("/" +:+ suffix) with (String "/" suffix). apply parts_app_sep. }
  destruct Hparts as [below Hparts].
  assert (Hbelow : forallb Normal.clean below = true).
  { rewrite Hparts, forallb_app in Hclean. now apply andb_true_iff in Hclean as [_ ?]. }
  split; [exact Habsolute|]. split; [exact Hshape|]. split; [exact Hextra|].
  split; [|split; [exact Hvalue|split; [exact Hfix|now exists below]]].
  intros Hroot rest Htarget.
  assert (Hbase : SandboxRoot H C = "/sandbox")
    by (unfold SandboxRoot; now rewrite Hroot).
  destruct (Hextra ("-other" +:+ rest)) as [Hnil|Hsl].
  - now rewrite Hbase, Htarget.
  - discriminate Hnil.
  - discriminate Hsl.
Qed.

Lemma abs_confined_witness :
  _abs Demo.slow_host Demo.sandbox_config "a/../b/./c" = Ok "/sandbox/b/c"
  /\ Posixpath.abspath "/home/user" "/sandbox/b/c" = "/sandbox/b/c"
  /\ (exists below,
        forallb Normal.clean below = true
        /\ Posixpath.parts "/sandbox/b/c" = Posixpath.parts "/sandbox" ++ below)
  /\ _abs Demo.slow_host Demo.sandbox_config "../sandbox-other/x" = Raise PathEscape
  /\ Posixpath.abspath "/home/user"
       (Posixpath.join "/sandbox" [Str.lstrip "/\" "../sandbox-other/x"])
     <> "/sandbox".
Proof.
  assert (Hin : _abs Demo.slow_host Demo.sandbox_config "a/../b/./c" = Ok "/sandbox/b/c")
    by (vm_compute; reflexivity).
  assert (Hout : _abs Demo.slow_host Demo.sandbox_config "../sandbox-other/x"
                 = Raise PathEscape) by (vm_compute; reflexivity).
  pose proof (abs_confined Demo.slow_host Demo.sandbox_config "a/../b/./c" eq_refl)
    as Hinside.
  pose proof (abs_confined Demo.slow_host Demo.sandbox_config "../sandbox-other/x"
                eq_refl) as Houtside.
  rewrite Hin in Hinside. rewrite Hout in Houtside.
  destruct Hinside as (_ & _ & _ & _ & _ & Hfix & Hbelow).
  destruct Houtside as (_ & Hne & _).
  split; [exact Hin|]. split; [exact Hfix|]. split; [exact Hbelow|].
  split; [exact Hout|exact Hne].
Defined.

End Confinement.

(* ===================================================================== *)
(** ** More on [run] *)
(* ===================================================================== *)

Section RunMore.
Import Os Server Notions.

(** X5. Once the checks of [run] have passed, what comes back is what
    became of the child.  The arguments after the required prefix are
    free.  A child that exits, its output collected as text, gives [ok]
    (true exactly for return code 0), the return code, the two capped
    outputs and the elapsed time; one process has been started and none
    killed.  A child that was started and whose output cannot be collected
    ([communicate] raises) gives an error result with the text of the
    exception, the process started.  A child that cannot be started gives
    an error result, not an exception, and nothing is logged. *)
Theorem run_reports_the_child (H : host) (C : config) (cmd : string)
    (extra : list string) (cwd : string) (timeout_sec : Z)
    (w w1 : world) (ap : string) (prefix : list string) :
  ENABLE_RUN_COMMANDS C = true ->
  ensure_root H C w = (Ok tt, w1) ->
  _abs H C cwd = Ok ap ->
  _policy H C ap = Ok tt ->
  COMMAND_ALLOWLIST C !! Posixpath.basename cmd = Some prefix ->
  (forall rc out err elapsed fs',
     spawn H (cmd :: prefix ++ extra) ap timeout_sec (w_fs w1)
     = Exits rc out err elapsed fs' ->
     run H C cmd (Some (prefix ++ extra)) cwd timeout_sec w
     = (Ok (VDict [("ok", VBool (rc =? 0));
                   ("rc", VInt rc);
                   ("stdout", VStr (Str.slice_to (RUN_MAX_STDOUT C) out));
                   ("stderr", VStr (Str.slice_to (RUN_MAX_STDOUT C) err));
                   ("elapsed_sec", VFloat3 elapsed)]),
        {| w_fs := fs';
           w_log := w_log w ++ [Spawned (cmd :: prefix ++ extra) ap] |}))
  /\ (forall e fs',
        spawn H (cmd :: prefix ++ extra) ap timeout_sec (w_fs w1) = Breaks e fs' ->
        run H C cmd (Some (prefix ++ extra)) cwd timeout_sec w
        = (Ok (VDict [("ok", VBool false); ("error", VStr (exn_str e))]),
           {| w_fs := fs';
              w_log := w_log w ++ [Spawned (cmd :: prefix ++ extra) ap] |}))
  /\ (forall e,
        spawn H (cmd :: prefix ++ extra) ap timeout_sec (w_fs w1) = SpawnFails e ->
        run H C cmd (Some (prefix ++ extra)) cwd timeout_sec w
        = (Ok (VDict [("ok", VBool false); ("error", VStr (exn_str e))]), w1)).
Proof.
  intros Hen Hroot Habs Hpol Hlook.
  assert (Hrun : run H C cmd (Some (prefix ++ extra)) cwd timeout_sec w
                 = execute H C (cmd :: prefix ++ extra) ap timeout_sec w1).
  { rewrite run_steps, Hen, Hroot, Habs, Hpol, Hlook. cbn [negb].
    change (default [] (Some (prefix ++ extra))) with (prefix ++ extra).
    rewrite bool_decide_eq_true_2; [reflexivity|].
    now rewrite List.firstn_app, List.firstn_all, Nat.sub_diag, List.app_nil_r. }
  destruct (ensure_root_spec H C w w1 (Ok tt) Hroot) as (_ & Hlog & _).
  split; [|split].
  - intros rc out err elapsed fs' Hsp. rewrite Hrun. unfold execute.
    now rewrite Hsp, Hlog.
  - intros e fs' Hsp. rewrite Hrun. unfold execute. now rewrite Hsp, Hlog.
  - intros e Hsp. rewrite Hrun. unfold execute. now rewrite Hsp.
Qed.

Lemma run_reports_the_child_witness :
  run Examples.quick_host Demo.sandbox_config "bash"
    (Some (["-lc"] ++ ["echo hi"])) "proj/docs" 30 Demo.project_world
  = (Ok (VDict [("ok", VBool true);
                ("rc", VInt 0);
                ("stdout", VStr "hi");
                ("stderr", VStr "");
                ("elapsed_sec", VFloat3 12)]),
     {| w_fs := Demo.project_fs;
        w_log := [Spawned ("bash" :: ["-lc"] ++ ["echo hi"]) "/sandbox/proj/docs"] |}).
Proof.
  assert (Hroot : ensure_root Examples.quick_host Demo.sandbox_config Demo.project_world
                  = (Ok tt, Demo.project_world)) by (vm_compute; reflexivity).
  assert (Habs : _abs Examples.quick_host Demo.sandbox_config "proj/docs"
                 = Ok "/sandbox/proj/docs") by (vm_compute; reflexivity).
  assert (Hpol : _policy Examples.quick_host Demo.sandbox_config "/sandbox/proj/docs"
                 = Ok tt) by (vm_compute; reflexivity).
  assert (Hlook : COMMAND_ALLOWLIST Demo.sandbox_config !! Posixpath.basename "bash"
                  = Some ["-lc"]) by (vm_compute; reflexivity).
  exact (proj1 (run_reports_the_child Examples.quick_host Demo.sandbox_config
                  "bash" ["echo hi"] "proj/docs" 30
                  Demo.project_world Demo.project_world "/sandbox/proj/docs" ["-lc"]
                  eq_refl Hroot Habs Hpol Hlook)
           0 "hi" "" 12 Demo.project_fs eq_refl).
Defined.

(** X6. [run] raises before it starts anything.  When it raises, no
    process has been started or killed, and the world is the one at the
    start (the tool is switched off) or the one [ensure_root] returned: the
    file system has changed by the directories [ensure_root] made, and by
    nothing else.  The exception is one of the boundary failures or the
    one that creating the root raised.  What happens to the child never
    makes [run] raise. *)
Theorem run_raises_before_spawning (H : host) (C : config) (cmd : string)
    (args : option (list string)) (cwd : string) (timeout_sec : Z)
    (w w' : world) (e : exn) :
  run H C cmd args cwd timeout_sec w = (Raise e, w') ->
  w_log w' = w_log w
  /\ makes_dirs (now H) (dir_perm H) (w_fs w) (w_fs w')
  /\ ((ENABLE_RUN_COMMANDS C = false /\ e = FeatureDisabled /\ w' = w)
      \/ ensure_root H C w = (Raise e, w')
      \/ (ENABLE_RUN_COMMANDS C = true /\ ensure_root H C w = (Ok tt, w')
          /\ boundary_violation e /\ e <> FeatureDisabled)).
Proof.
  rewrite run_steps. destruct (ENABLE_RUN_COMMANDS C); cbn [negb].
  2:{ intros [= <- <-]. split; [reflexivity|].
      split; [apply makes_dirs_refl|]. now left. }
  destruct (ensure_root H C w) as [[[]|e0] w1] eqn:Hroot.
  2:{ intros [= <- <-].
      destruct (ensure_root_spec H C w w1 _ Hroot) as (Hfs & Hlog & _).
      split; [exact Hlog|]. split; [exact Hfs|]. right. now left. }
  destruct (ensure_root_spec H C w w1 _ Hroot) as (Hfs & Hlog & _).
  assert (Hend : forall e1, boundary_violation e1 -> e1 <> FeatureDisabled ->
            (Raise e1, w1) = (@Raise pyval e, w') ->
            w_log w' = w_log w
            /\ makes_dirs (now H) (dir_perm H) (w_fs w) (w_fs w')
            /\ ((true = false /\ e = FeatureDisabled /\ w' = w)
                \/ (Ok tt, w1) = (@Raise unit e, w')
                \/ (true = true /\ (Ok tt, w1) = (Ok tt, w')
                    /\ boundary_violation e /\ e <> FeatureDisabled))).
  { intros e1 Hb Hne [= <- <-]. split; [exact Hlog|]. split; [exact Hfs|].
    right. right. auto. }
  destruct (_abs H C cwd) as [ap|e1] eqn:Habs.
  2:{ apply Hend; [|pose proof (abs_raises H C cwd e1 Habs) as ->; discriminate].
      left. exact (abs_raises H C cwd e1 Habs). }
  destruct (_policy H C ap) as [[]|e1] eqn:Hpol.
  2:{ pose proof (policy_raises H C ap e1 Hpol) as Hden.
      apply Hend; [right; now left|].
      destruct Hden as [->|[pat ->]]; discriminate. }
  destruct (COMMAND_ALLOWLIST C !! Posixpath.basename cmd) as [prefix|].
  2:{ apply Hend; [|discriminate]. do 3 right. left. now eexists. }
  destruct (bool_decide _).
  - destruct (execute_returns H C (cmd :: default [] args) ap timeout_sec w1)
      as (r & w2 & ->). discriminate.
  - apply Hend; [|discriminate]. do 4 right. now do 2 eexists.
Qed.

Lemma run_raises_before_spawning_witness :
  exists w',
    run Demo.slow_host Demo.sandbox_config "rm" (Some ["-rf"; "/"]) "a/b" 30
      Examples.empty_world
    = (Raise (CommandNotAllowed "rm"), w')
    /\ w_log w' = []
    /\ ensure_root Demo.slow_host Demo.sandbox_config Examples.empty_world
       = (Ok tt, w').
Proof.
  assert (Hrun : run Demo.slow_host Demo.sandbox_config "rm" (Some ["-rf"; "/"]) "a/b" 30
                   Examples.empty_world
                 = (Raise (CommandNotAllowed "rm"),
                    snd (run Demo.slow_host Demo.sandbox_config "rm"
                           (Some ["-rf"; "/"]) "a/b" 30 Examples.empty_world)))
    by (vm_compute; reflexivity).
  eexists. split; [exact Hrun|].
  destruct (run_raises_before_spawning _ _ _ _ _ _ _ _ _ Hrun)
    as (Hlog & _ & [(Hoff & _)|[Hraise|(_ & Hroot & _)]]).
  - discriminate Hoff.
  - exfalso. revert Hraise. vm_compute. intros Hx; discriminate Hx.
  - split; [exact Hlog|exact Hroot].
Defined.

Lemma default_allowlist_lookup (base : string) (prefix : list string) :
  default_COMMAND_ALLOWLIST !! base = Some prefix <->
  (base = "bash" \/ base = "sh") /\ prefix = ["-lc"]
  \/ base = "python" /\ prefix = ["-V"]
  \/ base = "pip" /\ prefix = ["--version"].
Proof.
  unfold default_COMMAND_ALLOWLIST.
  rewrite !lookup_insert_Some, lookup_empty.
  split.
  - intros [[<- <-]|[_ [[<- <-]|[_ [[<- <-]|[_ [[<- <-]|[_ ?]]]]]]]];
      try discriminate; intuition.
  - intros [[[-> | ->] ->]|[[-> ->]|[-> ->]]].
    + now left.
    + right. split; [discriminate|]. now left.
    + right. split; [discriminate|]. right. split; [discriminate|]. now left.
    + right. split; [discriminate|]. right. split; [discriminate|].
      right. split; [discriminate|]. now left.
Qed.

(** X7. With the allow-list of the module, [run] returns a result exactly
    for [bash -lc ...], [sh -lc ...], [python -V ...] and [pip --version
    ...], the command named by any path with that basename; in particular
    a call without arguments always raises. *)
Theorem default_allowlist_commands (H : host) (C : config) (cmd : string)
    (args : option (list string)) (cwd : string) (timeout_sec : Z)
    (w w1 : world) (ap : string) :
  COMMAND_ALLOWLIST C = default_COMMAND_ALLOWLIST ->
  ENABLE_RUN_COMMANDS C = true ->
  ensure_root H C w = (Ok tt, w1) ->
  _abs H C cwd = Ok ap ->
  _policy H C ap = Ok tt ->
  (exists r w2, run H C cmd args cwd timeout_sec w = (Ok r, w2))
  <-> exists rest,
        (Posixpath.basename cmd = "bash" \/ Posixpath.basename cmd = "sh")
          /\ args = Some ("-lc" :: rest)
        \/ Posixpath.basename cmd = "python" /\ args = Some ("-V" :: rest)
        \/ Posixpath.basename cmd = "pip" /\ args = Some ("--version" :: rest).
Proof.
  intros Hlist Hen Hroot Habs Hpol.
  rewrite run_steps, Hen, Hroot, Habs, Hpol, Hlist. cbn [negb].
  destruct (default_COMMAND_ALLOWLIST !! Posixpath.basename cmd) as [prefix|] eqn:Hlook.
  2:{ split; [intros (r & w2 & [=])|].
      intros (rest & Hcase).
      assert (Hsome : exists prefix,
                 default_COMMAND_ALLOWLIST !! Posixpath.basename cmd = Some prefix).
      { destruct Hcase as [[Hb _]|[[Hb _]|[Hb _]]].
        - exists ["-lc"]. apply default_allowlist_lookup. now left.
        - exists ["-V"]. apply default_allowlist_lookup. right. now left.
        - exists ["--version"]. apply default_allowlist_lookup. right. now right. }
      destruct Hsome as [prefix Hp]. congruence. }
  pose proof (proj1 (default_allowlist_lookup _ _) Hlook) as Hcase.
  destruct (bool_decide _) eqn:Hd.
  - apply bool_decide_eq_true_1 in Hd.
    split; [intros _|intros _; apply execute_returns].
    destruct args as [[|a rest]|];
      destruct Hcase as [[Hb ->]|[[Hb ->]|[Hb ->]]];
      simpl in Hd; try discriminate Hd;
      injection Hd as ->; exists rest; tauto.
  - apply bool_decide_eq_false_1 in Hd.
    split; [intros (r & w2 & [=])|].
    intros (rest & Hargs). exfalso. apply Hd.
    destruct Hargs as [[Hb ->]|[[Hb ->]|[Hb ->]]];
      destruct Hcase as [[Hb' ->]|[[Hb' ->]|[Hb' ->]]];
      repeat match goal with Hor : _ \/ _ |- _ => destruct Hor end;
      try reflexivity; congruence.
Qed.

Lemma default_allowlist_commands_witness :
  (exists r w2,
     run Demo.slow_host Demo.sandbox_config "/usr/bin/python" None "proj/docs" 30
       Demo.project_world
     = (Ok r, w2))
  <-> exists rest,
        (Posixpath.basename "/usr/bin/python" = "bash"
         \/ Posixpath.basename "/usr/bin/python" = "sh")
          /\ None = Some ("-lc" :: rest)
        \/ Posixpath.basename "/usr/bin/python" = "python" /\ None = Some ("-V" :: rest)
        \/ Posixpath.basename "/usr/bin/python" = "pip"
           /\ None = Some ("--version" :: rest).
Proof.
  assert (Hroot : ensure_root Demo.slow_host Demo.sandbox_config Demo.project_world
                  = (Ok tt, Demo.project_world)) by (vm_compute; reflexivity).
  assert (Habs : _abs Demo.slow_host Demo.sandbox_config "proj/docs"
                 = Ok "/sandbox/proj/docs") by (vm_compute; reflexivity).
  assert (Hpol : _policy Demo.slow_host Demo.sandbox_config "/sandbox/proj/docs" = Ok tt)
    by (vm_compute; reflexivity).
  exact (default_allowlist_commands Demo.slow_host Demo.sandbox_config
           "/usr/bin/python" None "proj/docs" 30 Demo.project_world Demo.project_world
           "/sandbox/proj/docs" eq_refl eq_refl Hroot Habs Hpol).
Defined.

End RunMore.

(* ===================================================================== *)
(** ** More on [list_dir] *)
(* ===================================================================== *)

Section ListingMore.
Import Os Server Notions.

(** A listing of a directory returns: the entries it meets are there. *)
Lemma list_dir_returns (H : host) (C : config)
    (path glob_pattern : string) (include_hidden : bool)
    (w w1 : world) (ap : string) :
  Posixpath.isabs (getcwd H) = true ->
  ensure_root H C w = (Ok tt, w1) ->
  well_named (w_fs w1) = true ->
  _abs H C path = Ok ap ->
  isdir (w_fs w1) (getcwd H) ap = true ->
  exists names entries,
    listdir (w_fs w1) (getcwd H) ap = Ok names
    /\ Forall (fun n => Normal.clean n = true) names
    /\ list_dir H C path glob_pattern include_hidden w
       = (Ok (VDict [("path", relative H C ap); ("entries", VList entries)]), w1)
    /\ Forall2
         (fun n d => exists st,
            lstat (dirsize H) (w_fs w1) (getcwd H) (Posixpath.join ap [n]) = Ok st
            /\ d = entry_dict H (w_fs w1) n (Posixpath.join ap [n]) st)
         (List.filter (fun n => visible include_hidden glob_pattern n
                                && permitted H C ap n) (sorted names))
         entries.
Proof.
  intros Hcwd Hroot Hwf Habs Hdir.
  pose proof (abs_isabs H C path ap Hcwd Habs) as Hap.
  assert (Hent : exists p perm mtime,
            resolve (w_fs w1) (getcwd H) true ap = Found p
            /\ node_at (w_fs w1) p = Some (Dir perm mtime)).
  { unfold isdir, entry in Hdir.
    destruct (resolve (w_fs w1) (getcwd H) true ap) as [p|]; [|discriminate].
    destruct (node_at (w_fs w1) p) as [[| |]|] eqn:Hn; try discriminate. eauto. }
  destruct Hent as (p & perm & mtime & Hres & Hnode).
  assert (Hlist : listdir (w_fs w1) (getcwd H) ap = Ok (children (w_fs w1) p)).
  { unfold listdir, entry. now rewrite Hres, Hnode. }
  assert (Hclean : forall n, List.In n (children (w_fs w1) p) -> Normal.clean n = true).
  { intros n Hn. apply children_lookup in Hn as [nd Hnd].
    pose proof (well_named_lookup _ _ _ Hwf Hnd) as Hall.
    rewrite forallb_app in Hall. apply andb_true_iff in Hall as [_ Hc].
    simpl in Hc. now rewrite andb_true_r in Hc. }
  assert (Hstat : forall n, List.In n (sorted (children (w_fs w1) p)) ->
            exists st, lstat (dirsize H) (w_fs w1) (getcwd H) (Posixpath.join ap [n]) = Ok st).
  { intros n Hn. apply in_sorted in Hn. pose proof (Hclean n Hn) as Hc.
    apply children_lookup in Hn as [nd Hnd].
    eexists. now apply (lstat_child _ _ _ _ _ p perm mtime _ Hap Hc Hres Hnode Hnd). }
  destruct (list_loop_spec H C (w_fs w1) ap glob_pattern include_hidden
              (sorted (children (w_fs w1) p)) [] Hstat) as (entries & Hloop & Hall).
  exists (children (w_fs w1) p), entries.
  split; [exact Hlist|]. split; [now apply List.Forall_forall|].
  split; [|exact Hall].
  unfold list_dir. unfold bind at 1. rewrite Hroot.
  unfold bind at 1, pure at 1. rewrite Habs.
  unfold bind at 1, reading at 1. rewrite Hdir. cbn [negb].
  unfold bind at 1. rewrite Hlist.
  unfold bind at 1. rewrite Hloop. reflexivity.
Qed.

(** X8. [list_dir] fails in two ways only, once the root is there: the
    path escapes the sandbox, or it does not lead to a directory.  The
    policy is never applied to the listed directory itself, and no entry
    makes the call fail. *)
Theorem list_dir_raises_only (H : host) (C : config)
    (path glob_pattern : string) (include_hidden : bool)
    (w w1 w' : world) (e : exn) :
  Posixpath.isabs (getcwd H) = true ->
  ensure_root H C w = (Ok tt, w1) ->
  well_named (w_fs w1) = true ->
  list_dir H C path glob_pattern include_hidden w = (Raise e, w') ->
  w' = w1
  /\ (_abs H C path = Raise e /\ e = PathEscape
      \/ exists ap, _abs H C path = Ok ap
                    /\ isdir (w_fs w1) (getcwd H) ap = false
                    /\ e = FileNotFoundError "Not a directory").
Proof.
  intros Hcwd Hroot Hwf Hrun.
  destruct (_abs H C path) as [ap|e0] eqn:Habs.
  - destruct (isdir (w_fs w1) (getcwd H) ap) eqn:Hdir.
    + destruct (list_dir_returns H C path glob_pattern include_hidden w w1 ap
                  Hcwd Hroot Hwf Habs Hdir) as (names & entries & _ & _ & Hok & _).
      rewrite Hok in Hrun. discriminate.
    + revert Hrun. unfold list_dir. unfold bind at 1. rewrite Hroot.
      unfold bind at 1, pure at 1. rewrite Habs.
      unfold bind at 1, reading at 1. rewrite Hdir. cbn [negb].
      intros [= <- <-]. split; [reflexivity|]. right. now exists ap.
  - revert Hrun. unfold list_dir. unfold bind at 1. rewrite Hroot.
    unfold bind at 1, pure at 1. rewrite Habs.
    intros [= <- <-]. split; [reflexivity|]. left.
    split; [reflexivity|]. exact (abs_raises H C path e0 Habs).
Qed.

Lemma list_dir_raises_only_witness :
  exists w',
    list_dir Demo.slow_host Demo.sandbox_config "proj/readme.md" "*" false
      Demo.project_world
    = (Raise (FileNotFoundError "Not a directory"), w')
    /\ w' = Demo.project_world.
Proof.
  assert (Hroot : ensure_root Demo.slow_host Demo.sandbox_config Demo.project_world
                  = (Ok tt, Demo.project_world)) by (vm_compute; reflexivity).
  assert (Hwf : well_named (w_fs Demo.project_world) = true)
    by (vm_compute; reflexivity).
  assert (Hrun : list_dir Demo.slow_host Demo.sandbox_config "proj/readme.md" "*" false
                   Demo.project_world
                 = (Raise (FileNotFoundError "Not a directory"),
                    snd (list_dir Demo.slow_host Demo.sandbox_config "proj/readme.md"
                           "*" false Demo.project_world)))
    by (vm_compute; reflexivity).
  eexists. split; [exact Hrun|].
  exact (proj1 (list_dir_raises_only Demo.slow_host Demo.sandbox_config
                  "proj/readme.md" "*" false Demo.project_world Demo.project_world _ _
                  eq_refl Hroot Hwf Hrun)).
Defined.

Lemma filter_none {A} (f : A -> bool) (l : list A) :
  (forall x, List.In x l -> f x = false) -> List.filter f l = [].
Proof.
  induction l as [|x l IH]; [reflexivity|]. intros Hf. cbn [List.filter].
  rewrite (Hf x (or_introl eq_refl)). apply IH. intros y Hy. apply Hf. now right.
Qed.

(** X9. With the patterns of the module, the listing of the sandbox root
    is always empty: every name directly under the root is refused by the
    allow pattern [**/*], which needs a separator, and a refused entry is
    left out. *)
Theorem list_dir_of_root_is_empty (H : host) (C : config)
    (glob_pattern : string) (include_hidden : bool) (w w1 : world) :
  ALLOW_GLOBS C = default_ALLOW_GLOBS ->
  Posixpath.isabs (getcwd H) = true ->
  ensure_root H C w = (Ok tt, w1) ->
  well_named (w_fs w1) = true ->
  isdir (w_fs w1) (getcwd H) (SandboxRoot H C) = true ->
  list_dir H C "." glob_pattern include_hidden w
  = (Ok (VDict [("path", VStr "."); ("entries", VList [])]), w1).
Proof.
  intros Hallow Hcwd Hroot Hwf Hdir.
  pose proof (abs_dot H C Hcwd) as Habs.
  destruct (list_dir_returns H C "." glob_pattern include_hidden w w1 (SandboxRoot H C)
              Hcwd Hroot Hwf Habs Hdir) as (names & entries & _ & Hclean & Hok & Hall).
  rewrite Hok. unfold relative. rewrite (relpath_root H C Hcwd).
  assert (Hnone : List.filter
                    (fun n => visible include_hidden glob_pattern n
                              && permitted H C (SandboxRoot H C) n) (sorted names) = []).
  { apply filter_none. intros n Hn. apply in_sorted in Hn.
    pose proof (proj1 (List.Forall_forall _ _) Hclean n Hn) as Hc.
    assert (Hp : permitted H C (SandboxRoot H C) n = false).
    { unfold permitted.
      destruct (policy_refuses_top_level H C (Posixpath.join (SandboxRoot H C) [n]) Hallow)
        as (_ & (e & -> & _) & _); [|reflexivity].
      rewrite (relpath_top_level H C n Hcwd Hc).
      now apply clean_inv in Hc as (_ & _ & _ & ?). }
    now rewrite Hp, andb_false_r. }
  rewrite Hnone in Hall. inversion Hall. reflexivity.
Qed.

Lemma list_dir_of_root_is_empty_witness :
  list_dir Demo.slow_host Demo.sandbox_config "." "*" true Demo.project_world
  = (Ok (VDict [("path", VStr "."); ("entries", VList [])]), Demo.project_world).
Proof.
  assert (Hroot : ensure_root Demo.slow_host Demo.sandbox_config Demo.project_world
                  = (Ok tt, Demo.project_world)) by (vm_compute; reflexivity).
  assert (Hwf : well_named (w_fs Demo.project_world) = true)
    by (vm_compute; reflexivity).
  assert (Hdir : isdir (w_fs Demo.project_world) (getcwd Demo.slow_host)
                   (SandboxRoot Demo.slow_host Demo.sandbox_config) = true)
    by (vm_compute; reflexivity).
  exact (list_dir_of_root_is_empty Demo.slow_host Demo.sandbox_config "*" true
           Demo.project_world Demo.project_world eq_refl eq_refl Hroot Hwf Hdir).
Defined.

End ListingMore.

(* ===================================================================== *)
(** ** [os.path.split] on paths in normal form *)
(* ===================================================================== *)

Section SplitNormal.
Import Os Server Notions.

Lemma take_app_cons (dir : string) (c : ascii) (name : string) :
  Str.take (S (String.length dir)) (dir +:+ String c name) = dir +:+ String c "".
Proof.
  induction dir as [|a dir IH]; [reflexivity|].
  rewrite !app_cons.
  change (Str.take (S (String.length (String a dir))) (String a (dir +:+ String c name)))
    with (String a (Str.take (S (String.length dir)) (dir +:+ String c name))).
  now rewrite IH.
Qed.

Lemma rstrip_keeps (c : ascii) (s : string) :
  s <> "" -> Str.endswith_char s c = false -> Str.rstrip_char c s = s.
Proof.
  induction s as [|a s IH]; [done|]. intros _ Hend.
  cbn [Str.rstrip_char]. destruct s as [|b s].
  - cbn [Str.endswith_char] in Hend. cbn [Str.rstrip_char]. now rewrite Hend.
  - rewrite IH; [reflexivity|discriminate|exact Hend].
Qed.

Lemma rstrip_app_sep (c : ascii) (s : string) :
  Str.rstrip_char c (s +:+ String c "") = Str.rstrip_char c s.
Proof.
  induction s as [|a s IH].
  - rewrite app_empty_l. cbn [Str.rstrip_char]. now rewrite Ascii.eqb_refl.
  - rewrite app_cons. cbn [Str.rstrip_char]. now rewrite IH.
Qed.

Lemma all_char_app (c : ascii) (a b : string) :
  Str.all_char c (a +:+ b) = Str.all_char c a && Str.all_char c b.
Proof.
  induction a as [|x a IH]; [now rewrite app_empty_l|].
  rewrite app_cons. cbn [Str.all_char]. now rewrite IH, andb_assoc.
Qed.

Lemma all_char_repeat (c : ascii) (n : nat) : Str.all_char c (Str.repeat c n) = true.
Proof. induction n as [|n IH]; [reflexivity|]. simpl. now rewrite Ascii.eqb_refl. Qed.

Lemma all_char_join (c : string) (cs : list string) :
  Normal.clean c = true -> Str.all_char Str.sep (Str.join "/" (c :: cs)) = false.
Proof.
  intros Hc. apply clean_head in Hc as (a & r & -> & Ha).
  destruct cs as [|d cs].
  - cbn [Str.join String.concat Str.all_char]. now rewrite Ha.
  - rewrite join_cons by discriminate. rewrite app_cons.
    cbn [Str.all_char]. now rewrite Ha.
Qed.

Lemma canon_snoc (k : nat) (cs : list string) (c : string) :
  (k = 1%nat \/ k = 2%nat) ->
  Normal.canon k (cs ++ [c])
  = (if Posixpath.is_nil cs then Str.repeat Str.sep (k - 1) else Normal.canon k cs)
    +:+ String "/" c.
Proof.
  intros Hk. destruct cs as [|d cs].
  - destruct Hk as [-> | ->]; reflexivity.
  - cbn [Posixpath.is_nil]. unfold Normal.canon.
    rewrite join_snoc by discriminate. now rewrite app_assoc_str.
Qed.

(** The head and the tail of a path in normal form: all components but
    the last, and the last. *)
Lemma split_canon_snoc (k : nat) (cs : list string) (c : string) :
  (k = 1%nat \/ k = 2%nat) ->
  forallb Normal.clean cs = true -> Normal.clean c = true ->
  Posixpath.split (Normal.canon k (cs ++ [c])) = (Normal.canon k cs, c).
Proof.
  intros Hk Hcs Hc.
  pose proof (clean_inv c Hc) as (_ & _ & _ & Hfree).
  rewrite canon_snoc by assumption.
  set (X := if Posixpath.is_nil cs then Str.repeat Str.sep (k - 1) else Normal.canon k cs).
  unfold Posixpath.split. cbv zeta.
  rewrite (rfind_last_sep X c Hfree).
  replace (Z.to_nat (Z.of_nat (String.length X) + 1)) with (S (String.length X)) by lia.
  unfold Str.slice_from.
  replace (Z.to_nat (Z.of_nat (String.length X) + 1)) with (S (String.length X)) by lia.
  rewrite take_app_cons, drop_app_cons. f_equal.
  subst X. destruct cs as [|d cs].
  - cbn [Posixpath.is_nil]. destruct Hk as [-> | ->]; reflexivity.
  - cbn [Posixpath.is_nil].
    cbn [forallb] in Hcs. apply andb_true_iff in Hcs as [Hd Hcs'].
    assert (Hall : Str.all_char Str.sep (Normal.canon k (d :: cs) +:+ String "/" "") = false).
    { unfold Normal.canon. rewrite !all_char_app, all_char_repeat, all_char_join by assumption.
      reflexivity. }
    assert (Hne : Str.is_empty (Normal.canon k (d :: cs) +:+ String "/" "") = false).
    { unfold Normal.canon. destruct Hk as [-> | ->]; reflexivity. }
    rewrite Hall, Hne. cbn [negb andb].
    rewrite rstrip_app_sep. apply rstrip_keeps.
    + unfold Normal.canon. destruct Hk as [-> | ->]; discriminate.
    + apply canon_no_trailing_sep; [discriminate|].
      cbn [forallb]. now rewrite Hd.
Qed.

(** The root splits into itself and nothing. *)
Lemma split_canon_nil (k : nat) :
  (k = 1%nat \/ k = 2%nat) ->
  Posixpath.split (Normal.canon k []) = (Normal.canon k [], "").
Proof. intros [-> | ->]; reflexivity. Qed.

Lemma snoc_cases {A} (l : list A) : l = [] \/ exists l' a, l = l' ++ [a].
Proof.
  destruct l as [|x l]; [now left|]. right.
  destruct (List.exists_last (l := x :: l)) as (l' & a & Heq); [discriminate|].
  now exists l', a.
Qed.

Lemma dirname_canon (k : nat) (cs : list string) :
  (k = 1%nat \/ k = 2%nat) -> forallb Normal.clean cs = true ->
  Posixpath.dirname (Normal.canon k cs) = Normal.canon k (removelast cs).
Proof.
  intros Hk Hcs. unfold Posixpath.dirname.
  destruct (snoc_cases cs) as [-> | (cs' & c & ->)].
  - now rewrite split_canon_nil.
  - rewrite forallb_app in Hcs. apply andb_true_iff in Hcs as [Hcs' Hc].
    cbn [forallb] in Hc. rewrite andb_true_r in Hc.
    rewrite split_canon_snoc by assumption. now rewrite List.removelast_last.
Qed.

End SplitNormal.

(* ===================================================================== *)
(** ** Walks in a file system that grows *)
(* ===================================================================== *)

Section Growing.
Import Os Server Notions.

Lemma grows_refl (fs : filesystem) : grows fs fs.
Proof.
  intros k. destruct (node_at fs k) as [[| |]|]; eauto; discriminate.
Qed.

Lemma grows_trans (fs1 fs2 fs3 : filesystem) :
  grows fs1 fs2 -> grows fs2 fs3 -> grows fs1 fs3.
Proof.
  intros H12 H23 k. specialize (H12 k). specialize (H23 k).
  destruct (node_at fs1 k) as [[| |]|] eqn:H1.
  - destruct (node_at fs2 k) as [[| |]|] eqn:H2; try exact H23.
    + destruct H23 as [m' ->]. discriminate.
    + exfalso. exact (H12 _ _ eq_refl).
  - destruct H12 as [m' H12]. now rewrite H12 in H23.
  - now rewrite H12 in H23.
  - destruct (node_at fs2 k) as [[| |]|] eqn:H2; try exact H23.
    + destruct H23 as [m' ->]. discriminate.
    + exfalso. exact (H12 _ _ eq_refl).
Qed.

Lemma grows_insert_dir (fs : filesystem) (p : list string) (perm mtime : Z) :
  node_at fs p = None -> grows fs (<[p := Dir perm mtime]> fs).
Proof.
  intros Hnone k. rewrite node_at_insert_dir.
  destruct (decide (p = k)) as [<-|Hne].
  - rewrite Hnone. discriminate.
  - destruct (node_at fs k) as [[| |]|]; eauto; discriminate.
Qed.

Lemma grows_insert_file (fs : filesystem) (p : list string)
    (data : string) (perm mtime : Z) :
  p <> [] ->
  (forall q m, node_at fs p <> Some (Dir q m)) ->
  (forall tgt m, node_at fs p <> Some (Symlink tgt m)) ->
  grows fs (<[p := File data perm mtime]> fs).
Proof.
  intros Hp Hnd Hnl k. rewrite node_at_insert by exact Hp.
  destruct (decide (p = k)) as [<-|Hne].
  - destruct (node_at fs p) as [[| |]|]; try discriminate.
    + exfalso. exact (Hnd _ _ eq_refl).
    + exfalso. exact (Hnl _ _ eq_refl).
  - destruct (node_at fs k) as [[| |]|]; eauto; discriminate.
Qed.

Lemma grows_touch (now : Z) (p : list string) (fs : filesystem) :
  grows fs (touch now p fs).
Proof.
  intros k. rewrite node_at_touch.
  destruct (decide (p = k)) as [<-|];
    destruct (node_at fs _) as [[| |]|]; eauto; discriminate.
Qed.

(** Making directories is growing. *)
Lemma makes_dirs_grows (now perm : Z) (fs fs' : filesystem) :
  makes_dirs now perm fs fs' -> grows fs fs'.
Proof.
  intros Hm k.
  destruct (Hm k) as [->|[[-> ->]|(q & m & -> & ->)]]; eauto; try discriminate.
  destruct (node_at fs k) as [[| |]|]; eauto; discriminate.
Qed.

(** A walk that ends somewhere ends there in every file system the first
    grows into. *)
Lemma walk_grows (fs fs' : filesystem) (b : nat) (f : bool)
    (cur cs p : list string) :
  grows fs fs' ->
  walk fs b f cur cs = Found p -> walk fs' b f cur cs = Found p.
Proof.
  intros Hg.
  revert cur cs. induction b as [|b IHb]; intros cur cs; revert cur;
    (induction cs as [|c rest IH]; intros cur;
       [now rewrite !walk_nil|]);
    rewrite !walk_cons;
    destruct (String.eqb c "." || String.eqb c ""); try apply IH;
    destruct (String.eqb c ".."); try apply IH;
    pose proof (Hg (cur ++ [c])) as Hk;
    destruct (node_at fs (cur ++ [c])) as [[| |tgt m]|] eqn:Hn;
    try (match type of Hk with ex _ => destruct Hk as [m' Hk] end;
         rewrite Hk; apply IH);
    try (rewrite Hk;
         destruct (is_nil rest && negb f); try done; try apply IHb; fail);
    (destruct rest as [|c' rest']; cbn [is_nil]; [|discriminate]);
    intros [= <-];
    (destruct (node_at fs' (cur ++ [c])) as [[| |tgt' m']|] eqn:Hn';
       [reflexivity|apply walk_nil|exfalso; exact (Hk _ _ eq_refl)|reflexivity]).
Qed.

Lemma resolve_grows (fs fs' : filesystem) (cwd : string) (f : bool)
    (path : string) (p : list string) :
  grows fs fs' ->
  resolve fs cwd f path = Found p -> resolve fs' cwd f path = Found p.
Proof.
  intros Hg. unfold resolve. destruct (Str.is_empty path); [discriminate|].
  now apply walk_grows.
Qed.

(** A directory stays one. *)
Lemma isdir_grows (fs fs' : filesystem) (cwd path : string) :
  grows fs fs' -> isdir fs cwd path = true -> isdir fs' cwd path = true.
Proof.
  intros Hg. unfold isdir, entry.
  destruct (resolve fs cwd true path) as [p|] eqn:Hres; [|discriminate].
  rewrite (resolve_grows fs fs' cwd true path p Hg Hres).
  pose proof (Hg p) as Hk.
  destruct (node_at fs p) as [[| |]|]; try discriminate.
  destruct Hk as [m' Hk]. now rewrite Hk.
Qed.

Lemma resolve_nofollow (fs : filesystem) (cwd path : string) :
  (exists q tgt m, resolve fs cwd false path = Found q
                   /\ node_at fs q = Some (Symlink tgt m))
  \/ resolve fs cwd true path = resolve fs cwd false path.
Proof.
  unfold resolve. destruct (Str.is_empty path); [now right|].
  apply walk_nofollow.
Qed.

Lemma grounded_nil (fs : filesystem) : grounded fs [].
Proof.
  intros l Hl. apply prefix_nil_inv in Hl as ->. apply node_at_root.
Qed.

Lemma prefix_snoc_cases (l cur : list string) (c : string) :
  l `prefix_of` cur ++ [c] -> l = cur ++ [c] \/ l `prefix_of` cur.
Proof.
  intros [k Hk]. destruct (snoc_cases k) as [-> | (k' & a & ->)].
  - left. now rewrite List.app_nil_r in Hk.
  - right. rewrite List.app_assoc in Hk.
    apply List.app_inj_tail in Hk as [-> _]. now exists k'.
Qed.

Lemma grounded_snoc (fs : filesystem) (cur : list string) (c : string)
    (perm mtime : Z) :
  grounded fs cur -> node_at fs (cur ++ [c]) = Some (Dir perm mtime) ->
  grounded fs (cur ++ [c]).
Proof.
  intros Hg Hn l Hl. apply prefix_snoc_cases in Hl as [-> | Hl]; [eauto|now apply Hg].
Qed.

Lemma grounded_removelast (fs : filesystem) (cur : list string) :
  grounded fs cur -> grounded fs (removelast cur).
Proof.
  intros Hg l Hl. apply Hg.
  destruct (snoc_cases cur) as [-> | (cur' & a & ->)]; [exact Hl|].
  rewrite List.removelast_last in Hl. now apply prefix_app_r.
Qed.

Lemma is_nil_app {A} (l rest : list A) : rest <> [] -> is_nil (l ++ rest) = false.
Proof. intros Hr. destruct l; [now destruct rest|reflexivity]. Qed.

(** A walk that gets past some of its components has gone through a
    directory there. *)
Lemma walk_prefix (fs : filesystem) (b : nat) (f : bool)
    (cur cs rest p : list string) :
  rest <> [] -> grounded fs cur ->
  walk fs b f cur (cs ++ rest) = Found p ->
  exists q perm mtime,
    walk fs b true cur cs = Found q /\ node_at fs q = Some (Dir perm mtime).
Proof.
  intros Hrest.
  revert cur cs. induction b as [|b IHb]; intros cur cs; revert cur;
    (induction cs as [|c cs' IH]; intros cur Hg;
       [ intros _; rewrite walk_nil;
         destruct (Hg cur ltac:(reflexivity)) as (perm & mtime & Hn);
         now exists cur, perm, mtime
       | ]);
    cbn [List.app]; rewrite !walk_cons, (is_nil_app cs' rest Hrest);
    destruct (String.eqb c "." || String.eqb c ""); try (now apply IH);
    (destruct (String.eqb c "..");
       [apply IH; now apply grounded_removelast|]);
    destruct (node_at fs (cur ++ [c])) as [[| |tgt m]|] eqn:Hn;
    try discriminate;
    try (apply IH; now apply (grounded_snoc fs cur c perm mtime));
    cbn [andb negb]; rewrite andb_false_r; try discriminate.
  rewrite List.app_assoc. apply IHb.
  destruct (Posixpath.isabs tgt); [apply grounded_nil|exact Hg].
Qed.

Lemma resolve_canon (fs : filesystem) (cwd : string) (f : bool)
    (k : nat) (cs : list string) :
  (k = 1%nat \/ k = 2%nat) -> forallb Normal.clean cs = true ->
  resolve fs cwd f (Normal.canon k cs) = walk fs symloop_max f [] cs.
Proof.
  intros Hk Hcs. unfold resolve.
  assert (Hne : Str.is_empty (Normal.canon k cs) = false)
    by (unfold Normal.canon; destruct Hk as [-> | ->]; reflexivity).
  assert (Habs : Posixpath.isabs (Normal.canon k cs) = true)
    by (unfold Normal.canon; destruct Hk as [-> | ->]; cbn [Str.repeat];
        rewrite !app_cons; apply isabs_cons).
  now rewrite Hne, Habs, parts_canon.
Qed.

(** Where a path in normal form leads to something, the path without its
    last component leads to a directory. *)
Lemma parent_is_dir (fs : filesystem) (cwd : string) (f : bool) (k : nat)
    (cs : list string) (c : string) (p : list string) :
  (k = 1%nat \/ k = 2%nat) ->
  forallb Normal.clean cs = true -> Normal.clean c = true ->
  resolve fs cwd f (Normal.canon k (cs ++ [c])) = Found p ->
  isdir fs cwd (Normal.canon k cs) = true.
Proof.
  intros Hk Hcs Hc Hres.
  rewrite resolve_canon in Hres;
    [|assumption|rewrite forallb_app, Hcs; cbn [forallb]; now rewrite Hc].
  destruct (walk_prefix fs symloop_max f [] cs [c] p ltac:(discriminate)
              (grounded_nil fs) Hres) as (q & perm & mtime & Hq & Hn).
  unfold isdir, entry. rewrite resolve_canon by assumption. now rewrite Hq, Hn.
Qed.

(** Where a walk ends, every directory above is there. *)
Lemma walk_found_parent (fs : filesystem) (b : nat) (f : bool)
    (cur cs p : list string) :
  grounded fs cur ->
  walk fs b f cur cs = Found p ->
  forall l, l `prefix_of` p -> l <> p ->
    exists perm mtime, node_at fs l = Some (Dir perm mtime).
Proof.
  revert cur cs. induction b as [|b IHb]; intros cur cs; revert cur;
    (induction cs as [|c rest IH]; intros cur Hg;
       [rewrite walk_nil; intros [= <-] l Hl _; now apply Hg|]);
    rewrite walk_cons;
    destruct (String.eqb c "." || String.eqb c ""); try (now apply IH);
    (destruct (String.eqb c "..");
       [apply IH; now apply grounded_removelast|]);
    (assert (Hhere : Found (cur ++ [c]) = Found p ->
               forall l, l `prefix_of` p -> l <> p ->
                 exists perm mtime, node_at fs l = Some (Dir perm mtime))
       by (intros [= <-] l Hl Hne;
           apply prefix_snoc_cases in Hl as [?|Hl]; [contradiction|now apply Hg]));
    destruct (node_at fs (cur ++ [c])) as [[| |tgt m]|] eqn:Hn;
    try (destruct (is_nil rest); [exact Hhere|discriminate]);
    try (apply IH; now apply (grounded_snoc fs cur c perm mtime));
    destruct (is_nil rest && negb f); try exact Hhere; try discriminate.
  apply IHb. destruct (Posixpath.isabs tgt); [apply grounded_nil|exact Hg].
Qed.

(** What a path that names something without its last link followed
    lies in is a directory. *)
Lemma resolved_parent_is_dir (fs : filesystem) (cwd : string) (f : bool)
    (path : string) (p : list string) :
  Posixpath.isabs path = true ->
  resolve fs cwd f path = Found p -> p <> [] ->
  exists perm mtime, node_at fs (removelast p) = Some (Dir perm mtime).
Proof.
  intros Habs Hres Hp. unfold resolve in Hres.
  destruct (Str.is_empty path); [discriminate|]. rewrite Habs in Hres.
  apply (walk_found_parent fs symloop_max f [] (Posixpath.parts path) p
           (grounded_nil fs) Hres).
  - destruct (List.exists_last Hp) as (l & a & ->).
    rewrite List.removelast_last. now apply prefix_app_r.
  - now apply removelast_shorter.
Qed.

End Growing.

(* ===================================================================== *)
(** ** What [makedirs] leaves behind *)
(* ===================================================================== *)

Section MakingDirectories.
Import Os Server Notions.

Lemma mkdir_ok (fs fs' : filesystem) (cwd : string) (perm now : Z) (path : string) :
  Os.mkdir fs cwd perm now path = (Ok tt, fs') ->
  exists p, resolve fs cwd false path = Found p
            /\ node_at fs p = None
            /\ fs' = touch now (removelast p) (<[p := Dir perm now]> fs).
Proof.
  unfold Os.mkdir. destruct (resolve fs cwd false path) as [p|]; [|discriminate].
  destruct (node_at fs p) eqn:Hn; [discriminate|].
  intros [= <-]. now exists p.
Qed.

Lemma mkdir_raise_same (fs fs' : filesystem) (cwd : string) (perm now : Z)
    (path : string) (e : exn) :
  Os.mkdir fs cwd perm now path = (Raise e, fs') -> fs' = fs.
Proof.
  unfold Os.mkdir. destruct (resolve fs cwd false path) as [p|];
    [destruct (node_at fs p)|]; now intros [= _ <-].
Qed.

Lemma mkdir_result_grows (fs fs' : filesystem) (cwd : string) (perm now : Z)
    (path : string) (r : outcome unit) :
  Os.mkdir fs cwd perm now path = (r, fs') -> grows fs fs'.
Proof.
  intros Hmk. apply mkdir_makes in Hmk. now apply makes_dirs_grows in Hmk.
Qed.

(** What [mkdir] has made is a directory. *)
Lemma mkdir_ok_isdir (fs fs' : filesystem) (cwd : string) (perm now : Z)
    (path : string) :
  Os.mkdir fs cwd perm now path = (Ok tt, fs') -> isdir fs' cwd path = true.
Proof.
  intros Hmk. pose proof (mkdir_result_grows _ _ _ _ _ _ _ Hmk) as Hg.
  apply mkdir_ok in Hmk as (p & Hres & Hn & ->).
  assert (Hfollow : resolve fs cwd true path = Found p).
  { destruct (resolve_nofollow fs cwd path) as [(q & tgt & m & Hq & Hl)|Heq].
    - rewrite Hres in Hq. injection Hq as <-. congruence.
    - now rewrite Heq. }
  pose proof (node_at_none_below fs p Hn) as Hp.
  unfold isdir, entry.
  rewrite (resolve_grows fs _ cwd true path p Hg Hfollow).
  rewrite node_at_touch_other by (now apply removelast_shorter).
  rewrite node_at_insert by exact Hp.
  now destruct (decide (p = p)).
Qed.

Lemma mkdir_leaf_grows (cwd : string) (perm now : Z) (exist_ok : bool)
    (name : string) (fs fs' : filesystem) (r : outcome unit) :
  mkdir_leaf cwd perm now exist_ok name fs = (r, fs') -> grows fs fs'.
Proof.
  unfold mkdir_leaf.
  destruct (Os.mkdir fs cwd perm now name) as [[[]|e] fs1] eqn:Hmk;
    apply mkdir_result_grows in Hmk.
  - now intros [= _ <-].
  - destruct (_ || _); now intros [= _ <-].
Qed.

Lemma mkdir_leaf_ok_isdir (cwd : string) (perm now : Z) (exist_ok : bool)
    (name : string) (fs fs' : filesystem) :
  mkdir_leaf cwd perm now exist_ok name fs = (Ok tt, fs') ->
  isdir fs' cwd name = true.
Proof.
  unfold mkdir_leaf.
  destruct (Os.mkdir fs cwd perm now name) as [[[]|e] fs1] eqn:Hmk.
  - intros [= <-]. now apply mkdir_ok_isdir in Hmk.
  - destruct (negb exist_ok || negb (isdir fs1 cwd name)) eqn:Hc; [discriminate|].
    intros [= <-]. apply orb_false_iff in Hc as [_ Hc].
    now apply negb_false_iff in Hc.
Qed.

Lemma mkdir_existing (fs : filesystem) (cwd : string) (perm now : Z) (name : string) :
  isdir fs cwd name = true ->
  Os.mkdir fs cwd perm now name = (Raise (os_error EEXIST name), fs).
Proof.
  intros Hdir. unfold Os.mkdir. unfold isdir, entry in Hdir.
  destruct (resolve_nofollow fs cwd name) as [(q & tgt & m & Hq & Hl)|Heq].
  - now rewrite Hq, Hl.
  - rewrite <- Heq. destruct (resolve fs cwd true name) as [p|]; [|discriminate].
    destruct (node_at fs p); [reflexivity|discriminate].
Qed.

(** On a directory that is there, the last step of [makedirs] does
    nothing: it returns with [exist_ok] and raises without. *)
Lemma mkdir_leaf_existing (cwd : string) (perm now : Z) (exist_ok : bool)
    (name : string) (fs : filesystem) :
  isdir fs cwd name = true ->
  mkdir_leaf cwd perm now exist_ok name fs
  = (if exist_ok then Ok tt else Raise (os_error EEXIST name), fs).
Proof.
  intros Hdir. unfold mkdir_leaf.
  rewrite (mkdir_existing fs cwd perm now name Hdir), Hdir.
  now destruct exist_ok.
Qed.

Lemma makedirs_go_grows (fuel : nat) (cwd : string) (perm now : Z)
    (exist_ok : bool) (name : string) (fs fs' : filesystem) (r : outcome unit) :
  makedirs_go fuel cwd perm now exist_ok name fs = (r, fs') -> grows fs fs'.
Proof.
  intros Hmk. apply makedirs_go_spec in Hmk as [Hm _].
  now apply makes_dirs_grows in Hm.
Qed.

(** When [makedirs] returns on a path in normal form, the path is a
    directory. *)
Lemma makedirs_canon_ok (fuel : nat) (cwd : string) (perm now : Z)
    (exist_ok : bool) (k : nat) (cs : list string) (fs fs' : filesystem) :
  (k = 1%nat \/ k = 2%nat) -> forallb Normal.clean cs = true ->
  makedirs_go fuel cwd perm now exist_ok (Normal.canon k cs) fs = (Ok tt, fs') ->
  isdir fs' cwd (Normal.canon k cs) = true.
Proof.
  intros Hk Hcs.
  destruct (snoc_cases cs) as [-> | (cs' & c & ->)].
  - destruct fuel; cbn [makedirs_go]; rewrite split_canon_nil by assumption;
      cbn [Str.is_empty]; rewrite split_canon_nil by assumption;
      cbn [Str.is_empty negb andb]; rewrite andb_false_r;
      apply mkdir_leaf_ok_isdir.
  - rewrite forallb_app in Hcs. apply andb_true_iff in Hcs as [Hcs' Hc].
    cbn [forallb] in Hc. rewrite andb_true_r in Hc.
    pose proof (clean_not_special c Hc) as (Hdot & Hemp & _).
    assert (Hne : Str.is_empty c = false) by (destruct c; [discriminate|reflexivity]).
    destruct fuel; cbn [makedirs_go]; rewrite split_canon_snoc by assumption;
      cbv beta iota zeta; rewrite Hne; cbv beta iota zeta; rewrite Hne;
      destruct (negb (Str.is_empty (Normal.canon k cs')) && negb false
                && negb (path_exists fs cwd (Normal.canon k cs')));
      try apply mkdir_leaf_ok_isdir; try (intros Hx; discriminate Hx).
    rewrite Hdot.
    destruct (makedirs_go fuel cwd perm now exist_ok (Normal.canon k cs') fs)
      as [[[]|e1] fs1]; try apply mkdir_leaf_ok_isdir.
    destruct e1; try (intros Hx; discriminate Hx); apply mkdir_leaf_ok_isdir.
Qed.

(** On a directory that is there, [makedirs] does nothing: it returns
    with [exist_ok] and raises [FileExistsError] without. *)
Lemma makedirs_existing (fuel : nat) (cwd : string) (perm now : Z)
    (exist_ok : bool) (k : nat) (cs : list string) (fs : filesystem) :
  (k = 1%nat \/ k = 2%nat) -> forallb Normal.clean cs = true ->
  isdir fs cwd (Normal.canon k cs) = true ->
  makedirs_go fuel cwd perm now exist_ok (Normal.canon k cs) fs
  = (if exist_ok then Ok tt else Raise (os_error EEXIST (Normal.canon k cs)), fs).
Proof.
  intros Hk Hcs Hdir.
  destruct (snoc_cases cs) as [-> | (cs' & c & ->)].
  - destruct fuel; cbn [makedirs_go]; rewrite split_canon_nil by assumption;
      cbn [Str.is_empty]; rewrite split_canon_nil by assumption;
      cbn [Str.is_empty negb andb]; rewrite andb_false_r;
      now apply mkdir_leaf_existing.
  - rewrite forallb_app in Hcs. apply andb_true_iff in Hcs as [Hcs' Hc].
    cbn [forallb] in Hc. rewrite andb_true_r in Hc.
    assert (Hne : Str.is_empty c = false)
      by (apply clean_head in Hc as (a & r & -> & _); reflexivity).
    assert (Hparent : path_exists fs cwd (Normal.canon k cs') = true).
    { assert (Hres : exists p, resolve fs cwd true (Normal.canon k (cs' ++ [c])) = Found p).
      { unfold isdir, entry in Hdir.
        destruct (resolve fs cwd true (Normal.canon k (cs' ++ [c]))) as [p|];
          [now exists p|discriminate]. }
      destruct Hres as [p Hres].
      pose proof (parent_is_dir fs cwd true k cs' c p Hk Hcs' Hc Hres) as Hpd.
      unfold isdir in Hpd. unfold path_exists.
      destruct (entry fs cwd true (Normal.canon k cs')); [discriminate|reflexivity]. }
    destruct fuel; cbn [makedirs_go]; rewrite split_canon_snoc by assumption;
      cbv beta iota zeta; rewrite Hne; cbv beta iota zeta; rewrite Hne;
      rewrite Hparent; cbn [negb andb]; rewrite andb_false_r;
      now apply mkdir_leaf_existing.
Qed.

End MakingDirectories.

(* ===================================================================== *)
(** ** The root directory and [mkdir] *)
(* ===================================================================== *)

Section RootAndMkdir.
Import Os Server Notions.

(** A root given in normal form is its own absolute path. *)
Lemma root_canon (H : host) (C : config) :
  Posixpath.isabs (getcwd H) = true ->
  SandboxRoot H C = ROOT_DIR C ->
  exists k cs, (k = 1%nat \/ k = 2%nat) /\ forallb Normal.clean cs = true
               /\ ROOT_DIR C = Normal.canon k cs.
Proof.
  intros Hcwd Hroot.
  destruct (abspath_canon (getcwd H) (ROOT_DIR C) Hcwd) as (k & cs & Hk & Hcs & Heq).
  exists k, cs. split; [exact Hk|]. split; [exact Hcs|].
  rewrite <- Hroot. exact Heq.
Qed.

Lemma abs_canon (H : host) (C : config) (path ap : string) :
  Posixpath.isabs (getcwd H) = true ->
  _abs H C path = Ok ap ->
  exists k cs, (k = 1%nat \/ k = 2%nat) /\ forallb Normal.clean cs = true
               /\ ap = Normal.canon k cs.
Proof.
  intros Hcwd Habs. rewrite (abs_value H C path ap Habs).
  now apply abspath_canon.
Qed.

Lemma ensure_root_grows (H : host) (C : config) (w w1 : world) (r : outcome unit) :
  ensure_root H C w = (r, w1) -> grows (w_fs w) (w_fs w1).
Proof.
  unfold ensure_root, acting, makedirs.
  destruct (makedirs_go _ _ _ _ _ _ _) as [r0 fs'] eqn:Hmk.
  intros [= _ <-]. now apply makedirs_go_grows in Hmk.
Qed.

Lemma ensure_root_ok_isdir (H : host) (C : config) (w w1 : world) :
  Posixpath.isabs (getcwd H) = true ->
  SandboxRoot H C = ROOT_DIR C ->
  ensure_root H C w = (Ok tt, w1) ->
  isdir (w_fs w1) (getcwd H) (ROOT_DIR C) = true.
Proof.
  intros Hcwd Hroot.
  destruct (root_canon H C Hcwd Hroot) as (k & cs & Hk & Hcs & Heq).
  unfold ensure_root, acting, makedirs. rewrite Heq.
  destruct (makedirs_go _ _ _ _ _ _ _) as [r0 fs'] eqn:Hmk.
  intros [= -> <-]. now apply makedirs_canon_ok in Hmk.
Qed.

Lemma ensure_root_existing (H : host) (C : config) (w : world) :
  Posixpath.isabs (getcwd H) = true ->
  SandboxRoot H C = ROOT_DIR C ->
  isdir (w_fs w) (getcwd H) (ROOT_DIR C) = true ->
  ensure_root H C w = (Ok tt, w).
Proof.
  intros Hcwd Hroot Hdir.
  destruct (root_canon H C Hcwd Hroot) as (k & cs & Hk & Hcs & Heq).
  unfold ensure_root, acting, makedirs. rewrite Heq in *.
  rewrite makedirs_existing by assumption. now destruct w.
Qed.

(** X10. With the root given in normal form, [ensure_root] makes the root
    a directory and is idempotent: after it has returned once, and
    whenever the root is a directory already, it returns without changing
    anything.  It only makes directories: every entry is as it was, or is
    a new directory, or is a directory of before that received a new one
    and has the time of the call.  It starts no process, and every
    directory stays one. *)
Theorem ensure_root_idempotent (H : host) (C : config) (w w1 : world) :
  Posixpath.isabs (getcwd H) = true ->
  SandboxRoot H C = ROOT_DIR C ->
  ensure_root H C w = (Ok tt, w1) ->
  isdir (w_fs w1) (getcwd H) (ROOT_DIR C) = true
  /\ ensure_root H C w1 = (Ok tt, w1)
  /\ (isdir (w_fs w) (getcwd H) (ROOT_DIR C) = true -> w1 = w)
  /\ makes_dirs (now H) (dir_perm H) (w_fs w) (w_fs w1)
  /\ w_log w1 = w_log w
  /\ (forall path, isdir (w_fs w) (getcwd H) path = true ->
                   isdir (w_fs w1) (getcwd H) path = true).
Proof.
  intros Hcwd Hroot Hrun.
  pose proof (ensure_root_ok_isdir H C w w1 Hcwd Hroot Hrun) as Hdir.
  destruct (ensure_root_spec H C w w1 _ Hrun) as (Hsub & Hlog & _).
  split; [exact Hdir|]. split; [now apply ensure_root_existing|].
  split.
  { intros Hd. rewrite (ensure_root_existing H C w Hcwd Hroot Hd) in Hrun.
    now injection Hrun. }
  split; [exact Hsub|]. split; [exact Hlog|].
  intros path. apply isdir_grows. exact (ensure_root_grows H C w w1 _ Hrun).
Qed.

Lemma ensure_root_idempotent_witness :
  exists w1,
    ensure_root Demo.slow_host Demo.fresh_config Examples.empty_world = (Ok tt, w1)
    /\ isdir (w_fs w1) "/home/user" "/srv/new/sandbox" = true
    /\ ensure_root Demo.slow_host Demo.fresh_config w1 = (Ok tt, w1).
Proof.
  assert (Hrun : ensure_root Demo.slow_host Demo.fresh_config Examples.empty_world
                 = (Ok tt, snd (ensure_root Demo.slow_host Demo.fresh_config
                                  Examples.empty_world)))
    by (vm_compute; reflexivity).
  assert (Hroot : SandboxRoot Demo.slow_host Demo.fresh_config
                  = ROOT_DIR Demo.fresh_config) by (vm_compute; reflexivity).
  destruct (ensure_root_idempotent Demo.slow_host Demo.fresh_config
              Examples.empty_world _ eq_refl Hroot Hrun) as (Hd & Hi & _).
  eexists. split; [exact Hrun|]. split; [exact Hd|exact Hi].
Defined.

(** X28. A sandbox root that is not given in normal form can make
    [ensure_root] create directories although the root is in place:
    [os.makedirs] goes by the text of the path.  With the root
    [/x/../sandbox], [/sandbox] a directory and no [/x], [ensure_root]
    creates [/x] and gives [/] the time of the call; so does every tool
    call, also one that is then refused. *)
Theorem unnormalised_root_is_made :
  SandboxRoot Demo.slow_host Examples.dotted_config = "/sandbox"
  /\ isdir Demo.project_fs "/home/user" "/sandbox" = true
  /\ node_at Demo.project_fs ["x"] = None
  /\ fst (ensure_root Demo.slow_host Examples.dotted_config Demo.project_world) = Ok tt
  /\ node_at (w_fs (snd (ensure_root Demo.slow_host Examples.dotted_config
                           Demo.project_world))) ["x"]
     = Some (Dir 493 1700000000)
  /\ node_at (w_fs (snd (ensure_root Demo.slow_host Examples.dotted_config
                           Demo.project_world))) []
     = Some (Dir 493 1700000000)
  /\ Registry.perform Demo.slow_host Examples.dotted_config
       (Registry.ReadText "../y" "utf-8") Demo.project_world
     = (Raise PathEscape,
        snd (ensure_root Demo.slow_host Examples.dotted_config Demo.project_world))
  /\ snd (ensure_root Demo.slow_host Examples.dotted_config Demo.project_world)
     <> Demo.project_world.
Proof.
  assert (Hx : node_at (w_fs (snd (ensure_root Demo.slow_host Examples.dotted_config
                                    Demo.project_world))) ["x"]
               = Some (Dir 493 1700000000)) by (vm_compute; reflexivity).
  repeat split; try exact Hx; try (vm_compute; reflexivity).
  intros Heq. rewrite Heq in Hx. vm_compute in Hx. discriminate Hx.
Qed.

(** [mkdir], step by step. *)
Lemma mkdir_steps (H : host) (C : config) (path : string)
    (parents exist_ok : bool) (w : world) :
  Server.mkdir H C path parents exist_ok w =
    match ensure_root H C w with
    | (Raise e, w1) => (Raise e, w1)
    | (Ok _, w1) =>
        match _abs H C path with
        | Raise e => (Raise e, w1)
        | Ok ap =>
            match _policy H C ap with
            | Raise e => (Raise e, w1)
            | Ok _ =>
                match (if parents
                       then makedirs (w_fs w1) (getcwd H) (dir_perm H) (now H) exist_ok ap
                       else Os.mkdir (w_fs w1) (getcwd H) (dir_perm H) (now H) ap) with
                | (Raise e, fs2) => (Raise e, {| w_fs := fs2; w_log := w_log w1 |})
                | (Ok _, fs2) =>
                    (Ok (VDict [("created", VBool true); ("path", relative H C ap)]),
                     {| w_fs := fs2; w_log := w_log w1 |})
                end
            end
        end
    end.
Proof.
  unfold Server.mkdir, bind, pure, acting, ret.
  destruct (ensure_root H C w) as [[[]|e] w1]; [|reflexivity].
  destruct (_abs H C path) as [ap|e]; [|reflexivity].
  destruct (_policy H C ap) as [[]|e]; [|reflexivity].
  destruct parents.
  - destruct (makedirs _ _ _ _ _ _) as [[[]|e] fs2]; reflexivity.
  - destruct (Os.mkdir _ _ _ _ _) as [[[]|e] fs2]; reflexivity.
Qed.

(** X11. When the tool [mkdir] returns, the path it was given is a
    directory, whatever [parents] and [exist_ok] are; no process has been
    started and every directory of before is still one. *)
Theorem mkdir_makes_directory (H : host) (C : config) (path : string)
    (parents exist_ok : bool) (w w2 : world) (r : pyval) :
  Posixpath.isabs (getcwd H) = true ->
  Server.mkdir H C path parents exist_ok w = (Ok r, w2) ->
  exists ap,
    _abs H C path = Ok ap
    /\ _policy H C ap = Ok tt
    /\ r = VDict [("created", VBool true); ("path", relative H C ap)]
    /\ isdir (w_fs w2) (getcwd H) ap = true
    /\ w_log w2 = w_log w
    /\ (forall other, isdir (w_fs w) (getcwd H) other = true ->
                      isdir (w_fs w2) (getcwd H) other = true).
Proof.
  intros Hcwd. rewrite mkdir_steps.
  destruct (ensure_root H C w) as [[[]|e] w1] eqn:Hroot; [|discriminate].
  destruct (_abs H C path) as [ap|e] eqn:Habs; [|discriminate].
  destruct (_policy H C ap) as [[]|e] eqn:Hpol; [|discriminate].
  destruct (ensure_root_spec H C w w1 _ Hroot) as (_ & Hlog & _).
  pose proof (ensure_root_grows H C w w1 _ Hroot) as Hg1.
  destruct (abs_canon H C path ap Hcwd Habs) as (k & cs & Hk & Hcs & Hap).
  destruct (if parents then _ else _) as [[[]|e] fs2] eqn:Hmk; [|discriminate].
  intros [= <- <-]. exists ap. cbn [w_fs w_log].
  assert (Hpost : isdir fs2 (getcwd H) ap = true /\ grows (w_fs w1) fs2).
  { destruct parents.
    - unfold makedirs in Hmk. split.
      + rewrite Hap in *. now apply makedirs_canon_ok in Hmk.
      + now apply makedirs_go_grows in Hmk.
    - split; [now apply mkdir_ok_isdir in Hmk|now apply mkdir_result_grows in Hmk]. }
  destruct Hpost as [Hdir Hg2].
  repeat (split; [done|]).
  intros other Hother. apply (isdir_grows (w_fs w1)); [exact Hg2|].
  now apply (isdir_grows (w_fs w)).
Qed.

Lemma mkdir_makes_directory_witness :
  exists w2,
    isdir (w_fs w2) "/home/user" "/sandbox/proj/new/deep" = true
    /\ w_log w2 = [].
Proof.
  assert (Hrun : Server.mkdir Demo.slow_host Demo.sandbox_config "proj/new/deep" true true
                   Demo.project_world
                 = (Ok (VDict [("created", VBool true); ("path", VStr "proj/new/deep")]),
                    snd (Server.mkdir Demo.slow_host Demo.sandbox_config "proj/new/deep"
                           true true Demo.project_world)))
    by (vm_compute; reflexivity).
  destruct (mkdir_makes_directory Demo.slow_host Demo.sandbox_config "proj/new/deep"
              true true Demo.project_world _ _ eq_refl Hrun)
    as (ap & Habs & _ & _ & Hdir & Hlog & _).
  assert (Hap : ap = "/sandbox/proj/new/deep").
  { assert (Hc : _abs Demo.slow_host Demo.sandbox_config "proj/new/deep"
                 = Ok "/sandbox/proj/new/deep") by (vm_compute; reflexivity).
    rewrite Hc in Habs. now injection Habs. }
  rewrite Hap in Hdir. eexists. split; [exact Hdir|exact Hlog].
Defined.

(** X12. On a path that is a directory already, the tool [mkdir] changes
    nothing: with [parents] and [exist_ok] (the defaults) it returns, and
    otherwise it raises [FileExistsError]. *)
Theorem mkdir_on_existing_directory (H : host) (C : config) (path : string)
    (parents exist_ok : bool) (w w1 : world) (ap : string) :
  Posixpath.isabs (getcwd H) = true ->
  ensure_root H C w = (Ok tt, w1) ->
  _abs H C path = Ok ap ->
  _policy H C ap = Ok tt ->
  isdir (w_fs w1) (getcwd H) ap = true ->
  Server.mkdir H C path parents exist_ok w
  = (if parents && exist_ok
     then Ok (VDict [("created", VBool true); ("path", relative H C ap)])
     else Raise (os_error EEXIST ap),
     w1).
Proof.
  intros Hcwd Hroot Habs Hpol Hdir.
  rewrite mkdir_steps, Hroot, Habs, Hpol.
  destruct (abs_canon H C path ap Hcwd Habs) as (k & cs & Hk & Hcs & Hap).
  destruct parents; cbn [andb].
  - unfold makedirs. rewrite Hap in *.
    rewrite makedirs_existing by assumption.
    destruct exist_ok; now destruct w1.
  - rewrite mkdir_existing by assumption. now destruct w1.
Qed.

Lemma mkdir_on_existing_directory_witness :
  Server.mkdir Demo.slow_host Demo.sandbox_config "proj/docs" true false
    Demo.project_world
  = (Raise (FileExistsError
              "[Errno 17] File exists: '/sandbox/proj/docs'"),
     Demo.project_world).
Proof.
  assert (Hroot : ensure_root Demo.slow_host Demo.sandbox_config Demo.project_world
                  = (Ok tt, Demo.project_world)) by (vm_compute; reflexivity).
  assert (Habs : _abs Demo.slow_host Demo.sandbox_config "proj/docs"
                 = Ok "/sandbox/proj/docs") by (vm_compute; reflexivity).
  assert (Hpol : _policy Demo.slow_host Demo.sandbox_config "/sandbox/proj/docs" = Ok tt)
    by (vm_compute; reflexivity).
  assert (Hdir : isdir (w_fs Demo.project_world) (getcwd Demo.slow_host)
                   "/sandbox/proj/docs" = true) by (vm_compute; reflexivity).
  exact (mkdir_on_existing_directory Demo.slow_host Demo.sandbox_config "proj/docs"
           true false Demo.project_world Demo.project_world "/sandbox/proj/docs"
           eq_refl Hroot Habs Hpol Hdir).
Defined.

End RootAndMkdir.

(* ===================================================================== *)
(** ** Removing a directory, and the state at a boundary failure *)
(* ===================================================================== *)

Section RemovingDirectories.
Import Os Server Registry Notions.

(** Making directories loses nothing. *)
Lemma makes_dirs_keeps (now perm : Z) (fs fs' : filesystem) (k : list string)
    (n : node) :
  makes_dirs now perm fs fs' -> node_at fs k = Some n ->
  node_at fs' k = Some n
  \/ exists p m, n = Dir p m /\ node_at fs' k = Some (Dir p now).
Proof.
  intros Hm Hn. destruct (Hm k) as [Heq|[[Hnone _]|(p & m & Hd & Hd')]].
  - left. congruence.
  - congruence.
  - right. exists p, m. split; congruence.
Qed.

Lemma rm_recursive_steps (H : host) (C : config) (path : string)
    (recursive : bool) (w w1 : world) (ap : string) :
  ensure_root H C w = (Ok tt, w1) ->
  _abs H C path = Ok ap ->
  _policy H C ap = Ok tt ->
  isdir (w_fs w1) (getcwd H) ap = true ->
  islink (w_fs w1) (getcwd H) ap = false ->
  rm H C path recursive w =
    if negb recursive
    then (Raise (IsADirectoryError "Use recursive=True for directories"), w1)
    else bind (acting (fun fs => rmtree fs (getcwd H) (now H) ap))
           (fun _ => ret (VDict [("removed", VBool true);
                                 ("path", relative H C ap)])) w1.
Proof.
  intros Hroot Habs Hpol Hdir Hlink.
  unfold rm. unfold bind at 1. rewrite Hroot.
  unfold bind at 1, pure at 1. rewrite Habs.
  unfold bind at 1, pure at 1. rewrite Hpol.
  unfold bind at 1, reading at 1. rewrite Hdir, Hlink. cbn [andb negb].
  now destruct recursive.
Qed.

(** C7, amended. For a directory (not a link to one) whose path resolves
    inside the root and passes the policy check: [rm] without [recursive]
    raises [IsADirectoryError] and deletes nothing, the state is the one
    [ensure_root] left, in which every entry of before the call is still
    there, and it is the state of before the call when the root, given in
    normal form, was in place; [rm] with [recursive] returns, the tree of
    the directory is gone, the path names nothing any more, the directory
    the tree was in has the time of the call and every other entry is as
    it was (the root of the file system itself cannot be removed). *)
Theorem rm_directory (H : host) (C : config) (path : string)
    (w w1 : world) (ap : string) :
  Posixpath.isabs (getcwd H) = true ->
  ensure_root H C w = (Ok tt, w1) ->
  _abs H C path = Ok ap ->
  _policy H C ap = Ok tt ->
  isdir (w_fs w1) (getcwd H) ap = true ->
  islink (w_fs w1) (getcwd H) ap = false ->
  (rm H C path false w
   = (Raise (IsADirectoryError "Use recursive=True for directories"), w1)
   /\ makes_dirs (now H) (dir_perm H) (w_fs w) (w_fs w1)
   /\ (forall k n, node_at (w_fs w) k = Some n ->
         node_at (w_fs w1) k = Some n
         \/ exists p m, n = Dir p m /\ node_at (w_fs w1) k = Some (Dir p (now H)))
   /\ (SandboxRoot H C = ROOT_DIR C ->
       isdir (w_fs w) (getcwd H) (ROOT_DIR C) = true ->
       rm H C path false w
       = (Raise (IsADirectoryError "Use recursive=True for directories"), w)))
  /\ (Posixpath.parts ap <> [] ->
      exists p perm mtime fs2,
        resolve (w_fs w1) (getcwd H) true ap = Found p
        /\ p <> []
        /\ node_at (w_fs w1) (removelast p) = Some (Dir perm mtime)
        /\ fs2 = touch (now H) (removelast p) (without_tree p (w_fs w1))
        /\ rm H C path true w
           = (Ok (VDict [("removed", VBool true); ("path", relative H C ap)]),
              {| w_fs := fs2; w_log := w_log w1 |})
        /\ path_exists fs2 (getcwd H) ap = false
        /\ isdir fs2 (getcwd H) ap = false
        /\ (forall q, p `prefix_of` q -> node_at fs2 q = None)
        /\ node_at fs2 (removelast p) = Some (Dir perm (now H))
        /\ (forall q, ~ p `prefix_of` q -> q <> removelast p ->
              node_at fs2 q = node_at (w_fs w1) q)).
Proof.
  intros Hcwd Hroot Habs Hpol Hdir Hlink.
  pose proof (fun recursive =>
                rm_recursive_steps H C path recursive w w1 ap
                  Hroot Habs Hpol Hdir Hlink) as Hrm.
  destruct (ensure_root_spec H C w w1 _ Hroot) as (Hmade & _ & _).
  split.
  - split; [now rewrite Hrm|]. split; [exact Hmade|]. split.
    + intros k n Hn. exact (makes_dirs_keeps _ _ _ _ k n Hmade Hn).
    + intros Hnormal Hready. rewrite Hrm. cbn [negb].
      pose proof (ensure_root_existing H C w Hcwd Hnormal Hready) as Hsame.
      congruence.
  - intros Hne.
    destruct (real_dir_entry _ _ _ Hdir Hlink) as (p & perm0 & mtime0 & Hfol & Hno & Hnode).
    destruct (abs_parts_clean H C path ap Hcwd Habs) as [Hclean Hisabs].
    pose proof (resolve_ends_below _ _ _ _ Hclean Hne Hno) as Hp.
    destruct (resolved_parent_is_dir _ _ _ _ _ Hisabs Hno Hp) as (perm & mtime & Hpar).
    pose proof (removelast_not_below p Hp) as Hout.
    exists p, perm, mtime, (touch (now H) (removelast p) (without_tree p (w_fs w1))).
    split; [exact Hfol|]. split; [exact Hp|]. split; [exact Hpar|].
    split; [reflexivity|].
    assert (Hgone : path_exists (touch (now H) (removelast p) (without_tree p (w_fs w1)))
                      (getcwd H) ap = false).
    { rewrite (path_exists_alike _ _ _ _ (touch_alike _ _ _)).
      now apply gone_after_rmtree. }
    split; [|split; [exact Hgone|split; [|split; [|split]]]].
    + rewrite Hrm. cbn [negb]. unfold bind, acting, rmtree, entry, ret.
      rewrite Hno, Hnode. destruct p; [congruence|reflexivity].
    + unfold path_exists in Hgone. unfold isdir.
      now destruct (entry _ (getcwd H) true ap).
    + intros q Hq. rewrite node_at_touch_other by (intros <-; contradiction).
      rewrite node_at_without_tree by exact Hp. now rewrite decide_True.
    + rewrite node_at_touch, decide_True by reflexivity.
      rewrite node_at_without_tree by exact Hp.
      rewrite decide_False by exact Hout. now rewrite Hpar.
    + intros q Hq Hqp. rewrite node_at_touch_other by congruence.
      rewrite node_at_without_tree by exact Hp. now rewrite decide_False.
Qed.

Lemma rm_directory_witness :
  rm Demo.slow_host Demo.sandbox_config "proj/docs" false Demo.project_world
  = (Raise (IsADirectoryError "Use recursive=True for directories"), Demo.project_world)
  /\ exists p fs2,
       rm Demo.slow_host Demo.sandbox_config "proj/docs" true Demo.project_world
       = (Ok (VDict [("removed", VBool true);
                     ("path", relative Demo.slow_host Demo.sandbox_config
                                "/sandbox/proj/docs")]),
          {| w_fs := fs2; w_log := [] |})
       /\ fs2 = touch 1700000000 (removelast p) (without_tree p Demo.project_fs)
       /\ path_exists fs2 "/home/user" "/sandbox/proj/docs" = false.
Proof.
  assert (Hcwd : Posixpath.isabs (getcwd Demo.slow_host) = true) by reflexivity.
  assert (Hroot : ensure_root Demo.slow_host Demo.sandbox_config Demo.project_world
                  = (Ok tt, Demo.project_world)) by (vm_compute; reflexivity).
  assert (Habs : _abs Demo.slow_host Demo.sandbox_config "proj/docs"
                 = Ok "/sandbox/proj/docs") by (vm_compute; reflexivity).
  assert (Hpol : _policy Demo.slow_host Demo.sandbox_config "/sandbox/proj/docs"
                 = Ok tt) by (vm_compute; reflexivity).
  assert (Hdir : isdir (w_fs Demo.project_world) (getcwd Demo.slow_host)
                   "/sandbox/proj/docs" = true) by (vm_compute; reflexivity).
  assert (Hlink : islink (w_fs Demo.project_world) (getcwd Demo.slow_host)
                    "/sandbox/proj/docs" = false) by (vm_compute; reflexivity).
  assert (Hne : Posixpath.parts "/sandbox/proj/docs" <> [])
    by (vm_compute; discriminate).
  destruct (rm_directory Demo.slow_host Demo.sandbox_config "proj/docs"
              Demo.project_world Demo.project_world "/sandbox/proj/docs"
              Hcwd Hroot Habs Hpol Hdir Hlink) as [(Hplain & _) Hrec].
  split; [exact Hplain|].
  destruct (Hrec Hne) as (p & perm & mtime & fs2 & _ & _ & _ & Hfs & Hrun & Hgone & _).
  exists p, fs2. split; [exact Hrun|]. split; [exact Hfs|exact Hgone].
Defined.

(** C8, as the claim has it, fails: a read refused for escaping the root
    has already created the missing sandbox root. *)
Lemma root_created_before_refusal_counterexample :
  fst (perform Demo.slow_host Demo.fresh_config (ReadText "../x" "utf-8")
         Demo.project_world) = Raise PathEscape
  /\ boundary_violation PathEscape
  /\ w_fs (snd (perform Demo.slow_host Demo.fresh_config (ReadText "../x" "utf-8")
                  Demo.project_world)) <> w_fs Demo.project_world.
Proof.
  split; [vm_compute; reflexivity|]. split; [now left|].
  intros Heq.
  apply (f_equal (fun fs : filesystem => fs !! ["srv"])) in Heq.
  vm_compute in Heq. discriminate Heq.
Qed.

(** C8, amended. A tool that fails with a boundary violation has done
    nothing to the file system beyond what [ensure_root], the first step
    of every tool, does when the sandbox root is missing: the state at the
    error is the state [ensure_root] returned.  That state differs from
    the one at the start by the directories [ensure_root] made: every
    entry of before is still there, unchanged or, for a directory that
    received a new one, with the time of the call; no process has been
    started.  With the root given in normal form and in place, the state
    is the one at the start of the call.  The feature-disabled error of
    [run] comes before [ensure_root] and leaves the state as it was. *)
Theorem boundary_failure_state (H : host) (C : config) (c : call)
    (w w' : world) (e : exn) :
  perform H C c w = (Raise e, w') ->
  boundary_violation e ->
  ((ENABLE_RUN_COMMANDS C = false /\ e = FeatureDisabled /\ w' = w)
   \/ ensure_root H C w = (Ok tt, w'))
  /\ makes_dirs (now H) (dir_perm H) (w_fs w) (w_fs w')
  /\ (forall k n, node_at (w_fs w) k = Some n ->
        node_at (w_fs w') k = Some n
        \/ exists p m, n = Dir p m /\ node_at (w_fs w') k = Some (Dir p (now H)))
  /\ w_log w' = w_log w
  /\ (Posixpath.isabs (getcwd H) = true ->
      SandboxRoot H C = ROOT_DIR C ->
      isdir (w_fs w) (getcwd H) (ROOT_DIR C) = true ->
      w' = w).
Proof.
  intros Hrun Hb. apply boundary_is_permission in Hb.
  pose proof (tool_raises H C c w w' e Hrun Hb) as Hcase.
  split; [exact Hcase|].
  assert (Hmade : makes_dirs (now H) (dir_perm H) (w_fs w) (w_fs w')
                  /\ w_log w' = w_log w).
  { destruct Hcase as [(_ & _ & ->)|Hroot].
    - split; [apply makes_dirs_refl|reflexivity].
    - now pose proof (ensure_root_spec H C w w' _ Hroot) as (Hsub & Hlog & _). }
  destruct Hmade as [Hmade Hlog].
  split; [exact Hmade|]. split; [|split; [exact Hlog|]].
  - intros k n Hn. exact (makes_dirs_keeps _ _ _ _ k n Hmade Hn).
  - intros Hcwd Hnormal Hready.
    destruct Hcase as [(_ & _ & ->)|Hroot]; [reflexivity|].
    pose proof (ensure_root_existing H C w Hcwd Hnormal Hready) as Hsame.
    congruence.
Qed.

Lemma boundary_failure_state_witness :
  snd (perform Demo.slow_host Demo.sandbox_config
         (WriteText "../outside.txt" "x" true true "utf-8") Demo.project_world)
  = Demo.project_world.
Proof.
  destruct (boundary_failure_state Demo.slow_host Demo.sandbox_config
              (WriteText "../outside.txt" "x" true true "utf-8")
              Demo.project_world
              (snd (perform Demo.slow_host Demo.sandbox_config
                      (WriteText "../outside.txt" "x" true true "utf-8")
                      Demo.project_world))
              PathEscape) as (_ & _ & _ & _ & Hsame).
  - vm_compute. reflexivity.
  - now left.
  - apply Hsame; vm_compute; reflexivity.
Defined.

End RemovingDirectories.

(* ===================================================================== *)
(** ** Writing and reading back *)
(* ===================================================================== *)

Section WriteRead.
Import Os Server Notions.

(** [write_text], step by step. *)
Lemma write_text_steps (H : host) (C : config) (path content : string)
    (create_dirs overwrite : bool) (encoding : string) (w : world) :
  write_text H C path content create_dirs overwrite encoding w =
    match ensure_root H C w with
    | (Raise e, w1) => (Raise e, w1)
    | (Ok _, w1) =>
        match _abs H C path with
        | Raise e => (Raise e, w1)
        | Ok ap =>
            match _policy H C ap with
            | Raise e => (Raise e, w1)
            | Ok _ =>
                match (if create_dirs
                       then makedirs (w_fs w1) (getcwd H) (dir_perm H) (now H) true
                              (Posixpath.dirname ap)
                       else (Ok tt, w_fs w1)) with
                | (Raise e, fs2) => (Raise e, {| w_fs := fs2; w_log := w_log w1 |})
                | (Ok _, fs2) =>
                    if path_exists fs2 (getcwd H) ap && negb overwrite
                    then (Raise (FileExistsError "File exists and overwrite=False"),
                          {| w_fs := fs2; w_log := w_log w1 |})
                    else
                      match write_file fs2 (getcwd H) (file_perm H) (now H) (codec_of H)
                              ap encoding content with
                      | (Raise e, fs3) => (Raise e, {| w_fs := fs3; w_log := w_log w1 |})
                      | (Ok _, fs3) =>
                          match encoded_length H encoding content with
                          | Raise e => (Raise e, {| w_fs := fs3; w_log := w_log w1 |})
                          | Ok n =>
                              (Ok (VDict [("written", VBool true);
                                          ("path", relative H C ap);
                                          ("bytes", VInt n)]),
                               {| w_fs := fs3; w_log := w_log w1 |})
                          end
                      end
                end
            end
        end
    end.
Proof.
  unfold write_text, bind, pure, acting, reading, ret, raise.
  destruct (ensure_root H C w) as [[[]|e] w1]; [|reflexivity].
  destruct (_abs H C path) as [ap|e]; [|reflexivity].
  destruct (_policy H C ap) as [[]|e]; [|reflexivity].
  destruct w1 as [fs1 log1]. cbn [w_fs w_log].
  destruct create_dirs.
  - destruct (makedirs _ _ _ _ _ _) as [[[]|e] fs2]; [|reflexivity].
    cbn [w_fs w_log]. destruct (_ && _); [reflexivity|].
    destruct (write_file _ _ _ _ _ _ _ _) as [[[]|e] fs3]; [|reflexivity].
    now destruct (encoded_length H encoding content).
  - cbn [w_fs w_log]. destruct (_ && _); [reflexivity|].
    destruct (write_file _ _ _ _ _ _ _ _) as [[[]|e] fs3]; [|reflexivity].
    now destruct (encoded_length H encoding content).
Qed.

(** [read_text], step by step. *)
Lemma read_text_steps (H : host) (C : config) (path encoding : string) (w : world) :
  read_text H C path encoding w =
    match ensure_root H C w with
    | (Raise e, w1) => (Raise e, w1)
    | (Ok _, w1) =>
        match _abs H C path with
        | Raise e => (Raise e, w1)
        | Ok ap =>
            match _policy H C ap with
            | Raise e => (Raise e, w1)
            | Ok _ =>
                if isfile (w_fs w1) (getcwd H) ap then
                  match read_file (w_fs w1) (getcwd H) (codec_of H) ap encoding with
                  | Raise e => (Raise e, w1)
                  | Ok content =>
                      (Ok (VDict [("path", relative H C ap); ("content", VStr content)]), w1)
                  end
                else (Raise (FileNotFoundError "File not found"), w1)
            end
        end
    end.
Proof.
  unfold read_text, bind, pure, acting, reading, ret, raise.
  destruct (ensure_root H C w) as [[[]|e] w1]; [|reflexivity].
  destruct (_abs H C path) as [ap|e]; [|reflexivity].
  destruct (_policy H C ap) as [[]|e]; [|reflexivity].
  destruct (isfile _ _ _); cbn [negb]; [|reflexivity].
  destruct (read_file _ _ _ _ _); reflexivity.
Qed.

(** What a successful [write_file] has done: the file the path leads to
    holds what the text writer of the codec made of the content; it was
    there and keeps its permission bits, or it is new, and the directory
    it is in has the time of the call. *)
Lemma write_file_ok (fs fs' : filesystem) (cwd : string) (perm now : Z)
    (codec_of : string -> option codec) (path encoding content : string) :
  write_file fs cwd perm now codec_of path encoding content = (Ok tt, fs') ->
  exists p c bytes pm,
    resolve fs cwd true path = Found p
    /\ codec_of encoding = Some c
    /\ written c content = Some bytes
    /\ node_at fs' p = Some (File bytes pm now)
    /\ p <> []
    /\ grows fs fs'
    /\ ((exists data mtime, node_at fs p = Some (File data pm mtime)
                            /\ fs' = <[p := File bytes pm now]> fs)
        \/ (node_at fs p = None /\ pm = perm
            /\ fs' = <[p := File bytes perm now]> (touch now (removelast p) fs))).
Proof.
  unfold write_file.
  destruct (resolve fs cwd true path) as [p|]; [|discriminate].
  assert (Hput : forall pm fs0,
            p <> [] ->
            match codec_of encoding with
            | Some c =>
                match written c content with
                | Some bytes =>
                    (Ok tt, <[p := File bytes pm now]> (<[p := File "" pm now]> fs0))
                | None =>
                    (Raise (UnicodeError "codec can't encode characters"),
                     <[p := File "" pm now]> fs0)
                end
            | None =>
                (Raise (LookupError ("unknown encoding: " +:+ encoding)),
                 <[p := File "" pm now]> fs0)
            end = (Ok tt, fs') ->
            exists c bytes,
              codec_of encoding = Some c
              /\ written c content = Some bytes
              /\ fs' = <[p := File bytes pm now]> fs0
              /\ node_at fs' p = Some (File bytes pm now)).
  { intros pm fs0 Hp.
    destruct (codec_of encoding) as [c|] eqn:Hc; [|discriminate].
    destruct (written c content) as [bytes|] eqn:He; [|discriminate].
    intros [= <-]. exists c, bytes. rewrite insert_insert_eq.
    repeat (split; [done|]).
    rewrite node_at_insert by exact Hp. now destruct (decide (p = p)). }
  destruct (node_at fs p) as [[d pm m| |]|] eqn:Hn; try discriminate.
  - assert (Hp : p <> []) by (intros ->; cbn in Hn; unfold root_of, root_dir in Hn;
                              destruct (fs !! []) as [[| |]|]; discriminate).
    intros Hw. destruct (Hput pm fs Hp Hw) as (c & bytes & Hc & He & Hfs & Hnode).
    exists p, c, bytes, pm. repeat (split; [done|]). split.
    + rewrite Hfs. apply grows_insert_file; [exact Hp| |]; rewrite Hn; discriminate.
    + left. now exists d, m.
  - pose proof (node_at_none_below fs p Hn) as Hp.
    intros Hw.
    destruct (Hput perm (touch now (removelast p) fs) Hp Hw)
      as (c & bytes & Hc & He & Hfs & Hnode).
    exists p, c, bytes, perm. repeat (split; [done|]). split.
    + rewrite Hfs. apply (grows_trans fs (touch now (removelast p) fs));
        [apply grows_touch|].
      assert (Hn' : node_at (touch now (removelast p) fs) p = None)
        by (rewrite node_at_touch_other; [exact Hn|now apply removelast_shorter]).
      apply grows_insert_file; [exact Hp| |]; rewrite Hn'; discriminate.
    + right. now repeat split.
Qed.

Lemma isfile_at (fs : filesystem) (cwd path : string) (p : list string)
    (data : string) (perm mtime : Z) :
  resolve fs cwd true path = Found p ->
  node_at fs p = Some (File data perm mtime) ->
  isfile fs cwd path = true
  /\ entry fs cwd true path = inr (p, File data perm mtime).
Proof. intros Hres Hn. unfold isfile, entry. now rewrite Hres, Hn. Qed.

(** A text without carriage returns is read as it is. *)
Lemma universal_newlines_plain (s : string) :
  Str.mem "013"%char s = false -> universal_newlines s = s.
Proof.
  induction s as [|c s IH]; [reflexivity|].
  cbn [Str.mem universal_newlines]. intros Hm.
  apply orb_false_iff in Hm as [Hc Hs].
  assert (Hn : (N_of_ascii c =? 13)%N = false).
  { apply N.eqb_neq. intros Heq. apply Ascii.eqb_neq in Hc. apply Hc.
    rewrite <- (ascii_N_embedding c), Heq. reflexivity. }
  now rewrite Hn, IH.
Qed.

(** X13. What [write_text] has written, [read_text] reads back from the
    same path, provided the codec decodes, as the content, what a text
    file written with it holds: the content comes back with every [\r\n]
    and [\r] turned into [\n], and unchanged when it holds no carriage
    return.  The reading changes nothing. *)
Theorem write_then_read (H : host) (C : config) (path content : string)
    (create_dirs overwrite : bool) (encoding : string) (w w2 : world) (r : pyval) :
  Posixpath.isabs (getcwd H) = true ->
  SandboxRoot H C = ROOT_DIR C ->
  (forall c bytes, codec_of H encoding = Some c -> written c content = Some bytes ->
                   decode c bytes = Some content) ->
  write_text H C path content create_dirs overwrite encoding w = (Ok r, w2) ->
  exists ap,
    _abs H C path = Ok ap
    /\ isfile (w_fs w2) (getcwd H) ap = true
    /\ read_text H C path encoding w2
       = (Ok (VDict [("path", relative H C ap);
                     ("content", VStr (universal_newlines content))]), w2)
    /\ (Str.mem "013"%char content = false ->
        read_text H C path encoding w2
        = (Ok (VDict [("path", relative H C ap); ("content", VStr content)]), w2)).
Proof.
  intros Hcwd Hroot Hcodec. rewrite write_text_steps.
  destruct (ensure_root H C w) as [[[]|e] w1] eqn:Hr; [|discriminate].
  destruct (_abs H C path) as [ap|e] eqn:Habs; [|discriminate].
  destruct (_policy H C ap) as [[]|e] eqn:Hpol; [|discriminate].
  pose proof (ensure_root_ok_isdir H C w w1 Hcwd Hroot Hr) as Hdir1.
  destruct (if create_dirs then _ else _) as [[[]|e] fs2] eqn:Hmk; [|discriminate].
  assert (Hg2 : grows (w_fs w1) fs2).
  { destruct create_dirs.
    - unfold makedirs in Hmk. now apply makedirs_go_grows in Hmk.
    - injection Hmk as <-. apply grows_refl. }
  destruct (_ && _); [discriminate|].
  destruct (write_file _ _ _ _ _ _ _ _) as [[[]|e] fs3] eqn:Hwr; [|discriminate].
  destruct (encoded_length H encoding content) as [n|e]; [|discriminate].
  intros [= <- <-]. exists ap.
  apply write_file_ok in Hwr
    as (p & c & bytes & pm & Hres & Hc & Henc & Hnode & Hp & Hg3 & _).
  assert (Hres3 : resolve fs3 (getcwd H) true ap = Found p)
    by exact (resolve_grows fs2 fs3 _ _ _ _ Hg3 Hres).
  destruct (isfile_at fs3 (getcwd H) ap p bytes pm (now H) Hres3 Hnode) as [Hfile Hentry].
  assert (Hread : read_text H C path encoding {| w_fs := fs3; w_log := w_log w1 |}
                  = (Ok (VDict [("path", relative H C ap);
                                ("content", VStr (universal_newlines content))]),
                     {| w_fs := fs3; w_log := w_log w1 |})).
  { rewrite read_text_steps.
    rewrite ensure_root_existing; [|exact Hcwd|exact Hroot|].
    2:{ cbn [w_fs]. apply (isdir_grows fs2); [exact Hg3|].
        now apply (isdir_grows (w_fs w1)). }
    rewrite Habs, Hpol. cbn [w_fs]. rewrite Hfile.
    unfold read_file. rewrite Hentry, Hc, (Hcodec c bytes Hc Henc). reflexivity. }
  split; [reflexivity|]. split; [exact Hfile|]. split; [exact Hread|].
  intros Hplain. rewrite Hread. now rewrite universal_newlines_plain.
Qed.

Lemma write_then_read_witness :
  exists w2,
    write_text Demo.slow_host Demo.sandbox_config "proj/notes/today.txt"
      "one" true true "utf-8" Demo.project_world
    = (Ok (VDict [("written", VBool true); ("path", VStr "proj/notes/today.txt");
                  ("bytes", VInt 3)]), w2)
    /\ read_text Demo.slow_host Demo.sandbox_config "proj/notes/today.txt" "utf-8" w2
       = (Ok (VDict [("path", relative Demo.slow_host Demo.sandbox_config
                               "/sandbox/proj/notes/today.txt");
                     ("content", VStr "one")]), w2).
Proof.
  assert (Hrun : write_text Demo.slow_host Demo.sandbox_config "proj/notes/today.txt"
                   "one" true true "utf-8" Demo.project_world
                 = (Ok (VDict [("written", VBool true);
                               ("path", VStr "proj/notes/today.txt");
                               ("bytes", VInt 3)]),
                    snd (write_text Demo.slow_host Demo.sandbox_config
                           "proj/notes/today.txt" "one" true true "utf-8"
                           Demo.project_world)))
    by (vm_compute; reflexivity).
  assert (Hroot : SandboxRoot Demo.slow_host Demo.sandbox_config
                  = ROOT_DIR Demo.sandbox_config) by (vm_compute; reflexivity).
  assert (Hcodec : forall c bytes,
            codec_of Demo.slow_host "utf-8" = Some c -> written c "one" = Some bytes ->
            decode c bytes = Some "one").
  { intros c bytes [= <-] [= <-]. reflexivity. }
  destruct (write_then_read Demo.slow_host Demo.sandbox_config "proj/notes/today.txt"
              "one" true true "utf-8" Demo.project_world _ _ eq_refl Hroot Hcodec Hrun)
    as (ap & Habs & _ & _ & Hread).
  assert (Hap : ap = "/sandbox/proj/notes/today.txt").
  { assert (Hc : _abs Demo.slow_host Demo.sandbox_config "proj/notes/today.txt"
                 = Ok "/sandbox/proj/notes/today.txt") by (vm_compute; reflexivity).
    rewrite Hc in Habs. now injection Habs. }
  rewrite Hap in Hread. eexists. split; [exact Hrun|]. now apply Hread.
Defined.

End WriteRead.

(* ===================================================================== *)
(** ** Nothing is overwritten unless asked for *)
(* ===================================================================== *)

Section NoOverwrite.
Import Os Server Notions.

Lemma isdir_canon_nil (fs : filesystem) (cwd : string) (k : nat) :
  (k = 1%nat \/ k = 2%nat) -> isdir fs cwd (Normal.canon k []) = true.
Proof.
  intros Hk. unfold isdir, entry.
  rewrite resolve_canon by (assumption || reflexivity).
  rewrite walk_nil. now destruct (node_at_root fs) as (perm & mtime & ->).
Qed.

(** What exists lies in a directory. *)
Lemma dirname_of_existing (fs : filesystem) (cwd : string) (k : nat)
    (cs : list string) :
  (k = 1%nat \/ k = 2%nat) -> forallb Normal.clean cs = true ->
  path_exists fs cwd (Normal.canon k cs) = true ->
  forallb Normal.clean (removelast cs) = true
  /\ Posixpath.dirname (Normal.canon k cs) = Normal.canon k (removelast cs)
  /\ isdir fs cwd (Normal.canon k (removelast cs)) = true.
Proof.
  intros Hk Hcs Hex. rewrite dirname_canon by assumption.
  destruct (snoc_cases cs) as [-> | (cs' & c & ->)].
  - split; [reflexivity|]. split; [reflexivity|]. now apply isdir_canon_nil.
  - rewrite List.removelast_last.
    rewrite forallb_app in Hcs. apply andb_true_iff in Hcs as [Hcs' Hc].
    cbn [forallb] in Hc. rewrite andb_true_r in Hc.
    split; [exact Hcs'|]. split; [reflexivity|].
    unfold path_exists, entry in Hex.
    destruct (resolve fs cwd true (Normal.canon k (cs' ++ [c]))) as [p|] eqn:Hres;
      [|discriminate].
    now apply (parent_is_dir fs cwd true k cs' c p).
Qed.

(** [makedirs] on the directory of something that exists does nothing. *)
Lemma makedirs_dirname_existing (fs : filesystem) (cwd : string) (perm now : Z)
    (k : nat) (cs : list string) :
  (k = 1%nat \/ k = 2%nat) -> forallb Normal.clean cs = true ->
  path_exists fs cwd (Normal.canon k cs) = true ->
  makedirs fs cwd perm now true (Posixpath.dirname (Normal.canon k cs)) = (Ok tt, fs).
Proof.
  intros Hk Hcs Hex.
  destruct (dirname_of_existing fs cwd k cs Hk Hcs Hex) as (Hcl & -> & Hdir).
  unfold makedirs. now rewrite makedirs_existing.
Qed.

(** X14. With [overwrite=False], [write_text] on a path where something
    exists raises [FileExistsError] and changes nothing, whether or not it
    was to create the directories. *)
Theorem write_text_keeps_existing (H : host) (C : config) (path content : string)
    (create_dirs : bool) (encoding : string) (w w1 : world) (ap : string) :
  Posixpath.isabs (getcwd H) = true ->
  ensure_root H C w = (Ok tt, w1) ->
  _abs H C path = Ok ap ->
  _policy H C ap = Ok tt ->
  path_exists (w_fs w1) (getcwd H) ap = true ->
  write_text H C path content create_dirs false encoding w
  = (Raise (FileExistsError "File exists and overwrite=False"), w1).
Proof.
  intros Hcwd Hroot Habs Hpol Hex.
  rewrite write_text_steps, Hroot, Habs, Hpol.
  destruct (abs_canon H C path ap Hcwd Habs) as (k & cs & Hk & Hcs & ->).
  assert (Hmk : (if create_dirs
                 then makedirs (w_fs w1) (getcwd H) (dir_perm H) (now H) true
                        (Posixpath.dirname (Normal.canon k cs))
                 else (Ok tt, w_fs w1)) = (Ok tt, w_fs w1)).
  { destruct create_dirs; [|reflexivity]. now apply makedirs_dirname_existing. }
  rewrite Hmk, Hex. cbn [negb andb]. now destruct w1.
Qed.

Lemma write_text_keeps_existing_witness :
  write_text Demo.slow_host Demo.sandbox_config "proj/readme.md" "new text"
    true false "utf-8" Demo.project_world
  = (Raise (FileExistsError "File exists and overwrite=False"), Demo.project_world).
Proof.
  assert (Hroot : ensure_root Demo.slow_host Demo.sandbox_config Demo.project_world
                  = (Ok tt, Demo.project_world)) by (vm_compute; reflexivity).
  assert (Habs : _abs Demo.slow_host Demo.sandbox_config "proj/readme.md"
                 = Ok "/sandbox/proj/readme.md") by (vm_compute; reflexivity).
  assert (Hpol : _policy Demo.slow_host Demo.sandbox_config "/sandbox/proj/readme.md"
                 = Ok tt) by (vm_compute; reflexivity).
  assert (Hex : path_exists (w_fs Demo.project_world) (getcwd Demo.slow_host)
                  "/sandbox/proj/readme.md" = true) by (vm_compute; reflexivity).
  exact (write_text_keeps_existing Demo.slow_host Demo.sandbox_config "proj/readme.md"
           "new text" true "utf-8" Demo.project_world Demo.project_world
           "/sandbox/proj/readme.md" eq_refl Hroot Habs Hpol Hex).
Defined.

(** X15. With [overwrite=False] (the default), [mv] to a destination where
    something exists raises [FileExistsError] and changes nothing; the
    source is not looked at. *)
Theorem mv_keeps_existing_destination (H : host) (C : config) (src dst : string)
    (w w1 : world) (aps apd : string) :
  Posixpath.isabs (getcwd H) = true ->
  ensure_root H C w = (Ok tt, w1) ->
  _abs H C src = Ok aps ->
  _policy H C aps = Ok tt ->
  _abs H C dst = Ok apd ->
  _policy H C apd = Ok tt ->
  path_exists (w_fs w1) (getcwd H) apd = true ->
  mv H C src dst false w
  = (Raise (FileExistsError "Destination exists (overwrite=False)"), w1).
Proof.
  intros Hcwd Hroot Habs Hpol Habd Hpold Hex.
  destruct (abs_canon H C dst apd Hcwd Habd) as (k & cs & Hk & Hcs & Hapd).
  unfold mv. unfold bind at 1. rewrite Hroot.
  unfold bind at 1, pure at 1. rewrite Habs.
  unfold bind at 1, pure at 1. rewrite Hpol.
  unfold bind at 1, pure at 1. rewrite Habd.
  unfold bind at 1, pure at 1. rewrite Hpold.
  unfold bind at 1, acting at 1.
  rewrite Hapd in *. rewrite makedirs_dirname_existing by assumption.
  unfold bind at 1, reading at 1. cbn [w_fs]. rewrite Hex. cbn [negb andb].
  unfold raise. now destruct w1.
Qed.

Lemma mv_keeps_existing_destination_witness :
  mv Demo.slow_host Demo.sandbox_config "proj/docs/a.txt" "proj/readme.md" false
    Demo.project_world
  = (Raise (FileExistsError "Destination exists (overwrite=False)"),
     Demo.project_world).
Proof.
  assert (Hroot : ensure_root Demo.slow_host Demo.sandbox_config Demo.project_world
                  = (Ok tt, Demo.project_world)) by (vm_compute; reflexivity).
  assert (Habs : _abs Demo.slow_host Demo.sandbox_config "proj/docs/a.txt"
                 = Ok "/sandbox/proj/docs/a.txt") by (vm_compute; reflexivity).
  assert (Hpol : _policy Demo.slow_host Demo.sandbox_config "/sandbox/proj/docs/a.txt"
                 = Ok tt) by (vm_compute; reflexivity).
  assert (Habd : _abs Demo.slow_host Demo.sandbox_config "proj/readme.md"
                 = Ok "/sandbox/proj/readme.md") by (vm_compute; reflexivity).
  assert (Hpold : _policy Demo.slow_host Demo.sandbox_config "/sandbox/proj/readme.md"
                  = Ok tt) by (vm_compute; reflexivity).
  assert (Hex : path_exists (w_fs Demo.project_world) (getcwd Demo.slow_host)
                  "/sandbox/proj/readme.md" = true) by (vm_compute; reflexivity).
  exact (mv_keeps_existing_destination Demo.slow_host Demo.sandbox_config
           "proj/docs/a.txt" "proj/readme.md" Demo.project_world Demo.project_world
           "/sandbox/proj/docs/a.txt" "/sandbox/proj/readme.md"
           eq_refl Hroot Habs Hpol Habd Hpold Hex).
Defined.

End NoOverwrite.

(* ===================================================================== *)
(** ** Removing what is not a directory *)
(* ===================================================================== *)

Section RemovingMore.
Import Os Server Notions.

Lemma not_prefix_removelast (p cur : list string) :
  ~ p `prefix_of` cur -> ~ p `prefix_of` removelast cur.
Proof.
  intros Hno Hp. apply Hno.
  destruct (snoc_cases cur) as [-> | (cur' & a & ->)]; [exact Hp|].
  rewrite List.removelast_last in Hp. now apply prefix_app_r.
Qed.

(** After the entry at [p] is gone, a walk that ended on it ends on it
    still, or fails. *)
Lemma walk_after_delete (fs : filesystem) (p : list string) (b : nat) (f' : bool)
    (cur cs : list string) :
  p <> [] -> ~ p `prefix_of` cur ->
  walk fs b false cur cs = Found p ->
  walk (delete p fs) b f' cur cs = Found p
  \/ exists e, walk (delete p fs) b f' cur cs = Failed e.
Proof.
  intros Hp.
  revert cur cs. induction b as [|b IHb]; intros cur cs; revert cur;
    (induction cs as [|c rest IH]; intros cur Hcur;
       [rewrite !walk_nil; now left|]);
    rewrite !walk_cons;
    destruct (String.eqb c "." || String.eqb c ""); try (now apply IH);
    (destruct (String.eqb c "..");
       [apply IH; now apply not_prefix_removelast|]);
    rewrite (node_at_delete fs p (cur ++ [c]) Hp);
    (destruct (decide (p = cur ++ [c])) as [->|Hne];
       [ intros _; destruct rest; cbn [is_nil]; [now left|right; eauto] | ]);
    (assert (Hhere : ~ p `prefix_of` cur ++ [c])
       by (intros Hpre; apply prefix_snoc_cases in Hpre as [?|?]; contradiction));
    destruct (node_at fs (cur ++ [c])) as [[| |tgt m]|] eqn:Hn;
    try (now apply IH);
    try (destruct rest; cbn [is_nil]; [intros [= Heq]; now destruct Hne|discriminate]);
    (destruct rest as [|c' rest']; cbn [is_nil andb negb];
       [intros [= Heq]; now destruct Hne|]);
    try discriminate.
  apply IHb. destruct (Posixpath.isabs tgt); [|exact Hcur].
  intros Hpre. apply prefix_nil_inv in Hpre. contradiction.
Qed.

(** What [remove] has removed is no longer there. *)
Lemma gone_after_remove (fs : filesystem) (cwd path : string) (p : list string) :
  Posixpath.isabs path = true -> p <> [] ->
  resolve fs cwd false path = Found p ->
  path_exists (delete p fs) cwd path = false
  /\ islink (delete p fs) cwd path = false.
Proof.
  intros Habs Hp. unfold resolve, path_exists, islink, entry, resolve.
  destruct (Str.is_empty path); [discriminate|]. rewrite Habs. intros Hres.
  assert (Hroot : ~ p `prefix_of` [])
    by (intros Hpre; apply prefix_nil_inv in Hpre; contradiction).
  split.
  - destruct (walk_after_delete fs p symloop_max true [] (Posixpath.parts path)
                Hp Hroot Hres) as [-> | [e ->]]; [|reflexivity].
    rewrite node_at_delete by exact Hp. now destruct (decide (p = p)).
  - destruct (walk_after_delete fs p symloop_max false [] (Posixpath.parts path)
                Hp Hroot Hres) as [-> | [e ->]]; [|reflexivity].
    rewrite node_at_delete by exact Hp. now destruct (decide (p = p)).
Qed.

(** [rm], step by step. *)
Lemma rm_steps (H : host) (C : config) (path : string) (recursive : bool) (w : world) :
  rm H C path recursive w =
    match ensure_root H C w with
    | (Raise e, w1) => (Raise e, w1)
    | (Ok _, w1) =>
        match _abs H C path with
        | Raise e => (Raise e, w1)
        | Ok ap =>
            match _policy H C ap with
            | Raise e => (Raise e, w1)
            | Ok _ =>
                let done (r : outcome unit * filesystem) :=
                  match r with
                  | (Raise e, fs2) => (Raise e, {| w_fs := fs2; w_log := w_log w1 |})
                  | (Ok _, fs2) =>
                      (Ok (VDict [("removed", VBool true); ("path", relative H C ap)]),
                       {| w_fs := fs2; w_log := w_log w1 |})
                  end in
                if isdir (w_fs w1) (getcwd H) ap && negb (islink (w_fs w1) (getcwd H) ap)
                then
                  if negb recursive
                  then (Raise (IsADirectoryError "Use recursive=True for directories"), w1)
                  else done (rmtree (w_fs w1) (getcwd H) (now H) ap)
                else done (remove (w_fs w1) (getcwd H) (now H) ap)
            end
        end
    end.
Proof.
  unfold rm, bind, pure, acting, reading, ret, raise.
  destruct (ensure_root H C w) as [[[]|e] w1]; [|reflexivity].
  destruct (_abs H C path) as [ap|e]; [|reflexivity].
  destruct (_policy H C ap) as [[]|e]; [|reflexivity].
  cbv zeta. destruct (_ && _).
  - destruct (negb recursive); [reflexivity|].
    destruct (rmtree _ _ _ _) as [[[]|e] fs2]; reflexivity.
  - destruct (remove _ _ _ _) as [[[]|e] fs2]; reflexivity.
Qed.

(** What is not a directory, or is reached through a link, is no "real
    directory" for [rm]. *)
Lemma not_real_dir (fs : filesystem) (cwd path : string) :
  match entry fs cwd false path with
  | inr (_, Dir _ _) => True
  | _ => isdir fs cwd path && negb (islink fs cwd path) = false
  end.
Proof.
  unfold isdir, islink, entry.
  destruct (resolve_nofollow fs cwd path) as [(q & tgt & m & Hq & Hl)|Heq].
  - rewrite Hq, Hl. apply andb_false_r.
  - rewrite Heq. destruct (resolve fs cwd false path) as [p|]; [|reflexivity].
    destruct (node_at fs p) as [[| |]|]; try reflexivity; exact I.
Qed.

(** X16. [rm] on what is not a directory: a file or a symbolic link is
    removed, with or without [recursive]; of a link only the link goes, so
    a link to a directory never takes the directory with it.  The
    directory the entry was in gets the time of the call, and every other
    entry stays as it is.  Afterwards nothing exists at the path.  When
    there is nothing to remove, [rm] raises the error of [os.remove] and
    changes nothing. *)
Theorem rm_of_non_directory (H : host) (C : config) (path : string)
    (recursive : bool) (w w1 : world) (ap : string) :
  Posixpath.isabs (getcwd H) = true ->
  ensure_root H C w = (Ok tt, w1) ->
  _abs H C path = Ok ap ->
  _policy H C ap = Ok tt ->
  match entry (w_fs w1) (getcwd H) false ap with
  | inr (_, Dir _ _) => True
  | inr (p, _) =>
      exists perm mtime fs2,
        node_at (w_fs w1) (removelast p) = Some (Dir perm mtime)
        /\ fs2 = touch (now H) (removelast p) (delete p (w_fs w1))
        /\ rm H C path recursive w
           = (Ok (VDict [("removed", VBool true); ("path", relative H C ap)]),
              {| w_fs := fs2; w_log := w_log w1 |})
        /\ path_exists fs2 (getcwd H) ap = false
        /\ islink fs2 (getcwd H) ap = false
        /\ node_at fs2 p = None
        /\ node_at fs2 (removelast p) = Some (Dir perm (now H))
        /\ (forall q, q <> p -> q <> removelast p ->
              node_at fs2 q = node_at (w_fs w1) q)
  | inl e => rm H C path recursive w = (Raise (os_error e ap), w1)
  end.
Proof.
  intros Hcwd Hroot Habs Hpol.
  pose proof (abs_isabs H C path ap Hcwd Habs) as Hap.
  pose proof (not_real_dir (w_fs w1) (getcwd H) ap) as Hreal.
  rewrite rm_steps, Hroot, Habs, Hpol. cbv zeta.
  unfold remove.
  destruct (entry (w_fs w1) (getcwd H) false ap) as [e|[p n]] eqn:Hent.
  - rewrite Hreal. now destruct w1.
  - assert (Hgone : (forall q m, n <> Dir q m) ->
              exists perm mtime,
                node_at (w_fs w1) (removelast p) = Some (Dir perm mtime)
                /\ path_exists (touch (now H) (removelast p) (delete p (w_fs w1)))
                     (getcwd H) ap = false
                /\ islink (touch (now H) (removelast p) (delete p (w_fs w1)))
                     (getcwd H) ap = false
                /\ node_at (touch (now H) (removelast p) (delete p (w_fs w1))) p = None
                /\ node_at (touch (now H) (removelast p) (delete p (w_fs w1)))
                     (removelast p) = Some (Dir perm (now H))
                /\ (forall q, q <> p -> q <> removelast p ->
                      node_at (touch (now H) (removelast p) (delete p (w_fs w1))) q
                      = node_at (w_fs w1) q)).
    { intros Hn. unfold entry in Hent.
      destruct (resolve (w_fs w1) (getcwd H) false ap) as [p0|] eqn:Hres; [|discriminate].
      destruct (node_at (w_fs w1) p0) as [n0|] eqn:Hnode; [|discriminate].
      injection Hent as -> ->.
      assert (Hp : p <> []).
      { intros ->. destruct (node_at_root (w_fs w1)) as (q & m & Hq).
        rewrite Hq in Hnode. injection Hnode as <-. now destruct (Hn q m). }
      pose proof (removelast_shorter p Hp) as Hpar.
      destruct (resolved_parent_is_dir _ _ _ _ _ Hap Hres Hp) as (perm & mtime & Hdir).
      destruct (gone_after_remove (w_fs w1) (getcwd H) ap p Hap Hp Hres) as [Hex Hlk].
      exists perm, mtime. split; [exact Hdir|].
      rewrite (path_exists_alike _ _ _ _ (touch_alike _ _ _)).
      rewrite (islink_alike _ _ _ _ (touch_alike _ _ _)).
      split; [exact Hex|]. split; [exact Hlk|]. split; [|split].
      - rewrite node_at_touch_other by exact Hpar.
        rewrite node_at_delete by exact Hp. now rewrite decide_True.
      - rewrite node_at_touch, decide_True by reflexivity.
        rewrite node_at_delete by exact Hp.
        rewrite decide_False by congruence. now rewrite Hdir.
      - intros q Hq Hqp. rewrite node_at_touch_other by congruence.
        rewrite node_at_delete by exact Hp. now rewrite decide_False by congruence. }
    destruct n as [data perm mtime|perm mtime|tgt mtime]; [|exact I|];
      rewrite Hreal;
      (destruct Hgone as (q & m & Hdir & Hrest); [discriminate|]);
      exists q, m, (touch (now H) (removelast p) (delete p (w_fs w1)));
      (split; [exact Hdir|]); (split; [reflexivity|]);
      (split; [reflexivity|exact Hrest]).
Qed.

Lemma rm_of_non_directory_witness :
  exists fs2,
    rm Demo.slow_host Demo.sandbox_config "proj/lnk" true Demo.project_world
    = (Ok (VDict [("removed", VBool true);
                  ("path", relative Demo.slow_host Demo.sandbox_config
                             "/sandbox/proj/lnk")]),
       {| w_fs := fs2; w_log := [] |})
    /\ fs2 = touch 1700000000 ["sandbox"; "proj"]
               (delete ["sandbox"; "proj"; "lnk"] Demo.project_fs)
    /\ node_at fs2 ["sandbox"; "proj"] = Some (Dir 493 1700000000)
    /\ path_exists fs2 "/home/user" "/sandbox/proj/lnk" = false.
Proof.
  assert (Hroot : ensure_root Demo.slow_host Demo.sandbox_config Demo.project_world
                  = (Ok tt, Demo.project_world)) by (vm_compute; reflexivity).
  assert (Habs : _abs Demo.slow_host Demo.sandbox_config "proj/lnk"
                 = Ok "/sandbox/proj/lnk") by (vm_compute; reflexivity).
  assert (Hpol : _policy Demo.slow_host Demo.sandbox_config "/sandbox/proj/lnk" = Ok tt)
    by (vm_compute; reflexivity).
  assert (Hent : entry (w_fs Demo.project_world) (getcwd Demo.slow_host) false
                   "/sandbox/proj/lnk"
                 = inr (["sandbox"; "proj"; "lnk"], Symlink "../top.txt" 7))
    by (vm_compute; reflexivity).
  assert (Hperm : node_at Demo.project_fs ["sandbox"; "proj"] = Some (Dir 493 5))
    by (vm_compute; reflexivity).
  pose proof (rm_of_non_directory Demo.slow_host Demo.sandbox_config "proj/lnk" true
                Demo.project_world Demo.project_world "/sandbox/proj/lnk"
                eq_refl Hroot Habs Hpol) as Hrm.
  rewrite Hent in Hrm.
  destruct Hrm as (perm & mtime & fs2 & Hdir & Hfs & Hrun & Hgone & _ & _ & Hpar & _).
  cbn [removelast] in Hdir, Hfs, Hpar. cbn [w_fs Demo.project_world] in Hdir.
  rewrite Hperm in Hdir. injection Hdir as <- <-.
  exists fs2. split; [exact Hrun|]. split; [exact Hfs|].
  split; [exact Hpar|exact Hgone].
Defined.

End RemovingMore.

(* ===================================================================== *)
(** ** [stat] and [read_text] on links *)
(* ===================================================================== *)

Section Links.
Import Os Server Notions.

(** [stat], step by step. *)
Lemma stat_steps (H : host) (C : config) (path : string) (w : world) :
  stat H C path w =
    match ensure_root H C w with
    | (Raise e, w1) => (Raise e, w1)
    | (Ok _, w1) =>
        match _abs H C path with
        | Raise e => (Raise e, w1)
        | Ok ap =>
            match _policy H C ap with
            | Raise e => (Raise e, w1)
            | Ok _ =>
                match lstat (dirsize H) (w_fs w1) (getcwd H) ap with
                | Raise e => (Raise e, w1)
                | Ok st =>
                    (Ok (VDict [("path", relative H C ap);
                                ("is_dir", VBool (isdir (w_fs w1) (getcwd H) ap));
                                ("size", VInt (st_size st));
                                ("mode", VStr (Repr.oct (Z.land (st_mode st) 511)));
                                ("mtime", VInt (st_mtime st))]), w1)
                end
            end
        end
    end.
Proof.
  unfold stat, bind, pure, acting, reading, ret, raise.
  destruct (ensure_root H C w) as [[[]|e] w1]; [|reflexivity].
  destruct (_abs H C path) as [ap|e]; [|reflexivity].
  destruct (_policy H C ap) as [[]|e]; [|reflexivity].
  destruct (lstat _ _ _ _); reflexivity.
Qed.

Lemma permission_bits (kind perm : Z) :
  Z.land kind 511 = 0 -> Z.land (Z.lor kind perm) 511 = Z.land perm 511.
Proof. intros Hk. now rewrite Z.land_lor_distr_l, Hk, Z.lor_0_l. Qed.

(** What the path leads to when the last link is followed, given what it
    leads to when it is not. *)
Lemma isdir_of_entry (fs : filesystem) (cwd path : string) :
  match entry fs cwd false path with
  | inr (_, Dir _ _) => isdir fs cwd path = true
  | inr (_, File _ _ _) => isdir fs cwd path = false
  | inr (_, Symlink _ _) => True
  | inl _ => isdir fs cwd path = false
  end.
Proof.
  unfold isdir, entry.
  destruct (resolve_nofollow fs cwd path) as [(q & tgt & m & Hq & Hl)|Heq].
  - now rewrite Hq, Hl.
  - rewrite Heq. destruct (resolve fs cwd false path) as [p|]; [|reflexivity].
    destruct (node_at fs p) as [[| |]|]; try reflexivity; exact I.
Qed.

(** X17. [stat] describes the entry the path names without following a
    last symbolic link, except for [is_dir], which follows it: a link is
    reported with the length of its target as size and mode [0o777], and
    with [is_dir] true exactly when it leads to a directory.  A file or a
    directory is reported with its own permission bits and time, a file
    with the length of its content as size, a directory with the size the
    file system of the host gives for it.  Where the path names nothing,
    [stat] raises the error of [os.lstat].  Nothing is changed. *)
Theorem stat_describes_the_entry (H : host) (C : config) (path : string)
    (w w1 : world) (ap : string) :
  ensure_root H C w = (Ok tt, w1) ->
  _abs H C path = Ok ap ->
  _policy H C ap = Ok tt ->
  match entry (w_fs w1) (getcwd H) false ap with
  | inl e => stat H C path w = (Raise (os_error e ap), w1)
  | inr (_, File data perm mtime) =>
      stat H C path w
      = (Ok (VDict [("path", relative H C ap);
                    ("is_dir", VBool false);
                    ("size", VInt (Z.of_nat (String.length data)));
                    ("mode", VStr (Repr.oct (Z.land perm 511)));
                    ("mtime", VInt mtime)]), w1)
  | inr (p, Dir perm mtime) =>
      stat H C path w
      = (Ok (VDict [("path", relative H C ap);
                    ("is_dir", VBool true);
                    ("size", VInt (dirsize H (w_fs w1) p));
                    ("mode", VStr (Repr.oct (Z.land perm 511)));
                    ("mtime", VInt mtime)]), w1)
  | inr (_, Symlink tgt mtime) =>
      stat H C path w
      = (Ok (VDict [("path", relative H C ap);
                    ("is_dir", VBool (isdir (w_fs w1) (getcwd H) ap));
                    ("size", VInt (Z.of_nat (String.length tgt)));
                    ("mode", VStr "0o777");
                    ("mtime", VInt mtime)]), w1)
  end.
Proof.
  intros Hroot Habs Hpol.
  pose proof (isdir_of_entry (w_fs w1) (getcwd H) ap) as Hdir.
  rewrite stat_steps, Hroot, Habs, Hpol. unfold lstat.
  destruct (entry (w_fs w1) (getcwd H) false ap) as [e|[p [data perm mtime|perm mtime|tgt mtime]]];
    try reflexivity; rewrite Hdir; cbn [stat_of st_mode st_size st_mtime];
    now rewrite permission_bits.
Qed.

Lemma stat_describes_the_entry_witness :
  stat Demo.slow_host Demo.sandbox_config "proj/lnk" Demo.project_world
  = (Ok (VDict [("path", relative Demo.slow_host Demo.sandbox_config "/sandbox/proj/lnk");
                ("is_dir", VBool (isdir (w_fs Demo.project_world)
                                    (getcwd Demo.slow_host) "/sandbox/proj/lnk"));
                ("size", VInt (Z.of_nat (String.length "../top.txt")));
                ("mode", VStr "0o777");
                ("mtime", VInt 7)]), Demo.project_world).
Proof.
  assert (Hroot : ensure_root Demo.slow_host Demo.sandbox_config Demo.project_world
                  = (Ok tt, Demo.project_world)) by (vm_compute; reflexivity).
  assert (Habs : _abs Demo.slow_host Demo.sandbox_config "proj/lnk"
                 = Ok "/sandbox/proj/lnk") by (vm_compute; reflexivity).
  assert (Hpol : _policy Demo.slow_host Demo.sandbox_config "/sandbox/proj/lnk" = Ok tt)
    by (vm_compute; reflexivity).
  assert (Hent : entry (w_fs Demo.project_world) (getcwd Demo.slow_host) false
                   "/sandbox/proj/lnk"
                 = inr (["sandbox"; "proj"; "lnk"], Symlink "../top.txt" 7))
    by (vm_compute; reflexivity).
  pose proof (stat_describes_the_entry Demo.slow_host Demo.sandbox_config "proj/lnk"
                Demo.project_world Demo.project_world "/sandbox/proj/lnk"
                Hroot Habs Hpol) as Hst.
  rewrite Hent in Hst. exact Hst.
Defined.

(** X18. [read_text] reads the file the path leads to once every symbolic
    link is followed.  The check of [_abs] is on the name: nothing asks
    the file itself to lie under the root, and a link inside the sandbox
    gives access to what it points to outside. *)
Theorem read_text_follows_links (H : host) (C : config) (path encoding : string)
    (w w1 : world) (ap : string) (p : list string)
    (data : string) (perm mtime : Z) (c : codec) (text : string) :
  ensure_root H C w = (Ok tt, w1) ->
  _abs H C path = Ok ap ->
  _policy H C ap = Ok tt ->
  resolve (w_fs w1) (getcwd H) true ap = Found p ->
  node_at (w_fs w1) p = Some (File data perm mtime) ->
  codec_of H encoding = Some c ->
  decode c data = Some text ->
  read_text H C path encoding w
  = (Ok (VDict [("path", relative H C ap);
                ("content", VStr (universal_newlines text))]), w1).
Proof.
  intros Hroot Habs Hpol Hres Hnode Hc Hdec.
  destruct (isfile_at (w_fs w1) (getcwd H) ap p data perm mtime Hres Hnode)
    as [Hfile Hentry].
  rewrite read_text_steps, Hroot, Habs, Hpol, Hfile.
  unfold read_file. now rewrite Hentry, Hc, Hdec.
Qed.

Lemma read_text_follows_links_witness :
  read_text Demo.slow_host Demo.sandbox_config "proj/notes" "utf-8" Examples.leaky_world
  = (Ok (VDict [("path", relative Demo.slow_host Demo.sandbox_config "/sandbox/proj/notes");
                ("content", VStr "root:x:0:0")]), Examples.leaky_world).
Proof.
  assert (Hroot : ensure_root Demo.slow_host Demo.sandbox_config Examples.leaky_world
                  = (Ok tt, Examples.leaky_world)) by (vm_compute; reflexivity).
  assert (Habs : _abs Demo.slow_host Demo.sandbox_config "proj/notes"
                 = Ok "/sandbox/proj/notes") by (vm_compute; reflexivity).
  assert (Hpol : _policy Demo.slow_host Demo.sandbox_config "/sandbox/proj/notes" = Ok tt)
    by (vm_compute; reflexivity).
  assert (Hres : resolve (w_fs Examples.leaky_world) (getcwd Demo.slow_host) true
                   "/sandbox/proj/notes" = Found ["etc"; "passwd"])
    by (vm_compute; reflexivity).
  assert (Hnode : node_at (w_fs Examples.leaky_world) ["etc"; "passwd"]
                  = Some (File "root:x:0:0" 420 1)) by (vm_compute; reflexivity).
  exact (read_text_follows_links Demo.slow_host Demo.sandbox_config "proj/notes" "utf-8"
           Examples.leaky_world Examples.leaky_world "/sandbox/proj/notes"
           ["etc"; "passwd"] "root:x:0:0" 420 1 Demo.plain "root:x:0:0"
           Hroot Habs Hpol Hres Hnode eq_refl eq_refl).
Defined.

End Links.

(* ===================================================================== *)
(** ** Moving a file *)
(* ===================================================================== *)

Section Moving.
Import Os Server Notions.


(** Two file systems that differ at and below [ps] and [pd] only, where
    the first has nothing to walk through: a walk that ends on one of the
    two ends there in both. *)
Lemma walk_lockstep (fs fs' : filesystem) (ps pd : list string) (b : nat)
    (f' : bool) (cur cs p : list string) :
  (forall q, ~ ps `prefix_of` q -> ~ pd `prefix_of` q -> node_at fs' q = node_at fs q) ->
  (forall x, x = ps \/ x = pd ->
     x <> []
     /\ (forall q m, node_at fs x <> Some (Dir q m))
     /\ (forall tgt m, node_at fs x <> Some (Symlink tgt m))
     /\ (forall tgt m, node_at fs' x <> Some (Symlink tgt m))) ->
  ~ ps `prefix_of` cur -> ~ pd `prefix_of` cur ->
  walk fs b false cur cs = Found p ->
  p = ps \/ p = pd ->
  walk fs' b f' cur cs = Found p.
Proof.
  intros Hsame Hends.
  revert cur cs. induction b as [|b IHb]; intros cur cs; revert cur;
    (induction cs as [|c rest IH]; intros cur Hps Hpd;
       [now rewrite !walk_nil|]);
    rewrite !walk_cons;
    destruct (String.eqb c "." || String.eqb c "") eqn:Hsp; try (now apply IH);
    (destruct (String.eqb c "..") eqn:Hdd;
       [apply IH; now apply not_prefix_removelast|]);
    (destruct (decide (ps `prefix_of` cur ++ [c])) as [Hin|Hout];
       [ apply prefix_snoc_cases in Hin as [Hin|?]; [|contradiction];
         destruct (Hends ps (or_introl eq_refl)) as (_ & Hnd & Hnl & Hnl');
         rewrite <- Hin;
         destruct (node_at fs ps) as [[| |tgt m]|] eqn:Hn;
           try (exfalso; exact (Hnd _ _ eq_refl));
           try (exfalso; exact (Hnl _ _ eq_refl));
           (destruct rest; cbn [is_nil]; [|discriminate]);
           intros Hf _;
           (destruct (node_at fs' ps) as [[| |tgt' m']|] eqn:Hn';
              [exact Hf|now rewrite walk_nil|exfalso; exact (Hnl' _ _ eq_refl)|exact Hf])
       | ]);
    (destruct (decide (pd `prefix_of` cur ++ [c])) as [Hin|Hout'];
       [ apply prefix_snoc_cases in Hin as [Hin|?]; [|contradiction];
         destruct (Hends pd (or_intror eq_refl)) as (_ & Hnd & Hnl & Hnl');
         rewrite <- Hin;
         destruct (node_at fs pd) as [[| |tgt m]|] eqn:Hn;
           try (exfalso; exact (Hnd _ _ eq_refl));
           try (exfalso; exact (Hnl _ _ eq_refl));
           (destruct rest; cbn [is_nil]; [|discriminate]);
           intros Hf _;
           (destruct (node_at fs' pd) as [[| |tgt' m']|] eqn:Hn';
              [exact Hf|now rewrite walk_nil|exfalso; exact (Hnl' _ _ eq_refl)|exact Hf])
       | ]);
    rewrite (Hsame (cur ++ [c]) Hout Hout');
    destruct (node_at fs (cur ++ [c])) as [[| |tgt m]|] eqn:Hn;
    try (intros Hf _; exact Hf);
    try (now apply IH);
    (destruct rest as [|c' rest']; cbn [is_nil andb negb];
       [ intros [= <-] [Hp|Hp]; exfalso;
         [apply Hout|apply Hout']; rewrite Hp; reflexivity
       | ]);
    try discriminate.
  apply IHb; destruct (Posixpath.isabs tgt); try assumption;
    intros Hpre; apply prefix_nil_inv in Hpre;
    [now destruct (Hends ps (or_introl eq_refl))
    |now destruct (Hends pd (or_intror eq_refl))].
Qed.

(** [os.rename] of a file to a free name: the file goes from [ps] to
    [pd], and the two directories get the time of the call. *)
Lemma rename_file (fs : filesystem) (cwd : string) (now : Z) (src dst : string)
    (ps pd : list string) (data : string) (perm mtime : Z) :
  entry fs cwd false src = inr (ps, File data perm mtime) ->
  resolve fs cwd false dst = Found pd ->
  node_at fs pd = None ->
  ~ ps `prefix_of` pd -> ~ pd `prefix_of` ps ->
  exists fs0,
    rename fs cwd now src dst
    = (Ok tt, touch now (removelast pd) (touch now (removelast ps) fs0))
    /\ node_at fs0 pd = Some (File data perm mtime)
    /\ node_at fs0 ps = None
    /\ (forall q, ~ ps `prefix_of` q -> ~ pd `prefix_of` q ->
          node_at fs0 q = node_at fs q).
Proof.
  intros Hent Hres Hnone Hsd Hds.
  assert (Hsrc : ps <> [] /\ fs !! ps = Some (File data perm mtime)).
  { unfold entry in Hent. destruct (resolve fs cwd false src) as [p0|]; [|discriminate].
    destruct (node_at fs p0) as [n0|] eqn:Hn; [|discriminate].
    injection Hent as -> ->.
    assert (Hp : ps <> []) by (apply (not_dir_below fs ps _ Hn); discriminate).
    split; [exact Hp|]. now rewrite <- node_at_lookup. }
  destruct Hsrc as [Hpsne Hps].
  pose proof (node_at_none_below fs pd Hnone) as Hpdne.
  unfold rename. rewrite Hent, Hres. cbv zeta.
  rewrite bool_decide_eq_false_2 by (intros ->; now apply Hsd).
  rewrite bool_decide_eq_false_2 by exact Hsd.
  rewrite Hnone.
  set (moved := list_to_map _ : filesystem).
  assert (Hkeys : forall q v, moved !! q = Some v -> pd `prefix_of` q).
  { intros q v Hq. subst moved. apply elem_of_list_to_map_2 in Hq.
    apply list_elem_of_fmap in Hq as ([k v'] & Heq & _).
    cbn [fst snd] in Heq. injection Heq as -> _. now apply prefix_app_r. }
  exists (moved ∪ without_tree pd (without_tree ps fs)).
  split; [reflexivity|]. split; [|split].
  - rewrite node_at_lookup by exact Hpdne.
    apply lookup_union_Some_l. subst moved.
    apply elem_of_list_to_map_1'.
    + intros y Hy. apply list_elem_of_fmap in Hy as ([k v] & Heq & Hin).
      cbn [fst snd] in Heq. injection Heq as Hk ->.
      apply elem_of_map_to_list, map_lookup_filter_Some in Hin as [Hv [k' Hk']].
      cbn [fst] in Hk'. subst k.
      rewrite List.skipn_app, List.skipn_all, Nat.sub_diag in Hk.
      cbn [List.skipn List.app] in Hk.
      assert (Hnil : k' = []).
      { apply (List.app_inv_head pd). now rewrite List.app_nil_r. }
      subst k'. rewrite List.app_nil_r in Hv. congruence.
    + apply (list_elem_of_fmap_2' _ _ (ps, File data perm mtime)).
      * apply elem_of_map_to_list, map_lookup_filter_Some. split; [exact Hps|reflexivity].
      * cbn [fst snd]. now rewrite List.skipn_all, List.app_nil_r.
  - rewrite node_at_lookup by exact Hpsne.
    apply lookup_union_None. split.
    + destruct (moved !! ps) as [v|] eqn:Hm; [|reflexivity].
      now apply Hkeys in Hm.
    + rewrite !without_tree_lookup.
      destruct (decide (pd `prefix_of` ps)); [reflexivity|].
      destruct (decide (ps `prefix_of` ps)) as [|Hno]; [reflexivity|].
      now destruct Hno.
  - intros q Hq Hq'. apply node_at_same. rewrite lookup_union_r.
    + rewrite !without_tree_lookup.
      destruct (decide (pd `prefix_of` q)); [contradiction|].
      destruct (decide (ps `prefix_of` q)); [contradiction|reflexivity].
    + destruct (moved !! q) as [v|] eqn:Hm; [|reflexivity].
      now apply Hkeys in Hm.
Qed.

Lemma touch2_other (now : Z) (a b q : list string) (fs : filesystem) :
  q <> a -> q <> b ->
  node_at (touch now b (touch now a fs)) q = node_at fs q.
Proof. intros Ha Hb. now rewrite !node_at_touch_other by congruence. Qed.

Lemma touch2_alike (now : Z) (a b : list string) (fs : filesystem) :
  alike fs (touch now b (touch now a fs)).
Proof. apply (alike_trans fs (touch now a fs)); apply touch_alike. Qed.

(** Both directories of a renaming have the time of the call. *)
Lemma touch2_dirs (now : Z) (a b : list string) (fs : filesystem)
    (perm_a mtime_a perm_b mtime_b : Z) :
  node_at fs a = Some (Dir perm_a mtime_a) ->
  node_at fs b = Some (Dir perm_b mtime_b) ->
  node_at (touch now b (touch now a fs)) a = Some (Dir perm_a now)
  /\ node_at (touch now b (touch now a fs)) b = Some (Dir perm_b now).
Proof.
  intros Ha Hb. split.
  - apply touch_keeps. now apply (touch_dir now a fs perm_a mtime_a).
  - destruct (decide (a = b)) as [->|Hne].
    + apply touch_keeps. rewrite Ha in Hb. injection Hb as <- <-.
      now apply (touch_dir now b fs perm_a mtime_a).
    + apply (touch_dir now b _ perm_b mtime_b).
      now rewrite node_at_touch_other.
Qed.

(** [shutil.move] of a file to a free name. *)
Lemma move_file (fs2 : filesystem) (cwd : string) (now : Z) (aps apd : string)
    (ps pd : list string) (data : string) (perm mtime : Z) :
  Posixpath.isabs aps = true ->
  Posixpath.isabs apd = true ->
  entry fs2 cwd false aps = inr (ps, File data perm mtime) ->
  resolve fs2 cwd false apd = Found pd ->
  node_at fs2 pd = None ->
  path_exists fs2 cwd apd = false
  /\ exists fs3 perm_s mtime_s perm_d mtime_d,
       move fs2 cwd now aps apd = (Ok tt, fs3)
       /\ node_at fs2 (removelast ps) = Some (Dir perm_s mtime_s)
       /\ node_at fs2 (removelast pd) = Some (Dir perm_d mtime_d)
       /\ entry fs3 cwd true apd = inr (pd, File data perm mtime)
       /\ isfile fs3 cwd apd = true
       /\ path_exists fs3 cwd aps = false
       /\ node_at fs3 (removelast ps) = Some (Dir perm_s now)
       /\ node_at fs3 (removelast pd) = Some (Dir perm_d now)
       /\ (forall q, ~ ps `prefix_of` q -> ~ pd `prefix_of` q ->
             q <> removelast ps -> q <> removelast pd ->
             node_at fs3 q = node_at fs2 q).
Proof.
  intros Haps Hapd Hent Hres Hnone.
  assert (Hsrc : resolve fs2 cwd false aps = Found ps
                 /\ node_at fs2 ps = Some (File data perm mtime)).
  { unfold entry in Hent.
    destruct (resolve fs2 cwd false aps) as [p0|]; [|discriminate].
    destruct (node_at fs2 p0) as [n0|] eqn:Hn; [|discriminate].
    now injection Hent as -> ->. }
  destruct Hsrc as [Hress Hnode].
  assert (Hwalks : walk fs2 symloop_max false [] (Posixpath.parts aps) = Found ps).
  { revert Hress. unfold resolve. destruct (Str.is_empty aps); [discriminate|].
    now rewrite Haps. }
  assert (Hwalkd : walk fs2 symloop_max false [] (Posixpath.parts apd) = Found pd).
  { revert Hres. unfold resolve. destruct (Str.is_empty apd); [discriminate|].
    now rewrite Hapd. }
  assert (Hnes : Str.is_empty aps = false) by (destruct aps; [discriminate|reflexivity]).
  assert (Hned : Str.is_empty apd = false) by (destruct apd; [discriminate|reflexivity]).
  assert (Hsd : ~ ps `prefix_of` pd).
  { intros Hpre.
    destruct (walk_found_parent _ _ _ _ _ _ (grounded_nil fs2) Hwalkd ps Hpre)
      as (q & m & Hq); [intros ->; congruence|congruence]. }
  assert (Hds : ~ pd `prefix_of` ps).
  { intros Hpre.
    destruct (walk_found_parent _ _ _ _ _ _ (grounded_nil fs2) Hwalks pd Hpre)
      as (q & m & Hq); [intros ->; congruence|congruence]. }
  destruct (rename_file fs2 cwd now aps apd ps pd data perm mtime
              Hent Hres Hnone Hsd Hds) as (fs0 & Hren & Hdst & Hgone & Hsame).
  assert (Hpd : pd <> []) by (now apply node_at_none_below in Hnone).
  assert (Hps : ps <> []) by (apply (not_dir_below fs2 ps _ Hnode); discriminate).
  destruct (resolved_parent_is_dir _ _ _ _ _ Haps Hress Hps) as (perm_s & mtime_s & Hpars).
  destruct (resolved_parent_is_dir _ _ _ _ _ Hapd Hres Hpd) as (perm_d & mtime_d & Hpard).
  assert (Hmissing : entry fs2 cwd true apd = inl ENOENT).
  { unfold entry.
    destruct (resolve_nofollow fs2 cwd apd) as [(q & tgt & m & Hq & Hl)|Heq].
    - rewrite Hres in Hq. injection Hq as <-. congruence.
    - now rewrite Heq, Hres, Hnone. }
  assert (Hnodir : isdir fs2 cwd apd = false)
    by (unfold isdir; now rewrite Hmissing).
  split; [unfold path_exists; now rewrite Hmissing|].
  assert (Hends : forall x, x = ps \/ x = pd ->
            x <> []
            /\ (forall q m, node_at fs2 x <> Some (Dir q m))
            /\ (forall tgt m, node_at fs2 x <> Some (Symlink tgt m))
            /\ (forall tgt m, node_at fs0 x <> Some (Symlink tgt m))).
  { intros x [-> | ->]; (split; [assumption|]); rewrite ?Hnode, ?Hnone, ?Hgone, ?Hdst;
      repeat split; congruence. }
  assert (Hroot0 : forall x, x <> [] -> ~ x `prefix_of` ([] : list string))
    by (intros x Hx Hpre; apply prefix_nil_inv in Hpre; contradiction).
  (* the parents lie outside what moves *)
  assert (Hout : forall x, x = ps \/ x = pd ->
            ~ ps `prefix_of` removelast x /\ ~ pd `prefix_of` removelast x).
  { intros x Hx. split; intros Hpre.
    - destruct Hx as [-> | ->].
      + now apply (removelast_not_below ps Hps).
      + apply Hsd. destruct (List.exists_last Hpd) as (l & a & Hl).
        rewrite Hl in *. rewrite List.removelast_last in Hpre.
        now apply prefix_app_r.
    - destruct Hx as [-> | ->].
      + apply Hds. destruct (List.exists_last Hps) as (l & a & Hl).
        rewrite Hl in *. rewrite List.removelast_last in Hpre.
        now apply prefix_app_r.
      + now apply (removelast_not_below pd Hpd). }
  destruct (Hout ps (or_introl eq_refl)) as [Hs1 Hs2].
  destruct (Hout pd (or_intror eq_refl)) as [Hd1 Hd2].
  assert (Hpars0 : node_at fs0 (removelast ps) = Some (Dir perm_s mtime_s))
    by (now rewrite Hsame).
  assert (Hpard0 : node_at fs0 (removelast pd) = Some (Dir perm_d mtime_d))
    by (now rewrite Hsame).
  destruct (touch2_dirs now _ _ fs0 _ _ _ _ Hpars0 Hpard0) as [Hts Htd].
  set (fs3 := touch now (removelast pd) (touch now (removelast ps) fs0)) in *.
  pose proof (touch2_alike now (removelast ps) (removelast pd) fs0 : alike fs0 fs3)
    as Halike.
  assert (Hat : forall x, x = ps \/ x = pd -> node_at fs3 x = node_at fs0 x).
  { intros x Hx. apply touch2_other; intros Heq;
      destruct Hx as [-> | ->];
      first [ now apply (removelast_shorter ps Hps)
            | now apply (removelast_shorter pd Hpd)
            | rewrite Heq in *; congruence ]. }
  exists fs3, perm_s, mtime_s, perm_d, mtime_d.
  split; [|split; [exact Hpars|split; [exact Hpard|]]].
  { unfold move. rewrite Hnodir. unfold move_to. now rewrite Hren. }
  split; [|split; [|split; [|split; [exact Hts|split; [exact Htd|]]]]].
  - unfold entry. rewrite (resolve_alike fs0 fs3) by exact Halike.
    unfold resolve. rewrite Hned, Hapd.
    rewrite (walk_lockstep fs2 fs0 ps pd symloop_max true [] _ pd Hsame Hends
               (Hroot0 ps Hps) (Hroot0 pd Hpd) Hwalkd (or_intror eq_refl)).
    now rewrite (Hat pd (or_intror eq_refl)), Hdst.
  - unfold isfile, entry. rewrite (resolve_alike fs0 fs3) by exact Halike.
    unfold resolve. rewrite Hned, Hapd.
    rewrite (walk_lockstep fs2 fs0 ps pd symloop_max true [] _ pd Hsame Hends
               (Hroot0 ps Hps) (Hroot0 pd Hpd) Hwalkd (or_intror eq_refl)).
    now rewrite (Hat pd (or_intror eq_refl)), Hdst.
  - unfold path_exists, entry. rewrite (resolve_alike fs0 fs3) by exact Halike.
    unfold resolve. rewrite Hnes, Haps.
    rewrite (walk_lockstep fs2 fs0 ps pd symloop_max true [] _ ps Hsame Hends
               (Hroot0 ps Hps) (Hroot0 pd Hpd) Hwalks (or_introl eq_refl)).
    now rewrite (Hat ps (or_introl eq_refl)), Hgone.
  - intros q Hq Hq' Hqs Hqd. subst fs3. rewrite touch2_other by assumption.
    now apply Hsame.
Qed.

(** X19. [mv] moves a file: when the source names a file and the name of
    the destination is free, the destination names that file afterwards,
    with its content, permission bits and time, and the source names
    nothing.  The directory the file has left and the directory that has
    received it have the time of the call; every entry elsewhere is as it
    was.  The flag [overwrite] makes no difference here. *)
Theorem mv_moves_a_file (H : host) (C : config) (src dst : string)
    (overwrite : bool) (w w1 : world) (aps apd : string) (fs2 : filesystem)
    (ps pd : list string) (data : string) (perm mtime : Z) :
  Posixpath.isabs (getcwd H) = true ->
  ensure_root H C w = (Ok tt, w1) ->
  _abs H C src = Ok aps ->
  _policy H C aps = Ok tt ->
  _abs H C dst = Ok apd ->
  _policy H C apd = Ok tt ->
  makedirs (w_fs w1) (getcwd H) (dir_perm H) (now H) true (Posixpath.dirname apd)
  = (Ok tt, fs2) ->
  entry fs2 (getcwd H) false aps = inr (ps, File data perm mtime) ->
  resolve fs2 (getcwd H) false apd = Found pd ->
  node_at fs2 pd = None ->
  exists fs3 perm_s mtime_s perm_d mtime_d,
    mv H C src dst overwrite w
    = (Ok (VDict [("moved", VBool true); ("src", relative H C aps);
                  ("dst", relative H C apd)]),
       {| w_fs := fs3; w_log := w_log w1 |})
    /\ node_at fs2 (removelast ps) = Some (Dir perm_s mtime_s)
    /\ node_at fs2 (removelast pd) = Some (Dir perm_d mtime_d)
    /\ entry fs3 (getcwd H) true apd = inr (pd, File data perm mtime)
    /\ isfile fs3 (getcwd H) apd = true
    /\ path_exists fs3 (getcwd H) aps = false
    /\ node_at fs3 (removelast ps) = Some (Dir perm_s (now H))
    /\ node_at fs3 (removelast pd) = Some (Dir perm_d (now H))
    /\ (forall q, ~ ps `prefix_of` q -> ~ pd `prefix_of` q ->
          q <> removelast ps -> q <> removelast pd ->
          node_at fs3 q = node_at fs2 q).
Proof.
  intros Hcwd Hroot Habs Hpol Habd Hpold Hmk Hent Hres Hnone.
  pose proof (abs_isabs H C src aps Hcwd Habs) as Haps.
  pose proof (abs_isabs H C dst apd Hcwd Habd) as Hapd.
  destruct (move_file fs2 (getcwd H) (now H) aps apd ps pd data perm mtime
              Haps Hapd Hent Hres Hnone)
    as (Hthere & fs3 & perm_s & mtime_s & perm_d & mtime_d & Hmove & Hrest).
  exists fs3, perm_s, mtime_s, perm_d, mtime_d. split; [|exact Hrest].
  unfold mv. unfold bind at 1. rewrite Hroot.
  unfold bind at 1, pure at 1. rewrite Habs.
  unfold bind at 1, pure at 1. rewrite Hpol.
  unfold bind at 1, pure at 1. rewrite Habd.
  unfold bind at 1, pure at 1. rewrite Hpold.
  unfold bind at 1, acting at 1. rewrite Hmk.
  unfold bind at 1, reading at 1. cbn [w_fs]. rewrite Hthere.
  rewrite andb_false_r. cbn [andb].
  unfold bind at 1. unfold bind at 1, ret at 1.
  unfold acting at 1. cbn [w_fs w_log].
  now rewrite Hmove.
Qed.

Lemma mv_moves_a_file_witness :
  exists fs3,
    mv Demo.slow_host Demo.sandbox_config "proj/readme.md" "proj/docs/intro.md" false
      Demo.project_world
    = (Ok (VDict [("moved", VBool true);
                  ("src", relative Demo.slow_host Demo.sandbox_config
                            "/sandbox/proj/readme.md");
                  ("dst", relative Demo.slow_host Demo.sandbox_config
                            "/sandbox/proj/docs/intro.md")]),
       {| w_fs := fs3; w_log := [] |})
    /\ isfile fs3 "/home/user" "/sandbox/proj/docs/intro.md" = true
    /\ path_exists fs3 "/home/user" "/sandbox/proj/readme.md" = false
    /\ node_at fs3 ["sandbox"; "proj"] = Some (Dir 493 1700000000)
    /\ node_at fs3 ["sandbox"; "proj"; "docs"] = Some (Dir 493 1700000000).
Proof.
  assert (Hroot : ensure_root Demo.slow_host Demo.sandbox_config Demo.project_world
                  = (Ok tt, Demo.project_world)) by (vm_compute; reflexivity).
  assert (Habs : _abs Demo.slow_host Demo.sandbox_config "proj/readme.md"
                 = Ok "/sandbox/proj/readme.md") by (vm_compute; reflexivity).
  assert (Hpol : _policy Demo.slow_host Demo.sandbox_config "/sandbox/proj/readme.md"
                 = Ok tt) by (vm_compute; reflexivity).
  assert (Habd : _abs Demo.slow_host Demo.sandbox_config "proj/docs/intro.md"
                 = Ok "/sandbox/proj/docs/intro.md") by (vm_compute; reflexivity).
  assert (Hpold : _policy Demo.slow_host Demo.sandbox_config "/sandbox/proj/docs/intro.md"
                  = Ok tt) by (vm_compute; reflexivity).
  assert (Hmk : makedirs (w_fs Demo.project_world) (getcwd Demo.slow_host)
                  (dir_perm Demo.slow_host) (now Demo.slow_host) true
                  (Posixpath.dirname "/sandbox/proj/docs/intro.md")
                = (Ok tt, Demo.project_fs)).
  { assert (Hdir : isdir Demo.project_fs (getcwd Demo.slow_host)
                     (Normal.canon 1 ["sandbox"; "proj"; "docs"]) = true)
      by (vm_compute; reflexivity).
    exact (makedirs_existing
             (String.length (Posixpath.dirname "/sandbox/proj/docs/intro.md"))
             (getcwd Demo.slow_host) (dir_perm Demo.slow_host) (now Demo.slow_host)
             true 1 ["sandbox"; "proj"; "docs"] Demo.project_fs
             (or_introl eq_refl) eq_refl Hdir). }
  assert (Hent : entry Demo.project_fs (getcwd Demo.slow_host) false
                   "/sandbox/proj/readme.md"
                 = inr (["sandbox"; "proj"; "readme.md"], File "hello" 420 7))
    by (vm_compute; reflexivity).
  assert (Hres : resolve Demo.project_fs (getcwd Demo.slow_host) false
                   "/sandbox/proj/docs/intro.md"
                 = Found ["sandbox"; "proj"; "docs"; "intro.md"])
    by (vm_compute; reflexivity).
  assert (Hnone : node_at Demo.project_fs ["sandbox"; "proj"; "docs"; "intro.md"] = None)
    by (vm_compute; reflexivity).
  destruct (mv_moves_a_file Demo.slow_host Demo.sandbox_config "proj/readme.md"
              "proj/docs/intro.md" false Demo.project_world Demo.project_world
              "/sandbox/proj/readme.md" "/sandbox/proj/docs/intro.md" Demo.project_fs
              ["sandbox"; "proj"; "readme.md"] ["sandbox"; "proj"; "docs"; "intro.md"]
              "hello" 420 7 eq_refl Hroot Habs Hpol Habd Hpold Hmk Hent Hres Hnone)
    as (fs3 & perm_s & mtime_s & perm_d & mtime_d & Hmv & Hs & Hd & _ & Hfile
        & Hgone & Hts & Htd & _).
  assert (Hs0 : node_at Demo.project_fs ["sandbox"; "proj"] = Some (Dir 493 5))
    by (vm_compute; reflexivity).
  assert (Hd0 : node_at Demo.project_fs ["sandbox"; "proj"; "docs"] = Some (Dir 493 5))
    by (vm_compute; reflexivity).
  cbn [removelast] in Hs, Hd, Hts, Htd.
  rewrite Hs0 in Hs. injection Hs as <- <-.
  rewrite Hd0 in Hd. injection Hd as <- <-.
  exists fs3. split; [exact Hmv|]. split; [exact Hfile|].
  split; [exact Hgone|]. split; [exact Hts|exact Htd].
Defined.

(** Taking a file away leaves every walk that ends elsewhere as it
    was. *)
Lemma walk_delete_other (fs : filesystem) (pd : list string) (b : nat) (f : bool)
    (cur cs p : list string) (data : string) (perm mtime : Z) :
  pd <> [] ->
  node_at fs pd = Some (File data perm mtime) ->
  walk fs b f cur cs = Found p -> p <> pd ->
  walk (delete pd fs) b f cur cs = Found p.
Proof.
  intros Hpd Hfile.
  revert cur cs. induction b as [|b IHb]; intros cur cs; revert cur;
    (induction cs as [|c rest IH]; intros cur;
       [now rewrite !walk_nil|]);
    rewrite !walk_cons;
    destruct (String.eqb c "." || String.eqb c ""); try (now apply IH);
    destruct (String.eqb c ".."); try (now apply IH);
    rewrite (node_at_delete fs pd (cur ++ [c]) Hpd);
    (destruct (decide (pd = cur ++ [c])) as [Heq|Hne];
       [ rewrite <- Heq, Hfile;
         destruct rest; cbn [is_nil]; [intros [= <-] Hp; now destruct Hp|discriminate]
       | ]);
    destruct (node_at fs (cur ++ [c])) as [[| |tgt m]|] eqn:Hn;
    try (intros Hf _; exact Hf);
    try (now apply IH);
    destruct (is_nil rest && negb f); try (intros Hf _; exact Hf);
    try discriminate.
  apply IHb.
Qed.

(** X27. [mv] with [overwrite=True] onto a file replaces it: when source
    and destination name two different files, the destination names the
    file of the source afterwards, with its content, permission bits and
    time, and the source names nothing.  The directory the file has left
    and the directory of the destination have the time of the call; every
    entry elsewhere is as it was. *)
Theorem mv_replaces_a_file (H : host) (C : config) (src dst : string)
    (w w1 : world) (aps apd : string) (ps pd : list string)
    (data : string) (perm mtime : Z) (data' : string) (perm' mtime' : Z) :
  Posixpath.isabs (getcwd H) = true ->
  ensure_root H C w = (Ok tt, w1) ->
  _abs H C src = Ok aps ->
  _policy H C aps = Ok tt ->
  _abs H C dst = Ok apd ->
  _policy H C apd = Ok tt ->
  entry (w_fs w1) (getcwd H) false aps = inr (ps, File data perm mtime) ->
  entry (w_fs w1) (getcwd H) false apd = inr (pd, File data' perm' mtime') ->
  ps <> pd ->
  exists fs3 perm_s mtime_s perm_d mtime_d,
    mv H C src dst true w
    = (Ok (VDict [("moved", VBool true); ("src", relative H C aps);
                  ("dst", relative H C apd)]),
       {| w_fs := fs3; w_log := w_log w1 |})
    /\ node_at (w_fs w1) (removelast ps) = Some (Dir perm_s mtime_s)
    /\ node_at (w_fs w1) (removelast pd) = Some (Dir perm_d mtime_d)
    /\ entry fs3 (getcwd H) true apd = inr (pd, File data perm mtime)
    /\ isfile fs3 (getcwd H) apd = true
    /\ path_exists fs3 (getcwd H) aps = false
    /\ node_at fs3 (removelast ps) = Some (Dir perm_s (now H))
    /\ node_at fs3 (removelast pd) = Some (Dir perm_d (now H))
    /\ (forall q, ~ ps `prefix_of` q -> ~ pd `prefix_of` q ->
          q <> removelast ps -> q <> removelast pd ->
          node_at fs3 q = node_at (w_fs w1) q).
Proof.
  intros Hcwd Hroot Habs Hpol Habd Hpold Hents Hentd Hne.
  pose proof (abs_isabs H C src aps Hcwd Habs) as Haps.
  pose proof (abs_isabs H C dst apd Hcwd Habd) as Hapd.
  set (fs1 := w_fs w1) in *.
  assert (Hd : resolve fs1 (getcwd H) false apd = Found pd
               /\ node_at fs1 pd = Some (File data' perm' mtime')).
  { unfold entry in Hentd.
    destruct (resolve fs1 (getcwd H) false apd) as [p0|]; [|discriminate].
    destruct (node_at fs1 p0) as [n0|] eqn:Hn; [|discriminate].
    now injection Hentd as -> ->. }
  destruct Hd as [Hresd Hnoded].
  assert (Hs : resolve fs1 (getcwd H) false aps = Found ps
               /\ node_at fs1 ps = Some (File data perm mtime)).
  { unfold entry in Hents.
    destruct (resolve fs1 (getcwd H) false aps) as [p0|]; [|discriminate].
    destruct (node_at fs1 p0) as [n0|] eqn:Hn; [|discriminate].
    now injection Hents as -> ->. }
  destruct Hs as [Hress Hnodes].
  assert (Hpd : pd <> []) by (apply (not_dir_below fs1 pd _ Hnoded); discriminate).
  assert (Hps : ps <> []) by (apply (not_dir_below fs1 ps _ Hnodes); discriminate).
  destruct (resolved_parent_is_dir _ _ _ _ _ Haps Hress Hps) as (perm_s & mtime_s & Hpars).
  destruct (resolved_parent_is_dir _ _ _ _ _ Hapd Hresd Hpd) as (perm_d & mtime_d & Hpard).
  assert (Hfollow : entry fs1 (getcwd H) true apd = inr (pd, File data' perm' mtime')).
  { unfold entry.
    destruct (resolve_nofollow fs1 (getcwd H) apd) as [(q & tgt & m & Hq & Hl)|Heq].
    - rewrite Hresd in Hq. injection Hq as <-. congruence.
    - now rewrite Heq, Hresd, Hnoded. }
  assert (Hthere : path_exists fs1 (getcwd H) apd = true)
    by (unfold path_exists; now rewrite Hfollow).
  assert (Hnodir : isdir fs1 (getcwd H) apd = false)
    by (unfold isdir; now rewrite Hfollow).
  destruct (abs_canon H C dst apd Hcwd Habd) as (k & cs & Hk & Hcs & Hcanon).
  assert (Hmk : makedirs fs1 (getcwd H) (dir_perm H) (now H) true (Posixpath.dirname apd)
                = (Ok tt, fs1)).
  { rewrite Hcanon in *. now apply makedirs_dirname_existing. }
  (* the state after the destination has been removed *)
  set (fs1r := touch (now H) (removelast pd) (delete pd fs1)).
  pose proof (touch_alike (now H) (removelast pd) (delete pd fs1) : alike (delete pd fs1) fs1r)
    as Halike.
  assert (Hpar_ne : removelast pd <> pd) by (now apply removelast_shorter).
  assert (Hps_par : ps <> removelast pd) by (intros Heq; rewrite Heq in *; congruence).
  assert (Hents' : entry fs1r (getcwd H) false aps = inr (ps, File data perm mtime)).
  { revert Hress. unfold entry. rewrite (resolve_alike _ fs1r) by exact Halike.
    unfold resolve. destruct (Str.is_empty aps); [discriminate|]. intros Hwalk.
    rewrite (walk_delete_other fs1 pd _ _ _ _ ps data' perm' mtime' Hpd Hnoded Hwalk Hne).
    unfold fs1r. rewrite node_at_touch_other by congruence.
    rewrite node_at_delete by exact Hpd.
    destruct (decide (pd = ps)) as [Heq|_]; [now destruct Hne|].
    now rewrite Hnodes. }
  assert (Hresd' : resolve fs1r (getcwd H) false apd = Found pd).
  { rewrite (resolve_alike _ fs1r) by exact Halike.
    revert Hresd. unfold resolve.
    destruct (Str.is_empty apd); [discriminate|]. rewrite Hapd. intros Hwalk.
    apply (walk_lockstep fs1 (delete pd fs1) pd pd symloop_max false [] _ pd);
      try assumption; try (now right).
    - intros q Hq _. rewrite node_at_delete by exact Hpd.
      destruct (decide (pd = q)) as [<-|]; [now destruct Hq|reflexivity].
    - intros x [-> | ->]; (split; [exact Hpd|]); rewrite Hnoded;
        rewrite node_at_delete by exact Hpd;
        destruct (decide (pd = pd)); repeat split; congruence.
    - intros Hpre. apply prefix_nil_inv in Hpre. contradiction.
    - intros Hpre. apply prefix_nil_inv in Hpre. contradiction. }
  assert (Hnone' : node_at fs1r pd = None).
  { unfold fs1r. rewrite node_at_touch_other by exact Hpar_ne.
    rewrite node_at_delete by exact Hpd. now destruct (decide (pd = pd)). }
  assert (Hback : forall q, q <> pd -> q <> removelast pd ->
                            node_at fs1r q = node_at fs1 q).
  { intros q Hq Hq'. unfold fs1r. rewrite node_at_touch_other by congruence.
    rewrite node_at_delete by exact Hpd. now rewrite decide_False by congruence. }
  assert (Hpard' : node_at fs1r (removelast pd) = Some (Dir perm_d (now H))).
  { unfold fs1r. apply (touch_dir _ _ _ perm_d mtime_d).
    rewrite node_at_delete by exact Hpd. now rewrite decide_False by congruence. }
  destruct (move_file fs1r (getcwd H) (now H) aps apd ps pd data perm mtime
              Haps Hapd Hents' Hresd' Hnone')
    as (_ & fs3 & perm_s' & mtime_s' & perm_d' & mtime_d' & Hmove & Hs' & Hd'
        & Hdst & Hfile & Hgone & Hts & Htd & Hrest).
  rewrite Hpard' in Hd'. injection Hd' as <- <-.
  assert (Hperm_s : perm_s' = perm_s).
  { destruct (decide (removelast ps = removelast pd)) as [Heq|Hdiff].
    - rewrite Heq in Hs', Hpars. rewrite Hpard' in Hs'. congruence.
    - rewrite Hback in Hs'; [congruence| |exact Hdiff].
      intros Heq. rewrite Heq in Hpars. congruence. }
  subst perm_s'.
  exists fs3, perm_s, mtime_s, perm_d, mtime_d.
  split; [|split; [exact Hpars|split; [exact Hpard|split; [exact Hdst|
           split; [exact Hfile|split; [exact Hgone|split; [exact Hts|
           split; [exact Htd|]]]]]]]].
  - unfold mv. unfold bind at 1. rewrite Hroot.
    unfold bind at 1, pure at 1. rewrite Habs.
    unfold bind at 1, pure at 1. rewrite Hpol.
    unfold bind at 1, pure at 1. rewrite Habd.
    unfold bind at 1, pure at 1. rewrite Hpold.
    unfold bind at 1, acting at 1. fold fs1. rewrite Hmk.
    unfold bind at 1, reading at 1. cbn [w_fs]. rewrite Hthere. cbn [negb andb].
    unfold bind at 1. unfold bind at 1, reading at 1. cbn [w_fs].
    rewrite Hnodir. cbn [andb].
    unfold acting at 1. cbn [w_fs w_log]. unfold remove. rewrite Hentd.
    unfold acting at 1. unfold bind at 1. cbn [w_fs w_log]. fold fs1r.
    now rewrite Hmove.
  - intros q Hq Hq' Hqs Hqd. rewrite (Hrest q Hq Hq' Hqs Hqd). apply Hback; [|exact Hqd].
    intros ->. now apply Hq'.
Qed.

Lemma mv_replaces_a_file_witness :
  exists fs3,
    mv Demo.slow_host Demo.sandbox_config "proj/readme.md" "proj/docs/a.txt" true
      Demo.project_world
    = (Ok (VDict [("moved", VBool true);
                  ("src", relative Demo.slow_host Demo.sandbox_config
                            "/sandbox/proj/readme.md");
                  ("dst", relative Demo.slow_host Demo.sandbox_config
                            "/sandbox/proj/docs/a.txt")]),
       {| w_fs := fs3; w_log := [] |})
    /\ entry fs3 "/home/user" true "/sandbox/proj/docs/a.txt"
       = inr (["sandbox"; "proj"; "docs"; "a.txt"], File "hello" 420 7)
    /\ path_exists fs3 "/home/user" "/sandbox/proj/readme.md" = false
    /\ node_at fs3 ["sandbox"; "proj"; "docs"] = Some (Dir 493 1700000000).
Proof.
  assert (Hroot : ensure_root Demo.slow_host Demo.sandbox_config Demo.project_world
                  = (Ok tt, Demo.project_world)) by (vm_compute; reflexivity).
  assert (Habs : _abs Demo.slow_host Demo.sandbox_config "proj/readme.md"
                 = Ok "/sandbox/proj/readme.md") by (vm_compute; reflexivity).
  assert (Hpol : _policy Demo.slow_host Demo.sandbox_config "/sandbox/proj/readme.md"
                 = Ok tt) by (vm_compute; reflexivity).
  assert (Habd : _abs Demo.slow_host Demo.sandbox_config "proj/docs/a.txt"
                 = Ok "/sandbox/proj/docs/a.txt") by (vm_compute; reflexivity).
  assert (Hpold : _policy Demo.slow_host Demo.sandbox_config "/sandbox/proj/docs/a.txt"
                  = Ok tt) by (vm_compute; reflexivity).
  assert (Hents : entry (w_fs Demo.project_world) (getcwd Demo.slow_host) false
                    "/sandbox/proj/readme.md"
                  = inr (["sandbox"; "proj"; "readme.md"], File "hello" 420 7))
    by (vm_compute; reflexivity).
  assert (Hentd : entry (w_fs Demo.project_world) (getcwd Demo.slow_host) false
                    "/sandbox/proj/docs/a.txt"
                  = inr (["sandbox"; "proj"; "docs"; "a.txt"], File "a" 420 7))
    by (vm_compute; reflexivity).
  destruct (mv_replaces_a_file Demo.slow_host Demo.sandbox_config "proj/readme.md"
              "proj/docs/a.txt" Demo.project_world Demo.project_world
              "/sandbox/proj/readme.md" "/sandbox/proj/docs/a.txt"
              ["sandbox"; "proj"; "readme.md"] ["sandbox"; "proj"; "docs"; "a.txt"]
              "hello" 420 7 "a" 420 7 eq_refl Hroot Habs Hpol Habd Hpold Hents Hentd
              ltac:(discriminate))
    as (fs3 & perm_s & mtime_s & perm_d & mtime_d & Hmv & _ & Hd & Hdst & _
        & Hgone & _ & Htd & _).
  assert (Hd0 : node_at Demo.project_fs ["sandbox"; "proj"; "docs"] = Some (Dir 493 5))
    by (vm_compute; reflexivity).
  cbn [removelast] in Hd, Htd. cbn [w_fs Demo.project_world] in Hd.
  rewrite Hd0 in Hd. injection Hd as <- <-.
  exists fs3. split; [exact Hmv|]. split; [exact Hdst|].
  split; [exact Hgone|exact Htd].
Defined.

End Moving.

(* ===================================================================== *)
(** ** Without the directory to put it in *)
(* ===================================================================== *)

Section MissingParent.
Import Os Server Notions.

(** No path leads through what is not a directory. *)
Lemma resolve_without_parent (fs : filesystem) (cwd : string) (f : bool)
    (k : nat) (cs : list string) :
  (k = 1%nat \/ k = 2%nat) -> forallb Normal.clean cs = true ->
  isdir fs cwd (Posixpath.dirname (Normal.canon k cs)) = false ->
  exists e, resolve fs cwd f (Normal.canon k cs) = Failed e.
Proof.
  intros Hk Hcs. rewrite dirname_canon by assumption.
  destruct (snoc_cases cs) as [-> | (cs' & c & ->)].
  - cbn [removelast]. now rewrite isdir_canon_nil.
  - rewrite List.removelast_last. intros Hno.
    rewrite forallb_app in Hcs. apply andb_true_iff in Hcs as [Hcs' Hc].
    cbn [forallb] in Hc. rewrite andb_true_r in Hc.
    destruct (resolve fs cwd f (Normal.canon k (cs' ++ [c]))) as [p|e] eqn:Hres;
      [|now exists e].
    rewrite (parent_is_dir fs cwd f k cs' c p Hk Hcs' Hc Hres) in Hno. discriminate.
Qed.

(** X20. With [create_dirs=False], [write_text] into a directory that is
    not there raises the error of opening the file (a missing directory,
    or a file in the way) and creates nothing. *)
Theorem write_text_needs_the_directory (H : host) (C : config)
    (path content : string) (overwrite : bool) (encoding : string)
    (w w1 : world) (ap : string) :
  Posixpath.isabs (getcwd H) = true ->
  ensure_root H C w = (Ok tt, w1) ->
  _abs H C path = Ok ap ->
  _policy H C ap = Ok tt ->
  isdir (w_fs w1) (getcwd H) (Posixpath.dirname ap) = false ->
  exists e,
    write_text H C path content false overwrite encoding w
    = (Raise (os_error e ap), w1).
Proof.
  intros Hcwd Hroot Habs Hpol Hno.
  destruct (abs_canon H C path ap Hcwd Habs) as (k & cs & Hk & Hcs & Hap).
  rewrite Hap in Hno.
  destruct (resolve_without_parent (w_fs w1) (getcwd H) true k cs Hk Hcs Hno)
    as [e Hres].
  rewrite <- Hap in Hres. exists e.
  rewrite write_text_steps, Hroot, Habs, Hpol.
  unfold path_exists, entry, write_file. rewrite Hres. cbn [andb].
  now destruct w1.
Qed.

Lemma write_text_needs_the_directory_witness :
  exists e,
    write_text Demo.slow_host Demo.sandbox_config "proj/new/a.txt" "text" false true
      "utf-8" Demo.project_world
    = (Raise (os_error e "/sandbox/proj/new/a.txt"), Demo.project_world).
Proof.
  assert (Hroot : ensure_root Demo.slow_host Demo.sandbox_config Demo.project_world
                  = (Ok tt, Demo.project_world)) by (vm_compute; reflexivity).
  assert (Habs : _abs Demo.slow_host Demo.sandbox_config "proj/new/a.txt"
                 = Ok "/sandbox/proj/new/a.txt") by (vm_compute; reflexivity).
  assert (Hpol : _policy Demo.slow_host Demo.sandbox_config "/sandbox/proj/new/a.txt"
                 = Ok tt) by (vm_compute; reflexivity).
  assert (Hno : isdir (w_fs Demo.project_world) (getcwd Demo.slow_host)
                  (Posixpath.dirname "/sandbox/proj/new/a.txt") = false)
    by (vm_compute; reflexivity).
  exact (write_text_needs_the_directory Demo.slow_host Demo.sandbox_config
           "proj/new/a.txt" "text" true "utf-8" Demo.project_world Demo.project_world
           "/sandbox/proj/new/a.txt" eq_refl Hroot Habs Hpol Hno).
Defined.

(** X21. With [parents=False], the tool [mkdir] below a directory that is
    not there raises the error of [os.mkdir] and creates nothing. *)
Theorem mkdir_needs_the_parent (H : host) (C : config) (path : string)
    (exist_ok : bool) (w w1 : world) (ap : string) :
  Posixpath.isabs (getcwd H) = true ->
  ensure_root H C w = (Ok tt, w1) ->
  _abs H C path = Ok ap ->
  _policy H C ap = Ok tt ->
  isdir (w_fs w1) (getcwd H) (Posixpath.dirname ap) = false ->
  exists e,
    Server.mkdir H C path false exist_ok w = (Raise (os_error e ap), w1).
Proof.
  intros Hcwd Hroot Habs Hpol Hno.
  destruct (abs_canon H C path ap Hcwd Habs) as (k & cs & Hk & Hcs & Hap).
  rewrite Hap in Hno.
  destruct (resolve_without_parent (w_fs w1) (getcwd H) false k cs Hk Hcs Hno)
    as [e Hres].
  rewrite <- Hap in Hres. exists e.
  rewrite mkdir_steps, Hroot, Habs, Hpol.
  unfold Os.mkdir. rewrite Hres. now destruct w1.
Qed.

Lemma mkdir_needs_the_parent_witness :
  exists e,
    Server.mkdir Demo.slow_host Demo.sandbox_config "proj/new/deep" false true
      Demo.project_world
    = (Raise (os_error e "/sandbox/proj/new/deep"), Demo.project_world).
Proof.
  assert (Hroot : ensure_root Demo.slow_host Demo.sandbox_config Demo.project_world
                  = (Ok tt, Demo.project_world)) by (vm_compute; reflexivity).
  assert (Habs : _abs Demo.slow_host Demo.sandbox_config "proj/new/deep"
                 = Ok "/sandbox/proj/new/deep") by (vm_compute; reflexivity).
  assert (Hpol : _policy Demo.slow_host Demo.sandbox_config "/sandbox/proj/new/deep"
                 = Ok tt) by (vm_compute; reflexivity).
  assert (Hno : isdir (w_fs Demo.project_world) (getcwd Demo.slow_host)
                  (Posixpath.dirname "/sandbox/proj/new/deep") = false)
    by (vm_compute; reflexivity).
  exact (mkdir_needs_the_parent Demo.slow_host Demo.sandbox_config
           "proj/new/deep" true Demo.project_world Demo.project_world
           "/sandbox/proj/new/deep" eq_refl Hroot Habs Hpol Hno).
Defined.

End MissingParent.

(* ===================================================================== *)
(** ** What the file tools leave alone *)
(* ===================================================================== *)

Section Invariants.
Import Os Server Registry Notions.

Lemma still_ret {A} (a : A) : still (ret a).
Proof. intros w r w'. now intros [= _ <-]. Qed.

Lemma still_raise {A} (e : exn) : still (@raise A e).
Proof. intros w r w'. now intros [= _ <-]. Qed.

Lemma still_pure {A} (o : outcome A) : still (pure o).
Proof. intros w r w'. now intros [= _ <-]. Qed.

Lemma still_reading {A} (f : filesystem -> A) : still (reading f).
Proof. intros w r w'. now intros [= _ <-]. Qed.

Lemma still_look {A} (f : world -> outcome A) : still (fun w => (f w, w)).
Proof. intros w r w'. now intros [= _ <-]. Qed.

Lemma still_bind {A B} (m : M A) (k : A -> M B) :
  still m -> (forall a, still (k a)) -> still (bind m k).
Proof.
  intros Hm Hk w r w'. unfold bind.
  destruct (m w) as [[a|e] w1] eqn:Hmw; apply Hm in Hmw as ->.
  - apply Hk.
  - now intros [= _ <-].
Qed.

Lemma quiet_of_still {A} (m : M A) : still m -> quiet m.
Proof. intros Hm w r w' Hr. now rewrite (Hm w r w' Hr). Qed.

Lemma quiet_acting {A} (f : filesystem -> outcome A * filesystem) : quiet (acting f).
Proof.
  intros w r w'. unfold acting. destruct (f (w_fs w)) as [r0 fs'].
  now intros [= _ <-].
Qed.

Lemma quiet_bind {A B} (m : M A) (k : A -> M B) :
  quiet m -> (forall a, quiet (k a)) -> quiet (bind m k).
Proof.
  intros Hm Hk w r w'. unfold bind.
  destruct (m w) as [[a|e] w1] eqn:Hmw; apply Hm in Hmw.
  - intros Hka. apply Hk in Hka. congruence.
  - intros [= _ <-]. exact Hmw.
Qed.

Ltac still_tac :=
  repeat first
    [ apply still_ret | apply still_raise | apply still_pure | apply still_reading
    | apply still_look
    | apply still_bind; [|intros ?]
    | match goal with
      | |- still (if ?b then _ else _) => destruct b
      end ].

Ltac quiet_tac :=
  repeat first
    [ apply quiet_acting
    | apply quiet_of_still; still_tac; fail
    | apply quiet_bind; [|intros ?]
    | match goal with
      | |- quiet (if ?b then _ else _) => destruct b
      end ].

(** X22. No tool but [run] starts or kills a process: whatever a file tool
    does and however it ends, the process log is as it was. *)
Theorem file_tools_start_no_process (H : host) (C : config) (c : call)
    (w w' : world) (r : outcome pyval) :
  (forall cmd args cwd timeout_sec, c <> Run cmd args cwd timeout_sec) ->
  perform H C c w = (r, w') ->
  w_log w' = w_log w.
Proof.
  intros Hc. revert w r w'. change (quiet (perform H C c)).
  destruct c; cbn [perform];
    try (now destruct (Hc cmd args cwd timeout_sec));
    [ unfold list_dir | unfold read_text | unfold write_text | unfold Server.mkdir
    | unfold mv | unfold rm | unfold stat ];
    unfold ensure_root; quiet_tac.
Qed.

Lemma file_tools_start_no_process_witness :
  w_log (snd (perform Demo.slow_host Demo.sandbox_config
                (Mv "proj/readme.md" "proj/docs/intro.md" false) Demo.project_world))
  = [].
Proof.
  apply (file_tools_start_no_process Demo.slow_host Demo.sandbox_config
           (Mv "proj/readme.md" "proj/docs/intro.md" false) Demo.project_world _
           (fst (perform Demo.slow_host Demo.sandbox_config
                   (Mv "proj/readme.md" "proj/docs/intro.md" false) Demo.project_world))).
  - discriminate.
  - apply surjective_pairing.
Defined.

(** X23. [list_dir], [read_text] and [stat] only look: however they end,
    the world is as [ensure_root] left it, and it is unchanged when
    [ensure_root] changes nothing. *)
Theorem reading_tools_change_nothing (H : host) (C : config) (c : call)
    (w w' : world) (r : outcome pyval) :
  match c with
  | ListDir _ _ _ | ReadText _ _ | Stat _ => True
  | _ => False
  end ->
  perform H C c w = (r, w') ->
  w' = snd (ensure_root H C w)
  /\ (ensure_root H C w = (Ok tt, w) -> w' = w).
Proof.
  intros Hc Hrun.
  assert (Hw : w' = snd (ensure_root H C w)).
  { revert Hrun.
    destruct c; try contradiction; cbn [perform];
      [unfold list_dir|unfold read_text|unfold stat];
      unfold bind at 1;
      (destruct (ensure_root H C w) as [[[]|e] w1]; cbn [snd];
         [|now intros [= _ <-]]);
      match goal with
      | |- ?m w1 = _ -> _ => assert (Hs : still m) by still_tac
      end;
      intros Hm; exact (Hs w1 r w' Hm). }
  split; [exact Hw|]. intros Hroot. now rewrite Hw, Hroot.
Qed.

Lemma reading_tools_change_nothing_witness :
  snd (perform Demo.slow_host Demo.sandbox_config (Stat "proj/lnk") Demo.project_world)
  = snd (ensure_root Demo.slow_host Demo.sandbox_config Demo.project_world).
Proof.
  exact (proj1 (reading_tools_change_nothing Demo.slow_host Demo.sandbox_config
                  (Stat "proj/lnk") Demo.project_world _ _ I
                  (surjective_pairing _))).
Defined.

End Invariants.

(* ===================================================================== *)
(** ** Overwriting, and the size of what was written *)
(* ===================================================================== *)

Section Overwriting.
Import Os Server Notions.

(** X24. [write_text] with [overwrite=True] on a path that leads to a file
    replaces the content of that file by what the text writer of the codec
    makes of the new content, keeps its permission bits and sets its time;
    every other entry stays as it is.  The file is the one the path leads
    to once links are followed, wherever that is.  The [bytes] reported is
    the length of [content.encode(encoding)], worked out after the
    writing: where that fails, the call raises with the file written. *)
Theorem write_text_replaces_content (H : host) (C : config)
    (path content : string) (create_dirs : bool) (encoding : string)
    (w w1 : world) (ap : string) (p : list string)
    (old : string) (perm mtime : Z) (c : codec) (bytes : string) :
  Posixpath.isabs (getcwd H) = true ->
  ensure_root H C w = (Ok tt, w1) ->
  _abs H C path = Ok ap ->
  _policy H C ap = Ok tt ->
  resolve (w_fs w1) (getcwd H) true ap = Found p ->
  node_at (w_fs w1) p = Some (File old perm mtime) ->
  codec_of H encoding = Some c ->
  written c content = Some bytes ->
  write_text H C path content create_dirs true encoding w
  = (match encode c content with
     | Some whole =>
         Ok (VDict [("written", VBool true); ("path", relative H C ap);
                    ("bytes", VInt (Z.of_nat (String.length whole)))])
     | None => Raise (UnicodeError "codec can't encode characters")
     end,
     {| w_fs := <[p := File bytes perm (now H)]> (w_fs w1); w_log := w_log w1 |}).
Proof.
  intros Hcwd Hroot Habs Hpol Hres Hnode Hc Henc.
  assert (Hex : path_exists (w_fs w1) (getcwd H) ap = true)
    by (unfold path_exists, entry; now rewrite Hres, Hnode).
  destruct (abs_canon H C path ap Hcwd Habs) as (k & cs & Hk & Hcs & Hap).
  assert (Hmk : (if create_dirs
                 then makedirs (w_fs w1) (getcwd H) (dir_perm H) (now H) true
                        (Posixpath.dirname ap)
                 else (Ok tt, w_fs w1)) = (Ok tt, w_fs w1)).
  { destruct create_dirs; [|reflexivity]. rewrite Hap in *.
    now apply makedirs_dirname_existing. }
  rewrite write_text_steps, Hroot, Habs, Hpol, Hmk, Hex. cbn [negb andb].
  unfold write_file, encoded_length. rewrite Hres, Hnode, Hc, Henc.
  rewrite insert_insert_eq. now destruct (encode c content).
Qed.

Lemma write_text_replaces_content_witness :
  write_text Demo.slow_host Demo.sandbox_config "proj/notes" "mallory" false true
    "utf-8" Examples.leaky_world
  = (Ok (VDict [("written", VBool true);
                ("path", relative Demo.slow_host Demo.sandbox_config "/sandbox/proj/notes");
                ("bytes", VInt (Z.of_nat (String.length "mallory")))]),
     {| w_fs := <[ ["etc"; "passwd"] := File "mallory" 420 1700000000 ]>
                  (w_fs Examples.leaky_world);
        w_log := [] |}).
Proof.
  assert (Hroot : ensure_root Demo.slow_host Demo.sandbox_config Examples.leaky_world
                  = (Ok tt, Examples.leaky_world)) by (vm_compute; reflexivity).
  assert (Habs : _abs Demo.slow_host Demo.sandbox_config "proj/notes"
                 = Ok "/sandbox/proj/notes") by (vm_compute; reflexivity).
  assert (Hpol : _policy Demo.slow_host Demo.sandbox_config "/sandbox/proj/notes" = Ok tt)
    by (vm_compute; reflexivity).
  assert (Hres : resolve (w_fs Examples.leaky_world) (getcwd Demo.slow_host) true
                   "/sandbox/proj/notes" = Found ["etc"; "passwd"])
    by (vm_compute; reflexivity).
  assert (Hnode : node_at (w_fs Examples.leaky_world) ["etc"; "passwd"]
                  = Some (File "root:x:0:0" 420 1)) by (vm_compute; reflexivity).
  exact (write_text_replaces_content Demo.slow_host Demo.sandbox_config "proj/notes"
           "mallory" false "utf-8" Examples.leaky_world Examples.leaky_world
           "/sandbox/proj/notes" ["etc"; "passwd"] "root:x:0:0" 420 1 Demo.plain "mallory"
           eq_refl Hroot Habs Hpol Hres Hnode eq_refl eq_refl).
Defined.

(** X25. After [write_text] has returned, [stat] of the same path tells
    what was written, unless the path itself is a symbolic link (then
    [stat] describes the link): no directory, the time of the writing, and
    as size the length of what the text writer of the codec has put in the
    file.  The [bytes] that [write_text] reported is the length of
    [content.encode(encoding)]: the two numbers are the same where the
    writer puts out what [encode] gives, and need not be otherwise. *)
Theorem write_then_stat (H : host) (C : config) (path content : string)
    (create_dirs overwrite : bool) (encoding : string) (w w2 : world) (r : pyval) :
  Posixpath.isabs (getcwd H) = true ->
  SandboxRoot H C = ROOT_DIR C ->
  write_text H C path content create_dirs overwrite encoding w = (Ok r, w2) ->
  exists ap c whole stored mode,
    _abs H C path = Ok ap
    /\ codec_of H encoding = Some c
    /\ encode c content = Some whole
    /\ written c content = Some stored
    /\ r = VDict [("written", VBool true); ("path", relative H C ap);
                  ("bytes", VInt (Z.of_nat (String.length whole)))]
    /\ (islink (w_fs w2) (getcwd H) ap = false ->
        stat H C path w2
        = (Ok (VDict [("path", relative H C ap);
                      ("is_dir", VBool false);
                      ("size", VInt (Z.of_nat (String.length stored)));
                      ("mode", VStr mode);
                      ("mtime", VInt (now H))]), w2)).
Proof.
  intros Hcwd Hroot. rewrite write_text_steps.
  destruct (ensure_root H C w) as [[[]|e] w1] eqn:Hr; [|discriminate].
  destruct (_abs H C path) as [ap|e] eqn:Habs; [|discriminate].
  destruct (_policy H C ap) as [[]|e] eqn:Hpol; [|discriminate].
  pose proof (ensure_root_ok_isdir H C w w1 Hcwd Hroot Hr) as Hdir1.
  destruct (if create_dirs then _ else _) as [[[]|e] fs2] eqn:Hmk; [|discriminate].
  assert (Hg2 : grows (w_fs w1) fs2).
  { destruct create_dirs.
    - unfold makedirs in Hmk. now apply makedirs_go_grows in Hmk.
    - injection Hmk as <-. apply grows_refl. }
  destruct (_ && _); [discriminate|].
  destruct (write_file _ _ _ _ _ _ _ _) as [[[]|e] fs3] eqn:Hwr; [|discriminate].
  apply write_file_ok in Hwr
    as (p & c & bytes & pm & Hres & Hc & Henc & Hnode & Hp & Hg3 & _).
  unfold encoded_length. rewrite Hc.
  destruct (encode c content) as [whole|] eqn:Hwhole; [|discriminate].
  intros [= <- <-].
  exists ap, c, whole, bytes, (Repr.oct (Z.land pm 511)).
  repeat (split; [reflexivity || assumption|]). cbn [w_fs].
  intros Hlink.
  assert (Hres3 : resolve fs3 (getcwd H) true ap = Found p)
    by exact (resolve_grows fs2 fs3 _ _ _ _ Hg3 Hres).
  assert (Hent : entry fs3 (getcwd H) false ap = inr (p, File bytes pm (now H))).
  { unfold entry.
    destruct (resolve_nofollow fs3 (getcwd H) ap) as [(q & tgt & m & Hq & Hl)|Heq].
    - unfold islink, entry in Hlink. rewrite Hq, Hl in Hlink. discriminate.
    - now rewrite <- Heq, Hres3, Hnode. }
  assert (Hroot3 : ensure_root H C {| w_fs := fs3; w_log := w_log w1 |}
                   = (Ok tt, {| w_fs := fs3; w_log := w_log w1 |})).
  { apply ensure_root_existing; [exact Hcwd|exact Hroot|].
    cbn [w_fs]. apply (isdir_grows fs2); [exact Hg3|].
    now apply (isdir_grows (w_fs w1)). }
  pose proof (isdir_of_entry fs3 (getcwd H) ap) as Hnd. rewrite Hent in Hnd.
  rewrite stat_steps, Hroot3, Habs, Hpol. unfold lstat. cbn [w_fs].
  rewrite Hent, Hnd. cbn [stat_of st_mode st_size st_mtime].
  now rewrite permission_bits by reflexivity.
Qed.

Lemma write_then_stat_witness :
  exists w2 mode,
    write_text Examples.holding_host Demo.sandbox_config "proj/notes/today.txt"
      "abc" true true "held" Demo.project_world
    = (Ok (VDict [("written", VBool true);
                  ("path", VStr "proj/notes/today.txt");
                  ("bytes", VInt 3)]), w2)
    /\ stat Examples.holding_host Demo.sandbox_config "proj/notes/today.txt" w2
       = (Ok (VDict [("path", relative Examples.holding_host Demo.sandbox_config
                               "/sandbox/proj/notes/today.txt");
                     ("is_dir", VBool false);
                     ("size", VInt 0);
                     ("mode", VStr mode);
                     ("mtime", VInt 1700000000)]), w2).
Proof.
  assert (Hrun : write_text Examples.holding_host Demo.sandbox_config
                   "proj/notes/today.txt" "abc" true true "held" Demo.project_world
                 = (Ok (VDict [("written", VBool true);
                               ("path", VStr "proj/notes/today.txt");
                               ("bytes", VInt 3)]),
                    snd (write_text Examples.holding_host Demo.sandbox_config
                           "proj/notes/today.txt" "abc" true true "held"
                           Demo.project_world)))
    by (vm_compute; reflexivity).
  assert (Hroot : SandboxRoot Examples.holding_host Demo.sandbox_config
                  = ROOT_DIR Demo.sandbox_config) by (vm_compute; reflexivity).
  destruct (write_then_stat Examples.holding_host Demo.sandbox_config
              "proj/notes/today.txt" "abc" true true "held" Demo.project_world _ _
              eq_refl Hroot Hrun)
    as (ap & c & whole & stored & mode & Habs & Hc & Hwhole & Hstored & Hr & Hstat).
  assert (Hap : ap = "/sandbox/proj/notes/today.txt").
  { assert (Hv : _abs Examples.holding_host Demo.sandbox_config "proj/notes/today.txt"
                 = Ok "/sandbox/proj/notes/today.txt") by (vm_compute; reflexivity).
    rewrite Hv in Habs. now injection Habs. }
  assert (Hcodec : c = Examples.holding) by (now injection Hc).
  subst ap c. injection Hstored as <-.
  eexists. exists mode. split; [exact Hrun|]. apply Hstat. vm_compute. reflexivity.
Defined.

End Overwriting.

(* ===================================================================== *)
(** ** What is made is listed *)
(* ===================================================================== *)

Section MadeAndListed.
Import Os Server Notions.

Lemma children_in (fs : filesystem) (p : list string) (name : string) (n : node) :
  fs !! (p ++ [name]) = Some n -> List.In name (children fs p).
Proof.
  intros Hn. unfold children. rewrite <- list_elem_of_In, list_elem_of_omap.
  exists (p ++ [name], n). split; [now apply elem_of_map_to_list|].
  cbn [fst]. rewrite List.rev_app_distr. cbn [List.rev List.app].
  now rewrite List.rev_involutive, bool_decide_eq_true_2.
Qed.

Lemma insert_sorted_in (x y : string) (l : list string) :
  y = x \/ List.In y l -> List.In y (insert_sorted x l).
Proof.
  induction l as [|z l IH]; simpl; [intros [->|[]]; now left|].
  destruct (String.leb x z); simpl.
  - intros [->|[->|Hy]]; [now left|right; now left|right; now right].
  - intros [->|[->|Hy]]; [right; apply IH; now left|now left|right; apply IH; now right].
Qed.

Lemma sorted_in (y : string) (l : list string) :
  List.In y l -> List.In y (sorted l).
Proof.
  induction l as [|x l IH]; [trivial|]. simpl.
  intros [->|Hy]; apply insert_sorted_in; [now left|right; now apply IH].
Qed.

Lemma join_canon (k : nat) (cs : list string) (c : string) :
  (k = 1%nat \/ k = 2%nat) ->
  forallb Normal.clean cs = true -> Normal.clean c = true ->
  Posixpath.join (Normal.canon k cs) [c] = Normal.canon k (cs ++ [c]).
Proof.
  intros Hk Hcs Hc. cbn [Posixpath.join fold_left]. unfold Posixpath.join2.
  rewrite (clean_not_abs c Hc). destruct cs as [|d cs].
  - destruct Hk as [-> | ->]; reflexivity.
  - rewrite canon_no_trailing_sep by (assumption || discriminate).
    assert (Hne : Str.is_empty (Normal.canon k (d :: cs)) = false)
      by (unfold Normal.canon; destruct Hk as [-> | ->]; reflexivity).
    rewrite Hne. cbn [orb]. now rewrite (canon_snoc k (d :: cs) c Hk).
Qed.

(** An entry that exists, passes the policy check and is visible is in
    the listing of its directory. *)
Lemma existing_entry_is_listed (H : host) (C : config)
    (parent glob_pattern : string) (include_hidden : bool) (w w1 : world)
    (k : nat) (cs : list string) (name : string) :
  Posixpath.isabs (getcwd H) = true ->
  ensure_root H C w = (Ok tt, w1) ->
  well_named (w_fs w1) = true ->
  (k = 1%nat \/ k = 2%nat) ->
  forallb Normal.clean cs = true -> Normal.clean name = true ->
  _abs H C parent = Ok (Normal.canon k cs) ->
  path_exists (w_fs w1) (getcwd H) (Normal.canon k (cs ++ [name])) = true ->
  _policy H C (Normal.canon k (cs ++ [name])) = Ok tt ->
  visible include_hidden glob_pattern name = true ->
  exists entries,
    list_dir H C parent glob_pattern include_hidden w
    = (Ok (VDict [("path", relative H C (Normal.canon k cs));
                  ("entries", VList entries)]), w1)
    /\ List.In (Some (VStr name)) (map (fun d => field d "name") entries).
Proof.
  intros Hcwd Hroot Hwf Hk Hcs Hname Habs Hex Hpol Hvis.
  assert (Hall : forallb Normal.clean (cs ++ [name]) = true)
    by (rewrite forallb_app, Hcs; cbn [forallb]; now rewrite Hname).
  unfold path_exists, entry in Hex. rewrite resolve_canon in Hex by assumption.
  destruct (walk (w_fs w1) symloop_max true [] (cs ++ [name])) as [q|] eqn:Hwalk;
    [|discriminate].
  destruct (node_at (w_fs w1) q) as [nq|] eqn:Hq; [|discriminate]. clear Hex.
  destruct (walk_prefix (w_fs w1) symloop_max true [] cs [name] q ltac:(discriminate)
              (grounded_nil (w_fs w1)) Hwalk)
    as (p0 & perm & mtime & Hp0 & Hn0).
  pose proof (walk_snoc _ _ _ _ _ name perm mtime Hname Hp0 Hn0) as Hlast.
  assert (Hnode : exists n, w_fs w1 !! (p0 ++ [name]) = Some n).
  { rewrite <- node_at_snoc.
    destruct (walk_nofollow (w_fs w1) symloop_max [] (cs ++ [name]))
      as [(q' & tgt & m & Hq' & Hl)|Heq].
    - rewrite Hlast in Hq'. injection Hq' as <-. eauto.
    - rewrite Hwalk, Hlast in Heq. injection Heq as ->. eauto. }
  destruct Hnode as [n Hnode].
  assert (Hdir : isdir (w_fs w1) (getcwd H) (Normal.canon k cs) = true).
  { unfold isdir, entry. rewrite resolve_canon by assumption. now rewrite Hp0, Hn0. }
  destruct (list_dir_returns H C parent glob_pattern include_hidden w w1
              (Normal.canon k cs) Hcwd Hroot Hwf Habs Hdir)
    as (names & entries & Hlist & _ & Hrun & Hentries).
  assert (Hnames : names = children (w_fs w1) p0).
  { unfold listdir, entry in Hlist. rewrite resolve_canon in Hlist by assumption.
    rewrite Hp0, Hn0 in Hlist. now injection Hlist. }
  exists entries. split; [exact Hrun|].
  rewrite (entries_names _ _ _ _ _ _ Hentries).
  apply (List.in_map (fun n => Some (VStr n))).
  apply List.filter_In. split.
  - apply sorted_in. rewrite Hnames. now apply (children_in _ _ _ n).
  - rewrite Hvis. unfold permitted.
    now rewrite (join_canon k cs name Hk Hcs Hname), Hpol.
Qed.

(** What a successful [mkdir] went through. *)
Lemma mkdir_ok_inv (H : host) (C : config) (path : string)
    (parents exist_ok : bool) (w w2 : world) (r : pyval) :
  Posixpath.isabs (getcwd H) = true ->
  Server.mkdir H C path parents exist_ok w = (Ok r, w2) ->
  exists w1 ap,
    ensure_root H C w = (Ok tt, w1)
    /\ _abs H C path = Ok ap
    /\ _policy H C ap = Ok tt
    /\ isdir (w_fs w2) (getcwd H) ap = true
    /\ grows (w_fs w1) (w_fs w2)
    /\ w_log w2 = w_log w1.
Proof.
  intros Hcwd. rewrite mkdir_steps.
  destruct (ensure_root H C w) as [[[]|e] w1] eqn:Hroot; [|discriminate].
  destruct (_abs H C path) as [ap|e] eqn:Habs; [|discriminate].
  destruct (_policy H C ap) as [[]|e] eqn:Hpol; [|discriminate].
  destruct (abs_canon H C path ap Hcwd Habs) as (k & cs & Hk & Hcs & Hap).
  destruct (if parents then _ else _) as [[[]|e] fs2] eqn:Hmk; [|discriminate].
  intros [= <- <-]. exists w1, ap. cbn [w_fs w_log].
  split; [reflexivity|]. split; [reflexivity|]. split; [exact Hpol|].
  destruct parents.
  - unfold makedirs in Hmk. split; [|split; [|reflexivity]].
    + rewrite Hap in *. now apply makedirs_canon_ok in Hmk.
    + now apply makedirs_go_grows in Hmk.
  - split; [now apply mkdir_ok_isdir in Hmk|].
    split; [now apply mkdir_result_grows in Hmk|reflexivity].
Qed.

(** X26. A directory the tool [mkdir] has made is in the listing of the
    directory it lies in: [list_dir] of that directory returns an entry
    with its name, provided the name is visible (it matches the pattern
    and is not hidden, or hidden names are asked for). *)
Theorem made_directory_is_listed (H : host) (C : config)
    (path parent glob_pattern : string) (parents exist_ok include_hidden : bool)
    (w w2 : world) (r : pyval) (ap : string) :
  Posixpath.isabs (getcwd H) = true ->
  SandboxRoot H C = ROOT_DIR C ->
  Server.mkdir H C path parents exist_ok w = (Ok r, w2) ->
  well_named (w_fs w2) = true ->
  _abs H C path = Ok ap ->
  _abs H C parent = Ok (Posixpath.dirname ap) ->
  Posixpath.basename ap <> "" ->
  visible include_hidden glob_pattern (Posixpath.basename ap) = true ->
  exists entries,
    list_dir H C parent glob_pattern include_hidden w2
    = (Ok (VDict [("path", relative H C (Posixpath.dirname ap));
                  ("entries", VList entries)]), w2)
    /\ List.In (Some (VStr (Posixpath.basename ap)))
         (map (fun d => field d "name") entries).
Proof.
  intros Hcwd Hnormal Hrun Hwf Habs Hparent Hbase Hvis.
  destruct (mkdir_ok_inv H C path parents exist_ok w w2 r Hcwd Hrun)
    as (w1 & ap' & Hroot & Habs' & Hpol & Hdir & Hg & _).
  rewrite Habs in Habs'. injection Habs' as <-.
  assert (Hroot2 : ensure_root H C w2 = (Ok tt, w2)).
  { apply ensure_root_existing; [exact Hcwd|exact Hnormal|].
    apply (isdir_grows (w_fs w1)); [exact Hg|].
    now apply (ensure_root_ok_isdir H C w w1). }
  destruct (abs_canon H C path ap Hcwd Habs) as (k & cs & Hk & Hcs & Hap).
  destruct (snoc_cases cs) as [-> | (cs' & name & ->)].
  { exfalso. apply Hbase. rewrite Hap. destruct Hk as [-> | ->]; reflexivity. }
  rewrite forallb_app in Hcs. apply andb_true_iff in Hcs as [Hcs' Hname].
  cbn [forallb] in Hname. rewrite andb_true_r in Hname.
  assert (Hsplit : Posixpath.dirname ap = Normal.canon k cs'
                   /\ Posixpath.basename ap = name).
  { rewrite Hap.
    change (Posixpath.basename (Normal.canon k (cs' ++ [name])))
      with (snd (Posixpath.split (Normal.canon k (cs' ++ [name])))).
    unfold Posixpath.dirname. now rewrite split_canon_snoc. }
  destruct Hsplit as [Hd Hb]. rewrite Hd, Hb in *.
  apply (existing_entry_is_listed H C parent glob_pattern include_hidden w2 w2 k cs' name);
    try assumption.
  - rewrite <- Hap. unfold path_exists. unfold isdir in Hdir.
    destruct (entry (w_fs w2) (getcwd H) true ap); [discriminate|reflexivity].
  - now rewrite <- Hap.
Qed.

Lemma made_directory_is_listed_witness :
  exists w2 entries,
    list_dir Demo.slow_host Demo.sandbox_config "proj/new" "*" false w2
    = (Ok (VDict [("path", relative Demo.slow_host Demo.sandbox_config
                             (Posixpath.dirname "/sandbox/proj/new/deep"));
                  ("entries", VList entries)]), w2)
    /\ List.In (Some (VStr (Posixpath.basename "/sandbox/proj/new/deep")))
         (map (fun d => field d "name") entries).
Proof.
  assert (Hrun : Server.mkdir Demo.slow_host Demo.sandbox_config "proj/new/deep" true true
                   Demo.project_world
                 = (Ok (VDict [("created", VBool true); ("path", VStr "proj/new/deep")]),
                    snd (Server.mkdir Demo.slow_host Demo.sandbox_config "proj/new/deep"
                           true true Demo.project_world)))
    by (vm_compute; reflexivity).
  assert (Hnormal : SandboxRoot Demo.slow_host Demo.sandbox_config
                    = ROOT_DIR Demo.sandbox_config) by (vm_compute; reflexivity).
  assert (Hwf : well_named
                  (w_fs (snd (Server.mkdir Demo.slow_host Demo.sandbox_config
                                "proj/new/deep" true true Demo.project_world))) = true)
    by (vm_compute; reflexivity).
  assert (Habs : _abs Demo.slow_host Demo.sandbox_config "proj/new/deep"
                 = Ok "/sandbox/proj/new/deep") by (vm_compute; reflexivity).
  assert (Hparent : _abs Demo.slow_host Demo.sandbox_config "proj/new"
                    = Ok (Posixpath.dirname "/sandbox/proj/new/deep"))
    by (vm_compute; reflexivity).
  assert (Hbase : Posixpath.basename "/sandbox/proj/new/deep" <> "")
    by (vm_compute; discriminate).
  assert (Hvis : visible false "*" (Posixpath.basename "/sandbox/proj/new/deep") = true)
    by (vm_compute; reflexivity).
  destruct (made_directory_is_listed Demo.slow_host Demo.sandbox_config
              "proj/new/deep" "proj/new" "*" true true false Demo.project_world _ _
              "/sandbox/proj/new/deep" eq_refl Hnormal Hrun Hwf Habs Hparent Hbase Hvis)
    as (entries & Hlist & Hin).
  eexists. exists entries. split; [exact Hlist|exact Hin].
Defined.

End MadeAndListed.
